(* ===== verification/_CoqProject ===== *)
-Q . S2P
Prelude.v
JsModel.v
TimeModel.v
TimeOrder.v
Remote.v
Transport.v
Walker.v
Store.v
World.v
Reconciler.v
Enricher.v
Sync.v
Analytics.v
Squads.v
Pipeline.v
Queries.v
Display.v
Main.v
