(* ===== verification/Prelude.v ===== *)
(** * gitlab-mr-stats: a verification development

    The program mirrors the merge requests of a GitLab project into a local
    SQLite file and computes review-latency statistics over the mirror.  Its
    sources are [src/src/index.ts] (lines 1-426: the command-line tool; lines
    427-700: the module it imports as [./database]), the maintenance script
    [src/update_squads.sql], the statements kept beside the program to
    be run by hand on the file ([src/unnamed/part_001] and [part_002]), and
    the README ([src/unnamed/part_000]).

    ** Parts of the program and the files that model them

    - [Prelude] (this file): the effect monad [prog] in which every
      asynchronous function of the program is written (state, exceptions with
      [try_catch], and fuel for the [while] loops), its notations (scope
      [prog_scope]), the tactics and the hint databases of the development,
      the two predicates on programs the components share ([halts]: the
      program returns or throws from every state; [preserves P]: the state
      it ends in satisfies [P] when the state it starts in does), and the
      list lemmas.
    - [JsModel]: the fragments of JavaScript the program relies on: numbers
      with [NaN], the [||] default, and [Array.prototype.sort] with a
      comparator (a stable sort), with the theorem that the head of the sorted
      array is the first minimum.
    - [TimeModel]: timestamps.  The program keeps every timestamp as the ISO
      string GitLab sent; [new Date(s).getTime()] and SQLite's
      [strftime('%s', s)] are an interface (class [Clock]) with one instance
      for GitLab's format, and SQLite's text comparison is [text_le].
    - [TimeOrder]: no code of its own: the printer of the timestamps the
      instance reads, the round trip between the two, the theorem that the
      order of two timestamp texts is the order of their instants, and
      SQLite's [datetime] (the civil time of an instant, by the inverse of
      the day count of [TimeModel]).
    - [Remote]: the GitLab API as the program sees it through [ky]: the records
      of a merge request, a note and an approval event, a response with its
      pagination headers, the remote as a record of oracles (an answer or a
      failure; the request sent with [timeout: false] can also stay
      [Pending]), the log of what the program does to the outside (the
      requests it issues and the lines it writes to the console, in order),
      [console_log], and [getGroupId] and [listRepositories].  Two remotes
      are equivalent when
      they answer alike, and every function that takes a remote respects
      the equivalence ([Proper] instances, up to [main]).
    - [Transport]: what is under the oracles.  The request each call of
      [api.get] puts on the wire ([GITLAB_API_URL], the path with the ids,
      the search parameters, and the options of [api]: the header
      [PRIVATE-TOKEN], [timeout: 30000], [retry: 2], with [timeout: false]
      for a page of merge requests); [ky_get], the attempts [ky] makes of a
      request; a [Server], which says what each attempt gets; [served], the
      remote the program sees of a server.  For the theorems the other
      side is modelled too: [route] reads a request of the program back
      from the wire, [hosted] is a server that checks the token and answers
      as a given remote, [outage] puts a failing network before a server.
    - [Store]: the module [./database]: [MergeRequestData], the database file
      (tables, optional columns, rows keyed by primary key), the wrapper
      class [Database] (its constructor and its methods [run], [get], [all],
      [exec] and [close], each the promise [callback]), [initDatabase],
      [saveProject], [saveMergeRequest], [getMergeRequest], with the lines
      the module writes to the console.
    - [World]: the state of the handler and of [main], the database and
      the log together, with [on_net] and [on_db], which run a function of
      one of the two in it.
    - [Walker]: [fetchMergeRequests] and the note loop of
      [fetchMergeRequestDetails]: the two pagination loops, with the lines
      they write.
    - [Reconciler]: the decision of [processAndStoreMergeRequests] for one
      merge request (skip, update or insert) as a tagged result.
    - [Enricher]: the derivation of [first_comment_at] and [approved_at].
    - [Sync]: [processAndStoreMergeRequests], the whole handler, over the
      world.
    - [Analytics]: [getMergeRequestStats] and [countMrsWithLateFirstComment]:
      each SELECT as its WHERE clause, a grouping by [squad] in one pass over
      the rows, and the aggregates of each group; the result is a finite map
      from the squad to its row.  The threshold is a JavaScript number
      ([real]: [NaN] or a fraction).  Section [Contract] states what the two
      functions promise without reference to the evaluation.
    - [Squads]: the script [src/update_squads.sql], two UPDATE statements
      that assign the squad from the author.
    - [Pipeline]: no code of its own: the theorems about a run of the
      handler followed by the script and the queries.
    - [Queries]: the statements run by hand: [src/unnamed/part_001],
      the three statements of [src/unnamed/part_002] and the SELECT that
      ends [src/update_squads.sql], on SQL values ([sql_value]) with
      SQLite's conversions and operator precedence; GROUP BY is [group_by],
      ORDER BY is [order_by].
    - [Display]: [formatTime], [isValidDate] and [displayMergeRequestStats],
      which returns the lines of the report; [main] writes them to the
      console.
    - [Main]: the environment ([dotenv_config], [read_env]), the check of
      the token (lines 14-23) and [main] (lines 326-426): [initDatabase],
      the search of the group, the list of its repositories, the two list
      prompts, and then the run of [processAndStoreMergeRequests] or the
      prompts of the filters and the report.  [program] is the module
      against a remote; [tool] is the module against a server, with [api]
      carrying the token of the environment.

    The files are listed in [_CoqProject] in the order of their
    dependencies: [Prelude], [JsModel], [TimeModel], [TimeOrder], [Remote],
    [Transport], [Walker], [Store], [World], [Reconciler], [Enricher], [Sync],
    [Analytics], [Squads], [Pipeline], [Queries], [Display], [Main].

    ** How state and effects correspond to the code

    An [async] function of the source is a [prog S E A]: a function from a
    state [S] to an [outcome], which is a returned value with the new state
    ([Ret]), a thrown exception with the state at the throw ([Throw]: what was
    written before the throw stays written), or [OutOfFuel].  A [try]/[catch]
    is [try_catch].  What the program does to the outside is one list of
    events, oldest first: a request issued ([Requested], one entry per call
    of [api.get]) or a line written to the console ([Logged], for
    [console.log] and [console.error] alike).  [requests_of] and
    [console_of] are its two readings, so that "this function made no
    request" and "the last line says so" are statements about the state;
    [traffic] of [Transport] gives the attempts on the wire that stand
    behind the requests of a log.  A server is a
    function of the request on the wire and of the number of the attempt:
    it has no state of its own, so a request repeated later gets the same
    replies;
    the database state is the file and the module variable [db], with the
    lines the functions of the module have written ([logged]).  [on_net]
    runs a walk inside the world ([World]); [on_db] runs a function of the
    module there and copies the lines it wrote to the log of the world, so
    that the log of the world is the console of the whole program, in the
    order of the writes.

    A statement sent to SQLite fails for one of two reasons.  The schema
    lacks what the statement names (the handle is not set, a table or a
    column is missing): that is decided by the state of the file.  Or the
    driver fails it for a reason of its own (the file is locked, the disk is
    full): the field [faults] of the file lists what the driver does to the
    coming statements, one entry per statement, [Some msg] for a failure;
    past the end of the list no statement is failed.  A connection that
    was closed fails every statement.  [ready] asks for the whole schema,
    an empty list and an open connection, so the theorems stated on a ready
    store are about runs no failure disturbs, and the theorems on failures
    name the list.

    The person at the keyboard is the record [User] of [Main]: the entries
    picked in the lists, the answer to the confirmation, and for each text
    prompt the texts typed at the successive attempts.  A prompt returns the
    first attempt its [validate] accepts; when there is none the prompt never
    resolves, which is [OutOfFuel].

    ** Bounds and fuel

    Integers are unbounded ([Z]): identifiers and page numbers are JavaScript
    numbers far below 2^53, and no arithmetic of the program can overflow
    before the heap is exhausted; in a line of the console a number is
    printed in decimal ([pretty]), as JavaScript prints an integer below
    10^21.  The two [while] loops take a fuel argument;
    a loop that runs out of fuel is [OutOfFuel], never a value, and the
    termination theorems give the fuel that suffices ([fuel] larger than the
    index of the first page at which the loop's own exit test succeeds).
    Delays in minutes and their averages are exact rationals ([Qc]); the
    rounding of IEEE doubles in SQLite's [AVG] and in [formatTime] is not
    modelled, nor are infinities.  An interruption of a run is a stop
    between two iterations of its loop: an iteration writes to the file
    once, as its last step, and SQLite commits a statement or nothing of it,
    so these are the files a process that is killed can leave.  The examples run the loops with a fuel
    of a few units (3 for a run over three merge requests with one page of
    notes each, 4 and 5 for the walks over 250 items, 1000 for the remote
    that never ends and for the page that never arrives); the general
    theorems are stated for every fuel above the number of pages.  The
    attempts of a request need no fuel: [ky_attempts] recurses on the
    retries left, 2 for every request of the program, so a request takes
    between one and three attempts.  [answers_within r fuel] says that both loops end
    within the fuel against the remote [r] whatever was requested before;
    [answers_within_serves] gives it for a remote that serves lists short
    enough, and the theorem that the program ends takes it as a hypothesis.
    The theorems on the order of timestamps are for years of four digits
    (0000 to 9999), the range of SQLite's date functions ([sql_range] for an
    instant, [civil_wf] for a date and a time of day); beyond it the texts
    have another length and the order of the texts is not the order of the
    instants.

    ** What each group of theorems shows

    - Walker: termination with enough fuel, completeness and order of the
      result, the fallback on full pages, the empty result on any failure,
      the walk that waits for ever for a page that stays pending, and that
      the last line a walk writes tells the number of merge requests
      fetched or that the walk failed.
    - Reconciler: the four outcomes, each characterised by the stored and the
      remote record; only [updated_at] and [state] are compared.
    - JsModel: the head of the sorted array is the first element of least
      key, and every stable sort returns the array of [js_sort] when the
      comparator orders by a key.
    - Enricher: system notes are excluded; the derived timestamp is the
      earliest one; the sort-based code agrees with a one-pass minimum; on
      dates the sorted array is the same for every stable sort.
    - Store: insert/lookup round trips, replace-on-conflict, the schema
      invariant established by [initDatabase] and preserved by every
      operation, and that no operation fails under it; well-formedness of
      the file under every sequence of calls, whatever the driver fails;
      what [initDatabase] leaves behind when the driver fails its
      [CREATE TABLE] or one of its [ALTER TABLE], and what it writes then;
      that no exported function closes the connection, and what a closed
      connection answers.
    - Sync: what a run leaves in the file (for each merge request of the
      list the row it had when it is skipped, and otherwise the record
      derived from what the remote holds) and which requests it issues;
      skipped merge requests issue no
      request and leave the store alone; a second run against an unchanged
      remote changes nothing; a run that was stopped inside its loop
      ([stopped_after]) and is started again ends with the tables of a run
      that was not stopped; what an
      update does to the [squad] column; what a read or a save that the
      driver fails does to the run; that the run ends when the remote
      answers in time; what the three counters of the summary count, and
      that the last lines of the console carry them; that a walk that fails
      differs from a project without merge requests by one line of the
      console; that a merge request saved while its notes failed to arrive
      is skipped by every later run.
    - Remote: which group [getGroupId] finds; the programs built from
      [api_get] are [oblivious]: what they return does not depend on the
      requests made before.
    - Transport: what the program writes for a number is read back as that
      number, and every request of the program is read back from the wire
      as itself, so no two requests look alike; through
      [ky] the program sees of a hosted server exactly the remote it holds
      when its token is accepted, and failures only when it is not; two
      retries cover two failures of the network and no more; a request
      takes one to three attempts.
    - Analytics: both queries implement their contract (which rows count for
      a squad and what is reported of them); closed and unclassified merge
      requests are excluded; a missing timestamp is left out of its average;
      the threshold is strict, and a threshold that is [NaN] counts nothing;
      the date bounds are compared as texts, which
      for a day as bound and timestamps as rows is the comparison of the
      instants with the midnight that begins the day, so that the range is
      half open and an end date excludes its own day.
    - TimeOrder: printing and reading a timestamp are inverse; the order of
      the texts is the order of the instants, between timestamps of the same
      format and between a day and a timestamp; [datetime] is monotone.
    - Queries: the late hours of GMT+7 are a window of UTC; the late merge
      requests come latest first; the duration column is a number, not the
      text its comment announces; the literal of [part_001] is read as a
      midnight, and its rows come in the order of their instants; the
      distribution has one row for each hour and squad that
      has a merge request, in order, and its counts add up; after the script
      its last statement shows the CMS authors with CMS only and no author
      but [ikhsan.hari] without a squad.
    - Squads: what the script assigns, and that it is idempotent and keeps
      the file well formed.
    - Pipeline: a run classifies nothing, so the statistics are empty until
      the script has run; an updated merge request leaves the statistics, and
      after a re-run of the script it has the script's default squad.
    - Display: [formatTime] on every number of minutes that is not
      negative (the days, hours and minutes of its whole part), and that the
      report logs [undefined] and N/A whatever the table holds.
    - Main: [main] is [initDatabase], two requests and the action picked on
      the repository picked; a session that fetches leaves the schema, the
      project and the mirror of its merge requests; the filters that reach
      the report are validated, and validated dates are days that the
      queries read as a half-open range of instants; the program ends when
      the remote answers in time and the person answers every prompt
      acceptably; the exits with code 1, and the one that is never taken;
      a session that asks for the statistics ends the console with the
      report; over the wire, a refused token and an outage beyond the
      retries write the same two lines (the search failed, the group was
      not found), an outage within the retries does not show, and a page of
      merge requests that gets no reply blocks the tool; a variable
      exported empty hides the token of [.env].

    ** Not modelled

    Of [ky]: the delays between the attempts of a request, the
    [Retry-After] header, the encoding of the search parameters into the
    query string, redirections, and the kind of the error thrown (every
    failure of a request is the exception [HTTPError], which no [catch] of
    the program inspects).  Of [dotenv]: the reading of the text of [.env]
    (the file is the list of its variables).  Of the console: what Node
    prints of the error object passed to [console.error] after the text
    (the line is the text alone), and the two streams (standard output and
    standard error are one sequence here, as on a terminal).  The handler
    returns nothing in the source and writes its three counters; here it
    returns them as well, and [run_reports] ties the two.  The rendering of
    the prompts by [inquirer], the
    asynchronous opening of the file by the driver (a file that cannot be
    opened shows as a failure of the first statement), a failure between
    the two [CREATE TABLE] of the one [exec] (both tables exist or
    neither), the order SQLite gives to rows whose
    ORDER BY keys are equal (the model sorts them in some order, and no
    theorem depends on which), and the README ([src/unnamed/part_000])
    but for the [.env] file it shows ([readme_dotenv] of [Main]): the rest
    is prose on how to create a token and how to start the tool. *)

From stdpp Require Export prelude strings gmap.
From Stdlib Require Export ZArith Lia.

#[global] Open Scope Z_scope.

(** ** The effect monad *)

Section Outcome.
Context {S E : Type}.

Inductive outcome (A : Type) : Type :=
| Ret (a : A) (s : S)
| Throw (e : E) (s : S)
| OutOfFuel.

End Outcome.

Arguments outcome : clear implicits.
Arguments Ret {S E A} a s.
Arguments Throw {S E A} e s.
Arguments OutOfFuel {S E A}.

Definition prog (S E A : Type) : Type := S -> outcome S E A.

Section Prog.
Context {S E : Type}.

Definition ret {A} (a : A) : prog S E A := fun s => Ret a s.

Definition throw {A} (e : E) : prog S E A := fun s => Throw e s.

Definition diverge {A} : prog S E A := fun _ => OutOfFuel.

Definition bind {A B} (c : prog S E A) (k : A -> prog S E B) : prog S E B :=
  fun s =>
    match c s with
    | Ret a s' => k a s'
    | Throw e s' => Throw e s'
    | OutOfFuel => OutOfFuel
    end.

Definition try_catch {A} (c : prog S E A) (h : E -> prog S E A) : prog S E A :=
  fun s =>
    match c s with
    | Ret a s' => Ret a s'
    | Throw e s' => h e s'
    | OutOfFuel => OutOfFuel
    end.

Definition gets {A} (f : S -> A) : prog S E A := fun s => Ret (f s) s.

Definition modify (f : S -> S) : prog S E unit := fun s => Ret tt (f s).

(** The state an outcome ends in, when it ends. *)
Definition final_state {A} (o : outcome S E A) : option S :=
  match o with
  | Ret _ s | Throw _ s => Some s
  | OutOfFuel => None
  end.

Definition returned {A} (o : outcome S E A) : option A :=
  match o with
  | Ret a _ => Some a
  | _ => None
  end.

Definition terminates {A} (o : outcome S E A) : bool :=
  match o with
  | OutOfFuel => false
  | _ => true
  end.

End Prog.

(** Running a program of a component inside a larger state. *)
Definition zoom {S T E A} (get : T -> S) (set : S -> T -> T)
    (c : prog S E A) : prog T E A :=
  fun t =>
    match c (get t) with
    | Ret a s => Ret a (set s t)
    | Throw e s => Throw e (set s t)
    | OutOfFuel => OutOfFuel
    end.

Declare Scope prog_scope.
Delimit Scope prog_scope with prog.
Bind Scope prog_scope with prog.

Notation "x <- c ;; k" := (bind c (fun x => k))
  (at level 100, c at next level, right associativity) : prog_scope.
Notation "c ;; k" := (bind c (fun _ => k))
  (at level 100, right associativity) : prog_scope.

#[global] Open Scope prog_scope.

(** ** The development's tactics *)

(** Case analysis on the scrutinee of the first [match] of the goal. *)
Ltac destruct_match :=
  match goal with
  | |- context [match ?x with _ => _ end] => destruct x eqn:?
  end.

(** Case analysis on the outcome of the program run at the head of a [bind]. *)
Ltac run_step c :=
  let o := fresh "o" in
  let Ho := fresh "Ho" in
  destruct c as [? ?|? ?|] eqn:Ho.

Ltac invert H := inversion H; subst; clear H.

(** [lia] with the quotient and remainder facts of every division of
    naturals that occurs in the goal or in a hypothesis. *)
Ltac pose_div_fact n d :=
  lazymatch goal with
  | _ : n = (d * (n / d) + n mod d)%nat |- _ => fail
  | _ => pose proof (Nat.div_mod_eq n d);
         pose proof (Nat.mod_upper_bound n d ltac:(lia))
  end.

Ltac pose_div_facts :=
  repeat match goal with
    | |- context [(?n / ?d)%nat] => pose_div_fact n d
    | _ : context [(?n / ?d)%nat] |- _ => pose_div_fact n d
    end.

Ltac lia_div := pose_div_facts; lia.

Create HintDb sync discriminated.
Create Rewrite HintDb prog.

(** ** Laws of the monad

    Programs are compared pointwise: [c1 ≡ c2] when they send every state to
    the same outcome. *)

Section Laws.
Context {S E : Type}.

#[export] Instance prog_equiv {A} : Equiv (prog S E A) :=
  fun c1 c2 => forall s, c1 s = c2 s.

#[export] Instance prog_equivalence {A} : Equivalence (≡@{prog S E A}).
Proof.
  split.
  - by intros c s.
  - by intros c1 c2 H s.
  - intros c1 c2 c3 H1 H2 s. by rewrite H1.
Qed.

#[export] Instance bind_proper {A B} :
  Proper ((≡) ==> pointwise_relation A (≡) ==> (≡)) (@bind S E A B).
Proof.
  intros c1 c2 Hc k1 k2 Hk s. unfold bind. rewrite Hc.
  destruct (c2 s); [apply Hk | done..].
Qed.

#[export] Instance try_catch_proper {A} :
  Proper ((≡) ==> pointwise_relation E (≡) ==> (≡)) (@try_catch S E A).
Proof.
  intros c1 c2 Hc h1 h2 Hh s. unfold try_catch. rewrite Hc.
  destruct (c2 s); [done | apply Hh | done].
Qed.

Lemma bind_ret_l {A B} (a : A) (k : A -> prog S E B) : bind (ret a) k ≡ k a.
Proof. by intros s. Qed.

Lemma bind_ret_r {A} (c : prog S E A) : bind c ret ≡ c.
Proof. intros s. unfold bind. by destruct (c s). Qed.

Lemma bind_assoc {A B C} (c : prog S E A) (k : A -> prog S E B)
    (k' : B -> prog S E C) :
  bind (bind c k) k' ≡ bind c (fun a => bind (k a) k').
Proof. intros s. unfold bind. by destruct (c s). Qed.

Lemma bind_throw {A B} (e : E) (k : A -> prog S E B) : bind (throw e) k ≡ throw e.
Proof. by intros s. Qed.

Lemma try_catch_ret {A} (a : A) (h : E -> prog S E A) :
  try_catch (ret a) h ≡ ret a.
Proof. by intros s. Qed.

Lemma try_catch_throw {A} (e : E) (h : E -> prog S E A) :
  try_catch (throw e) h ≡ h e.
Proof. by intros s. Qed.

(** Inversion of a [bind] that returned. *)
Lemma bind_Ret_inv {A B} (c : prog S E A) (k : A -> prog S E B) s b s2 :
  bind c k s = Ret b s2 ->
  exists a s1, c s = Ret a s1 /\ k a s1 = Ret b s2.
Proof. unfold bind. destruct (c s) as [a s1| |]; [eauto | done..]. Qed.

(** A handler that never throws makes the whole [try] never throw. *)
Lemma try_catch_no_throw {A} (c : prog S E A) (h : E -> prog S E A) s :
  (forall e s', forall e' s'', h e s' <> Throw e' s'') ->
  forall e' s'', try_catch c h s <> Throw e' s''.
Proof.
  intros Hh e' s''. unfold try_catch. destruct (c s); [done | apply Hh | done].
Qed.

End Laws.

#[export] Hint Rewrite @bind_ret_l @bind_throw @try_catch_ret @try_catch_throw : prog.

(** ** Shared list lemmas *)

Section Lists.
Context {A : Type}.

Lemma filter_app_bool (f : A -> bool) (l1 l2 : list A) :
  List.filter f (l1 ++ l2) = List.filter f l1 ++ List.filter f l2.
Proof. apply List.filter_app. Qed.

Lemma Forall_filter_bool (P : A -> Prop) (f : A -> bool) (l : list A) :
  Forall P l -> Forall P (List.filter f l).
Proof.
  induction 1 as [|x l Hx _ IH]; simpl; [constructor|].
  destruct (f x); [by constructor | done].
Qed.

Lemma filter_bool_In (f : A -> bool) (x : A) (l : list A) :
  x ∈ List.filter f l <-> x ∈ l /\ f x = true.
Proof. rewrite !list_elem_of_In. apply List.filter_In. Qed.

Lemma length_filter_bool_le (f : A -> bool) (l : list A) :
  (length (List.filter f l) <= length l)%nat.
Proof. apply List.filter_length_le. Qed.

(** Dropping the [None]s of a mapped list. *)
Lemma omap_id_fmap {B} (f : A -> option B) (l : list A) : omap id (f <$> l) = omap f l.
Proof. induction l as [|x l IH]; [done|]. csimpl. rewrite IH. by destruct (f x). Qed.

(** A filter that no element passes. *)
Lemma filter_none (P : A -> Prop) `{!forall x, Decision (P x)} (l : list A) :
  (forall x, x ∈ l -> ~ P x) -> filter P l = [].
Proof.
  intros HP. induction l as [|x l IH]; [done|].
  rewrite filter_cons_False by (apply HP; left). apply IH. intros y Hy. apply HP. by right.
Qed.

(** A filter by a stronger predicate keeps fewer elements. *)
Lemma length_filter_impl (P Q : A -> Prop) `{!forall x, Decision (P x)}
    `{!forall x, Decision (Q x)} (l : list A) :
  (forall x, P x -> Q x) -> (length (filter P l) <= length (filter Q l))%nat.
Proof.
  intros HPQ. rewrite <- (list_filter_filter_l P Q) by done. apply length_filter.
Qed.

End Lists.

(** ** Programs that always end

    A program [halts] when no state sends it to [OutOfFuel]: it returns
    or throws.  The combinators preserve it; the lemmas are in the hint
    database [halts]. *)

Create HintDb halts discriminated.

Section Halts.
Context {S E : Type}.

Definition halts {A} (c : prog S E A) : Prop := forall s, terminates (c s) = true.

Lemma halts_ret {A} (a : A) : halts (ret a : prog S E A).
Proof. by intros s. Qed.

Lemma halts_throw {A} (e : E) : halts (throw e : prog S E A).
Proof. by intros s. Qed.

Lemma halts_gets {A} (f : S -> A) : halts (gets f : prog S E A).
Proof. by intros s. Qed.

Lemma halts_modify (f : S -> S) : halts (modify f : prog S E unit).
Proof. by intros s. Qed.

Lemma halts_bind {A B} (c : prog S E A) (k : A -> prog S E B) :
  halts c -> (forall a, halts (k a)) -> halts (bind c k).
Proof.
  intros Hc Hk s. unfold bind. specialize (Hc s).
  destruct (c s); [apply Hk | done | done].
Qed.

Lemma halts_try_catch {A} (c : prog S E A) (h : E -> prog S E A) :
  halts c -> (forall e, halts (h e)) -> halts (try_catch c h).
Proof.
  intros Hc Hh s. unfold try_catch. specialize (Hc s).
  destruct (c s); [done | apply Hh | done].
Qed.

Lemma halts_if {A} (b : bool) (c1 c2 : prog S E A) :
  halts c1 -> halts c2 -> halts (if b then c1 else c2).
Proof. by destruct b. Qed.

(** A sequence ends when its first part ends and the rest ends after what
    the first part returned. *)
Lemma terminates_bind {A B} (c : prog S E A) (k : A -> prog S E B) s :
  terminates (c s) = true ->
  (forall a s', c s = Ret a s' -> terminates (k a s') = true) ->
  terminates (bind c k s) = true.
Proof. intros Hc Hk. unfold bind. destruct (c s); [by apply Hk | done | done]. Qed.

(** An outcome that is not [OutOfFuel] has a final state. *)
Lemma terminates_final_state {A} (o : outcome S E A) :
  terminates o = true <-> is_Some (final_state o).
Proof. destruct o; simpl; split; try done; by intros []. Qed.

End Halts.

(** A program run inside a larger state returns what it returns on its
    own, and changes its part only. *)
Lemma zoom_Ret_inv {S T E A} (get : T -> S) (set : S -> T -> T) (c : prog S E A) t a t' :
  zoom get set c t = Ret a t' -> exists s', c (get t) = Ret a s' /\ t' = set s' t.
Proof. unfold zoom. destruct (c (get t)) as [a0 s0| |]; [|done..]. intros [= <- <-]. eauto. Qed.

#[export] Instance zoom_proper {S T E A} (get : T -> S) (set : S -> T -> T) :
  Proper ((≡) ==> (≡)) (@zoom S T E A get set).
Proof. intros c1 c2 Hc t. unfold zoom. by rewrite Hc. Qed.

(** Two programs built alike from equivalent parts are equivalent; the
    parts are found in the hint database [prog_proper]. *)
Create HintDb prog_proper discriminated.

Ltac solve_prog_proper :=
  repeat first
    [ reflexivity
    | solve [eauto with prog_proper]
    | match goal with |- pointwise_relation _ _ _ _ => intros ?; cbv beta end
    | match goal with
      | |- (if ?b then _ else _) ≡ _ => destruct b
      | |- (match ?x with _ => _ end) ≡ _ => destruct x
      end
    | apply zoom_proper
    | apply bind_proper
    | apply try_catch_proper ].

Lemma halts_zoom {S T E A} (get : T -> S) (set : S -> T -> T) (c : prog S E A) :
  halts c -> halts (zoom get set c).
Proof. intros Hc t. unfold zoom. specialize (Hc (get t)). by destruct (c (get t)). Qed.

#[export] Hint Resolve halts_ret halts_throw halts_gets halts_modify halts_bind
  halts_try_catch halts_if halts_zoom : halts.

(** ** Invariants of programs

    [preserves P c]: the state in which [c] ends satisfies [P] when the
    state in which it starts does, whether [c] returns or throws.  The
    lemmas are in the hint database [preserves]. *)

Create HintDb preserves discriminated.

Section Preserves.
Context {S E : Type} (P : S -> Prop).

Definition preserves {A} (c : prog S E A) : Prop :=
  forall s s', P s -> final_state (c s) = Some s' -> P s'.

Lemma preserves_ret {A} (a : A) : preserves (ret a : prog S E A).
Proof. by intros s s' HP [= <-]. Qed.

Lemma preserves_throw {A} (e : E) : preserves (throw e : prog S E A).
Proof. by intros s s' HP [= <-]. Qed.

Lemma preserves_gets {A} (f : S -> A) : preserves (gets f : prog S E A).
Proof. by intros s s' HP [= <-]. Qed.

Lemma preserves_modify (f : S -> S) :
  (forall s, P s -> P (f s)) -> preserves (modify f : prog S E unit).
Proof. intros Hf s s' HP [= <-]. by apply Hf. Qed.

Lemma preserves_bind {A B} (c : prog S E A) (k : A -> prog S E B) :
  preserves c -> (forall a, preserves (k a)) -> preserves (bind c k).
Proof.
  intros Hc Hk s s' HP. unfold bind. specialize (Hc s).
  destruct (c s) as [a s1|e s1|]; simpl; [|intros [= <-]; by apply Hc|done].
  apply Hk. by apply Hc.
Qed.

Lemma preserves_try_catch {A} (c : prog S E A) (h : E -> prog S E A) :
  preserves c -> (forall e, preserves (h e)) -> preserves (try_catch c h).
Proof.
  intros Hc Hh s s' HP. unfold try_catch. specialize (Hc s).
  destruct (c s) as [a s1|e s1|]; simpl; [intros [= <-]; by apply Hc| |done].
  apply Hh. by apply Hc.
Qed.

Lemma preserves_if {A} (b : bool) (c1 c2 : prog S E A) :
  preserves c1 -> preserves c2 -> preserves (if b then c1 else c2).
Proof. by destruct b. Qed.

End Preserves.

#[export] Hint Resolve preserves_ret preserves_throw preserves_gets preserves_bind
  preserves_try_catch preserves_if : preserves.

(** One step into a program built with the combinators: the goal becomes
    the same statement of its parts. *)
Ltac preserves_step :=
  lazymatch goal with
  | |- preserves _ (bind _ _) => apply preserves_bind; [|intro]
  | |- preserves _ (try_catch _ _) => apply preserves_try_catch; [|intro]
  | |- preserves _ (modify _) => apply preserves_modify
  | |- preserves _ (if _ then _ else _) => apply preserves_if
  | |- preserves _ (ret _) => apply preserves_ret
  | |- preserves _ (throw _) => apply preserves_throw
  | |- preserves _ (gets _) => apply preserves_gets
  end.
