(* ===== verification/JsModel.v ===== *)
(** * JsModel: the fragments of JavaScript the program relies on

    Numbers with [NaN] (the result of [Number(...)] on a header and of
    [Date.prototype.getTime]), the [||] default on numbers, the comparisons
    the pagination tests use, the exceptions with their [message], and
    [Array.prototype.sort] with a comparator.

    [Array.prototype.sort] is stable (ECMAScript 2019) and reads a comparator
    result [v] as "a after b" exactly when [v > 0], a [NaN] result being read
    as [+0].  It is modelled by a stable insertion sort, [js_sort]; for a
    comparator that orders by an integer key every stable sort returns the
    same array ([stable_sort_unique]).  The program reads the first element
    only: [head_js_sort] gives it in one pass, [first_min_by_lower_bound]
    and [first_min_by_first] say that it is the first element of least key,
    and [first_min_scan_correct] that a scan from the left finds the same. *)

From S2P Require Import Prelude.
From Stdlib Require Import Sorting.Permutation Sorting.Sorted.

(** ** Numbers *)

Inductive number : Type :=
| NaN
| Num (z : Z).

#[export] Instance number_eq_dec : EqDecision number.
Proof. solve_decision. Defined.

(** [a || b] on numbers: [b] when [a] is falsy, i.e. [NaN] or [0]. *)
Definition number_or (a b : number) : number :=
  match a with
  | NaN => b
  | Num z => if decide (z = 0) then b else a
  end.

(** [a < b]: false as soon as one side is [NaN]. *)
Definition number_lt (a b : number) : bool :=
  match a, b with
  | Num x, Num y => bool_decide (x < y)
  | _, _ => false
  end.

(** [a > b]. *)
Definition number_gt (a b : number) : bool := number_lt b a.

(** [a - b]. *)
Definition number_sub (a b : number) : number :=
  match a, b with
  | Num x, Num y => Num (x - y)
  | _, _ => NaN
  end.

(** The reading of a comparator result by [sort]: "swap" iff [v > 0]. *)
Definition is_positive (v : number) : bool := number_gt v (Num 0).

(** ** Exceptions

    What a rejected promise of the program carries: [ky] throws [HTTPError]
    for a network failure or a response outside 2xx, [response.json()]
    throws [SyntaxError], a property read on [undefined] throws [TypeError],
    and the [sqlite3] driver rejects with an error message. *)

Inductive exn : Type :=
| HTTPError
| SyntaxError
| TypeError (msg : string)
| SqliteError (msg : string).

#[export] Instance exn_eq_dec : EqDecision exn.
Proof. solve_decision. Defined.

(** [err.message].  The program prints the message of an error of the
    driver only; the texts [ky] and the JSON parser give their errors are
    left out. *)
Definition message (err : exn) : string :=
  match err with
  | TypeError msg | SqliteError msg => msg
  | HTTPError | SyntaxError => EmptyString
  end.

(** ** Array.prototype.sort *)

Section Sort.
Context {A : Type}.
Variable cmp : A -> A -> number.

Fixpoint sort_insert (x : A) (l : list A) : list A :=
  match l with
  | [] => [x]
  | y :: l' => if is_positive (cmp x y) then y :: sort_insert x l' else x :: l
  end.

Fixpoint js_sort (l : list A) : list A :=
  match l with
  | [] => []
  | x :: l' => sort_insert x (js_sort l')
  end.

(** The first element of the sorted array, computed in one pass from the
    right: the reference the sort-based code is compared with. *)
Fixpoint first_min_by (l : list A) : option A :=
  match l with
  | [] => None
  | x :: l' =>
      match first_min_by l' with
      | None => Some x
      | Some m => if is_positive (cmp x m) then Some m else Some x
      end
  end.

Lemma sort_insert_perm x l : Permutation (x :: l) (sort_insert x l).
Proof.
  induction l as [|y l IH]; simpl; [done|].
  destruct (is_positive (cmp x y)); [|done].
  rewrite perm_swap. by constructor.
Qed.

Lemma js_sort_perm l : Permutation l (js_sort l).
Proof.
  induction l as [|x l IH]; simpl; [done|].
  rewrite <- sort_insert_perm. by constructor.
Qed.

Lemma js_sort_length l : length (js_sort l) = length l.
Proof. symmetry. apply Permutation_length, js_sort_perm. Qed.

Lemma js_sort_elem_of x l : x ∈ js_sort l <-> x ∈ l.
Proof. by rewrite <- (js_sort_perm l). Qed.

Lemma js_sort_nil_inv l : js_sort l = [] -> l = [].
Proof.
  intros H. apply Permutation_nil. rewrite <- H. symmetry. apply js_sort_perm.
Qed.

Lemma head_sort_insert x l :
  head (sort_insert x l) =
  match head l with
  | None => Some x
  | Some y => if is_positive (cmp x y) then Some y else Some x
  end.
Proof. destruct l as [|y l]; simpl; [done|]. by destruct (is_positive (cmp x y)). Qed.

Lemma head_js_sort l : head (js_sort l) = first_min_by l.
Proof.
  induction l as [|x l IH]; simpl; [done|].
  by rewrite head_sort_insert, IH.
Qed.

Lemma first_min_by_elem_of l m : first_min_by l = Some m -> m ∈ l.
Proof.
  revert m. induction l as [|x l IH]; simpl; intros m; [done|].
  destruct (first_min_by l) as [m'|]; [|intros [= <-]; left].
  destruct (is_positive (cmp x m')); intros [= <-]; [right; by apply IH | left].
Qed.

Lemma first_min_by_None l : first_min_by l = None <-> l = [].
Proof.
  destruct l as [|x l]; simpl; [done|].
  split; [|done]. destruct (first_min_by l); [destruct (is_positive _)|]; done.
Qed.

End Sort.

(** The first element depends on the comparator through its sign on the
    elements of the array only. *)
Lemma first_min_by_ext {A} (cmp cmp' : A -> A -> number) l :
  (forall x y, x ∈ l -> y ∈ l -> is_positive (cmp x y) = is_positive (cmp' x y)) ->
  first_min_by cmp l = first_min_by cmp' l.
Proof.
  induction l as [|x l IH]; intros Hext; simpl; [done|].
  rewrite <- IH by (intros; apply Hext; by right).
  destruct (first_min_by cmp l) as [m|] eqn:Hm; [|done].
  rewrite Hext; [done | left | right; by eapply first_min_by_elem_of].
Qed.

Lemma sort_insert_ext {A} (cmp cmp' : A -> A -> number) x l :
  (forall y, y ∈ l -> is_positive (cmp x y) = is_positive (cmp' x y)) ->
  sort_insert cmp x l = sort_insert cmp' x l.
Proof.
  induction l as [|y l IH]; intros Hext; simpl; [done|].
  rewrite <- Hext by left. rewrite IH; [done|]. intros; apply Hext; by right.
Qed.

(** So does the sorted array. *)
Lemma js_sort_ext {A} (cmp cmp' : A -> A -> number) l :
  (forall x y, x ∈ l -> y ∈ l -> is_positive (cmp x y) = is_positive (cmp' x y)) ->
  js_sort cmp l = js_sort cmp' l.
Proof.
  induction l as [|x l IH]; intros Hext; simpl; [done|].
  rewrite <- IH by (intros; apply Hext; by right).
  apply sort_insert_ext. intros y Hy. apply js_sort_elem_of in Hy.
  apply Hext; [left | by right].
Qed.

(** ** Comparators that order by an integer key

    [(a, b) => key(a) - key(b)] with every key a number. *)

Section ByKey.
Context {A : Type}.
Variable key : A -> Z.

Definition cmp_key (a b : A) : number := number_sub (Num (key a)) (Num (key b)).

Definition key_le (a b : A) : Prop := key a <= key b.

Lemma is_positive_cmp_key a b : is_positive (cmp_key a b) = bool_decide (key b < key a).
Proof.
  unfold is_positive, number_gt, cmp_key; simpl.
  apply bool_decide_ext. lia.
Qed.

Lemma sort_insert_sorted x l :
  StronglySorted key_le l -> StronglySorted key_le (sort_insert cmp_key x l).
Proof.
  induction 1 as [|y l Hl IH Hy]; simpl; [repeat constructor|].
  rewrite is_positive_cmp_key. case_bool_decide as Hlt.
  - constructor; [done|].
    rewrite <- sort_insert_perm. constructor; [unfold key_le; lia | done].
  - constructor; [by constructor|].
    constructor; [unfold key_le; lia|].
    eapply Forall_impl; [exact Hy|]. unfold key_le. intros z. lia.
Qed.

Lemma js_sort_sorted l : StronglySorted key_le (js_sort cmp_key l).
Proof. induction l; simpl; [constructor | by apply sort_insert_sorted]. Qed.

(** The one-pass minimum is a lower bound of the keys. *)
Lemma first_min_by_lower_bound l m :
  first_min_by cmp_key l = Some m -> Forall (fun x => key m <= key x) l.
Proof.
  revert m. induction l as [|x l IH]; intros m; simpl; [constructor|].
  destruct (first_min_by cmp_key l) as [m'|] eqn:Hm'.
  - rewrite is_positive_cmp_key. specialize (IH m' eq_refl).
    case_bool_decide; intros [= <-].
    + constructor; [lia | done].
    + constructor; [lia|]. eapply Forall_impl; [exact IH|]. intros z ?; simpl in *. lia.
  - apply first_min_by_None in Hm' as ->. intros [= <-]. by repeat constructor.
Qed.

(** Ties go to the element that comes first in the array: every element
    before the minimum has a strictly larger key. *)
Lemma first_min_by_first l m :
  first_min_by cmp_key l = Some m ->
  exists l1 l2, l = l1 ++ m :: l2 /\ Forall (fun x => key m < key x) l1.
Proof.
  revert m. induction l as [|x l IH]; intros m; simpl; [done|].
  destruct (first_min_by cmp_key l) as [m'|] eqn:Hm'.
  - rewrite is_positive_cmp_key. case_bool_decide as Hlt; intros [= <-].
    + destruct (IH m' eq_refl) as (l1 & l2 & -> & Hl1).
      exists (x :: l1), l2. split; [done|]. by constructor.
    + exists [], l. by split.
  - intros [= <-]. exists [], l. by split.
Qed.

(** The same element by a scan from the left that keeps the best element
    seen so far and replaces it only by a strictly smaller one. *)
Definition keep_min (best x : A) : A :=
  if bool_decide (key x < key best) then x else best.

Definition scan_min (best : A) (l : list A) : A := fold_left keep_min l best.

Definition first_min_scan (l : list A) : option A :=
  match l with
  | [] => None
  | x :: l' => Some (scan_min x l')
  end.

Lemma scan_min_step l : forall x y,
  scan_min (keep_min x y) l =
  let m := scan_min y l in if bool_decide (key m < key x) then m else x.
Proof.
  induction l as [|z l IH]; intros x y; simpl; [done|].
  rewrite (IH (keep_min x y) z), (IH y z). simpl. unfold keep_min.
  repeat case_bool_decide; try done; lia.
Qed.

Lemma first_min_scan_correct l : first_min_by cmp_key l = first_min_scan l.
Proof.
  induction l as [|x l IH]; simpl; [done|]. rewrite IH.
  destruct l as [|y l]; simpl; [done|].
  rewrite is_positive_cmp_key. change (fold_left keep_min l (keep_min x y))
    with (scan_min (keep_min x y) l).
  rewrite scan_min_step. simpl. by case_bool_decide.
Qed.

(** ** Any stable sort gives the same array

    The engine is free in its choice of the algorithm; the standard asks
    that the sort be stable.  For a comparator that orders by a key this
    fixes the result: an array with keys that do not decrease, in which the
    elements of each key are those of the input in their order, is the one
    [js_sort] returns. *)

(** The elements of [l] whose key is [k], in their order. *)
Definition with_key (k : Z) (l : list A) : list A :=
  filter (fun a => key a = k) l.

Definition stable_sorted (l l' : list A) : Prop :=
  StronglySorted key_le l' /\ forall k, with_key k l' = with_key k l.

Lemma with_key_cons k x l :
  with_key k (x :: l) = if decide (key x = k) then x :: with_key k l else with_key k l.
Proof. unfold with_key. by rewrite filter_cons. Qed.

Lemma with_key_sort_insert k x l :
  with_key k (sort_insert cmp_key x l) = with_key k (x :: l).
Proof.
  induction l as [|y l IH]; simpl; [done|].
  rewrite is_positive_cmp_key. case_bool_decide as Hlt; [|done].
  rewrite (with_key_cons k y), IH, !with_key_cons.
  repeat case_decide; try done; lia.
Qed.

Lemma js_sort_stable l : stable_sorted l (js_sort cmp_key l).
Proof.
  split; [apply js_sort_sorted|]. intros k.
  induction l as [|x l IH]; simpl; [done|].
  by rewrite with_key_sort_insert, !with_key_cons, IH.
Qed.

(** The head of a sorted array is the head of the elements of its key. *)
Lemma with_key_head x l :
  StronglySorted key_le (x :: l) -> forall y, y ∈ x :: l -> key x <= key y.
Proof.
  intros Hs y Hy. apply StronglySorted_inv in Hs as [_ Hx].
  apply elem_of_cons in Hy as [->|Hy]; [lia|].
  rewrite Forall_forall in Hx. by apply Hx.
Qed.

Lemma with_key_elem_of k x l : x ∈ with_key k l <-> x ∈ l /\ key x = k.
Proof. unfold with_key. by rewrite list_elem_of_filter, (comm and). Qed.

(** Two sorted arrays with the same elements under each key are equal. *)
Lemma sorted_by_groups l1 : forall l2,
  StronglySorted key_le l1 -> StronglySorted key_le l2 ->
  (forall k, with_key k l1 = with_key k l2) -> l1 = l2.
Proof.
  induction l1 as [|x l1 IH]; intros [|y l2] H1 H2 Hk.
  - done.
  - specialize (Hk (key y)). rewrite with_key_cons in Hk. by case_decide.
  - specialize (Hk (key x)). rewrite with_key_cons in Hk. by case_decide.
  - assert (key x = key y) as Hxy.
    { assert (x ∈ y :: l2) by (eapply with_key_elem_of; rewrite <- Hk;
        apply with_key_elem_of; split; [left|done]).
      assert (y ∈ x :: l1) by (eapply with_key_elem_of; rewrite Hk;
        apply with_key_elem_of; split; [left|done]).
      pose proof (with_key_head _ _ H1 y ltac:(done)).
      pose proof (with_key_head _ _ H2 x ltac:(done)). lia. }
    pose proof (Hk (key x)) as Hx. rewrite !with_key_cons, Hxy in Hx.
    rewrite !decide_True in Hx by done. injection Hx as -> Hx.
    f_equal. apply IH; [by apply StronglySorted_inv in H1 as [? _]
                       |by apply StronglySorted_inv in H2 as [? _]|].
    intros k. specialize (Hk k). rewrite !with_key_cons in Hk.
    case_decide; [by injection Hk | done].
Qed.

(** Whatever stable sort the engine runs, it returns what [js_sort]
    returns. *)
Theorem stable_sort_unique l l' : stable_sorted l l' -> l' = js_sort cmp_key l.
Proof.
  intros [Hs Hk]. destruct (js_sort_stable l) as [Hs' Hk'].
  apply sorted_by_groups; [done..|]. intros k. by rewrite Hk, Hk'.
Qed.

End ByKey.
