(* ===== verification/TimeModel.v ===== *)
(** * TimeModel: timestamps as the program keeps them

    Every timestamp of the program is the text GitLab sent
    (["2025-04-01T10:20:30.123Z"]).  Two library routines read such a text as
    an instant: [new Date(s).getTime()] in the sort comparators of
    [processAndStoreMergeRequests], and SQLite's [strftime('%s', s)] in the
    two aggregate queries.  Both are behind the interface [Clock], so that
    the theorems of the components hold for any reading of the texts; the
    instance [iso_clock] reads GitLab's format and lets examples compute.

    The date bounds of the queries are compared with [created_at] as texts
    (the column has type TEXT and the default BINARY collation): [text_le]. *)

From S2P Require Import Prelude JsModel.
From Stdlib Require Import Ascii String.

(** ** The interface *)

Class Clock : Type := {
  (** [new Date(s).getTime()]: milliseconds since the epoch, [NaN] for a
      text that is not a date. *)
  getTime : string -> number;
  (** [strftime('%s', s)]: seconds since the epoch, [None] (SQL NULL) for a
      text that is not a date. *)
  strftime_s : string -> option Z;
}.

(** ** Text comparison, as SQLite compares two TEXT values under BINARY *)

Definition text_le (a b : string) : bool := String.leb a b.

Definition text_ge (a b : string) : bool := String.leb b a.

(** ** An instance for GitLab's format

    [YYYY-MM-DDTHH:MM:SS[.mmm]Z], and [YYYY-MM-DD] alone.  A day that the
    month does not have is rejected, where the engines differ among
    themselves. *)

Definition digit_of (a : ascii) : option Z :=
  let n := Z.of_N (N_of_ascii a) in
  if bool_decide (48 <= n <= 57) then Some (n - 48) else None.

Fixpoint digits (n : nat) (acc : Z) (s : string) : option (Z * string) :=
  match n with
  | O => Some (acc, s)
  | S n' =>
      match s with
      | String a s' =>
          match digit_of a with
          | Some d => digits n' (10 * acc + d) s'
          | None => None
          end
      | EmptyString => None
      end
  end.

Definition expect (c : ascii) (s : string) : option string :=
  match s with
  | String a s' => if decide (a = c) then Some s' else None
  | EmptyString => None
  end.

Record civil : Type := {
  year : Z; month : Z; day : Z;
  hour : Z; minute : Z; second : Z; millis : Z;
}.

Definition is_leap (y : Z) : bool :=
  bool_decide (y mod 4 = 0) && (negb (bool_decide (y mod 100 = 0)) || bool_decide (y mod 400 = 0)).

Definition days_in_month (y m : Z) : Z :=
  if decide (m = 2) then (if is_leap y then 29 else 28)
  else if decide (m = 4 \/ m = 6 \/ m = 9 \/ m = 11) then 30
  else 31.

Definition civil_ok (c : civil) : bool :=
  bool_decide (1 <= month c <= 12) &&
  bool_decide (1 <= day c <= days_in_month (year c) (month c)) &&
  bool_decide (hour c <= 23) && bool_decide (minute c <= 59) &&
  bool_decide (second c <= 59).

(** The time of day after the date: [THH:MM:SS[.mmm]Z]. *)
Definition parse_time (s : string) : option (Z * Z * Z * Z) :=
  s ← expect "T" s;
  '(h, s) ← digits 2 0 s;
  s ← expect ":" s;
  '(mi, s) ← digits 2 0 s;
  s ← expect ":" s;
  '(sec, s) ← digits 2 0 s;
  '(ms, s) ← match expect "." s with
             | Some s' => digits 3 0 s'
             | None => Some (0, s)
             end;
  s ← expect "Z" s;
  if decide (s = EmptyString) then Some (h, mi, sec, ms) else None.

(** A date alone is the start of that day in UTC, for [Date] as for
    [strftime]. *)
Definition parse_iso (s : string) : option civil :=
  '(y, s) ← digits 4 0 s;
  s ← expect "-" s;
  '(m, s) ← digits 2 0 s;
  s ← expect "-" s;
  '(d, s) ← digits 2 0 s;
  '(h, mi, sec, ms) ← (if decide (s = EmptyString) then Some (0, 0, 0, 0)
                       else parse_time s);
  let c := {| year := y; month := m; day := d; hour := h; minute := mi;
              second := sec; millis := ms |} in
  if civil_ok c then Some c else None.

(** Days from 1970-01-01 to a civil date of the proleptic Gregorian calendar. *)
Definition days_from_civil (y m d : Z) : Z :=
  let y' := if bool_decide (m <= 2) then y - 1 else y in
  let era := y' / 400 in
  let yoe := y' - era * 400 in
  let mp := if bool_decide (m <= 2) then m + 9 else m - 3 in
  let doy := (153 * mp + 2) / 5 + d - 1 in
  let doe := yoe * 365 + yoe / 4 - yoe / 100 + doy in
  era * 146097 + doe - 719468.

Definition civil_seconds (c : civil) : Z :=
  days_from_civil (year c) (month c) (day c) * 86400
  + hour c * 3600 + minute c * 60 + second c.

Definition iso_seconds (s : string) : option Z := civil_seconds <$> parse_iso s.

Definition iso_millis (s : string) : number :=
  match parse_iso s with
  | Some c => Num (civil_seconds c * 1000 + millis c)
  | None => NaN
  end.

#[export] Instance iso_clock : Clock := {|
  getTime := iso_millis;
  strftime_s := iso_seconds;
|}.

(** ** Examples of the instance *)

Example iso_epoch : iso_seconds "1970-01-01T00:00:00Z" = Some 0.
Proof. reflexivity. Qed.

Example iso_sample : iso_seconds "2025-04-01T10:20:30.123Z" = Some 1743502830.
Proof. reflexivity. Qed.

Example iso_sample_ms : iso_millis "2025-04-01T10:20:30.123Z" = Num 1743502830123.
Proof. reflexivity. Qed.

Example iso_bad_day : iso_seconds "2025-02-30T00:00:00Z" = None.
Proof. reflexivity. Qed.

Example iso_trailing : iso_seconds "2025-04-01T10:20:30Zx" = None.
Proof. reflexivity. Qed.

Example iso_date_only : iso_seconds "2025-04-01" = Some 1743465600.
Proof. reflexivity. Qed.

(** ** Facts on the text order *)

Lemma ascii_compare_refl a : (a ?= a)%char = Eq.
Proof. unfold Ascii.compare. apply N.compare_refl. Qed.

Lemma string_compare_refl s : (s ?= s)%string = Eq.
Proof. induction s as [|a s IH]; simpl; [done|]. by rewrite ascii_compare_refl. Qed.

Lemma text_le_refl s : text_le s s = true.
Proof. unfold text_le, String.leb. by rewrite string_compare_refl. Qed.

(** A text is below every text it is a prefix of... *)
Lemma text_le_prefix s t : text_le s (s +:+ t) = true.
Proof.
  unfold text_le, String.leb. induction s as [|a s IH]; simpl.
  - by destruct t.
  - by rewrite ascii_compare_refl.
Qed.

(** ... and a proper extension of a text is never below it: under a bound
    ["2025-04-30"], no timestamp of that day passes [created_at <= bound]. *)
Lemma text_le_extension s t : t <> EmptyString -> text_le (s +:+ t) s = false.
Proof.
  intros Ht. unfold text_le, String.leb. induction s as [|a s IH]; simpl.
  - by destruct t.
  - by rewrite ascii_compare_refl.
Qed.
