(* ===== verification/TimeOrder.v ===== *)
(** * TimeOrder: the order of the texts is the order of the instants

    The queries compare timestamps as texts ([created_at >= ?]) and
    subtract them as instants ([strftime('%s', ...)]).  This file relates
    the two readings for the texts that [parse_iso] accepts: such a text
    is a civil date written with a fixed number of digits per field
    ([show_civil]), so that two texts of the same shape are in the order of
    their instants, and a date alone is below exactly the timestamps of its
    day and of the days after.  The calendar facts are about
    [days_from_civil]: dates are in the order of their day numbers.

    The file also holds SQLite's [datetime]: the civil time of an instant
    ([civil_of_seconds], by [civil_from_days], the inverse of the day
    count) written as [YYYY-MM-DD HH:MM:SS] ([datetime_text]), for the
    instants of the years 0000 to 9999 ([sql_range]); the texts it returns
    are in the order of the instants. *)

From S2P Require Import Prelude JsModel TimeModel.
From Stdlib Require Import Ascii String.

(** ** Digits as characters *)

Definition digit_char (d : Z) : ascii := ascii_of_N (Z.to_N (48 + d)).

(** [n] decimal digits of [v], the most significant first, before [rest]. *)
Fixpoint show_digits (n : nat) (v : Z) (rest : string) : string :=
  match n with
  | O => rest
  | S n' => String (digit_char (v / 10 ^ Z.of_nat n'))
              (show_digits n' (v mod 10 ^ Z.of_nat n') rest)
  end.

(** The three shapes of text [parse_iso] accepts: a date alone, a timestamp
    to the second, a timestamp to the millisecond. *)
Inductive shape : Type :=
| DateOnly
| Seconds
| Millis.

#[export] Instance shape_eq_dec : EqDecision shape.
Proof. solve_decision. Defined.

(** [YYYY-MM-DD] before [rest]. *)
Definition show_date (y m d : Z) (rest : string) : string :=
  show_digits 4 y (String "-" (show_digits 2 m (String "-" (show_digits 2 d rest)))).

(** [HH:MM:SS] before [rest]. *)
Definition show_clock (h mi sec : Z) (rest : string) : string :=
  show_digits 2 h (String ":" (show_digits 2 mi (String ":" (show_digits 2 sec rest)))).

Definition show_time (f : shape) (c : civil) : string :=
  match f with
  | DateOnly => ""
  | Seconds => String "T" (show_clock (hour c) (minute c) (second c) "Z")
  | Millis =>
      String "T" (show_clock (hour c) (minute c) (second c)
                    (String "." (show_digits 3 (millis c) "Z")))
  end.

Definition show_civil (f : shape) (c : civil) : string :=
  show_date (year c) (month c) (day c) (show_time f c).

(** The civil date of a day number: the inverse of [days_from_civil]. *)
Definition civil_from_days (z : Z) : Z * Z * Z :=
  let z := z + 719468 in
  let era := z / 146097 in
  let doe := z - era * 146097 in
  let yoe := (doe - doe / 1460 + doe / 36524 - doe / 146096) / 365 in
  let doy := doe - (365 * yoe + yoe / 4 - yoe / 100) in
  let mp := (5 * doy + 2) / 153 in
  let d := doy - (153 * mp + 2) / 5 + 1 in
  let m := if bool_decide (mp < 10) then mp + 3 else mp - 9 in
  let y := yoe + era * 400 in
  (if bool_decide (m <= 2) then y + 1 else y, m, d).

(** The civil time of an instant given in seconds. *)
Definition civil_of_seconds (z : Z) : civil :=
  let '(y, m, d) := civil_from_days (z / 86400) in
  let s := z mod 86400 in
  {| year := y; month := m; day := d; hour := s / 3600; minute := s mod 3600 / 60;
     second := s mod 60; millis := 0 |}.

(** The instants of the years 0000 to 9999, which SQLite's date functions
    cover. *)
Definition sql_range (z : Z) : Prop := -62167219200 <= z < 253402300800.

(** SQLite's [datetime]: [YYYY-MM-DD HH:MM:SS]. *)
Definition datetime_text (z : Z) : string :=
  let c := civil_of_seconds z in
  show_date (year c) (month c) (day c)
    (String " " (show_clock (hour c) (minute c) (second c) "")).

(** The instant of a civil time, in milliseconds. *)
Definition civil_millis (c : civil) : Z := civil_seconds c * 1000 + millis c.

(** The date of a civil time, as a day number. *)
Definition civil_days (c : civil) : Z := days_from_civil (year c) (month c) (day c).

(** The time of day, in milliseconds. *)
Definition day_millis (c : civil) : Z :=
  ((hour c * 60 + minute c) * 60 + second c) * 1000 + millis c.

Definition date_ok (y m d : Z) : Prop := 1 <= m <= 12 /\ 1 <= d <= days_in_month y m.

(** A civil time that a text of shape [f] can carry. *)
Record civil_wf (f : shape) (c : civil) : Prop := {
  cw_year : 0 <= year c < 10000;
  cw_date : date_ok (year c) (month c) (day c);
  cw_hour : 0 <= hour c <= 23;
  cw_minute : 0 <= minute c <= 59;
  cw_second : 0 <= second c <= 59;
  cw_millis : 0 <= millis c < 1000;
  cw_shape : match f with
             | DateOnly => hour c = 0 /\ minute c = 0 /\ second c = 0 /\ millis c = 0
             | Seconds => millis c = 0
             | Millis => True
             end;
}.

(** The order of two pairs, the first components first. *)
Definition lex (c1 c2 : comparison) : comparison :=
  match c1 with
  | Eq => c2
  | _ => c1
  end.

(** The day number of the first of January. *)
Definition year_start (y : Z) : Z := days_from_civil y 1 1.

Definition year_length (y : Z) : Z := if is_leap y then 366 else 365.

(** The days of the year before the first of month [m]. *)
Definition days_before (y m : Z) : Z :=
  if decide (m <= 1) then 0 else
  if decide (m = 2) then 31 else
  (if is_leap y then 1 else 0) + (153 * (m - 3) + 2) / 5 + 59.

Lemma digit_of_char a d : digit_of a = Some d -> 0 <= d <= 9 /\ a = digit_char d.
Proof.
  unfold digit_of, digit_char. case_bool_decide as Hd; [|done]. intros [= <-].
  split; [lia|]. replace (48 + (Z.of_N (N_of_ascii a) - 48)) with (Z.of_N (N_of_ascii a)) by lia.
  by rewrite N2Z.id, ascii_N_embedding.
Qed.

Lemma N_of_digit_char d : 0 <= d <= 9 -> Z.of_N (N_of_ascii (digit_char d)) = 48 + d.
Proof.
  intros Hd. unfold digit_char. rewrite N_ascii_embedding; [lia|].
  change 256%N with (Z.to_N 256). lia.
Qed.

Lemma pow10_pos n : 0 < 10 ^ Z.of_nat n.
Proof. apply Z.pow_pos_nonneg; lia. Qed.

Lemma pow10_S n : 10 ^ Z.of_nat (S n) = 10 * 10 ^ Z.of_nat n.
Proof. rewrite Nat2Z.inj_succ, Z.pow_succ_r by lia. done. Qed.

(** What [digits] accepts is what [show_digits] writes. *)
Lemma digits_show n : forall acc s v rest,
  digits n acc s = Some (v, rest) ->
  exists w, 0 <= w < 10 ^ Z.of_nat n /\ v = acc * 10 ^ Z.of_nat n + w /\
            s = show_digits n w rest.
Proof.
  induction n as [|n IH]; intros acc s v rest Hd; simpl in Hd.
  { injection Hd as <- <-. exists 0. simpl. split; [lia|]. split; [lia|done]. }
  destruct s as [|a s]; [done|]. destruct (digit_of a) as [d|] eqn:Ha; [|done].
  apply digit_of_char in Ha as [Hd9 ->].
  destruct (IH _ _ _ _ Hd) as (w & Hw & -> & ->).
  pose proof (pow10_pos n) as Hp.
  exists (d * 10 ^ Z.of_nat n + w). rewrite pow10_S. split; [nia|]. split; [lia|].
  simpl. f_equal.
  - f_equal. apply (Z.div_unique_pos _ _ _ w); lia.
  - f_equal. apply (Z.mod_unique_pos _ _ d); lia.
Qed.

(** ** Comparison of texts, field by field *)

Lemma compare_String a s b t :
  String.compare (String a s) (String b t) =
  lex (Z.of_N (N_of_ascii a) ?= Z.of_N (N_of_ascii b)) (String.compare s t).
Proof.
  simpl. unfold Ascii.compare. rewrite <- N2Z.inj_compare.
  by destruct (Z.of_N (N_of_ascii a) ?= Z.of_N (N_of_ascii b)).
Qed.

Lemma compare_String_same a s t :
  String.compare (String a s) (String a t) = String.compare s t.
Proof. by rewrite compare_String, Z.compare_refl. Qed.

(** A number is compared by its quotient first, then by its remainder. *)
Lemma compare_div_mod b v w :
  0 < b -> (v ?= w) = lex (v / b ?= w / b) (v mod b ?= w mod b).
Proof.
  intros Hb. pose proof (Z.div_mod v b ltac:(lia)). pose proof (Z.div_mod w b ltac:(lia)).
  pose proof (Z.mod_pos_bound v b Hb). pose proof (Z.mod_pos_bound w b Hb).
  destruct (Z.compare_spec (v / b) (w / b)) as [Hq|Hq|Hq]; simpl.
  - rewrite Hq in *. destruct (Z.compare_spec (v mod b) (w mod b));
      [apply Z.compare_eq_iff | apply Z.compare_lt_iff | apply Z.compare_gt_iff]; lia.
  - apply Z.compare_lt_iff. nia.
  - apply Z.compare_gt_iff. nia.
Qed.

(** Two numbers written with the same number of digits compare as
    numbers, and then by what follows. *)
Lemma compare_show_digits n : forall v w r1 r2,
  0 <= v < 10 ^ Z.of_nat n -> 0 <= w < 10 ^ Z.of_nat n ->
  String.compare (show_digits n v r1) (show_digits n w r2) =
  lex (v ?= w) (String.compare r1 r2).
Proof.
  induction n as [|n IH]; intros v w r1 r2 Hv Hw; simpl show_digits.
  { simpl in *. by replace v with 0 by lia; replace w with 0 by lia. }
  pose proof (pow10_pos n) as Hp. rewrite pow10_S in Hv, Hw.
  rewrite compare_String, !N_of_digit_char, IH.
  - rewrite (compare_div_mod (10 ^ Z.of_nat n) v w Hp), Z.add_compare_mono_l.
    by destruct (v / _ ?= w / _).
  - by apply Z.mod_pos_bound.
  - by apply Z.mod_pos_bound.
  - split; [apply Z.div_pos; lia|]. apply Z.lt_succ_r, Z.div_lt_upper_bound; lia.
  - split; [apply Z.div_pos; lia|]. apply Z.lt_succ_r, Z.div_lt_upper_bound; lia.
Qed.

(** ** The calendar *)

Lemma is_leap_spec y :
  is_leap y = true <-> y mod 4 = 0 /\ (y mod 100 <> 0 \/ y mod 400 = 0).
Proof.
  unfold is_leap. rewrite andb_true_iff, orb_true_iff, negb_true_iff,
    !bool_decide_eq_true, bool_decide_eq_false. done.
Qed.

Lemma days_from_civil_year y m d :
  1 <= m <= 12 ->
  days_from_civil y m d = year_start y + days_before y m + d - 1.
Proof.
  intros Hm. unfold year_start, days_before, days_from_civil.
  destruct (is_leap y) eqn:Hl.
  - apply is_leap_spec in Hl. repeat case_decide; repeat case_bool_decide; try lia;
      Z.div_mod_to_equations; lia.
  - apply not_true_iff_false in Hl. rewrite is_leap_spec in Hl.
    repeat case_decide; repeat case_bool_decide; try lia; Z.div_mod_to_equations; lia.
Qed.

Lemma year_start_succ y : year_start (y + 1) = year_start y + year_length y.
Proof.
  unfold year_start, year_length, days_from_civil. simpl.
  destruct (is_leap y) eqn:Hl.
  - apply is_leap_spec in Hl. Z.div_mod_to_equations; lia.
  - apply not_true_iff_false in Hl. rewrite is_leap_spec in Hl.
    Z.div_mod_to_equations; lia.
Qed.

Lemma year_length_bounds y : 365 <= year_length y <= 366.
Proof. unfold year_length. destruct (is_leap y); lia. Qed.

Lemma year_start_mono y k : 0 <= k -> year_start y + 365 * k <= year_start (y + k).
Proof.
  intros Hk. rewrite <- (Z2Nat.id k Hk). induction (Z.to_nat k) as [|n IH].
  - replace (y + Z.of_nat 0) with y by lia. lia.
  - replace (y + Z.of_nat (S n)) with (y + Z.of_nat n + 1) by lia.
    rewrite year_start_succ. pose proof (year_length_bounds (y + Z.of_nat n)). lia.
Qed.

(** The days of the months before [m] and the days of [m] are the days
    before the next month; the year has as many days as its months. *)
Lemma days_before_succ y m :
  1 <= m <= 12 ->
  days_before y m + days_in_month y m =
  if decide (m = 12) then year_length y else days_before y (m + 1).
Proof.
  intros Hm. unfold days_before, days_in_month, year_length.
  assert (m = 1 \/ m = 2 \/ m = 3 \/ m = 4 \/ m = 5 \/ m = 6 \/ m = 7 \/ m = 8 \/
          m = 9 \/ m = 10 \/ m = 11 \/ m = 12) as Hcases by lia.
  destruct (is_leap y); repeat destruct Hcases as [->|Hcases]; subst; reflexivity.
Qed.

Lemma days_before_mono y m1 m2 :
  1 <= m1 -> m1 < m2 <= 12 ->
  days_before y m1 + days_in_month y m1 <= days_before y m2.
Proof.
  intros H1 H2. unfold days_before, days_in_month.
  destruct (is_leap y); repeat case_decide; try lia; Z.div_mod_to_equations; lia.
Qed.

Lemma days_before_year y m :
  1 <= m <= 12 -> 0 <= days_before y m /\ days_before y m + days_in_month y m <= year_length y.
Proof.
  intros Hm. unfold days_before, days_in_month, year_length.
  destruct (is_leap y); repeat case_decide; try lia; Z.div_mod_to_equations; lia.
Qed.

(** Dates are in the order of their day numbers. *)
Lemma days_from_civil_compare y1 m1 d1 y2 m2 d2 :
  date_ok y1 m1 d1 -> date_ok y2 m2 d2 ->
  (days_from_civil y1 m1 d1 ?= days_from_civil y2 m2 d2) =
  lex (y1 ?= y2) (lex (m1 ?= m2) (d1 ?= d2)).
Proof.
  intros [Hm1 Hd1] [Hm2 Hd2]. rewrite !days_from_civil_year by done.
  pose proof (days_before_year y1 m1 Hm1). pose proof (days_before_year y2 m2 Hm2).
  destruct (Z.compare_spec y1 y2) as [->|Hy|Hy].
  - destruct (Z.compare_spec m1 m2) as [->|Hm|Hm].
    + destruct (Z.compare_spec d1 d2);
        [apply Z.compare_eq_iff | apply Z.compare_lt_iff | apply Z.compare_gt_iff]; lia.
    + apply Z.compare_lt_iff. pose proof (days_before_mono y2 m1 m2). lia.
    + apply Z.compare_gt_iff. pose proof (days_before_mono y2 m2 m1). lia.
  - apply Z.compare_lt_iff. pose proof (year_start_mono (y1 + 1) (y2 - y1 - 1)).
    pose proof (year_start_succ y1). replace (y1 + 1 + (y2 - y1 - 1)) with y2 in * by lia. lia.
  - apply Z.compare_gt_iff. pose proof (year_start_mono (y2 + 1) (y1 - y2 - 1)).
    pose proof (year_start_succ y2). replace (y2 + 1 + (y1 - y2 - 1)) with y1 in * by lia. lia.
Qed.

(** ** From day numbers back to dates *)

Lemma civil_from_days_ok z :
  let '(y, m, d) := civil_from_days z in date_ok y m d.
Proof.
  unfold civil_from_days, date_ok, days_in_month. cbv zeta.
  destruct (is_leap _) eqn:Hl.
  - apply is_leap_spec in Hl.
    repeat case_bool_decide; repeat case_decide; try lia; Z.div_mod_to_equations; lia.
  - apply not_true_iff_false in Hl. rewrite is_leap_spec in Hl.
    repeat case_bool_decide; repeat case_decide; try lia; Z.div_mod_to_equations; lia.
Qed.

Lemma days_from_civil_from_days z :
  let '(y, m, d) := civil_from_days z in days_from_civil y m d = z.
Proof.
  unfold civil_from_days, days_from_civil. cbv zeta.
  repeat case_bool_decide; try lia; Z.div_mod_to_equations; lia.
Qed.

(** The date of a day number of the years 0000 to 9999 has a year of four
    digits. *)
Lemma civil_from_days_year z :
  -719528 <= z < 2932897 ->
  let '(y, m, d) := civil_from_days z in 0 <= y < 10000.
Proof.
  intros Hz. pose proof (civil_from_days_ok z) as Hok.
  pose proof (days_from_civil_from_days z) as Hd.
  destruct (civil_from_days z) as [[y m] d].
  assert (date_ok 0 1 1) as H0 by (by repeat split).
  assert (date_ok 10000 1 1) as H1 by (by repeat split).
  pose proof (days_from_civil_compare y m d 0 1 1 Hok H0) as Hlow.
  pose proof (days_from_civil_compare y m d 10000 1 1 Hok H1) as Hhigh.
  rewrite Hd in Hlow, Hhigh.
  change (days_from_civil 0 1 1) with (-719528) in Hlow.
  change (days_from_civil 10000 1 1) with 2932897 in Hhigh.
  destruct Hok as [Hm Hday]. split.
  - destruct (Z.compare_spec y 0) as [->|Hy|Hy]; [lia| |lia].
    pose proof (proj1 (Z.compare_lt_iff _ _) Hlow). lia.
  - destruct (Z.compare_spec y 10000) as [->|Hy|Hy]; [|lia|].
    + assert (~ z < 2932897) as Hge; [|lia].
      rewrite <- Z.compare_lt_iff, Hhigh. unfold lex.
      destruct (Z.compare_spec m 1); [|lia|done].
      destruct (Z.compare_spec d 1); [done|lia|done].
    + pose proof (proj1 (Z.compare_gt_iff _ _) Hhigh). lia.
Qed.

Lemma civil_of_seconds_wf z : sql_range z -> civil_wf Seconds (civil_of_seconds z).
Proof.
  intros Hz. unfold sql_range in Hz. unfold civil_of_seconds.
  pose proof (civil_from_days_ok (z / 86400)) as Hok.
  pose proof (civil_from_days_year (z / 86400)) as Hy.
  destruct (civil_from_days (z / 86400)) as [[y m] d].
  split; simpl; try done; Z.div_mod_to_equations; lia.
Qed.

Lemma civil_seconds_of_seconds z : civil_seconds (civil_of_seconds z) = z.
Proof.
  unfold civil_of_seconds, civil_seconds.
  pose proof (days_from_civil_from_days (z / 86400)) as Hd.
  destruct (civil_from_days (z / 86400)) as [[y m] d]. simpl. rewrite Hd.
  Z.div_mod_to_equations; lia.
Qed.

(** ** Reading what was written, and writing what was read *)

Lemma digit_of_digit_char d : 0 <= d <= 9 -> digit_of (digit_char d) = Some d.
Proof.
  intros Hd. unfold digit_of. rewrite N_of_digit_char by done.
  rewrite bool_decide_eq_true_2 by lia. f_equal. lia.
Qed.

Lemma digits_show_digits n : forall acc w rest,
  0 <= w < 10 ^ Z.of_nat n ->
  digits n acc (show_digits n w rest) = Some (acc * 10 ^ Z.of_nat n + w, rest).
Proof.
  induction n as [|n IH]; intros acc w rest Hw; simpl.
  { do 2 f_equal. simpl in Hw. lia. }
  pose proof (pow10_pos n) as Hp. rewrite pow10_S in *.
  pose proof (Z.div_mod w (10 ^ Z.of_nat n) ltac:(lia)).
  pose proof (Z.mod_pos_bound w (10 ^ Z.of_nat n) Hp).
  assert (0 <= w / 10 ^ Z.of_nat n <= 9) as Hq.
  { split; [apply Z.div_pos; lia|]. apply Z.lt_succ_r, Z.div_lt_upper_bound; lia. }
  rewrite digit_of_digit_char, IH by done. do 2 f_equal. nia.
Qed.

Lemma expect_Some c s s' : expect c s = Some s' -> s = String c s'.
Proof.
  unfold expect. destruct s as [|a s]; [done|]. case_decide; [|done].
  by intros [= <-]; subst.
Qed.

#[local] Arguments digits : simpl never.
#[local] Arguments expect : simpl never.
#[local] Arguments parse_time : simpl never.
#[local] Arguments show_digits : simpl never.
#[local] Arguments civil_ok : simpl never.

(** The powers of ten of the fields, as numerals. *)
Ltac pow10 :=
  change (10 ^ Z.of_nat 4) with 10000 in *; change (10 ^ Z.of_nat 3) with 1000 in *;
  change (10 ^ Z.of_nat 2) with 100 in *.

(** The time of day [parse_time] reads, and the text it read it from. *)
Lemma parse_time_show s h mi sec ms :
  parse_time s = Some (h, mi, sec, ms) ->
  (0 <= h < 100 /\ 0 <= mi < 100 /\ 0 <= sec < 100 /\ 0 <= ms < 1000) /\
  exists f, f <> DateOnly /\ (f = Seconds -> ms = 0) /\
    forall c, hour c = h -> minute c = mi -> second c = sec -> millis c = ms ->
      s = show_time f c.
Proof.
  unfold parse_time. intros Hp.
  destruct (expect "T" s) as [s1|] eqn:E1; simpl in Hp; [|done].
  destruct (digits 2 0 s1) as [[h' s2]|] eqn:D1; simpl in Hp; [|done].
  destruct (expect ":" s2) as [s3|] eqn:E2; simpl in Hp; [|done].
  destruct (digits 2 0 s3) as [[mi' s4]|] eqn:D2; simpl in Hp; [|done].
  destruct (expect ":" s4) as [s5|] eqn:E3; simpl in Hp; [|done].
  destruct (digits 2 0 s5) as [[sec' s6]|] eqn:D3; simpl in Hp; [|done].
  apply expect_Some in E1 as ->. apply expect_Some in E2 as ->.
  apply expect_Some in E3 as ->.
  apply digits_show in D1 as (w1 & Hw1 & -> & ->).
  apply digits_show in D2 as (w2 & Hw2 & -> & ->).
  apply digits_show in D3 as (w3 & Hw3 & -> & ->).
  destruct (expect "." s6) as [s7|] eqn:E4.
  - destruct (digits 3 0 s7) as [[ms' s8]|] eqn:D4; simpl in Hp; [|done].
    destruct (expect "Z" s8) as [s9|] eqn:E5; simpl in Hp; [|done].
    case_decide; [|done]. subst s9. injection Hp as <- <- <- <-.
    apply expect_Some in E4 as ->. apply expect_Some in E5 as ->.
    apply digits_show in D4 as (w4 & Hw4 & -> & ->).
    split; [pow10; lia|]. exists Millis. split; [done|]. split; [done|].
    intros c Hh Hmi Hsec Hms. unfold show_time, show_clock.
    rewrite Hh, Hmi, Hsec, Hms. repeat f_equal; lia.
  - simpl in Hp. destruct (expect "Z" s6) as [s9|] eqn:E5; simpl in Hp; [|done].
    case_decide; [|done]. subst s9. injection Hp as <- <- <- <-.
    apply expect_Some in E5 as ->.
    split; [pow10; lia|]. exists Seconds. split; [done|]. split; [done|].
    intros c Hh Hmi Hsec _. unfold show_time, show_clock.
    rewrite Hh, Hmi, Hsec. repeat f_equal; lia.
Qed.

Lemma civil_ok_spec c :
  civil_ok c = true <->
  1 <= month c <= 12 /\ 1 <= day c <= days_in_month (year c) (month c) /\
  hour c <= 23 /\ minute c <= 59 /\ second c <= 59.
Proof. unfold civil_ok. rewrite !andb_true_iff, !bool_decide_eq_true. tauto. Qed.

(** What [parse_iso] accepts is a well-formed civil time written in one
    of the three shapes. *)
Lemma parse_iso_show s c :
  parse_iso s = Some c -> exists f, civil_wf f c /\ s = show_civil f c.
Proof.
  unfold parse_iso. intros Hp.
  destruct (digits 4 0 s) as [[y s1]|] eqn:D1; simpl in Hp; [|done].
  destruct (expect "-" s1) as [s2|] eqn:E1; simpl in Hp; [|done].
  destruct (digits 2 0 s2) as [[m s3]|] eqn:D2; simpl in Hp; [|done].
  destruct (expect "-" s3) as [s4|] eqn:E2; simpl in Hp; [|done].
  destruct (digits 2 0 s4) as [[d s5]|] eqn:D3; simpl in Hp; [|done].
  apply expect_Some in E1 as ->. apply expect_Some in E2 as ->.
  apply digits_show in D1 as (w1 & Hw1 & -> & ->).
  apply digits_show in D2 as (w2 & Hw2 & -> & ->).
  apply digits_show in D3 as (w3 & Hw3 & -> & ->).
  destruct (decide (s5 = EmptyString)) as [->|Hne]; simpl in Hp.
  - destruct (civil_ok _) eqn:Hok; [|done]. injection Hp as <-.
    apply civil_ok_spec in Hok; simpl in Hok. exists DateOnly.
    split; [split; unfold date_ok; simpl in *; pow10; lia|].
    unfold show_civil, show_date. simpl. repeat f_equal; lia.
  - destruct (parse_time s5) as [[[[h mi] sec] ms]|] eqn:Ht; simpl in Hp; [|done].
    destruct (civil_ok _) eqn:Hok; [|done]. injection Hp as <-.
    apply civil_ok_spec in Hok; simpl in Hok.
    apply parse_time_show in Ht as (Hr & f & Hf & Hms & Hs). exists f.
    split; [split; unfold date_ok; simpl in *; pow10; try lia; by destruct f; auto|].
    unfold show_civil, show_date. simpl. repeat f_equal; try lia. by apply Hs.
Qed.

Lemma days_in_month_le y m : days_in_month y m <= 31.
Proof. unfold days_in_month. repeat case_decide; destruct (is_leap y); lia. Qed.

Lemma expect_String c s : expect c (String c s) = Some s.
Proof. unfold expect. by rewrite decide_True. Qed.

Lemma expect_other c a s : a <> c -> expect c (String a s) = None.
Proof. intros Hne. unfold expect. by rewrite decide_False. Qed.

(** [parse_time] reads what [show_time] writes. *)
Lemma parse_show_time f c :
  f <> DateOnly -> civil_wf f c ->
  parse_time (show_time f c) = Some (hour c, minute c, second c, millis c).
Proof.
  intros Hf [_ _ Hh Hmi Hsec Hms Hshape]. unfold parse_time.
  destruct f; [done| |]; unfold show_time, show_clock; simpl;
    repeat (rewrite digits_show_digits by (pow10; lia); simpl);
    repeat f_equal; lia.
Qed.

(** [parse_iso] reads what [show_civil] writes. *)
Lemma parse_show_civil f c : civil_wf f c -> parse_iso (show_civil f c) = Some c.
Proof.
  intros Hwf. pose proof Hwf as [Hy [Hm Hd] Hh Hmi Hsec Hms Hshape].
  pose proof (days_in_month_le (year c) (month c)).
  assert (civil_ok c = true) as Hok by (apply civil_ok_spec; lia).
  unfold parse_iso, show_civil, show_date.
  repeat (rewrite digits_show_digits by (pow10; lia); simpl).
  replace (0 * 10 ^ Z.of_nat 4 + year c) with (year c) by lia.
  replace (0 * 10 ^ Z.of_nat 2 + month c) with (month c) by lia.
  replace (0 * 10 ^ Z.of_nat 2 + day c) with (day c) by lia.
  destruct f.
  - simpl. destruct Hshape as (Hh0 & Hmi0 & Hsec0 & Hms0).
    destruct c; simpl in *; subst. by rewrite Hok.
  - rewrite decide_False by done. rewrite (parse_show_time Seconds) by done.
    simpl. destruct c; simpl in *. by rewrite Hok.
  - rewrite decide_False by done. rewrite (parse_show_time Millis) by done.
    simpl. destruct c; simpl in *. by rewrite Hok.
Qed.

(** ** The order of the texts *)

Lemma compare_radix b q1 r1 q2 r2 :
  0 <= r1 < b -> 0 <= r2 < b ->
  (q1 * b + r1 ?= q2 * b + r2) = lex (q1 ?= q2) (r1 ?= r2).
Proof.
  intros H1 H2. destruct (Z.compare_spec q1 q2) as [->|Hq|Hq]; simpl.
  - apply Z.add_compare_mono_l.
  - apply Z.compare_lt_iff. nia.
  - apply Z.compare_gt_iff. nia.
Qed.

Lemma lex_assoc c1 c2 c3 : lex (lex c1 c2) c3 = lex c1 (lex c2 c3).
Proof. by destruct c1. Qed.

Lemma civil_millis_split c : civil_millis c = civil_days c * 86400000 + day_millis c.
Proof. unfold civil_millis, civil_seconds, civil_days, day_millis. lia. Qed.

Lemma day_millis_bounds f c : civil_wf f c -> 0 <= day_millis c < 86400000.
Proof. intros [_ _ Hh Hmi Hsec Hms _]. unfold day_millis. lia. Qed.

(** Two dates compare as day numbers, and then by what follows. *)
Lemma compare_show_date y1 m1 d1 r1 y2 m2 d2 r2 :
  0 <= y1 < 10000 -> 0 <= y2 < 10000 -> date_ok y1 m1 d1 -> date_ok y2 m2 d2 ->
  String.compare (show_date y1 m1 d1 r1) (show_date y2 m2 d2 r2) =
  lex (days_from_civil y1 m1 d1 ?= days_from_civil y2 m2 d2) (String.compare r1 r2).
Proof.
  intros Hy1 Hy2 Hd1 Hd2.
  pose proof (days_in_month_le y1 m1). pose proof (days_in_month_le y2 m2).
  rewrite days_from_civil_compare by done.
  destruct Hd1 as [? ?], Hd2 as [? ?]. unfold show_date.
  rewrite compare_show_digits, compare_String_same by (pow10; lia).
  rewrite compare_show_digits, compare_String_same by (pow10; lia).
  rewrite compare_show_digits by (pow10; lia). by rewrite !lex_assoc.
Qed.

(** Two times of day compare as seconds, and then by what follows. *)
Lemma compare_show_clock h1 mi1 s1 r1 h2 mi2 s2 r2 :
  0 <= h1 <= 23 -> 0 <= mi1 <= 59 -> 0 <= s1 <= 59 ->
  0 <= h2 <= 23 -> 0 <= mi2 <= 59 -> 0 <= s2 <= 59 ->
  String.compare (show_clock h1 mi1 s1 r1) (show_clock h2 mi2 s2 r2) =
  lex ((h1 * 60 + mi1) * 60 + s1 ?= (h2 * 60 + mi2) * 60 + s2) (String.compare r1 r2).
Proof.
  intros. unfold show_clock. rewrite !compare_radix by lia.
  rewrite compare_show_digits, compare_String_same by (pow10; lia).
  rewrite compare_show_digits, compare_String_same by (pow10; lia).
  rewrite compare_show_digits by (pow10; lia). by rewrite !lex_assoc.
Qed.

(** Two texts compare by their dates first and then by what follows. *)
Lemma compare_show_civil f1 f2 c1 c2 :
  civil_wf f1 c1 -> civil_wf f2 c2 ->
  String.compare (show_civil f1 c1) (show_civil f2 c2) =
  lex (civil_days c1 ?= civil_days c2)
      (String.compare (show_time f1 c1) (show_time f2 c2)).
Proof. intros [? ? _ _ _ _ _] [? ? _ _ _ _ _]. by apply compare_show_date. Qed.

(** Two times of day written in the same shape compare as times. *)
Lemma compare_show_time f c1 c2 :
  civil_wf f c1 -> civil_wf f c2 ->
  String.compare (show_time f c1) (show_time f c2) = (day_millis c1 ?= day_millis c2).
Proof.
  intros [_ _ Hh1 Hmi1 Hsec1 Hms1 Hs1] [_ _ Hh2 Hmi2 Hsec2 Hms2 Hs2].
  unfold day_millis. rewrite compare_radix by lia.
  destruct f; simpl show_time.
  - destruct Hs1 as (-> & -> & -> & ->), Hs2 as (-> & -> & -> & ->). done.
  - rewrite Hs1, Hs2, compare_String_same, compare_show_clock by done.
    by destruct (_ ?= _).
  - rewrite compare_String_same, compare_show_clock, compare_String_same by done.
    rewrite compare_show_digits by (pow10; lia). simpl String.compare.
    by destruct (_ ?= _), (millis c1 ?= millis c2).
Qed.

Lemma length_show_digits n v rest :
  String.length (show_digits n v rest) = (n + String.length rest)%nat.
Proof.
  revert v rest. induction n as [|n IH]; intros v rest; [done|].
  unfold show_digits; fold show_digits. simpl. by rewrite IH.
Qed.

(** The shape of a text is read off its length. *)
Lemma length_show_civil f c :
  String.length (show_civil f c) =
  match f with
  | DateOnly => 10%nat
  | Seconds => 20%nat
  | Millis => 24%nat
  end.
Proof.
  unfold show_civil, show_date, show_time, show_clock.
  destruct f; repeat first [rewrite length_show_digits | progress cbn [String.length]]; lia.
Qed.

Lemma text_le_compare a b :
  text_le a b = match String.compare a b with Gt => false | _ => true end.
Proof. done. Qed.

Lemma compare_le_bool (x y : Z) :
  match x ?= y with Gt => false | _ => true end = bool_decide (x <= y).
Proof.
  destruct (Z.compare_spec x y); [rewrite bool_decide_eq_true_2| rewrite bool_decide_eq_true_2
    | rewrite bool_decide_eq_false_2]; lia.
Qed.

(** A date alone is the midnight that begins its day. *)
Lemma day_seconds s c :
  parse_iso s = Some c -> String.length s = 10%nat ->
  civil_seconds c = civil_days c * 86400.
Proof.
  intros (f & Hwf & ->)%parse_iso_show. rewrite length_show_civil. intros Hl.
  assert (f = DateOnly) as -> by (by destruct f).
  destruct Hwf as [_ _ _ _ _ _ (Hh & Hmi & Hs & _)].
  unfold civil_seconds, civil_days. rewrite Hh, Hmi, Hs. lia.
Qed.

(** ** Theorems *)

(** Text order is time order.  Two texts of the same shape are in the
    order of their instants. *)
Theorem text_le_same_shape f c1 c2 :
  civil_wf f c1 -> civil_wf f c2 ->
  text_le (show_civil f c1) (show_civil f c2)
  = bool_decide (civil_millis c1 <= civil_millis c2).
Proof.
  intros H1 H2. rewrite text_le_compare, compare_show_civil, compare_show_time by done.
  rewrite <- (compare_radix 86400000) by (by eapply day_millis_bounds).
  by rewrite <- !civil_millis_split, compare_le_bool.
Qed.

(** A date alone is below the timestamps of its day and of the days
    after: it reads as the midnight that starts the day. *)
Theorem date_le_timestamp f d t :
  civil_wf DateOnly d -> civil_wf f t -> f <> DateOnly ->
  text_le (show_civil DateOnly d) (show_civil f t)
  = bool_decide (civil_seconds d <= civil_seconds t).
Proof.
  intros Hd Ht Hf. rewrite text_le_compare, compare_show_civil by done.
  pose proof (day_millis_bounds _ _ Ht) as Hb. destruct Hd as [_ _ _ _ _ _ (Hh & Hmi & Hs & _)].
  destruct Ht as [_ _ ? ? ? ? _].
  assert (String.compare (show_time DateOnly d) (show_time f t) = Lt) as ->
    by (by destruct f).
  unfold civil_seconds. fold (civil_days d) (civil_days t). rewrite Hh, Hmi, Hs.
  destruct (Z.compare_spec (civil_days d) (civil_days t)); simpl;
    [rewrite bool_decide_eq_true_2 | rewrite bool_decide_eq_true_2
    | rewrite bool_decide_eq_false_2]; lia.
Qed.

(** A timestamp is below a date alone when its day is before that date:
    the timestamps of the day itself are above it. *)
Theorem timestamp_le_date f d t :
  civil_wf DateOnly d -> civil_wf f t -> f <> DateOnly ->
  text_le (show_civil f t) (show_civil DateOnly d)
  = bool_decide (civil_seconds t < civil_seconds d).
Proof.
  intros Hd Ht Hf. rewrite text_le_compare, compare_show_civil by done.
  destruct Hd as [_ _ _ _ _ _ (Hh & Hmi & Hs & _)]. destruct Ht as [_ _ ? ? ? ? _].
  assert (String.compare (show_time f t) (show_time DateOnly d) = Gt) as ->
    by (by destruct f).
  unfold civil_seconds. fold (civil_days d) (civil_days t). rewrite Hh, Hmi, Hs.
  destruct (Z.compare_spec (civil_days t) (civil_days d)); simpl;
    [rewrite bool_decide_eq_false_2 | rewrite bool_decide_eq_true_2
    | rewrite bool_decide_eq_false_2]; lia.
Qed.

(** The texts [datetime] returns are in the order of the instants. *)
Theorem datetime_order z1 z2 :
  sql_range z1 -> sql_range z2 ->
  text_le (datetime_text z1) (datetime_text z2) = bool_decide (z1 <= z2).
Proof.
  intros [Hy1 Hd1 Hh1 Hmi1 Hs1 _ _]%civil_of_seconds_wf
         [Hy2 Hd2 Hh2 Hmi2 Hs2 _ _]%civil_of_seconds_wf.
  pose proof (civil_seconds_of_seconds z1) as E1.
  pose proof (civil_seconds_of_seconds z2) as E2.
  unfold datetime_text. cbv zeta.
  set (c1 := civil_of_seconds z1) in *. set (c2 := civil_of_seconds z2) in *.
  clearbody c1 c2. rewrite <- E1, <- E2. clear E1 E2.
  rewrite text_le_compare, compare_show_date by done.
  rewrite compare_String_same, compare_show_clock by done. simpl String.compare.
  rewrite <- compare_le_bool. unfold civil_seconds.
  replace (_ * 86400 + hour c1 * 3600 + minute c1 * 60 + second c1)
    with (days_from_civil (year c1) (month c1) (day c1) * 86400
          + ((hour c1 * 60 + minute c1) * 60 + second c1)) by lia.
  replace (_ * 86400 + hour c2 * 3600 + minute c2 * 60 + second c2)
    with (days_from_civil (year c2) (month c2) (day c2) * 86400
          + ((hour c2 * 60 + minute c2) * 60 + second c2)) by lia.
  rewrite (compare_radix 86400) by lia.
  by destruct (_ ?= _), (_ ?= _).
Qed.

(** The same three facts for the texts [parse_iso] accepts. *)
Theorem text_order_is_time_order s1 s2 c1 c2 :
  parse_iso s1 = Some c1 -> parse_iso s2 = Some c2 ->
  String.length s1 = String.length s2 ->
  text_le s1 s2 = bool_decide (civil_millis c1 <= civil_millis c2).
Proof.
  intros (f1 & H1 & ->)%parse_iso_show (f2 & H2 & ->)%parse_iso_show.
  rewrite !length_show_civil. intros Hlen.
  assert (f1 = f2) as -> by (by destruct f1, f2). by apply text_le_same_shape.
Qed.

Theorem date_bound_is_midnight d t cd ct :
  parse_iso d = Some cd -> parse_iso t = Some ct ->
  String.length d = 10%nat -> String.length t <> 10%nat ->
  text_le d t = bool_decide (civil_seconds cd <= civil_seconds ct) /\
  text_le t d = bool_decide (civil_seconds ct < civil_seconds cd).
Proof.
  intros (f1 & H1 & ->)%parse_iso_show (f2 & H2 & ->)%parse_iso_show.
  rewrite !length_show_civil. intros Hl1 Hl2.
  assert (f1 = DateOnly) as -> by (by destruct f1).
  assert (f2 <> DateOnly) by (by destruct f2).
  split; [by apply date_le_timestamp | by apply timestamp_le_date].
Qed.

Lemma text_order_is_time_order_witness :
  text_le "2025-03-31T23:59:59.999Z" "2025-04-01T00:00:00.000Z"
  = bool_decide (1743465599999 <= 1743465600000).
Proof.
  apply (text_order_is_time_order "2025-03-31T23:59:59.999Z" "2025-04-01T00:00:00.000Z"
           {| year := 2025; month := 3; day := 31; hour := 23; minute := 59;
              second := 59; millis := 999 |}
           {| year := 2025; month := 4; day := 1; hour := 0; minute := 0;
              second := 0; millis := 0 |}); reflexivity.
Defined.

Lemma date_bound_is_midnight_witness :
  text_le "2025-04-30" "2025-04-30T08:00:00.000Z" = bool_decide (1745971200 <= 1746000000) /\
  text_le "2025-04-30T08:00:00.000Z" "2025-04-30" = bool_decide (1746000000 < 1745971200).
Proof.
  apply (date_bound_is_midnight "2025-04-30" "2025-04-30T08:00:00.000Z"
           {| year := 2025; month := 4; day := 30; hour := 0; minute := 0;
              second := 0; millis := 0 |}
           {| year := 2025; month := 4; day := 30; hour := 8; minute := 0;
              second := 0; millis := 0 |}); (reflexivity || discriminate).
Defined.

Lemma datetime_order_witness :
  text_le (datetime_text 1743501600) (datetime_text 1743526800)
  = bool_decide (1743501600 <= 1743526800).
Proof. apply datetime_order; unfold sql_range; lia. Defined.
