(* ===== verification/Remote.v ===== *)
(** * Remote: the GitLab API and the console as the program sees them

    The JSON objects the program reads (only the fields it reads), a response
    with its pagination headers, the remote as a record of oracles (what each
    request answers, [None] when the request throws), and what the program
    does to the outside: the log of the requests issued and of the lines
    written to the console so far ([Event]), with its two readings
    [requests_of] and [console_of].  [api_get] is the one primitive that
    talks to the remote and [console_log] the one that writes a line;
    [getGroupId] and [listRepositories] are the two unpaginated calls of
    [src/src/index.ts].

    The remote answers a request by what the request asks, not by what was
    asked before: a program built from [api_get] and [console_log] is
    [oblivious], it returns the same whatever the log holds and adds its
    events to it.

    Every request has the time-out of the [ky] instance but the one for a
    page of merge requests, sent with [timeout: false]: its answer is
    [Awaited], and [api_get_no_timeout] waits for ever when it stays
    [Pending].  Remotes are compared by their answers ([≡]); [Transport]
    builds the remote the program sees of a server. *)

From stdpp Require Import pretty.
From S2P Require Import Prelude JsModel.

#[local] Open Scope Z_scope.

(** ** Data *)

Record Group : Type := {
  g_id : Z;
  g_name : string;
  g_path : string;
}.

Record Project : Type := {
  p_id : Z;
  p_name : string;
  p_path_with_namespace : string;
  p_created_at : string;
}.

Record Author : Type := {
  user_id : Z;
  username : string;
}.

(** A merge request of the API: [mr.id], [mr.iid], ..., [mr.merged_at]. *)
Record RemoteMR : Type := {
  mr_id : Z;
  mr_iid : Z;
  mr_title : string;
  mr_created_at : string;
  mr_updated_at : string;
  mr_state : string;
  mr_author : Author;
  mr_merged_at : option string;
}.

Record Note : Type := {
  note_created_at : string;
  note_system : bool;
}.

Record ApprovalEvent : Type := {
  event_created_at : string;
}.

#[export] Instance Group_eq_dec : EqDecision Group.
Proof. solve_decision. Defined.
#[export] Instance Project_eq_dec : EqDecision Project.
Proof. solve_decision. Defined.
#[export] Instance Author_eq_dec : EqDecision Author.
Proof. solve_decision. Defined.
#[export] Instance RemoteMR_eq_dec : EqDecision RemoteMR.
Proof. solve_decision. Defined.
#[export] Instance Note_eq_dec : EqDecision Note.
Proof. solve_decision. Defined.
#[export] Instance ApprovalEvent_eq_dec : EqDecision ApprovalEvent.
Proof. solve_decision. Defined.

(** A response: its body ([None] when [response.json()] rejects) and the
    numeric reading of the pagination headers ([None] when
    [response.headers.get] returns [null], otherwise what [Number] makes of
    the text). *)
Record Response (A : Type) : Type := {
  body : option (list A);
  x_total_pages : option number;
  x_page : option number;
  x_total : option number;
}.

Arguments body {A} _.
Arguments x_total_pages {A} _.
Arguments x_page {A} _.
Arguments x_total {A} _.

(** The requests the program issues. *)
Inductive Request : Type :=
| GetGroups (search : string)
| GetGroupProjects (groupId : Z)
| GetMergeRequests (projectId page : Z)
| GetNotes (projectId mrIid page : Z)
| GetApprovalEvents (projectId mrIid : Z).

#[export] Instance Request_eq_dec : EqDecision Request.
Proof. solve_decision. Defined.

(** What awaiting a request that has no time-out comes to: it settles,
    with an answer or with a failure, or nothing ever arrives. *)
Inductive Awaited (A : Type) : Type :=
| Settled (answer : option A)
| Pending.

Arguments Settled {A} _.
Arguments Pending {A}.

(** The remote: what each request answers, [None] when [ky] throws.  The
    request for a page of merge requests is the one issued with
    [timeout: false]: it can stay pending. *)
Record Remote : Type := {
  listGroups : string -> option (list Group);
  listProjects : Z -> option (list Project);
  listMergeRequests : Z -> Z -> Awaited (Response RemoteMR);
  listNotes : Z -> Z -> Z -> option (Response Note);
  listApprovalEvents : Z -> Z -> option (list ApprovalEvent);
}.

(** What the program does to the outside, oldest first: the requests it
    issues and the lines it writes to the console. *)
Inductive Event : Type :=
| Requested (rq : Request)
| Logged (line : string).

#[export] Instance Event_eq_dec : EqDecision Event.
Proof. solve_decision. Defined.

Abbreviation Net := (list Event).

(** The requests of a log, and the lines a terminal shows of it. *)
Definition requests_of (log : Net) : list Request :=
  omap (fun e => match e with Requested rq => Some rq | Logged _ => None end) log.

Definition console_of (log : Net) : list string :=
  omap (fun e => match e with Logged line => Some line | Requested _ => None end) log.

(** A number in a template literal. *)
Definition number_text (v : number) : string :=
  match v with
  | NaN => "NaN"
  | Num z => pretty z
  end.

(** ** Primitives *)

(** [console.log(line)]. *)
Definition console_log (line : string) : prog Net exn unit :=
  fun log => Ret tt (log ++ [Logged line]).

(** [console.error(text, err)]: the line starts with [text]; what Node
    prints of the error object after it is left out. *)
Definition console_error (text : string) (err : exn) : prog Net exn unit :=
  console_log text.

(** [await api.get(url)]: the request is logged, then answers or throws. *)
Definition api_get {A} (rq : Request) (answer : option A) : prog Net exn A :=
  fun log =>
    match answer with
    | Some a => Ret a (log ++ [Requested rq])
    | None => Throw HTTPError (log ++ [Requested rq])
    end.

(** [await api.get(url, { timeout: false })]: as [api_get], but a request
    that stays pending is awaited for ever. *)
Definition api_get_no_timeout {A} (rq : Request) (a : Awaited A) : prog Net exn A :=
  match a with
  | Settled answer => api_get rq answer
  | Pending => diverge
  end.

(** [await response.json()]. *)
Definition json {S A} (b : option A) : prog S exn A :=
  match b with
  | Some a => ret a
  | None => throw SyntaxError
  end.

(** [Number(response.headers.get(h) || '0')]. *)
Definition header_or_zero (h : option number) : number := default (Num 0) h.

(** [Number(response.headers.get(h)) || 1]: [Number(null)] is [0]. *)
Definition header_or_one (h : option number) : number :=
  number_or (default (Num 0) h) (Num 1).

(** ** The unpaginated calls *)

Section Calls.
Variable r : Remote.

(** [src/src/index.ts], [getGroupId]. *)
Definition getGroupId (groupName : string) : prog Net exn (option Z) :=
  try_catch
    (gs <- api_get (GetGroups groupName) (listGroups r groupName) ;;
     let group :=
       List.find (fun g => bool_decide (g_name g = groupName)
                           || bool_decide (g_path g = groupName)) gs in
     ret (g_id <$> group))
    (fun err => console_error "Failed to fetch group:" err ;; ret None).

(** [src/src/index.ts], [listRepositories]. *)
Definition listRepositories (groupId : Z) : prog Net exn (list Project) :=
  try_catch
    (api_get (GetGroupProjects groupId) (listProjects r groupId))
    (fun err => console_error "Failed to fetch repositories:" err ;; ret []).

End Calls.

(** ** Programs that do not read the log *)

(** The outcome [o] with the requests of [log] issued before its own. *)
Definition after_log {A} (log : Net) (o : outcome Net exn A) : outcome Net exn A :=
  match o with
  | Ret a l => Ret a (log ++ l)
  | Throw e l => Throw e (log ++ l)
  | OutOfFuel => OutOfFuel
  end.

(** A program that answers the same whatever was requested before, and
    adds its requests to the log. *)
Definition oblivious {A} (c : prog Net exn A) : Prop :=
  forall log, c log = after_log log (c []).

Create HintDb oblivious discriminated.

(** Two remotes answer alike when they answer every request the same. *)
#[export] Instance remote_equiv : Equiv Remote := fun r1 r2 =>
  (forall search, listGroups r1 search = listGroups r2 search) /\
  (forall groupId, listProjects r1 groupId = listProjects r2 groupId) /\
  (forall projectId page,
     listMergeRequests r1 projectId page = listMergeRequests r2 projectId page) /\
  (forall projectId mrIid page,
     listNotes r1 projectId mrIid page = listNotes r2 projectId mrIid page) /\
  (forall projectId mrIid,
     listApprovalEvents r1 projectId mrIid = listApprovalEvents r2 projectId mrIid).

(** The remote every request to which fails. *)
Definition unreachable : Remote :=
  {| listGroups := fun _ => None;
     listProjects := fun _ => None;
     listMergeRequests := fun _ _ => Settled None;
     listNotes := fun _ _ _ => None;
     listApprovalEvents := fun _ _ => None |}.

(** ** Facts *)

Lemma requests_of_app l1 l2 : requests_of (l1 ++ l2) = requests_of l1 ++ requests_of l2.
Proof. apply omap_app. Qed.

Lemma console_of_app l1 l2 : console_of (l1 ++ l2) = console_of l1 ++ console_of l2.
Proof. apply omap_app. Qed.

Lemma requests_of_Requested rqs : requests_of (Requested <$> rqs) = rqs.
Proof. induction rqs; simpl; by f_equal. Qed.

Lemma console_of_Requested rqs : console_of (Requested <$> rqs) = [].
Proof. by induction rqs. Qed.

Lemma requests_of_Logged lines : requests_of (Logged <$> lines) = [].
Proof. by induction lines. Qed.

Lemma console_of_Logged lines : console_of (Logged <$> lines) = lines.
Proof. induction lines; simpl; by f_equal. Qed.

Lemma last_console_snoc l line : last (console_of (l ++ [Logged line])) = Some line.
Proof. rewrite console_of_app. apply last_snoc. Qed.

Create Rewrite HintDb events.

#[export] Hint Rewrite requests_of_app console_of_app requests_of_Requested
  console_of_Requested requests_of_Logged console_of_Logged : events.

Lemma api_get_log {A} rq (answer : option A) log :
  final_state (api_get rq answer log) = Some (log ++ [Requested rq]).
Proof. unfold api_get. by destruct answer. Qed.

Lemma halts_api_get {A} rq (answer : option A) : halts (api_get rq answer).
Proof. intros log. unfold api_get. by destruct answer. Qed.

Lemma halts_console_log line : halts (console_log line).
Proof. done. Qed.

Lemma halts_console_error text err : halts (console_error text err).
Proof. done. Qed.

Lemma halts_json {S A} (b : option A) : halts (json b : prog S exn A).
Proof. destruct b; simpl; auto with halts. Qed.

#[export] Hint Resolve halts_api_get halts_console_log halts_console_error halts_json : halts.

Lemma header_or_one_positive h : header_or_one h <> Num 0.
Proof.
  unfold header_or_one, number_or. destruct h as [[|z]|]; simpl; try done.
  all: case_decide; congruence.
Qed.

Lemma header_or_one_nonzero z : z <> 0 -> header_or_one (Some (Num z)) = Num z.
Proof. intros Hz. unfold header_or_one, number_or. simpl. by rewrite decide_False. Qed.

Lemma header_or_one_absent : header_or_one None = Num 1.
Proof. done. Qed.

Lemma after_log_app {A} log l (o : outcome Net exn A) :
  after_log log (after_log l o) = after_log (log ++ l) o.
Proof. destruct o; simpl; by rewrite ?app_assoc. Qed.

Lemma oblivious_ret {A} (a : A) : oblivious (ret a).
Proof. intros log. unfold ret. simpl. by rewrite app_nil_r. Qed.

Lemma oblivious_throw {A} (e : exn) : oblivious (throw e : prog Net exn A).
Proof. intros log. unfold throw. simpl. by rewrite app_nil_r. Qed.

Lemma oblivious_diverge {A} : oblivious (diverge : prog Net exn A).
Proof. done. Qed.

Lemma oblivious_api_get {A} rq (answer : option A) : oblivious (api_get rq answer).
Proof. intros log. unfold api_get. by destruct answer. Qed.

Lemma oblivious_api_get_no_timeout {A} rq (a : Awaited A) :
  oblivious (api_get_no_timeout rq a).
Proof. destruct a; first [apply oblivious_api_get | apply oblivious_diverge]. Qed.

Lemma oblivious_console_log line : oblivious (console_log line).
Proof. done. Qed.

Lemma oblivious_console_error text err : oblivious (console_error text err).
Proof. done. Qed.

Lemma oblivious_json {A} (b : option A) : oblivious (json b).
Proof. destruct b; [apply oblivious_ret | apply oblivious_throw]. Qed.

Lemma oblivious_bind {A B} (c : prog Net exn A) (k : A -> prog Net exn B) :
  oblivious c -> (forall a, oblivious (k a)) -> oblivious (bind c k).
Proof.
  intros Hc Hk log. unfold bind. rewrite (Hc log).
  destruct (c []) as [a l|e l|]; simpl; [|done..].
  by rewrite (Hk a (log ++ l)), (Hk a l), after_log_app.
Qed.

Lemma oblivious_try_catch {A} (c : prog Net exn A) (h : exn -> prog Net exn A) :
  oblivious c -> (forall e, oblivious (h e)) -> oblivious (try_catch c h).
Proof.
  intros Hc Hh log. unfold try_catch. rewrite (Hc log).
  destruct (c []) as [a l|e l|]; simpl; [done| |done].
  by rewrite (Hh e (log ++ l)), (Hh e l), after_log_app.
Qed.

Lemma oblivious_if {A} (b : bool) (c1 c2 : prog Net exn A) :
  oblivious c1 -> oblivious c2 -> oblivious (if b then c1 else c2).
Proof. by destruct b. Qed.

Lemma oblivious_decide {A} P `{!Decision P} (c1 c2 : prog Net exn A) :
  oblivious c1 -> oblivious c2 -> oblivious (if decide P then c1 else c2).
Proof. by destruct (decide P). Qed.

#[export] Hint Resolve oblivious_ret oblivious_throw oblivious_diverge oblivious_api_get
  oblivious_api_get_no_timeout oblivious_console_log oblivious_console_error
  oblivious_json oblivious_bind oblivious_try_catch
  oblivious_if oblivious_decide
  : oblivious.

(** What an oblivious program returns is what it returns on the empty
    log. *)
Lemma oblivious_returned {A} (c : prog Net exn A) log :
  oblivious c -> returned (c log) = returned (c []).
Proof. intros Hc. rewrite (Hc log). by destruct (c []). Qed.

(** An oblivious program at any log, from what it does on the empty
    one. *)
Lemma oblivious_at {A} (c : prog Net exn A) log a l :
  oblivious c -> c [] = Ret a l -> c log = Ret a (log ++ l).
Proof. intros Hc Hl. by rewrite (Hc log), Hl. Qed.

(** What an oblivious program adds to the log is what it adds to the
    empty log. *)
Lemma oblivious_Ret_inv {A} (c : prog Net exn A) log a log' :
  oblivious c -> c log = Ret a log' -> exists l, c [] = Ret a l /\ log' = log ++ l.
Proof.
  intros Hc. rewrite (Hc log). destruct (c []) as [a0 l| |]; simpl; [|done..].
  intros [= <- <-]. by exists l.
Qed.

#[export] Instance remote_equivalence : Equivalence (≡@{Remote}).
Proof.
  split.
  - by intros r.
  - intros r1 r2 (H1 & H2 & H3 & H4 & H5). by repeat split.
  - intros r1 r2 r3 (H1 & H2 & H3 & H4 & H5) (K1 & K2 & K3 & K4 & K5).
    repeat split; intros; etrans; eauto.
Qed.

(** The calls see a remote through its answers only. *)
#[export] Instance getGroupId_proper : Proper ((≡) ==> (=) ==> (≡)) getGroupId.
Proof. intros r1 r2 (H1 & _) name _ <- log. unfold getGroupId. by rewrite H1. Qed.

#[export] Instance listRepositories_proper : Proper ((≡) ==> (=) ==> (≡)) listRepositories.
Proof. intros r1 r2 (_ & H2 & _) gid _ <- log. unfold listRepositories. by rewrite H2. Qed.

Lemma getGroupId_equiv r1 r2 name : r1 ≡ r2 -> getGroupId r1 name ≡ getGroupId r2 name.
Proof. intros Hr. by apply getGroupId_proper. Qed.

Lemma listRepositories_equiv r1 r2 groupId :
  r1 ≡ r2 -> listRepositories r1 groupId ≡ listRepositories r2 groupId.
Proof. intros Hr. by apply listRepositories_proper. Qed.

#[export] Hint Resolve getGroupId_equiv listRepositories_equiv : prog_proper.

Section CallFacts.
Variable r : Remote.

(** The search is one request; a failed one leaves a line on the
    console. *)
Lemma getGroupId_returns name log :
  exists res l, getGroupId r name log = Ret res (log ++ Requested (GetGroups name) :: l) /\
    requests_of l = [] /\
    (console_of l = [] \/ res = None /\ console_of l = ["Failed to fetch group:"]).
Proof.
  unfold getGroupId, try_catch, bind, api_get, console_error, console_log.
  destruct (listGroups r name); simpl.
  - by eexists _, []; auto.
  - eexists _, [_]. rewrite <- app_assoc. simpl. auto.
Qed.

(** The group found.  When [getGroupId] returns an id, it is the id of
    the first group, in the order of the answer, whose name or path is
    exactly the searched name; the groups before it match on neither. *)
Theorem getGroupId_found name log gid log' :
  getGroupId r name log = Ret (Some gid) log' ->
  exists gs1 g gs2, listGroups r name = Some (gs1 ++ g :: gs2) /\ g_id g = gid /\
    (g_name g = name \/ g_path g = name) /\
    Forall (fun g' => g_name g' <> name /\ g_path g' <> name) gs1.
Proof.
  unfold getGroupId, try_catch, bind, api_get.
  destruct (listGroups r name) as [gs|]; simpl; [|done].
  intros [= Hfind _]. clear log log'. induction gs as [|g gs IH]; simpl in *; [done|].
  destruct (bool_decide (g_name g = name) || bool_decide (g_path g = name)) eqn:Hg.
  - simpl in Hfind. injection Hfind as <-. exists [], g, gs. repeat split; [|done].
    apply orb_true_iff in Hg as [?%bool_decide_eq_true|?%bool_decide_eq_true]; auto.
  - destruct (IH Hfind) as (gs1 & g' & gs2 & [= ->] & ? & ? & ?).
    exists (g :: gs1), g', gs2. repeat split; try done. constructor; [|done].
    apply orb_false_iff in Hg as [?%bool_decide_eq_false ?%bool_decide_eq_false]. done.
Qed.

(** When the search fails, whatever the reason, no group is found. *)
Lemma getGroupId_failure name log :
  listGroups r name = None ->
  getGroupId r name log =
  Ret None (log ++ [Requested (GetGroups name); Logged "Failed to fetch group:"]).
Proof.
  intros H. unfold getGroupId, try_catch, bind, api_get. rewrite H. simpl.
  by rewrite <- app_assoc.
Qed.

Lemma getGroupId_success name gs log :
  listGroups r name = Some gs ->
  exists res, getGroupId r name log = Ret res (log ++ [Requested (GetGroups name)]).
Proof. intros H. unfold getGroupId, try_catch, bind, api_get. rewrite H. by eexists. Qed.

Lemma halts_getGroupId name : halts (getGroupId r name).
Proof. unfold getGroupId. auto with halts. Qed.

Lemma halts_listRepositories gid : halts (listRepositories r gid).
Proof. unfold listRepositories. auto with halts. Qed.

Lemma listRepositories_failure gid log :
  listProjects r gid = None ->
  listRepositories r gid log =
  Ret [] (log ++ [Requested (GetGroupProjects gid); Logged "Failed to fetch repositories:"]).
Proof.
  intros H. unfold listRepositories, try_catch, bind, api_get. rewrite H. simpl.
  by rewrite <- app_assoc.
Qed.

Lemma listRepositories_success gid ps log :
  listProjects r gid = Some ps ->
  listRepositories r gid log = Ret ps (log ++ [Requested (GetGroupProjects gid)]).
Proof. intros H. unfold listRepositories, try_catch, api_get. by rewrite H. Qed.

End CallFacts.

Lemma oblivious_getGroupId r name : oblivious (getGroupId r name).
Proof. unfold getGroupId. auto 10 with oblivious. Qed.

Lemma oblivious_listRepositories r gid : oblivious (listRepositories r gid).
Proof. unfold listRepositories. auto 10 with oblivious. Qed.

#[export] Hint Resolve halts_getGroupId halts_listRepositories : halts.
#[export] Hint Resolve oblivious_getGroupId oblivious_listRepositories : oblivious.

(** ** Examples *)

(** A search that answers two groups, the second of which has the searched
    path. *)
Definition sample_groups : list Group :=
  [ {| g_id := 5; g_name := "Murid (archive)"; g_path := "murid-archive" |};
    {| g_id := 9; g_name := "Murid"; g_path := "murid" |} ].

Definition groups_remote : Remote :=
  {| listGroups := fun _ => Some sample_groups;
     listProjects := fun _ => None;
     listMergeRequests := fun _ _ => Settled None;
     listNotes := fun _ _ _ => None;
     listApprovalEvents := fun _ _ => None |}.

Lemma getGroupId_found_witness :
  exists gs1 g gs2, listGroups groups_remote "murid" = Some (gs1 ++ g :: gs2) /\
    g_id g = 9 /\ (g_name g = "murid" \/ g_path g = "murid") /\
    Forall (fun g' => g_name g' <> "murid" /\ g_path g' <> "murid") gs1.
Proof.
  apply (getGroupId_found groups_remote "murid" [] 9 [Requested (GetGroups "murid")]).
  reflexivity.
Defined.
