(* ===== verification/Transport.v ===== *)
(** * Transport: the requests on the wire

    What [api.get] of [src/src/index.ts] puts on the wire for each request
    the program issues: the URL built from [GITLAB_API_URL], the search
    parameters, and the options of the [ky] instance (the header that
    carries the token, the time-out, the number of retries), with
    [timeout: false] on the request for a page of merge requests.

    [ky_get] is the behaviour of [ky] the program relies on: a request is
    attempted again after a network failure or a response with one of the
    retried statuses, at most [retry] times; a response with another status
    fails the request at once; an attempt that gets nothing fails the
    request when it has a time-out and is awaited for ever when it has none.
    A [Server] says what each attempt of a request on the wire gets, and
    [served] is the remote the program sees through [ky].

    The other side is modelled as far as the theorems need it: [route]
    recognises the requests of the program from what is on the wire,
    [hosted] is a server that checks the token, routes the request and
    answers as a given remote, [outage] one that is unreachable for the
    first attempts.  The delays between attempts, the [Retry-After] header
    and the encoding of the search parameters into the query string are not
    modelled. *)

From S2P Require Import Prelude JsModel TimeModel Remote.
From stdpp Require Import pretty.
From Stdlib Require Import Ascii.

#[local] Open Scope Z_scope.

(** ** The client *)

Definition GITLAB_API_URL : string := "https://gitlab.com/api/v4".

(** The options of a [ky] instance or of a call, as far as the program
    sets them; [timeout] is in milliseconds and [None] is [false]. *)
Record Options : Type := {
  headers : list (string * string);
  timeout : option Z;
  retry : nat;
}.

(** A request as it leaves the program. *)
Record Wire : Type := {
  url : string;
  searchParams : list (string * string);
  options : Options;
}.

#[export] Instance Options_eq_dec : EqDecision Options.
Proof. solve_decision. Defined.
#[export] Instance Wire_eq_dec : EqDecision Wire.
Proof. solve_decision. Defined.

Definition set_timeout (t : option Z) (o : Options) : Options :=
  {| headers := headers o; timeout := t; retry := retry o |}.

Section Client.
Variable GITLAB_TOKEN : string.

(** [ky.extend({ headers: { 'PRIVATE-TOKEN': GITLAB_TOKEN }, timeout: 30000,
    retry: 2 })]. *)
Definition api : Options :=
  {| headers := [("PRIVATE-TOKEN", GITLAB_TOKEN)]; timeout := Some 30000; retry := 2 |}.

(** The request of [getGroupId]. *)
Definition get_groups (groupName : string) : Wire :=
  {| url := GITLAB_API_URL +:+ "/groups";
     searchParams := [("search", groupName)];
     options := api |}.

(** The request of [listRepositories]. *)
Definition get_group_projects (groupId : Z) : Wire :=
  {| url := GITLAB_API_URL +:+ "/groups/" +:+ pretty groupId +:+ "/projects";
     searchParams := [];
     options := api |}.

(** The request of [fetchMergeRequests] for one page. *)
Definition get_merge_requests (projectId page : Z) : Wire :=
  {| url := GITLAB_API_URL +:+ "/projects/" +:+ pretty projectId +:+ "/merge_requests";
     searchParams := [("state", "all"); ("per_page", "100"); ("page", pretty page)];
     options := set_timeout None api |}.

(** The request of [fetchMergeRequestDetails] for one page of notes. *)
Definition get_notes (projectId mrIid page : Z) : Wire :=
  {| url := GITLAB_API_URL +:+ "/projects/" +:+ pretty projectId +:+ "/merge_requests/"
            +:+ pretty mrIid +:+ "/notes";
     searchParams := [("per_page", "100"); ("page", pretty page)];
     options := api |}.

(** The request of [fetchMergeRequestDetails] for the approval events. *)
Definition get_approval_events (projectId mrIid : Z) : Wire :=
  {| url := GITLAB_API_URL +:+ "/projects/" +:+ pretty projectId +:+ "/merge_requests/"
            +:+ pretty mrIid +:+ "/resource_approval_events";
     searchParams := [];
     options := api |}.

(** What [api.get] sends for a request of the log. *)
Definition wire_of (rq : Request) : Wire :=
  match rq with
  | GetGroups search => get_groups search
  | GetGroupProjects groupId => get_group_projects groupId
  | GetMergeRequests projectId page => get_merge_requests projectId page
  | GetNotes projectId mrIid page => get_notes projectId mrIid page
  | GetApprovalEvents projectId mrIid => get_approval_events projectId mrIid
  end.

End Client.

(** ** ky *)

(** What one attempt of a request gets: a response with a status in the
    range 200-299 and its content, a response with another status, no
    response because the network failed, or nothing at all. *)
Inductive Reply (A : Type) : Type :=
| Success (content : A)
| Failure (status : Z)
| NetworkFailure
| Unanswered.

Arguments Success {A} _.
Arguments Failure {A} _.
Arguments NetworkFailure {A}.
Arguments Unanswered {A}.

(** The statuses after which [ky] tries again. *)
Definition retry_statusCodes : list Z := [408; 413; 429; 500; 502; 503; 504].

(** The attempts of a request from attempt [n] on, with [retries] retries
    left: what awaiting the request comes to, and how many attempts were
    made. *)
Fixpoint ky_attempts {A} (timed : bool) (reply : nat -> Reply A) (retries n : nat)
    : Awaited A * nat :=
  match reply n with
  | Success a => (Settled (Some a), S n)
  | Failure status =>
      match retries with
      | S retries' =>
          if bool_decide (status ∈ retry_statusCodes)
          then ky_attempts timed reply retries' (S n)
          else (Settled None, S n)
      | O => (Settled None, S n)
      end
  | NetworkFailure =>
      match retries with
      | S retries' => ky_attempts timed reply retries' (S n)
      | O => (Settled None, S n)
      end
  | Unanswered => (if timed then Settled None else Pending, S n)
  end.

Definition ky_get {A} (o : Options) (reply : nat -> Reply A) : Awaited A * nat :=
  ky_attempts (bool_decide (is_Some (timeout o))) reply (retry o) 0%nat.

(** ** The server and the remote seen through ky *)

(** What the [n]-th attempt of a request gets, for each kind of
    collection. *)
Record Server : Type := {
  sv_groups : Wire -> nat -> Reply (Response Group);
  sv_projects : Wire -> nat -> Reply (Response Project);
  sv_merge_requests : Wire -> nat -> Reply (Response RemoteMR);
  sv_notes : Wire -> nat -> Reply (Response Note);
  sv_approval_events : Wire -> nat -> Reply (Response ApprovalEvent);
}.

(** Awaiting the request [w]. *)
Definition exchange {A} (reply : Wire -> nat -> Reply A) (w : Wire) : Awaited A :=
  (ky_get (options w) (reply w)).1.

(** The attempts the request [w] takes. *)
Definition attempts {A} (reply : Wire -> nat -> Reply A) (w : Wire) : nat :=
  (ky_get (options w) (reply w)).2.

(** The answer of a request that has a time-out. *)
Definition in_time {A} (a : Awaited A) : option A :=
  match a with
  | Settled answer => answer
  | Pending => None
  end.

Section Served.
Variable GITLAB_TOKEN : string.
Variable srv : Server.

(** The remote the program sees: each request is rendered, sent through
    [ky], and, where the program chains [.json()] to the request, parsed. *)
Definition served : Remote :=
  {| listGroups := fun search =>
       in_time (exchange (sv_groups srv) (get_groups GITLAB_TOKEN search)) ≫= body;
     listProjects := fun groupId =>
       in_time (exchange (sv_projects srv) (get_group_projects GITLAB_TOKEN groupId))
         ≫= body;
     listMergeRequests := fun projectId page =>
       exchange (sv_merge_requests srv) (get_merge_requests GITLAB_TOKEN projectId page);
     listNotes := fun projectId mrIid page =>
       in_time (exchange (sv_notes srv) (get_notes GITLAB_TOKEN projectId mrIid page));
     listApprovalEvents := fun projectId mrIid =>
       in_time (exchange (sv_approval_events srv)
                  (get_approval_events GITLAB_TOKEN projectId mrIid)) ≫= body |}.

(** The attempts on the wire behind a request of the log. *)
Definition attempts_of (rq : Request) : nat :=
  let w := wire_of GITLAB_TOKEN rq in
  match rq with
  | GetGroups _ => attempts (sv_groups srv) w
  | GetGroupProjects _ => attempts (sv_projects srv) w
  | GetMergeRequests _ _ => attempts (sv_merge_requests srv) w
  | GetNotes _ _ _ => attempts (sv_notes srv) w
  | GetApprovalEvents _ _ => attempts (sv_approval_events srv) w
  end.

(** What went over the wire for a sequence of requests, attempt by
    attempt. *)
Definition traffic (log : list Request) : list Wire :=
  rq ← log; replicate (attempts_of rq) (wire_of GITLAB_TOKEN rq).

End Served.

(** ** The other side *)

(** A run of decimal digits after [acc]. *)
Fixpoint decimal (acc : Z) (s : string) : option Z :=
  match s with
  | EmptyString => Some acc
  | String a s' => d ← digit_of a; decimal (10 * acc + d) s'
  end.

(** An id or a page number as it is written in a path or a parameter:
    decimal digits, after a minus sign for a negative number. *)
Definition parse_Z (s : string) : option Z :=
  match s with
  | EmptyString => None
  | String a s' =>
      if bool_decide (a = "-"%char) then
        match s' with
        | EmptyString => None
        | String _ _ => Z.opp <$> decimal 0 s'
        end
      else decimal 0 s
  end.

(** The text after the prefix [p]. *)
Fixpoint strip_prefix (p s : string) : option string :=
  match p, s with
  | EmptyString, _ => Some s
  | String a p', String b s' => if bool_decide (a = b) then strip_prefix p' s' else None
  | String _ _, EmptyString => None
  end.

(** The texts between the slashes of a path. *)
Fixpoint split_path (s : string) : list string :=
  match s with
  | EmptyString => [EmptyString]
  | String a s' =>
      if bool_decide (a = "/"%char) then EmptyString :: split_path s'
      else match split_path s' with
           | seg :: rest => String a seg :: rest
           | [] => [String a EmptyString]
           end
  end.

(** The value given to [name] among search parameters or headers. *)
Definition param (name : string) (ps : list (string * string)) : option string :=
  snd <$> List.find (fun p => bool_decide (p.1 = name)) ps.

(** A page of 100: [per_page=100] and a page number. *)
Definition page_param (ps : list (string * string)) : option Z :=
  if bool_decide (param "per_page" ps = Some "100") then param "page" ps ≫= parse_Z
  else None.

(** The request of the program a request on the wire is, when it is one:
    the routes of the API the program uses, with pages of 100 and merge
    requests in every state. *)
Definition route (w : Wire) : option Request :=
  path ← strip_prefix GITLAB_API_URL (url w);
  let ps := searchParams w in
  match split_path path with
  | [e; a] =>
      if decide (e = "" ∧ a = "groups") then GetGroups <$> param "search" ps else None
  | [e; a; x; b] =>
      if decide (e = "" ∧ a = "groups" ∧ b = "projects") then GetGroupProjects <$> parse_Z x
      else if decide (e = "" ∧ a = "projects" ∧ b = "merge_requests"
                      ∧ param "state" ps = Some "all") then
        projectId ← parse_Z x; GetMergeRequests projectId <$> page_param ps
      else None
  | [e; a; x; b; y; c] =>
      if decide (e = "" ∧ a = "projects" ∧ b = "merge_requests") then
        projectId ← parse_Z x; mrIid ← parse_Z y;
        if decide (c = "notes") then GetNotes projectId mrIid <$> page_param ps
        else if decide (c = "resource_approval_events")
             then Some (GetApprovalEvents projectId mrIid)
             else None
      else None
  | _ => None
  end.

(** The request carries a token the server accepts. *)
Definition authorised (valid : string -> bool) (w : Wire) : bool :=
  match param "PRIVATE-TOKEN" (headers (options w)) with
  | Some token => valid token
  | None => false
  end.

(** A collection sent whole, without pagination headers. *)
Definition whole {A} (l : list A) : Response A :=
  {| body := Some l; x_total_pages := None; x_page := None; x_total := None |}.

(** The reply that makes [ky] settle as [a] at the first attempt; a request
    that fails is answered 404, which [ky] does not retry. *)
Definition reply_of {A} (a : Awaited A) : Reply A :=
  match a with
  | Settled (Some content) => Success content
  | Settled None => Failure 404
  | Pending => Unanswered
  end.

(** The reply of a server that checks the token, routes the request and
    answers with [pick]: 401 without an accepted token, 404 when the
    request is none of the program's. *)
Definition answer {A} (valid : string -> bool) (pick : Request -> Awaited A) (w : Wire)
    : Reply A :=
  if authorised valid w then
    match route w with
    | Some rq => reply_of (pick rq)
    | None => Failure 404
    end
  else Failure 401.

(** A server that holds what the remote [r] answers and accepts the tokens
    [valid]; every attempt of a request gets the same reply. *)
Definition hosted (valid : string -> bool) (r : Remote) : Server :=
  {| sv_groups := fun w _ =>
       answer valid (fun rq => match rq with
                               | GetGroups search => Settled (whole <$> listGroups r search)
                               | _ => Settled None
                               end) w;
     sv_projects := fun w _ =>
       answer valid (fun rq => match rq with
                               | GetGroupProjects groupId =>
                                   Settled (whole <$> listProjects r groupId)
                               | _ => Settled None
                               end) w;
     sv_merge_requests := fun w _ =>
       answer valid (fun rq => match rq with
                               | GetMergeRequests projectId page =>
                                   listMergeRequests r projectId page
                               | _ => Settled None
                               end) w;
     sv_notes := fun w _ =>
       answer valid (fun rq => match rq with
                               | GetNotes projectId mrIid page =>
                                   Settled (listNotes r projectId mrIid page)
                               | _ => Settled None
                               end) w;
     sv_approval_events := fun w _ =>
       answer valid (fun rq => match rq with
                               | GetApprovalEvents projectId mrIid =>
                                   Settled (whole <$> listApprovalEvents r projectId mrIid)
                               | _ => Settled None
                               end) w |}.

(** The replies of [reply] after [k] attempts that do not get through. *)
Definition unreachable_for {A} (k : nat) (reply : Wire -> nat -> Reply A)
    : Wire -> nat -> Reply A :=
  fun w n => if decide (n < k)%nat then NetworkFailure else reply w (n - k)%nat.

(** The server [srv] behind a network that fails the first [k] attempts of
    every request. *)
Definition outage (k : nat) (srv : Server) : Server :=
  {| sv_groups := unreachable_for k (sv_groups srv);
     sv_projects := unreachable_for k (sv_projects srv);
     sv_merge_requests := unreachable_for k (sv_merge_requests srv);
     sv_notes := unreachable_for k (sv_notes srv);
     sv_approval_events := unreachable_for k (sv_approval_events srv) |}.

(** ** Numerals and paths *)

(** No slash in the text. *)
Fixpoint no_slash (s : string) : bool :=
  match s with
  | EmptyString => true
  | String a s' => negb (bool_decide (a = "/"%char)) && no_slash s'
  end.

Lemma string_app_cons x (a b : string) : String x a +:+ b = String x (a +:+ b).
Proof. reflexivity. Qed.

Lemma string_app_assoc (a b c : string) : (a +:+ b) +:+ c = a +:+ b +:+ c.
Proof. induction a as [|x a IH]; [done|]. rewrite !string_app_cons. by f_equal. Qed.

Lemma decimal_app a : forall acc b,
  decimal acc (a +:+ b) = decimal acc a ≫= fun v => decimal v b.
Proof.
  induction a as [|c a IH]; intros acc b; [done|]. rewrite string_app_cons. simpl.
  destruct (digit_of c); simpl; [apply IH | done].
Qed.

Lemma digit_of_pretty_N_char d :
  (d < 10)%N -> digit_of (pretty_N_char d) = Some (Z.of_N d).
Proof.
  intros Hd.
  assert (d = 0 ∨ d = 1 ∨ d = 2 ∨ d = 3 ∨ d = 4 ∨ d = 5 ∨ d = 6 ∨ d = 7 ∨ d = 8
          ∨ d = 9)%N as Hcases by lia.
  by repeat destruct Hcases as [->|Hcases]; try subst d.
Qed.

Lemma pretty_N_go_app x : forall s, pretty_N_go x s = pretty_N_go x "" +:+ s.
Proof.
  induction (N.lt_wf_0 x) as [x _ IH]; intros s.
  assert (x = 0 ∨ 0 < x)%N as [->|Hx] by lia; [done|].
  rewrite (pretty_N_go_step x s), (pretty_N_go_step x "") by done.
  set (c := pretty_N_char (x `mod` 10)).
  rewrite (IH (x `div` 10)%N (N.div_lt x 10 Hx eq_refl) (String c s)).
  rewrite (IH (x `div` 10)%N (N.div_lt x 10 Hx eq_refl) (String c "")).
  by rewrite string_app_assoc.
Qed.

Lemma decimal_pretty_N_go x : decimal 0 (pretty_N_go x "") = Some (Z.of_N x).
Proof.
  induction (N.lt_wf_0 x) as [x _ IH].
  assert (x = 0 ∨ 0 < x)%N as [->|Hx] by lia; [done|].
  rewrite pretty_N_go_step, pretty_N_go_app, decimal_app, IH by (done || by apply N.div_lt).
  simpl. rewrite digit_of_pretty_N_char by (by apply N.mod_lt). simpl. f_equal.
  rewrite (N.div_mod x 10) at 3 by done. lia.
Qed.

Lemma decimal_pretty_positive (p : positive) : decimal 0 (pretty p) = Some (Z.pos p).
Proof. apply (decimal_pretty_N_go (N.pos p)). Qed.

Lemma pretty_positive_digits (p : positive) :
  exists a s, pretty p = String a s /\ a <> "-"%char.
Proof.
  pose proof (decimal_pretty_positive p) as Hd.
  pose proof (pretty_N_go_ne_dash (N.pos p) "") as Hdash.
  unfold pretty, pretty_positive, pretty, pretty_N in *. simpl in *.
  destruct (pretty_N_go (N.pos p) "") as [|a s]; [done|].
  exists a, s. split; [done|]. intros ->. by apply (Hdash s).
Qed.

(** What the program writes for a number is read back as that number. *)
Lemma parse_Z_pretty z : parse_Z (pretty z) = Some z.
Proof.
  destruct z as [|p|p]; [done|..]; unfold pretty, pretty_Z;
    pose proof (decimal_pretty_positive p) as Hd;
    destruct (pretty_positive_digits p) as (a & s & Hp & Ha); rewrite Hp in *.
  - unfold parse_Z. by rewrite bool_decide_eq_false_2.
  - change ("-" +:+ String a s) with (String "-" (String a s)). unfold parse_Z.
    by rewrite bool_decide_eq_true_2, Hd.
Qed.

Lemma decimal_no_slash s : forall acc, is_Some (decimal acc s) -> no_slash s = true.
Proof.
  induction s as [|a s IH]; intros acc Hs; simpl in *; [done|].
  destruct (digit_of a) as [d|] eqn:Hd; simpl in Hs; [|by destruct Hs].
  rewrite (IH _ Hs), andb_true_r. apply negb_true_iff, bool_decide_eq_false_2.
  by intros ->.
Qed.

Lemma parse_Z_no_slash s : is_Some (parse_Z s) -> no_slash s = true.
Proof.
  destruct s as [|a s]; [done|]. unfold parse_Z. case_bool_decide as Ha.
  - subst a. destruct s as [|b s]; [by intros []|]. rewrite fmap_is_Some.
    intros Hs%decimal_no_slash.
    by change (no_slash (String "-" (String b s))) with (no_slash (String b s)).
  - apply decimal_no_slash.
Qed.

Lemma no_slash_pretty (z : Z) : no_slash (pretty z) = true.
Proof. apply parse_Z_no_slash. by rewrite parse_Z_pretty. Qed.

Lemma strip_prefix_app p s : strip_prefix p (p +:+ s) = Some s.
Proof.
  induction p as [|a p IH]; [by destruct s|]. rewrite string_app_cons. simpl.
  by rewrite bool_decide_eq_true_2.
Qed.

Lemma split_path_no_slash a : no_slash a = true -> split_path a = [a].
Proof.
  induction a as [|c a IH]; simpl; [done|]. intros [Hc Ha]%andb_true_iff.
  apply negb_true_iff in Hc. by rewrite Hc, IH.
Qed.

Lemma split_path_app a b :
  no_slash a = true -> split_path (a +:+ String "/" b) = a :: split_path b.
Proof.
  induction a as [|c a IH]; [done|]. rewrite string_app_cons. simpl.
  intros [Hc Ha]%andb_true_iff. apply negb_true_iff in Hc. by rewrite Hc, IH.
Qed.

Lemma param_here name v ps : param name ((name, v) :: ps) = Some v.
Proof. unfold param. simpl. by rewrite bool_decide_eq_true_2. Qed.

Lemma param_next name n v ps : n <> name -> param name ((n, v) :: ps) = param name ps.
Proof. intros Hn. unfold param. simpl. by rewrite bool_decide_eq_false_2. Qed.

Lemma page_param_pretty ps page :
  param "per_page" ps = Some "100" -> param "page" ps = Some (pretty page) ->
  page_param ps = Some page.
Proof.
  intros H100 Hpage. unfold page_param.
  rewrite bool_decide_eq_true_2, Hpage by done. apply parse_Z_pretty.
Qed.

(** ** The requests of the program are told apart *)

Section Routes.
Variable GITLAB_TOKEN : string.

#[local] Ltac segments :=
  rewrite strip_prefix_app; cbn [mbind option_bind];
  rewrite ?split_path_app, ?split_path_no_slash by (reflexivity || apply no_slash_pretty).

Lemma route_get_groups search : route (get_groups GITLAB_TOKEN search) = Some (GetGroups search).
Proof. reflexivity. Qed.

Lemma route_get_group_projects groupId :
  route (get_group_projects GITLAB_TOKEN groupId) = Some (GetGroupProjects groupId).
Proof.
  unfold route, get_group_projects; cbn [url searchParams].
  change ("/groups/" +:+ ?x +:+ "/projects")
    with ("" +:+ String "/" ("groups" +:+ String "/" (x +:+ String "/" "projects"))).
  segments. rewrite decide_True by done. by rewrite parse_Z_pretty.
Qed.

Lemma route_get_merge_requests projectId page :
  route (get_merge_requests GITLAB_TOKEN projectId page)
  = Some (GetMergeRequests projectId page).
Proof.
  unfold route, get_merge_requests; cbn [url searchParams].
  change ("/projects/" +:+ ?x +:+ "/merge_requests")
    with ("" +:+ String "/" ("projects" +:+ String "/" (x +:+ String "/" "merge_requests"))).
  segments. rewrite decide_False by (by intros (_ & [=] & _)).
  rewrite decide_True by done. rewrite parse_Z_pretty. cbn [mbind option_bind].
  by rewrite (page_param_pretty _ page).
Qed.

Lemma route_get_notes projectId mrIid page :
  route (get_notes GITLAB_TOKEN projectId mrIid page) = Some (GetNotes projectId mrIid page).
Proof.
  unfold route, get_notes; cbn [url searchParams].
  change ("/projects/" +:+ ?x +:+ "/merge_requests/" +:+ ?y +:+ "/notes")
    with ("" +:+ String "/" ("projects" +:+ String "/" (x +:+ String "/"
            ("merge_requests" +:+ String "/" (y +:+ String "/" "notes"))))).
  segments. rewrite decide_True by done. rewrite !parse_Z_pretty. cbn [mbind option_bind].
  rewrite decide_True by done. by rewrite (page_param_pretty _ page).
Qed.

Lemma route_get_approval_events projectId mrIid :
  route (get_approval_events GITLAB_TOKEN projectId mrIid)
  = Some (GetApprovalEvents projectId mrIid).
Proof.
  unfold route, get_approval_events; cbn [url searchParams].
  change ("/projects/" +:+ ?x +:+ "/merge_requests/" +:+ ?y +:+ "/resource_approval_events")
    with ("" +:+ String "/" ("projects" +:+ String "/" (x +:+ String "/"
            ("merge_requests" +:+ String "/" (y +:+ String "/" "resource_approval_events"))))).
  segments. rewrite decide_True by done. rewrite !parse_Z_pretty. cbn [mbind option_bind].
  rewrite decide_False by done. by rewrite decide_True.
Qed.

Lemma route_wire rq : route (wire_of GITLAB_TOKEN rq) = Some rq.
Proof.
  destruct rq; simpl; auto using route_get_groups, route_get_group_projects,
    route_get_merge_requests, route_get_notes, route_get_approval_events.
Qed.

(** No two requests look the same on the wire. *)
Lemma wire_of_inj rq1 rq2 : wire_of GITLAB_TOKEN rq1 = wire_of GITLAB_TOKEN rq2 -> rq1 = rq2.
Proof. intros Hw. apply (inj Some). by rewrite <- !route_wire, Hw. Qed.

(** Every request is sent with the token in the header [PRIVATE-TOKEN]. *)
Lemma wire_of_token rq :
  param "PRIVATE-TOKEN" (headers (options (wire_of GITLAB_TOKEN rq))) = Some GITLAB_TOKEN.
Proof. by destruct rq. Qed.

Lemma wire_of_retry rq : retry (options (wire_of GITLAB_TOKEN rq)) = 2%nat.
Proof. by destruct rq. Qed.

(** The request for a page of merge requests is the one without a
    time-out. *)
Lemma wire_of_timeout rq :
  timeout (options (wire_of GITLAB_TOKEN rq)) =
  match rq with
  | GetMergeRequests _ _ => None
  | _ => Some 30000
  end.
Proof. by destruct rq. Qed.

End Routes.

(** ** ky: attempts *)

(** A reply after which [ky] does not try again. *)
Definition decisive {A} (rp : Reply A) : Prop :=
  match rp with
  | Success _ | Unanswered => True
  | Failure status => status ∉ retry_statusCodes
  | NetworkFailure => False
  end.

(** What the request comes to when its last attempt gets [rp]. *)
Definition settle {A} (timed : bool) (rp : Reply A) : Awaited A :=
  match rp with
  | Success a => Settled (Some a)
  | Failure _ | NetworkFailure => Settled None
  | Unanswered => if timed then Settled None else Pending
  end.

Section Attempts.
Context {A : Type}.
Implicit Types (reply : nat -> Reply A) (timed : bool).

(** At least one attempt is made, and no more than one per retry after
    it. *)
Lemma ky_attempts_count timed reply retries : forall n,
  (n < (ky_attempts timed reply retries n).2 <= n + retries + 1)%nat.
Proof.
  induction retries as [|retries IH]; intros n; simpl.
  - destruct (reply n); simpl; lia.
  - destruct (reply n) as [a|status| |]; simpl; try lia.
    + case_bool_decide; simpl; [|lia]. specialize (IH (S n)). lia.
    + specialize (IH (S n)). lia.
Qed.

(** A request with a time-out settles. *)
Lemma ky_attempts_timed reply retries : forall n,
  exists answer, (ky_attempts true reply retries n).1 = Settled answer.
Proof.
  induction retries as [|retries IH]; intros n; simpl.
  - destruct (reply n); simpl; eauto.
  - destruct (reply n) as [a|status| |]; simpl; eauto. case_bool_decide; simpl; eauto.
Qed.

(** A decisive reply ends the request. *)
Lemma ky_attempts_decisive timed reply retries n :
  decisive (reply n) ->
  ky_attempts timed reply retries n = (settle timed (reply n), S n).
Proof.
  intros Hd. destruct retries; simpl; destruct (reply n); simpl in *; try done.
  by rewrite bool_decide_eq_false_2.
Qed.

(** The last attempt ends the request, whatever it gets. *)
Lemma ky_attempts_last timed reply n :
  ky_attempts timed reply 0 n = (settle timed (reply n), S n).
Proof. simpl. by destruct (reply n). Qed.

(** Attempts that do not get through use up one retry each. *)
Lemma ky_attempts_network timed reply k : forall retries n,
  (forall i, (n <= i < n + k)%nat -> reply i = NetworkFailure) ->
  (k <= retries)%nat ->
  ky_attempts timed reply retries n = ky_attempts timed reply (retries - k) (n + k).
Proof.
  induction k as [|k IH]; intros retries n Hfail Hk.
  - by rewrite Nat.sub_0_r, Nat.add_0_r.
  - destruct retries as [|retries]; [lia|]. simpl. rewrite Hfail by lia.
    rewrite IH by (lia || intros; apply Hfail; lia). f_equal. lia.
Qed.

End Attempts.

Section Exchange.
Context {A : Type}.
Implicit Types reply : Wire -> nat -> Reply A.

Lemma unreachable_for_before k reply w i :
  (0 <= i < 0 + k)%nat -> unreachable_for k reply w i = NetworkFailure.
Proof. intros Hi. unfold unreachable_for. rewrite decide_True; [done | lia]. Qed.

Lemma attempts_bounds reply w :
  (1 <= attempts reply w <= retry (options w) + 1)%nat.
Proof.
  unfold attempts, ky_get.
  pose proof (ky_attempts_count (bool_decide (is_Some (timeout (options w)))) (reply w)
                (retry (options w)) 0). lia.
Qed.

Lemma exchange_timed reply w :
  is_Some (timeout (options w)) -> exists answer, exchange reply w = Settled answer.
Proof.
  intros Ht. unfold exchange, ky_get. rewrite bool_decide_eq_true_2 by done.
  apply ky_attempts_timed.
Qed.

Lemma ky_get_decisive reply w :
  decisive (reply w 0%nat) ->
  ky_get (options w) (reply w)
  = (settle (bool_decide (is_Some (timeout (options w)))) (reply w 0%nat), 1%nat).
Proof. intros Hd. unfold ky_get. by rewrite ky_attempts_decisive. Qed.

(** Behind a network that fails [k] attempts, with [k] within the
    retries, the request comes to what it comes to without the failures,
    after [k] more attempts. *)
Lemma ky_get_unreachable k reply w :
  (k <= retry (options w))%nat -> decisive (reply w 0%nat) ->
  ky_get (options w) (unreachable_for k reply w)
  = ((ky_get (options w) (reply w)).1, S k).
Proof.
  intros Hk Hd. rewrite (ky_get_decisive reply w Hd). unfold ky_get.
  rewrite (ky_attempts_network _ _ k); [|by apply unreachable_for_before|done].
  assert (unreachable_for k reply w (0 + k)%nat = reply w 0%nat) as Hk0.
  { unfold unreachable_for. simpl. rewrite decide_False by lia. by rewrite Nat.sub_diag. }
  rewrite ky_attempts_decisive by (by rewrite Hk0). by rewrite Hk0.
Qed.

(** With more failures than retries the request fails, after every retry
    was used. *)
Lemma ky_get_exhausted k reply w :
  (retry (options w) < k)%nat ->
  ky_get (options w) (unreachable_for k reply w) = (Settled None, S (retry (options w))).
Proof.
  intros Hk. unfold ky_get.
  rewrite (ky_attempts_network _ _ (retry (options w)));
    [|intros i Hi; apply unreachable_for_before; lia|done].
  rewrite Nat.sub_diag, ky_attempts_last. unfold unreachable_for. simpl.
  by rewrite decide_True by lia.
Qed.

End Exchange.

(** ** The hosted server seen through ky *)

Lemma answer_decisive {A} valid (pick : Request -> Awaited A) w :
  decisive (answer valid pick w).
Proof.
  assert (forall status, bool_decide (status ∈ retry_statusCodes) = false ->
            decisive (Failure status : Reply A)) as Hstatus
    by (intros status Hs%bool_decide_eq_false; exact Hs).
  unfold answer. destruct (authorised valid w); [|by apply Hstatus].
  destruct (route w) as [rq|]; [|by apply Hstatus].
  destruct (pick rq) as [[a|]|]; simpl; try done. by apply Hstatus.
Qed.

Section Hosted.
Variable GITLAB_TOKEN : string.
Variable valid : string -> bool.

(** What a request of the program comes to at a hosted server: what the
    remote answers when the token is accepted, a failure otherwise. *)
Lemma exchange_answer {A} (pick : Request -> Awaited A) rq :
  (pick rq = Pending -> timeout (options (wire_of GITLAB_TOKEN rq)) = None) ->
  exchange (fun w _ => answer valid pick w) (wire_of GITLAB_TOKEN rq)
  = if valid GITLAB_TOKEN then pick rq else Settled None.
Proof.
  intros Hp. unfold exchange.
  rewrite (ky_get_decisive (fun w _ => answer valid pick w)) by apply answer_decisive.
  unfold answer, authorised. rewrite wire_of_token.
  destruct (valid GITLAB_TOKEN); [|done].
  rewrite route_wire.
  destruct (pick rq) as [[a|]|]; simpl; try done. by rewrite Hp.
Qed.

End Hosted.

(** A server whose first reply to a request is decisive. *)
Definition steady (srv : Server) : Prop :=
  (forall w, decisive (sv_groups srv w 0%nat)) /\
  (forall w, decisive (sv_projects srv w 0%nat)) /\
  (forall w, decisive (sv_merge_requests srv w 0%nat)) /\
  (forall w, decisive (sv_notes srv w 0%nat)) /\
  (forall w, decisive (sv_approval_events srv w 0%nat)).

Lemma hosted_steady valid r : steady (hosted valid r).
Proof. repeat split; intros w; apply answer_decisive. Qed.

Lemma exchange_unreachable {A} k (reply : Wire -> nat -> Reply A) w :
  (k <= retry (options w))%nat -> decisive (reply w 0%nat) ->
  exchange (unreachable_for k reply) w = exchange reply w.
Proof. intros Hk Hd. unfold exchange. by rewrite ky_get_unreachable. Qed.

Lemma exchange_exhausted {A} k (reply : Wire -> nat -> Reply A) w :
  (retry (options w) < k)%nat -> exchange (unreachable_for k reply) w = Settled None.
Proof. intros Hk. unfold exchange. by rewrite ky_get_exhausted. Qed.

Section ServedFacts.
Variable GITLAB_TOKEN : string.

(** Through [ky] the program sees of a hosted server what the remote
    answers when its token is accepted, and failures only when it is not. *)
Lemma served_hosted_cases valid r :
  served GITLAB_TOKEN (hosted valid r) ≡ if valid GITLAB_TOKEN then r else unreachable.
Proof.
  repeat split; intros; simpl.
  - rewrite (exchange_answer GITLAB_TOKEN valid _ (GetGroups search)) by done.
    destruct (valid GITLAB_TOKEN); [|done]. by destruct (listGroups r search).
  - rewrite (exchange_answer GITLAB_TOKEN valid _ (GetGroupProjects groupId)) by done.
    destruct (valid GITLAB_TOKEN); [|done]. by destruct (listProjects r groupId).
  - rewrite (exchange_answer GITLAB_TOKEN valid _ (GetMergeRequests projectId page)) by done.
    by destruct (valid GITLAB_TOKEN).
  - rewrite (exchange_answer GITLAB_TOKEN valid _ (GetNotes projectId mrIid page)) by done.
    by destruct (valid GITLAB_TOKEN).
  - rewrite (exchange_answer GITLAB_TOKEN valid _ (GetApprovalEvents projectId mrIid)) by done.
    destruct (valid GITLAB_TOKEN); [|done]. by destruct (listApprovalEvents r projectId mrIid).
Qed.

(** Failures of the network within the retries do not show. *)
Lemma served_outage_within k srv :
  (k <= 2)%nat -> steady srv -> served GITLAB_TOKEN (outage k srv) ≡ served GITLAB_TOKEN srv.
Proof.
  intros Hk (H1 & H2 & H3 & H4 & H5).
  repeat split; intros; simpl; by rewrite exchange_unreachable.
Qed.

(** Failures of the network beyond the retries fail every request. *)
Lemma served_outage_beyond k srv :
  (2 < k)%nat -> served GITLAB_TOKEN (outage k srv) ≡ unreachable.
Proof. intros Hk. repeat split; intros; simpl; by rewrite exchange_exhausted. Qed.

(** A page of merge requests that gets no reply stays pending; a page of
    notes that gets none fails. *)
Lemma served_unanswered_page srv projectId page :
  sv_merge_requests srv (get_merge_requests GITLAB_TOKEN projectId page) 0%nat = Unanswered ->
  listMergeRequests (served GITLAB_TOKEN srv) projectId page = Pending.
Proof. intros Hu. simpl. unfold exchange. by rewrite ky_get_decisive; rewrite Hu. Qed.

Lemma served_unanswered_notes srv projectId mrIid page :
  sv_notes srv (get_notes GITLAB_TOKEN projectId mrIid page) 0%nat = Unanswered ->
  listNotes (served GITLAB_TOKEN srv) projectId mrIid page = None.
Proof. intros Hu. simpl. unfold exchange. by rewrite ky_get_decisive; rewrite Hu. Qed.

(** Every request of the log takes between one and three attempts. *)
Lemma attempts_of_bounds srv rq : (1 <= attempts_of GITLAB_TOKEN srv rq <= 3)%nat.
Proof.
  pose proof (wire_of_retry GITLAB_TOKEN rq) as Hr.
  destruct rq; unfold attempts_of;
    match goal with |- context [attempts ?f ?w] => pose proof (attempts_bounds f w) end; lia.
Qed.

Lemma traffic_app srv log1 log2 :
  traffic GITLAB_TOKEN srv (log1 ++ log2)
  = traffic GITLAB_TOKEN srv log1 ++ traffic GITLAB_TOKEN srv log2.
Proof. unfold traffic. by rewrite bind_app. Qed.

Lemma traffic_one srv rq :
  traffic GITLAB_TOKEN srv [rq]
  = replicate (attempts_of GITLAB_TOKEN srv rq) (wire_of GITLAB_TOKEN rq).
Proof. unfold traffic. simpl. apply app_nil_r. Qed.

Lemma traffic_length srv log :
  (length log <= length (traffic GITLAB_TOKEN srv log) <= 3 * length log)%nat.
Proof.
  induction log as [|rq log IH]; [simpl; lia|].
  change (rq :: log) with ([rq] ++ log). rewrite traffic_app, !length_app. simpl.
  rewrite app_nil_r, length_replicate. pose proof (attempts_of_bounds srv rq). lia.
Qed.

End ServedFacts.

(** The attempts behind a request when the network fails the first [k]:
    one more than the failures, and never more than three. *)
Lemma attempts_of_outage GITLAB_TOKEN k srv rq :
  steady srv -> attempts_of GITLAB_TOKEN (outage k srv) rq = S (k `min` 2).
Proof.
  intros (H1 & H2 & H3 & H4 & H5).
  destruct (decide (k <= 2)%nat) as [Hk|Hk]; [rewrite Nat.min_l by done|rewrite Nat.min_r by lia].
  - destruct rq; unfold attempts_of, attempts; cbn [outage sv_groups sv_projects
      sv_merge_requests sv_notes sv_approval_events]; by rewrite ky_get_unreachable.
  - destruct rq; unfold attempts_of, attempts; cbn [outage sv_groups sv_projects
      sv_merge_requests sv_notes sv_approval_events];
      by rewrite ky_get_exhausted by (simpl; lia).
Qed.

(** What goes over the wire behind a failing network: every request of
    the log, once more than the failures and at most three times. *)
Lemma traffic_outage GITLAB_TOKEN k srv log :
  steady srv ->
  traffic GITLAB_TOKEN (outage k srv) log
  = rq ← log; replicate (S (k `min` 2)) (wire_of GITLAB_TOKEN rq).
Proof.
  intros Hs. unfold traffic. apply list_bind_ext; [|done].
  intros rq. by rewrite attempts_of_outage.
Qed.

(** ** Examples *)

(** The server of the examples accepts one token. *)
Definition accepts (token : string) : string -> bool := fun t => bool_decide (t = token).

Example wire_samples :
  url (wire_of "glpat-example" (GetNotes 12 5 3))
  = "https://gitlab.com/api/v4/projects/12/merge_requests/5/notes" /\
  searchParams (wire_of "glpat-example" (GetMergeRequests 12 3))
  = [("state", "all"); ("per_page", "100"); ("page", "3")] /\
  options (wire_of "glpat-example" (GetMergeRequests 12 3))
  = {| headers := [("PRIVATE-TOKEN", "glpat-example")]; timeout := None; retry := 2 |}.
Proof. repeat split. Qed.

Example served_samples :
  listGroups (served "glpat-example" (outage 2 (hosted (accepts "glpat-example")
                                                  groups_remote))) "murid"
  = Some sample_groups /\
  listGroups (served "glpat-example" (outage 3 (hosted (accepts "glpat-example")
                                                  groups_remote))) "murid" = None /\
  listGroups (served "glpat-stolen" (hosted (accepts "glpat-example") groups_remote)) "murid"
  = None.
Proof. repeat split. Qed.

(** ** Theorems *)

(** C23: the requests of the program are told apart on the wire.  What
    [api.get] sends for a request (the URL with the ids written in decimal,
    the search parameters with the page number written in decimal) is
    recognised, by a router of the routes the program uses, as that request
    and no other: no two requests of the program look the same, whatever the
    ids, the page and the token. *)
Theorem route_wire_of GITLAB_TOKEN rq : route (wire_of GITLAB_TOKEN rq) = Some rq.
Proof. apply route_wire. Qed.

(** C22: what the program sees through [ky].  Of a server that holds what
    a remote answers and accepts the token of the program, the program sees
    through [ky] exactly what the remote answers, request by request: the
    groups, projects and approval events parsed, the pages of notes with
    their headers, and the pages of merge requests, which alone can stay
    pending. *)
Theorem served_hosted GITLAB_TOKEN valid r :
  valid GITLAB_TOKEN = true -> served GITLAB_TOKEN (hosted valid r) ≡ r.
Proof. intros Hv. rewrite served_hosted_cases. by rewrite Hv. Qed.

Lemma served_hosted_witness :
  served "glpat-example" (hosted (accepts "glpat-example") groups_remote) ≡ groups_remote.
Proof.
  apply (served_hosted "glpat-example" (accepts "glpat-example") groups_remote).
  reflexivity.
Defined.

(** C25: two retries cover two failures, and no more.  Behind a network
    that fails the first [k] attempts of every request, a server whose
    replies are decisive is seen as it is when [k] is at most 2, each
    request taking [k + 1] attempts; from 3 failures on every request of the
    program fails, after 3 attempts. *)
Theorem retries_cover_two_failures GITLAB_TOKEN k srv :
  steady srv ->
  served GITLAB_TOKEN (outage k srv)
    ≡ (if decide (k <= 2)%nat then served GITLAB_TOKEN srv else unreachable) /\
  forall rq, attempts_of GITLAB_TOKEN (outage k srv) rq = S (k `min` 2).
Proof.
  intros Hs. split; [|intros rq; by apply attempts_of_outage].
  case_decide; [by apply served_outage_within | apply served_outage_beyond; lia].
Qed.

Lemma retries_cover_two_failures_witness :
  served "glpat-example" (outage 3 (hosted (accepts "glpat-example") groups_remote))
    ≡ (if decide (3 <= 2)%nat
       then served "glpat-example" (hosted (accepts "glpat-example") groups_remote)
       else unreachable) /\
  forall rq, attempts_of "glpat-example"
               (outage 3 (hosted (accepts "glpat-example") groups_remote)) rq
             = S (3 `min` 2).
Proof.
  apply (retries_cover_two_failures "glpat-example" 3
           (hosted (accepts "glpat-example") groups_remote)).
  apply hosted_steady.
Defined.

(** A request that has a time-out takes at most three attempts and then
    settles; the log of a run stands for at most three times as many
    requests on the wire. *)
Theorem traffic_bounds GITLAB_TOKEN srv log :
  (length log <= length (traffic GITLAB_TOKEN srv log) <= 3 * length log)%nat.
Proof. apply traffic_length. Qed.
