(* ===== verification/Walker.v ===== *)
(** * Walker: the two pagination loops

    [fetchMergeRequests] and [fetchMergeRequestDetails] of
    [src/src/index.ts].  Each [while (hasMorePages)] loop is a fixpoint on a
    fuel argument whose body is one iteration; the [try]/[catch] around the
    loop is [try_catch].  The two loops differ: the first stops on an empty
    page and goes on after a full one whatever the headers say, the second
    trusts [x-total-pages] alone.

    [serves] is the contract of a paginated collection (page [p] answers the
    [p]-th slice of 100 items, with any headers); the completeness theorems
    are stated against it.  A page of merge requests can fail
    ([failing_page]) or never arrive ([pending_page]); a page of notes can
    only fail, since its request has a time-out.

    Each loop writes its progress to the console: a line before each
    request and lines on what arrived.  [page_events] and [notes_events]
    are what one iteration asks and writes; the theorems on a walk give the
    requests it issued ([requests_of]) and the last line it wrote. *)

From stdpp Require Import pretty.
From S2P Require Import Prelude JsModel Remote.

#[local] Open Scope Z_scope.

(** ** The loops *)

Definition per_page : nat := 100.

Record Details : Type := {
  notes : list Note;
  approvalEvents : list ApprovalEvent;
}.

(** The exit test of [fetchMergeRequests]: the headers announce a further
    page, or the page just read was full. *)
Definition has_more_pages (totalPages : number) (page : Z) (len : nat) : bool :=
  (number_gt totalPages (Num 0) && number_lt (Num page) totalPages)
  || bool_decide (len = per_page).

(** The lines the loops write. *)
Definition fetching_page (page : Z) : string :=
  "Fetching page " +:+ pretty page +:+ "...".

Definition retrieved_mrs (n : nat) (page : Z) : string :=
  "Retrieved " +:+ pretty n +:+ " MRs from page " +:+ pretty page.

Definition page_info (currentPage totalPages totalItems : number) : string :=
  "Page info: " +:+ number_text currentPage +:+ " of " +:+ number_text totalPages
  +:+ " (Total items: " +:+ number_text totalItems +:+ ")".

Definition total_fetched (n : nat) : string := "Total MRs fetched: " +:+ pretty n.

Definition fetching_notes (page mrIid : Z) : string :=
  "  Fetching notes page " +:+ pretty page +:+ " for MR #" +:+ pretty mrIid +:+ "...".

Definition retrieved_notes (n : nat) (page : Z) : string :=
  "  Retrieved " +:+ pretty n +:+ " notes from page " +:+ pretty page.

Definition failed_details (mrIid : Z) : string :=
  "Failed to fetch details for MR " +:+ pretty mrIid +:+ ":".

Section Loops.
Variable r : Remote.

(** One iteration of the loop of [fetchMergeRequests] per unit of fuel. *)
Fixpoint fetchMergeRequests_loop (fuel : nat) (projectId : Z)
    (allMergeRequests : list RemoteMR) (page : Z) : prog Net exn (list RemoteMR) :=
  match fuel with
  | O => diverge
  | S fuel' =>
      console_log (fetching_page page) ;;
      response <- api_get_no_timeout (GetMergeRequests projectId page)
                    (listMergeRequests r projectId page) ;;
      mergeRequests <- json (body response) ;;
      console_log (retrieved_mrs (length mergeRequests) page) ;;
      if decide (length mergeRequests = 0%nat) then ret allMergeRequests
      else
        let allMergeRequests := allMergeRequests ++ mergeRequests in
        let totalPages := header_or_zero (x_total_pages response) in
        let currentPage := header_or_zero (x_page response) in
        let totalItems := header_or_zero (x_total response) in
        console_log (page_info currentPage totalPages totalItems) ;;
        let hasMorePages := has_more_pages totalPages page (length mergeRequests) in
        if hasMorePages
        then fetchMergeRequests_loop fuel' projectId allMergeRequests (page + 1)
        else ret allMergeRequests
  end.

Definition fetchMergeRequests (fuel : nat) (projectId : Z) : prog Net exn (list RemoteMR) :=
  try_catch
    (console_log "Fetching merge requests (paginated)..." ;;
     allMergeRequests <- fetchMergeRequests_loop fuel projectId [] 1 ;;
     console_log (total_fetched (length allMergeRequests)) ;;
     ret allMergeRequests)
    (fun err => console_error "Failed to fetch merge requests:" err ;; ret []).

(** One iteration of the note loop of [fetchMergeRequestDetails]. *)
Fixpoint fetchNotes_loop (fuel : nat) (projectId mrIid : Z)
    (allNotes : list Note) (page : Z) : prog Net exn (list Note) :=
  match fuel with
  | O => diverge
  | S fuel' =>
      console_log (fetching_notes page mrIid) ;;
      response <- api_get (GetNotes projectId mrIid page)
                    (listNotes r projectId mrIid page) ;;
      let totalPages := header_or_one (x_total_pages response) in
      notes <- json (body response) ;;
      let allNotes := allNotes ++ notes in
      (if decide (0 < length notes)%nat
       then console_log (retrieved_notes (length notes) page)
       else ret tt) ;;
      if number_lt (Num page) totalPages
      then fetchNotes_loop fuel' projectId mrIid allNotes (page + 1)
      else ret allNotes
  end.

Definition fetchMergeRequestDetails (fuel : nat) (projectId mrIid : Z)
    : prog Net exn Details :=
  try_catch
    (allNotes <- fetchNotes_loop fuel projectId mrIid [] 1 ;;
     approvalEvents <-
       try_catch
         (api_get (GetApprovalEvents projectId mrIid)
            (listApprovalEvents r projectId mrIid))
         (fun _ => ret []) ;;
     ret {| notes := allNotes; approvalEvents := approvalEvents |})
    (fun err =>
       console_error (failed_details mrIid) err ;;
       ret {| notes := []; approvalEvents := [] |}).

End Loops.

(** What one iteration of [fetchMergeRequests] writes and asks at [page]
    when the page answers [resp] with the body [mrs]. *)
Definition page_events (projectId page : Z) (resp : Response RemoteMR)
    (mrs : list RemoteMR) : Net :=
  [Logged (fetching_page page); Requested (GetMergeRequests projectId page);
   Logged (retrieved_mrs (length mrs) page)]
  ++ (if decide (length mrs = 0%nat) then []
      else [Logged (page_info (header_or_zero (x_page resp))
                      (header_or_zero (x_total_pages resp))
                      (header_or_zero (x_total resp)))]).

(** What one iteration of the note loop writes and asks at [page] when the
    page holds [n] notes. *)
Definition notes_events (projectId mrIid page : Z) (n : nat) : Net :=
  [Logged (fetching_notes page mrIid); Requested (GetNotes projectId mrIid page)]
  ++ (if decide (0 < n)%nat then [Logged (retrieved_notes n page)] else []).

(** ** The contract of a paginated collection *)

(** The [p]-th page of [items], pages counted from 1. *)
Definition page_slice {A} (items : list A) (p : nat) : list A :=
  take per_page (drop (per_page * (p - 1)) items).

(** The number of pages a collection of [n] items has, at least one. *)
Definition page_count (n : nat) : nat := Nat.max 1 ((n + per_page - 1) / per_page).

(** The requests for pages [p+1 .. p+k]. *)
Definition page_requests (rq : Z -> Request) (p k : nat) : list Request :=
  (fun i => rq (Z.of_nat i)) <$> seq (S p) k.

Section Contract.
Variable r : Remote.

Definition serves (projectId : Z) (items : list RemoteMR) : Prop :=
  forall p : nat, (1 <= p)%nat ->
    exists resp, listMergeRequests r projectId (Z.of_nat p) = Settled (Some resp) /\
                 body resp = Some (page_slice items p).

Definition serves_notes (projectId mrIid : Z) (items : list Note)
    (total : nat -> option number) : Prop :=
  forall p : nat, (1 <= p)%nat ->
    exists resp, listNotes r projectId mrIid (Z.of_nat p) = Some resp /\
                 body resp = Some (page_slice items p) /\
                 x_total_pages resp = total p.

(** The remote answers within the fuel: both loops end, whatever was
    requested before. *)
Definition answers_within (fuel : nat) : Prop :=
  (forall projectId, halts (fetchMergeRequests r fuel projectId)) /\
  (forall projectId mrIid, halts (fetchMergeRequestDetails r fuel projectId mrIid)).

End Contract.

(** ** Remotes that serve fixed collections, for the examples *)

Definition paged {A} (items : list A) (total : option number) (page : Z)
    : option (Response A) :=
  if decide (1 <= page)
  then Some {| body := Some (page_slice items (Z.to_nat page));
               x_total_pages := total;
               x_page := Some (Num page);
               x_total := Some (Num (Z.of_nat (length items))) |}
  else None.

(** Merge requests [mrs] announced with [total] pages; the notes [nts iid]
    of merge request [iid] announced with [ntotal iid] pages; the approval
    events [evs iid], [None] when that request fails. *)
Definition static_remote (mrs : list RemoteMR) (total : option number)
    (nts : Z -> list Note) (ntotal : Z -> option number)
    (evs : Z -> option (list ApprovalEvent)) : Remote :=
  {| listGroups := fun _ => Some [];
     listProjects := fun _ => Some [];
     listMergeRequests := fun _ page => Settled (paged mrs total page);
     listNotes := fun _ iid page => paged (nts iid) (ntotal iid) page;
     listApprovalEvents := fun _ iid => evs iid |}.

(** [base] with every merge-request page after page [k] failing. *)
Definition cut_after (k : Z) (base : Remote) : Remote :=
  {| listGroups := listGroups base;
     listProjects := listProjects base;
     listMergeRequests := fun pid page =>
       if decide (page <= k) then listMergeRequests base pid page else Settled None;
     listNotes := listNotes base;
     listApprovalEvents := listApprovalEvents base |}.

Definition sample_mr (i : nat) : RemoteMR :=
  {| mr_id := 1000 + Z.of_nat i; mr_iid := Z.of_nat i; mr_title := "change";
     mr_created_at := "2025-04-01T10:00:00.000Z";
     mr_updated_at := "2025-04-02T10:00:00.000Z";
     mr_state := "opened";
     mr_author := {| user_id := 7; username := "dev" |};
     mr_merged_at := None |}.

Definition sample_mrs (n : nat) : list RemoteMR := sample_mr <$> seq 1 n.

Definition sample_notes (n : nat) : list Note :=
  (fun _ => {| note_created_at := "2025-04-01T11:00:00.000Z"; note_system := false |})
    <$> seq 1 n.

(** [base] with every merge-request page after page [k] never arriving. *)
Definition stalled_after (k : Z) (base : Remote) : Remote :=
  {| listGroups := listGroups base;
     listProjects := listProjects base;
     listMergeRequests := fun pid page =>
       if decide (page <= k) then listMergeRequests base pid page else Pending;
     listNotes := listNotes base;
     listApprovalEvents := listApprovalEvents base |}.

(** A remote every page of which is full. *)
Definition endless_remote : Remote :=
  {| listGroups := fun _ => Some [];
     listProjects := fun _ => Some [];
     listMergeRequests := fun _ _ =>
       Settled (Some {| body := Some (sample_mrs per_page); x_total_pages := None;
                        x_page := None; x_total := None |});
     listNotes := fun _ _ _ => None;
     listApprovalEvents := fun _ _ => None |}.

(** ** Facts on slices *)

Section Slices.
Context {A : Type}.
Implicit Types items : list A.

Lemma page_slice_length items k :
  length (page_slice items (S k)) = Nat.min per_page (length items - per_page * k).
Proof.
  unfold page_slice. rewrite length_take, length_drop. by replace (S k - 1)%nat with k by lia.
Qed.

Lemma page_slice_nil items k :
  page_slice items (S k) = [] <-> (length items <= per_page * k)%nat.
Proof.
  rewrite <- length_zero_iff_nil, page_slice_length. unfold per_page. lia.
Qed.

Lemma take_page_slice items k :
  take (per_page * k) items ++ page_slice items (S k) = take (per_page * S k) items.
Proof.
  unfold page_slice. replace (S k - 1)%nat with k by lia.
  rewrite take_take_drop. f_equal. lia.
Qed.

(** A page that is not full is the last one. *)
Lemma take_last_slice items k :
  (length (page_slice items (S k)) < per_page)%nat ->
  take (per_page * S k) items = items.
Proof.
  rewrite page_slice_length. intros H. apply take_ge. unfold per_page in *. lia.
Qed.

Lemma page_slice_full items k :
  (per_page * S k <= length items)%nat -> length (page_slice items (S k)) = per_page.
Proof. rewrite page_slice_length. unfold per_page. lia. Qed.

End Slices.

Lemma page_requests_snoc rq p k :
  page_requests rq p (S k) = page_requests rq p k ++ [rq (Z.of_nat (S (p + k)))].
Proof.
  unfold page_requests. by rewrite seq_S, fmap_app.
Qed.

Lemma page_requests_cons rq p k :
  page_requests rq p (S k) = rq (Z.of_nat (S p)) :: page_requests rq (S p) k.
Proof. done. Qed.

Lemma page_requests_length rq p k : length (page_requests rq p k) = k.
Proof. unfold page_requests. by rewrite length_fmap, length_seq. Qed.

Lemma requests_of_notes_events projectId mrIid page n :
  requests_of (notes_events projectId mrIid page n) = [GetNotes projectId mrIid page].
Proof. unfold notes_events. by case_decide. Qed.

Lemma requests_of_page_events projectId page resp mrs :
  requests_of (page_events projectId page resp mrs) = [GetMergeRequests projectId page].
Proof. unfold page_events. by case_decide. Qed.

(** ** fetchMergeRequests against the contract *)

Section Complete.
Variable r : Remote.
Variable projectId : Z.
Variable items : list RemoteMR.
Hypothesis Hserves : serves r projectId items.

#[local] Abbreviation rq := (GetMergeRequests projectId).

(** What one iteration does at page [k+1]: it stops on an empty page, stops
    after a page that is not full when the headers say so, or goes on. *)
Lemma loop_step fuel k acc log :
  let slice := page_slice items (S k) in
  let res := fetchMergeRequests_loop r (S fuel) projectId acc (Z.of_nat (S k)) log in
  exists resp, listMergeRequests r projectId (Z.of_nat (S k)) = Settled (Some resp) /\
  let log1 := log ++ page_events projectId (Z.of_nat (S k)) resp slice in
  let more := has_more_pages (header_or_zero (x_total_pages resp)) (Z.of_nat (S k))
                (length slice) in
  ((slice = [] /\ res = Ret acc log1) \/
   (slice <> [] /\ more = false /\ res = Ret (acc ++ slice) log1) \/
   (slice <> [] /\ more = true /\
    res = fetchMergeRequests_loop r fuel projectId (acc ++ slice) (Z.of_nat (S (S k))) log1)).
Proof.
  intros slice res. subst res. simpl.
  destruct (Hserves (S k)) as (resp & Hresp & Hbody); [lia|].
  exists resp. split; [done|].
  unfold bind, api_get_no_timeout, api_get, console_log, page_events.
  rewrite Hresp, Hbody. simpl. fold slice. rewrite <- !app_assoc. simpl.
  destruct (decide (length slice = 0%nat)) as [Hz|Hnz].
  { left. split; [by apply length_zero_iff_nil | done]. }
  assert (slice <> []) by (by intros ->).
  right. rewrite <- !app_assoc. simpl.
  destruct (has_more_pages _ _ _) eqn:Hmore; [right | left]; repeat split; try done.
  by replace (Z.of_nat (S k) + 1) with (Z.of_nat (S (S k))) by lia.
Qed.

Lemma has_more_pages_false_short total k :
  has_more_pages total (Z.of_nat (S k)) (length (page_slice items (S k))) = false ->
  (length (page_slice items (S k)) < per_page)%nat.
Proof.
  intros [_ Hfull%bool_decide_eq_false]%orb_false_iff.
  pose proof (page_slice_length items k). lia.
Qed.

Lemma slice_nonempty_lt k :
  page_slice items (S k) <> [] -> (per_page * k < length items)%nat.
Proof.
  intros Hne. destruct (decide (per_page * k < length items)%nat) as [|Hge]; [done|].
  exfalso. apply Hne, page_slice_nil. lia.
Qed.

(** From page [k+1] on, with the first [k] pages accumulated, the loop
    returns the whole collection after [j] requests, [j] within one of
    [n/100 + 1 - k]. *)
Lemma loop_complete fuel k log :
  (k <= length items / per_page + 1)%nat ->
  (length items / per_page + 2 - k <= fuel)%nat ->
  exists j l,
    (length items / per_page + 1 - k <= j <= length items / per_page + 2 - k)%nat /\
    fetchMergeRequests_loop r fuel projectId (take (per_page * k) items)
      (Z.of_nat (S k)) log
    = Ret items (log ++ l) /\
    requests_of l = page_requests rq k j.
Proof.
  revert k log. induction fuel as [|fuel IH]; intros k log Hk Hfuel; [unfold per_page in *; lia_div|].
  destruct (loop_step fuel k (take (per_page * k) items) log)
    as (resp & _ & [[Hnil ->]|[(Hne & Hmore & ->)|(Hne & _ & ->)]]).
  - apply page_slice_nil in Hnil. exists 1%nat, (page_events projectId (Z.of_nat (S k)) resp (page_slice items (S k))).
    split; [unfold per_page in *; lia_div|]. rewrite take_ge by done.
    split; [done | apply requests_of_page_events].
  - apply has_more_pages_false_short in Hmore. eexists 1%nat, _.
    pose proof (page_slice_length items k) as Hlen.
    split; [unfold per_page in *; lia_div|]. rewrite take_page_slice, take_last_slice by done.
    split; [done | apply requests_of_page_events].
  - apply slice_nonempty_lt in Hne. rewrite take_page_slice.
    destruct (IH (S k) (log ++ page_events projectId (Z.of_nat (S k)) resp (page_slice items (S k))))
      as (j & l & Hj & -> & Hl); [unfold per_page in *; lia_div..|].
    exists (S j), (page_events projectId (Z.of_nat (S k)) resp (page_slice items (S k)) ++ l).
    split; [unfold per_page in *; lia_div|]. rewrite <- app_assoc. split; [done|].
    by rewrite requests_of_app, requests_of_page_events, Hl, page_requests_cons.
Qed.

End Complete.

(** ** Full pages, failures and divergence *)

Lemma has_more_pages_full total page : has_more_pages total page per_page = true.
Proof. unfold has_more_pages. rewrite bool_decide_eq_true_2 by done. apply orb_true_r. Qed.

Section FullPages.
Variable r : Remote.
Variable projectId : Z.

#[local] Abbreviation rq' := (GetMergeRequests projectId).

(** Page [p] answers a full page. *)
Definition full_page (p : nat) : Prop :=
  exists resp l, listMergeRequests r projectId (Z.of_nat p) = Settled (Some resp) /\
                 body resp = Some l /\ length l = per_page.

(** Page [p] fails: the request throws, or its body does not parse. *)
Definition failing_page (p : nat) : Prop :=
  listMergeRequests r projectId (Z.of_nat p) = Settled None \/
  exists resp, listMergeRequests r projectId (Z.of_nat p) = Settled (Some resp) /\ body resp = None.

(** Page [p] never arrives. *)
Definition pending_page (p : nat) : Prop :=
  listMergeRequests r projectId (Z.of_nat p) = Pending.

Lemma loop_full_page fuel p acc log :
  full_page (S p) ->
  exists l resp, length l = per_page /\
    fetchMergeRequests_loop r (S fuel) projectId acc (Z.of_nat (S p)) log =
    fetchMergeRequests_loop r fuel projectId (acc ++ l) (Z.of_nat (S (S p)))
      (log ++ page_events projectId (Z.of_nat (S p)) resp l).
Proof.
  intros (resp & l & Hresp & Hbody & Hlen). exists l, resp. split; [done|].
  simpl. unfold bind, api_get_no_timeout, api_get, console_log, page_events.
  rewrite Hresp, Hbody. simpl.
  rewrite !decide_False by (rewrite Hlen; done).
  rewrite Hlen, has_more_pages_full, <- !app_assoc.
  by replace (Z.of_nat (S p) + 1) with (Z.of_nat (S (S p))) by lia.
Qed.

Lemma loop_failing_page fuel p acc log :
  failing_page (S p) ->
  exists e, fetchMergeRequests_loop r (S fuel) projectId acc (Z.of_nat (S p)) log =
            Throw e (log ++ [Logged (fetching_page (Z.of_nat (S p)));
                             Requested (rq' (Z.of_nat (S p)))]).
Proof.
  intros [Hnone|(resp & Hresp & Hbody)]; simpl;
    unfold bind, api_get_no_timeout, api_get, console_log.
  - rewrite Hnone, <- app_assoc. by eexists.
  - rewrite Hresp, Hbody, <- app_assoc. by eexists.
Qed.

(** After [d] full pages the loop throws at the failing page [p+d+1],
    whatever it has accumulated. *)
Lemma loop_throws d : forall p acc log fuel,
  (forall q, (p < q <= p + d)%nat -> full_page q) ->
  failing_page (S (p + d)) ->
  (d < fuel)%nat ->
  exists e l, fetchMergeRequests_loop r fuel projectId acc (Z.of_nat (S p)) log =
              Throw e (log ++ l) /\
    requests_of l = page_requests rq' p (S d).
Proof.
  induction d as [|d IH]; intros p acc log [|fuel] Hfull Hfail Hfuel; try lia.
  - rewrite Nat.add_0_r in Hfail.
    destruct (loop_failing_page fuel p acc log Hfail) as (e & ->). by eexists e, _.
  - destruct (loop_full_page fuel p acc log) as (l & resp & _ & ->); [apply Hfull; lia|].
    destruct (IH (S p) (acc ++ l) (log ++ page_events projectId (Z.of_nat (S p)) resp l) fuel)
      as (e & l' & -> & Hl').
    + intros q Hq. apply Hfull. lia.
    + by replace (S p + d)%nat with (p + S d)%nat by lia.
    + lia.
    + exists e, (page_events projectId (Z.of_nat (S p)) resp l ++ l').
      rewrite <- app_assoc. split; [done|].
      by rewrite requests_of_app, requests_of_page_events, Hl', (page_requests_cons _ p (S d)).
Qed.

(** When every page is full, no amount of fuel is enough. *)
Lemma loop_endless fuel : forall p acc log,
  (forall q, (p < q)%nat -> full_page q) ->
  fetchMergeRequests_loop r fuel projectId acc (Z.of_nat (S p)) log = OutOfFuel.
Proof.
  induction fuel as [|fuel IH]; intros p acc log Hfull; [done|].
  destruct (loop_full_page fuel p acc log) as (l & resp & _ & ->); [apply Hfull; lia|].
  apply IH. intros q Hq. apply Hfull. lia.
Qed.

(** After [d] full pages the loop waits for ever for the page [p+d+1]
    that stays pending, whatever the fuel. *)
Lemma loop_pending d : forall p acc log fuel,
  (forall q, (p < q <= p + d)%nat -> full_page q) ->
  pending_page (S (p + d)) ->
  fetchMergeRequests_loop r fuel projectId acc (Z.of_nat (S p)) log = OutOfFuel.
Proof.
  induction d as [|d IH]; intros p acc log [|fuel] Hfull Hp; try done.
  - rewrite Nat.add_0_r in Hp. simpl. unfold bind. by rewrite Hp.
  - destruct (loop_full_page fuel p acc log) as (l & resp & _ & ->); [apply Hfull; lia|].
    apply IH; [intros q Hq; apply Hfull; lia|].
    by replace (S p + d)%nat with (p + S d)%nat by lia.
Qed.

End FullPages.

(** ** The note loop against the contract *)

Lemma page_count_covers n : (n <= per_page * page_count n)%nat.
Proof. unfold page_count, per_page. lia_div. Qed.

Lemma page_count_pos n : (1 <= page_count n)%nat.
Proof. unfold page_count. lia. Qed.

Section Notes.
Variable r : Remote.
Variables projectId mrIid : Z.
Variable items : list Note.
Variable total : nat -> option number.
Hypothesis Hserves : serves_notes r projectId mrIid items total.

#[local] Abbreviation nrq := (GetNotes projectId mrIid).

Lemma notes_step fuel k acc log :
  fetchNotes_loop r (S fuel) projectId mrIid acc (Z.of_nat (S k)) log =
  let slice := page_slice items (S k) in
  let log1 := log ++ notes_events projectId mrIid (Z.of_nat (S k)) (length slice) in
  if number_lt (Num (Z.of_nat (S k))) (header_or_one (total (S k)))
  then fetchNotes_loop r fuel projectId mrIid (acc ++ slice) (Z.of_nat (S (S k))) log1
  else Ret (acc ++ slice) log1.
Proof.
  destruct (Hserves (S k)) as (resp & Hresp & Hbody & Htotal); [lia|].
  simpl. unfold bind, api_get, console_log, notes_events. rewrite Hresp, Hbody, Htotal. simpl.
  replace (Z.of_nat (S k) + 1) with (Z.of_nat (S (S k))) by lia.
  rewrite <- !app_assoc. simpl.
  case_decide; simpl; rewrite <- ?app_assoc, ?app_nil_r; simpl;
    (destruct (header_or_one _); [done|]); by case_bool_decide.
Qed.

(** With the page count announced on every page, the loop reads exactly
    the announced pages and returns every note. *)
Lemma notes_loop_complete fuel : forall k log,
  (forall p, total p = Some (Num (Z.of_nat (page_count (length items))))) ->
  (k < page_count (length items))%nat ->
  (page_count (length items) - k <= fuel)%nat ->
  exists l,
    fetchNotes_loop r fuel projectId mrIid (take (per_page * k) items)
      (Z.of_nat (S k)) log
    = Ret items (log ++ l) /\
    requests_of l = page_requests nrq k (page_count (length items) - k).
Proof.
  induction fuel as [|fuel IH]; intros k log Htotal Hk Hfuel; [lia|].
  pose proof (page_count_pos (length items)).
  rewrite notes_step, Htotal, header_or_one_nonzero by lia.
  cbn zeta. rewrite take_page_slice. unfold number_lt. case_bool_decide as Hlt.
  - destruct (IH (S k) (log ++ notes_events projectId mrIid (Z.of_nat (S k))
                                 (length (page_slice items (S k)))))
      as (l & -> & Hl); [done || lia..|].
    eexists (_ ++ l). rewrite <- app_assoc. split; [done|].
    replace (page_count (length items) - k)%nat
      with (S (page_count (length items) - S k)) by lia.
    by rewrite requests_of_app, requests_of_notes_events, Hl, page_requests_cons.
  - replace (page_count (length items) - k)%nat with 1%nat by lia.
    eexists. rewrite take_ge; [split; [done | apply requests_of_notes_events]|].
    pose proof (page_count_covers (length items)). unfold per_page in *. nia.
Qed.

(** Without a usable [x-total-pages] header the loop stops after the first
    page. *)
Lemma notes_loop_first_page_only fuel log :
  header_or_one (total 1) = Num 1 ->
  fetchNotes_loop r (S fuel) projectId mrIid [] 1 log
  = Ret (take per_page items)
      (log ++ notes_events projectId mrIid 1 (length (take per_page items))).
Proof.
  intros H1. change 1 with (Z.of_nat 1). rewrite notes_step, H1. simpl.
  unfold page_slice. by rewrite Nat.mul_0_r, drop_0.
Qed.

End Notes.

(** ** fetchMergeRequestDetails from the outcome of its note loop *)

Section DetailsRun.
Variable r : Remote.
Variables projectId mrIid : Z.

Lemma details_of_notes fuel log ns log1 :
  fetchNotes_loop r fuel projectId mrIid [] 1 log = Ret ns log1 ->
  fetchMergeRequestDetails r fuel projectId mrIid log =
  Ret {| notes := ns;
         approvalEvents := default [] (listApprovalEvents r projectId mrIid) |}
      (log1 ++ [Requested (GetApprovalEvents projectId mrIid)]).
Proof.
  intros Hn. unfold fetchMergeRequestDetails, try_catch, bind, api_get. rewrite Hn.
  by destruct (listApprovalEvents r projectId mrIid).
Qed.

Lemma details_of_notes_failure fuel log e log1 :
  fetchNotes_loop r fuel projectId mrIid [] 1 log = Throw e log1 ->
  fetchMergeRequestDetails r fuel projectId mrIid log =
  Ret {| notes := []; approvalEvents := [] |} (log1 ++ [Logged (failed_details mrIid)]).
Proof. intros Hn. unfold fetchMergeRequestDetails, try_catch, bind. by rewrite Hn. Qed.

Lemma details_out_of_fuel fuel log :
  fetchNotes_loop r fuel projectId mrIid [] 1 log = OutOfFuel ->
  fetchMergeRequestDetails r fuel projectId mrIid log = OutOfFuel.
Proof. intros Hn. unfold fetchMergeRequestDetails, try_catch, bind. by rewrite Hn. Qed.

End DetailsRun.

(** ** The fixtures meet the contracts *)

Lemma static_remote_serves mrs total nts ntotal evs projectId :
  serves (static_remote mrs total nts ntotal evs) projectId mrs.
Proof.
  intros p Hp. simpl. unfold paged. rewrite decide_True by lia.
  eexists; split; [done|]. simpl. by rewrite Nat2Z.id.
Qed.

Lemma static_remote_serves_notes mrs total nts ntotal evs projectId mrIid :
  serves_notes (static_remote mrs total nts ntotal evs) projectId mrIid
    (nts mrIid) (fun _ => ntotal mrIid).
Proof.
  intros p Hp. simpl. unfold paged. rewrite decide_True by lia.
  eexists; split; [done|]. simpl. by rewrite Nat2Z.id.
Qed.

Lemma sample_mrs_length n : length (sample_mrs n) = n.
Proof. unfold sample_mrs. by rewrite length_fmap, length_seq. Qed.

Lemma endless_remote_full projectId q : full_page endless_remote projectId q.
Proof. eexists _, _. simpl. split; [done|]. split; [done|]. apply sample_mrs_length. Qed.

(** The run of [fetchMergeRequests] against the contract, for the
    components that call it. *)
Lemma fetchMergeRequests_serves r projectId items fuel log :
  serves r projectId items ->
  (length items / per_page + 2 <= fuel)%nat ->
  exists j l, (length items / per_page + 1 <= j <= length items / per_page + 2)%nat /\
    fetchMergeRequests r fuel projectId log = Ret items (log ++ l) /\
    requests_of l = page_requests (GetMergeRequests projectId) 0 j /\
    last (console_of l) = Some (total_fetched (length items)).
Proof.
  intros Hs Hfuel.
  destruct (loop_complete r projectId items Hs fuel 0
              (log ++ [Logged "Fetching merge requests (paginated)..."]))
    as (j & l & Hj & Hrun & Hl); [lia..|].
  exists j, (Logged "Fetching merge requests (paginated)..." :: l
             ++ [Logged (total_fetched (length items))]).
  split; [lia|]. unfold fetchMergeRequests, try_catch, bind, console_log.
  rewrite Nat.mul_0_r, take_0 in Hrun. change (Z.of_nat 1) with 1 in Hrun. rewrite Hrun.
  rewrite <- !app_assoc. split; [done|].
  split; [|simpl; by rewrite last_cons, last_console_snoc].
  simpl. by rewrite requests_of_app, Hl, app_nil_r.
Qed.

(** The run of [fetchMergeRequests] when a page fails, for the components
    that call it. *)
Lemma fetchMergeRequests_fails r projectId k fuel log :
  (forall q, (0 < q <= k)%nat -> full_page r projectId q) ->
  failing_page r projectId (S k) ->
  (k < fuel)%nat ->
  exists l, fetchMergeRequests r fuel projectId log = Ret [] (log ++ l) /\
    requests_of l = page_requests (GetMergeRequests projectId) 0 (S k) /\
    last (console_of l) = Some "Failed to fetch merge requests:".
Proof.
  intros Hfull Hfail Hfuel. unfold fetchMergeRequests, try_catch, bind, console_log.
  change 1 with (Z.of_nat 1).
  destruct (loop_throws r projectId k 0 []
              (log ++ [Logged "Fetching merge requests (paginated)..."]) fuel Hfull Hfail Hfuel)
    as (e & l & -> & Hl).
  exists (Logged "Fetching merge requests (paginated)..." :: l
          ++ [Logged "Failed to fetch merge requests:"]).
  simpl. rewrite <- !app_assoc. split; [done|].
  split; [|simpl; by rewrite last_cons, last_console_snoc].
  simpl. by rewrite requests_of_app, Hl, app_nil_r.
Qed.

(** The run of [fetchMergeRequests] when a page stays pending, for the
    components that call it. *)
Lemma fetchMergeRequests_stalls r projectId k fuel log :
  (forall q, (0 < q <= k)%nat -> full_page r projectId q) ->
  pending_page r projectId (S k) ->
  fetchMergeRequests r fuel projectId log = OutOfFuel.
Proof.
  intros Hfull Hp. unfold fetchMergeRequests, try_catch, bind, console_log.
  change 1 with (Z.of_nat 1).
  by rewrite (loop_pending r projectId k 0 [] _ fuel).
Qed.

(** What the console shows of a walk that returns: its last line tells the
    number of merge requests fetched, or that the walk failed, in which
    case nothing is returned. *)
Lemma fetchMergeRequests_last_line r fuel projectId log mrs log' :
  fetchMergeRequests r fuel projectId log = Ret mrs log' ->
  last (console_of log') = Some (total_fetched (length mrs)) \/
  (mrs = [] /\ last (console_of log') = Some "Failed to fetch merge requests:").
Proof.
  unfold fetchMergeRequests, try_catch, bind, console_error, console_log.
  destruct (fetchMergeRequests_loop _ _ _ _ _ _) as [a l|e l|]; simpl; [| |done].
  - intros [= <- <-]. left. apply last_console_snoc.
  - intros [= <- <-]. right. by split; [|apply last_console_snoc].
Qed.

(** ** The walks do not read the log *)

Section Oblivious.
Variable r : Remote.

Lemma oblivious_fetchMergeRequests_loop fuel projectId : forall acc page,
  oblivious (fetchMergeRequests_loop r fuel projectId acc page).
Proof. induction fuel as [|fuel IH]; intros acc page; simpl; auto 10 with oblivious. Qed.

Lemma oblivious_fetchNotes_loop fuel projectId mrIid : forall acc page,
  oblivious (fetchNotes_loop r fuel projectId mrIid acc page).
Proof. induction fuel as [|fuel IH]; intros acc page; simpl; auto 10 with oblivious. Qed.

Lemma oblivious_fetchMergeRequests fuel projectId :
  oblivious (fetchMergeRequests r fuel projectId).
Proof.
  unfold fetchMergeRequests. auto using oblivious_fetchMergeRequests_loop with oblivious.
Qed.

Lemma oblivious_fetchMergeRequestDetails fuel projectId mrIid :
  oblivious (fetchMergeRequestDetails r fuel projectId mrIid).
Proof.
  unfold fetchMergeRequestDetails. auto 10 using oblivious_fetchNotes_loop with oblivious.
Qed.

End Oblivious.

#[export] Hint Resolve oblivious_fetchMergeRequests oblivious_fetchMergeRequestDetails
  : oblivious.

(** ** The walks see a remote through its answers only *)

#[export] Instance fetchMergeRequests_loop_proper :
  Proper ((≡) ==> (=) ==> (=) ==> (=) ==> (=) ==> (≡)) fetchMergeRequests_loop.
Proof.
  intros r1 r2 (_ & _ & H3 & _) fuel _ <- projectId _ <- acc _ <- page _ <-.
  revert acc page. induction fuel as [|fuel IH]; intros acc page; simpl; [done|].
  rewrite H3. repeat (apply bind_proper; [done|]; intros ?).
  case_decide; [done|]. apply bind_proper; [done|]. intros _.
  destruct (has_more_pages _ _ _); [apply IH | done].
Qed.

Lemma fetchMergeRequests_loop_equiv r1 r2 fuel projectId acc page :
  r1 ≡ r2 ->
  fetchMergeRequests_loop r1 fuel projectId acc page
  ≡ fetchMergeRequests_loop r2 fuel projectId acc page.
Proof. intros Hr. by apply fetchMergeRequests_loop_proper. Qed.

#[local] Hint Resolve fetchMergeRequests_loop_equiv : prog_proper.

#[export] Instance fetchMergeRequests_proper :
  Proper ((≡) ==> (=) ==> (=) ==> (≡)) fetchMergeRequests.
Proof.
  intros r1 r2 Hr fuel _ <- projectId _ <-. unfold fetchMergeRequests. solve_prog_proper.
Qed.

#[export] Instance fetchNotes_loop_proper :
  Proper ((≡) ==> (=) ==> (=) ==> (=) ==> (=) ==> (=) ==> (≡)) fetchNotes_loop.
Proof.
  intros r1 r2 (_ & _ & _ & H4 & _) fuel _ <- projectId _ <- mrIid _ <- acc _ <- page _ <-.
  revert acc page. induction fuel as [|fuel IH]; intros acc page; simpl; [done|].
  rewrite H4. repeat (apply bind_proper; [done|]; intros ?).
  repeat case_match; done || apply IH.
Qed.

Lemma fetchNotes_loop_equiv r1 r2 fuel projectId mrIid acc page :
  r1 ≡ r2 ->
  fetchNotes_loop r1 fuel projectId mrIid acc page
  ≡ fetchNotes_loop r2 fuel projectId mrIid acc page.
Proof. intros Hr. by apply fetchNotes_loop_proper. Qed.

Lemma get_approval_events_equiv (r1 r2 : Remote) projectId mrIid :
  r1 ≡ r2 ->
  api_get (GetApprovalEvents projectId mrIid) (listApprovalEvents r1 projectId mrIid)
  ≡ api_get (GetApprovalEvents projectId mrIid) (listApprovalEvents r2 projectId mrIid).
Proof. intros (_ & _ & _ & _ & H5). by rewrite H5. Qed.

#[local] Hint Resolve fetchNotes_loop_equiv get_approval_events_equiv : prog_proper.

#[export] Instance fetchMergeRequestDetails_proper :
  Proper ((≡) ==> (=) ==> (=) ==> (=) ==> (≡)) fetchMergeRequestDetails.
Proof.
  intros r1 r2 Hr fuel _ <- projectId _ <- mrIid _ <-. unfold fetchMergeRequestDetails.
  solve_prog_proper.
Qed.

Lemma fetchMergeRequests_equiv r1 r2 fuel projectId :
  r1 ≡ r2 -> fetchMergeRequests r1 fuel projectId ≡ fetchMergeRequests r2 fuel projectId.
Proof. intros Hr. by apply fetchMergeRequests_proper. Qed.

Lemma fetchMergeRequestDetails_equiv r1 r2 fuel projectId mrIid :
  r1 ≡ r2 ->
  fetchMergeRequestDetails r1 fuel projectId mrIid
  ≡ fetchMergeRequestDetails r2 fuel projectId mrIid.
Proof. intros Hr. by apply fetchMergeRequestDetails_proper. Qed.

#[export] Hint Resolve fetchMergeRequests_equiv fetchMergeRequestDetails_equiv : prog_proper.

(** ** Remotes that answer in time *)

(** [fetchMergeRequestDetails] ends when its note loop does. *)
Lemma halts_details_of_notes r fuel projectId mrIid :
  halts (fetchNotes_loop r fuel projectId mrIid [] 1) ->
  halts (fetchMergeRequestDetails r fuel projectId mrIid).
Proof. intros Hn. unfold fetchMergeRequestDetails. auto 10 with halts. Qed.

(** A remote that serves a list of merge requests short enough for the
    fuel, and notes whose first page announces no further page. *)
Lemma answers_within_serves r fuel :
  (forall projectId, exists items,
     serves r projectId items /\ (length items / per_page + 2 <= S fuel)%nat) ->
  (forall projectId mrIid, exists items total,
     serves_notes r projectId mrIid items total /\ header_or_one (total 1%nat) = Num 1) ->
  answers_within r (S fuel).
Proof.
  intros Hmrs Hnotes. split.
  - intros projectId log. destruct (Hmrs projectId) as (items & Hs & Hfuel).
    by destruct (fetchMergeRequests_serves r projectId items (S fuel) log Hs Hfuel)
      as (j & l & _ & -> & _).
  - intros projectId mrIid. apply halts_details_of_notes. intros log.
    destruct (Hnotes projectId mrIid) as (items & total & Hs & H1).
    by rewrite (notes_loop_first_page_only r projectId mrIid items total Hs).
Qed.

(** ** Theorems *)

(** C6: pagination completeness.  Against a remote that answers page [p]
    with the [p]-th slice of 100 of [items], whatever the pagination headers
    say (right, absent, zero or not a number), [fetchMergeRequests] returns
    exactly [items], in order, once the fuel exceeds [n/100 + 1]; it issues
    the requests for pages [1..j] and no other, with [j] either [n/100 + 1]
    or one more, and the last line it writes tells the number of items. *)
Theorem fetchMergeRequests_complete r projectId items fuel log :
  serves r projectId items ->
  (length items / per_page + 2 <= fuel)%nat ->
  exists j l, (length items / per_page + 1 <= j <= length items / per_page + 2)%nat /\
    fetchMergeRequests r fuel projectId log = Ret items (log ++ l) /\
    requests_of l = page_requests (GetMergeRequests projectId) 0 j /\
    last (console_of l) = Some (total_fetched (length items)).
Proof. apply fetchMergeRequests_serves. Qed.

Lemma fetchMergeRequests_complete_witness :
  exists j l,
    (length (sample_mrs 250) / per_page + 1 <= j
     <= length (sample_mrs 250) / per_page + 2)%nat /\
    fetchMergeRequests
      (static_remote (sample_mrs 250) (Some (Num 0)) (fun _ => []) (fun _ => None)
         (fun _ => None)) 4 1 [] =
    Ret (sample_mrs 250) ([] ++ l) /\
    requests_of l = page_requests (GetMergeRequests 1) 0 j /\
    last (console_of l) = Some (total_fetched (length (sample_mrs 250))).
Proof.
  apply (fetchMergeRequests_complete _ 1 (sample_mrs 250) 4 []).
  - apply static_remote_serves.
  - vm_compute. lia.
Defined.

(** The two runs of the specification: 250 items with the page count
    announced as 3, and with the page count announced as 0. *)
Example walker_250_announced_3 :
  fetchMergeRequests
    (static_remote (sample_mrs 250) (Some (Num 3)) (fun _ => []) (fun _ => None)
       (fun _ => None)) 5 1 [] =
  Ret (sample_mrs 250)
    [Logged "Fetching merge requests (paginated)...";
     Logged "Fetching page 1..."; Requested (GetMergeRequests 1 1);
     Logged "Retrieved 100 MRs from page 1";
     Logged "Page info: 1 of 3 (Total items: 250)";
     Logged "Fetching page 2..."; Requested (GetMergeRequests 1 2);
     Logged "Retrieved 100 MRs from page 2";
     Logged "Page info: 2 of 3 (Total items: 250)";
     Logged "Fetching page 3..."; Requested (GetMergeRequests 1 3);
     Logged "Retrieved 50 MRs from page 3";
     Logged "Page info: 3 of 3 (Total items: 250)";
     Logged "Total MRs fetched: 250"].
Proof. vm_compute. reflexivity. Qed.

Example walker_250_announced_0 :
  option_map requests_of (final_state
    (fetchMergeRequests
       (static_remote (sample_mrs 250) (Some (Num 0)) (fun _ => []) (fun _ => None)
          (fun _ => None)) 5 1 [])) =
  Some [GetMergeRequests 1 1; GetMergeRequests 1 2; GetMergeRequests 1 3].
Proof. vm_compute. reflexivity. Qed.

(** C11: a failure discards what was fetched.  When pages [1..k] answer
    full pages and the request for page [k+1] throws (or its body does not
    parse), [fetchMergeRequests] returns the empty array, not the [100 * k]
    merge requests it had accumulated; the last line of the console is the
    one trace of the failure. *)
Theorem fetchMergeRequests_failure_discards r projectId k fuel log :
  (forall q, (0 < q <= k)%nat -> full_page r projectId q) ->
  failing_page r projectId (S k) ->
  (k < fuel)%nat ->
  exists l, fetchMergeRequests r fuel projectId log = Ret [] (log ++ l) /\
    requests_of l = page_requests (GetMergeRequests projectId) 0 (S k) /\
    last (console_of l) = Some "Failed to fetch merge requests:".
Proof. apply fetchMergeRequests_fails. Qed.

Lemma cut_after_full k base projectId q :
  (Z.of_nat q <= k) -> full_page base projectId q ->
  full_page (cut_after k base) projectId q.
Proof.
  intros Hq (resp & l & ? & ? & ?). exists resp, l. simpl. by rewrite decide_True.
Qed.

Lemma static_remote_full n total nts ntotal evs projectId q :
  (0 < q)%nat -> (per_page * q <= n)%nat ->
  full_page (static_remote (sample_mrs n) total nts ntotal evs) projectId q.
Proof.
  intros Hq Hn. destruct (static_remote_serves (sample_mrs n) total nts ntotal evs
    projectId q) as (resp & ? & ?); [lia|].
  exists resp, (page_slice (sample_mrs n) q). repeat split; try done.
  destruct q as [|q]; [lia|]. apply page_slice_full. by rewrite sample_mrs_length.
Qed.

Lemma fetchMergeRequests_failure_discards_witness :
  exists l,
    fetchMergeRequests
      (cut_after 2 (static_remote (sample_mrs 250) (Some (Num 3)) (fun _ => [])
         (fun _ => None) (fun _ => None))) 5 1 [] = Ret [] ([] ++ l) /\
    requests_of l = page_requests (GetMergeRequests 1) 0 3 /\
    last (console_of l) = Some "Failed to fetch merge requests:".
Proof.
  apply (fetchMergeRequests_failure_discards _ 1 2 5 []).
  - intros q Hq. apply cut_after_full; [lia|]. apply static_remote_full; [lia|].
    unfold per_page. lia.
  - left. reflexivity.
  - lia.
Defined.

(** C39: no bound on the number of pages.  Against a remote every page of
    which is full, [fetchMergeRequests] does not return, whatever the fuel:
    the loop has no page limit of its own. *)
Theorem fetchMergeRequests_endless r projectId fuel log :
  (forall q, (0 < q)%nat -> full_page r projectId q) ->
  fetchMergeRequests r fuel projectId log = OutOfFuel.
Proof.
  intros Hfull. unfold fetchMergeRequests, try_catch, bind, console_log.
  change 1 with (Z.of_nat 1). by rewrite (loop_endless r projectId fuel 0 [] _).
Qed.

Lemma fetchMergeRequests_endless_witness :
  fetchMergeRequests endless_remote 1000 1 [] = OutOfFuel.
Proof.
  apply fetchMergeRequests_endless. intros q _. apply endless_remote_full.
Defined.

(** A page that never arrives blocks the walk.  The request for a
    page of merge requests is the one request issued with [timeout: false]:
    when pages [1..k] answer full pages and page [k+1] stays pending,
    [fetchMergeRequests] does not return, whatever the fuel; neither the
    [catch] nor the pages already read help. *)
Theorem fetchMergeRequests_pending r projectId k fuel log :
  (forall q, (0 < q <= k)%nat -> full_page r projectId q) ->
  pending_page r projectId (S k) ->
  fetchMergeRequests r fuel projectId log = OutOfFuel.
Proof. apply fetchMergeRequests_stalls. Qed.

Lemma stalled_after_full k base projectId q :
  (Z.of_nat q <= k) -> full_page base projectId q ->
  full_page (stalled_after k base) projectId q.
Proof.
  intros Hq (resp & l & ? & ? & ?). exists resp, l. simpl. by rewrite decide_True.
Qed.

Lemma fetchMergeRequests_pending_witness :
  fetchMergeRequests
    (stalled_after 2 (static_remote (sample_mrs 250) (Some (Num 3)) (fun _ => [])
       (fun _ => None) (fun _ => None))) 1000 1 [] = OutOfFuel.
Proof.
  apply (fetchMergeRequests_pending _ 1 2 1000 []).
  - intros q Hq. apply stalled_after_full; [lia|]. apply static_remote_full; [lia|].
    unfold per_page. lia.
  - reflexivity.
Defined.

(** Completeness of the notes, and degradation of the approvals.  When
    every page of notes announces the right page count,
    [fetchMergeRequestDetails] returns every note in order after exactly
    that many requests, then asks once for the approval events; a failure of
    that last request yields no approval and keeps the notes. *)
Theorem fetchMergeRequestDetails_complete r projectId mrIid items total fuel log :
  serves_notes r projectId mrIid items total ->
  (forall p, total p = Some (Num (Z.of_nat (page_count (length items))))) ->
  (page_count (length items) <= fuel)%nat ->
  exists l,
    fetchMergeRequestDetails r fuel projectId mrIid log =
    Ret {| notes := items;
           approvalEvents := default [] (listApprovalEvents r projectId mrIid) |}
      (log ++ l) /\
    requests_of l = page_requests (GetNotes projectId mrIid) 0 (page_count (length items))
                    ++ [GetApprovalEvents projectId mrIid].
Proof.
  intros Hs Htotal Hfuel.
  pose proof (page_count_pos (length items)) as Hpos.
  destruct (notes_loop_complete r projectId mrIid items total Hs fuel 0 log Htotal)
    as (l & Hrun & Hl); [lia..|].
  rewrite Nat.mul_0_r, take_0 in Hrun. rewrite Nat.sub_0_r in Hl.
  exists (l ++ [Requested (GetApprovalEvents projectId mrIid)]).
  rewrite app_assoc, requests_of_app, Hl. split; [|done]. by apply details_of_notes.
Qed.

Lemma fetchMergeRequestDetails_complete_witness :
  exists l,
    fetchMergeRequestDetails
      (static_remote [] None (fun _ => sample_notes 150) (fun _ => Some (Num 2))
         (fun _ => None)) 2 1 5 [] =
    Ret {| notes := sample_notes 150; approvalEvents := [] |} ([] ++ l) /\
    requests_of l = page_requests (GetNotes 1 5) 0 (page_count (length (sample_notes 150)))
                    ++ [GetApprovalEvents 1 5].
Proof.
  apply (fetchMergeRequestDetails_complete
           (static_remote [] None (fun _ => sample_notes 150) (fun _ => Some (Num 2))
              (fun _ => None)) 1 5 (sample_notes 150) (fun _ => Some (Num 2)) 2 []).
  - apply static_remote_serves_notes.
  - reflexivity.
  - vm_compute. lia.
Defined.

(** C38: the notes loop trusts the header alone.  When the first page of
    notes carries no usable [x-total-pages] (absent, zero or not a number),
    [fetchMergeRequestDetails] returns the first 100 notes only, after one
    request: it has neither the empty-page test nor the full-page fallback
    of [fetchMergeRequests]. *)
Theorem fetchMergeRequestDetails_first_page_only r projectId mrIid items total fuel log :
  serves_notes r projectId mrIid items total ->
  header_or_one (total 1%nat) = Num 1 ->
  exists l,
    fetchMergeRequestDetails r (S fuel) projectId mrIid log =
    Ret {| notes := take per_page items;
           approvalEvents := default [] (listApprovalEvents r projectId mrIid) |}
      (log ++ l) /\
    requests_of l = [GetNotes projectId mrIid 1; GetApprovalEvents projectId mrIid].
Proof.
  intros Hs H1.
  exists (notes_events projectId mrIid 1 (length (take per_page items))
          ++ [Requested (GetApprovalEvents projectId mrIid)]).
  rewrite app_assoc, requests_of_app, requests_of_notes_events. split; [|done].
  apply details_of_notes.
  by apply (notes_loop_first_page_only r projectId mrIid items total Hs).
Qed.

Lemma fetchMergeRequestDetails_first_page_only_witness :
  exists l,
    fetchMergeRequestDetails
      (static_remote [] None (fun _ => sample_notes 150) (fun _ => None)
         (fun _ => Some [])) 1 1 5 [] =
    Ret {| notes := take per_page (sample_notes 150); approvalEvents := [] |} ([] ++ l) /\
    requests_of l = [GetNotes 1 5 1; GetApprovalEvents 1 5].
Proof.
  apply (fetchMergeRequestDetails_first_page_only
           (static_remote [] None (fun _ => sample_notes 150) (fun _ => None)
              (fun _ => Some [])) 1 5 (sample_notes 150) (fun _ => None) 0 []).
  - apply static_remote_serves_notes.
  - reflexivity.
Defined.

(** A failure while reading the notes yields no note, no approval, and
    no request for the approval events; a line of the console tells it. *)
Theorem fetchMergeRequestDetails_notes_failure r projectId mrIid fuel log :
  listNotes r projectId mrIid 1 = None ->
  fetchMergeRequestDetails r (S fuel) projectId mrIid log =
  Ret {| notes := []; approvalEvents := [] |}
    (log ++ [Logged (fetching_notes 1 mrIid); Requested (GetNotes projectId mrIid 1);
             Logged (failed_details mrIid)]).
Proof.
  intros Hfail.
  rewrite (details_of_notes_failure _ _ _ _ _ HTTPError
             (log ++ [Logged (fetching_notes 1 mrIid); Requested (GetNotes projectId mrIid 1)])).
  - by rewrite <- app_assoc.
  - simpl. unfold bind, api_get, console_log. by rewrite Hfail, <- app_assoc.
Qed.

Lemma fetchMergeRequestDetails_notes_failure_witness :
  fetchMergeRequestDetails endless_remote 1 1 5 [] =
  Ret {| notes := []; approvalEvents := [] |}
    ([] ++ [Logged (fetching_notes 1 5); Requested (GetNotes 1 5 1);
            Logged (failed_details 5)]).
Proof. apply (fetchMergeRequestDetails_notes_failure endless_remote 1 5 0 []). reflexivity. Defined.

(** Neither function lets an exception out. *)
Lemma fetchMergeRequests_never_throws r fuel projectId log e log' :
  fetchMergeRequests r fuel projectId log <> Throw e log'.
Proof. by apply try_catch_no_throw. Qed.

Lemma fetchMergeRequestDetails_never_throws r fuel projectId mrIid log e log' :
  fetchMergeRequestDetails r fuel projectId mrIid log <> Throw e log'.
Proof. by apply try_catch_no_throw. Qed.
