(* ===== verification/Store.v ===== *)
(** * Store: the module [./database] of [src/src/index.ts] (lines 427-608)

    The two aggregate queries of the module (lines 610-700) are in
    [Analytics].

    The state is the SQLite file together with the module variable [db]:
    whether the handle is set, whether the two tables exist, whether the two
    columns added by [ALTER TABLE] exist, the rows of the two tables keyed
    by their primary keys ([id] for [projects], [(id, project_id)] for
    [merge_requests]), what the driver does to the coming statements
    ([faults]), and whether the connection was closed ([closed]).  Every
    method of the wrapper class [Database] is the promise [callback]: it
    consumes one entry of [faults], rejects when that entry is a failure,
    when the connection is closed or when the schema lacks what the
    statement names, and resolves otherwise.  [close] is a method like the
    others ([sql_close]); no exported function calls it.  Every exported function is a program
    over that state; a rejected promise is a [Throw].

    The NOT NULL constraints hold by typing (a field that may be null is an
    [option]); the FOREIGN KEY is not enforced by SQLite unless asked, and the
    program does not ask.

    [initDatabase] and [getMergeRequest] write to the console; the lines the
    module has written are kept with the state ([logged]), oldest first.
    [initDatabase] writes one line for each of the two columns: that it was
    added, or that it might already exist, followed by the message of the
    driver, whatever made the statement fail. *)

From S2P Require Import Prelude JsModel Remote.

(** ** Data *)

(** [interface MergeRequestData]; [row_id] is its field [id]. *)
Record MergeRequestData : Type := {
  row_id : Z;
  project_id : Z;
  title : string;
  description : option string;
  created_at : string;
  updated_at : string;
  state : string;
  author_id : Z;
  author_username : string;
  first_comment_at : option string;
  approved_at : option string;
  merged_at : option string;
  squad : option string;
}.

#[export] Instance MergeRequestData_eq_dec : EqDecision MergeRequestData.
Proof. solve_decision. Defined.

Record Db : Type := {
  handle : bool;
  has_tables : bool;
  col_squad : bool;
  col_description : bool;
  projects : gmap Z Project;
  merge_requests : gmap (Z * Z) MergeRequestData;
  (** what befalls the coming statements whatever the schema: [Some msg]
      for a statement the driver fails with [msg] (disk full, file locked),
      [None] for one it runs; the statements after the list are run *)
  faults : list (option string);
  (** the connection was closed by [Database.close] *)
  closed : bool;
  (** the lines the functions of the module wrote to the console, oldest
      first *)
  logged : list string;
}.

(** A file that does not exist yet, in a process that has not opened it. *)
Definition fresh_db : Db :=
  {| handle := false; has_tables := false; col_squad := false;
     col_description := false; projects := ∅; merge_requests := ∅; faults := [];
     closed := false; logged := [] |}.

Definition set_handle (b : bool) (s : Db) : Db :=
  {| handle := b; has_tables := has_tables s; col_squad := col_squad s;
     col_description := col_description s; projects := projects s;
     merge_requests := merge_requests s; faults := faults s;
     closed := closed s;
     logged := logged s |}.

Definition set_has_tables (b : bool) (s : Db) : Db :=
  {| handle := handle s; has_tables := b; col_squad := col_squad s;
     col_description := col_description s; projects := projects s;
     merge_requests := merge_requests s; faults := faults s;
     closed := closed s;
     logged := logged s |}.

Definition set_col_squad (b : bool) (s : Db) : Db :=
  {| handle := handle s; has_tables := has_tables s; col_squad := b;
     col_description := col_description s; projects := projects s;
     merge_requests := merge_requests s; faults := faults s;
     closed := closed s;
     logged := logged s |}.

Definition set_col_description (b : bool) (s : Db) : Db :=
  {| handle := handle s; has_tables := has_tables s; col_squad := col_squad s;
     col_description := b; projects := projects s;
     merge_requests := merge_requests s; faults := faults s;
     closed := closed s;
     logged := logged s |}.

Definition set_projects (m : gmap Z Project) (s : Db) : Db :=
  {| handle := handle s; has_tables := has_tables s; col_squad := col_squad s;
     col_description := col_description s; projects := m;
     merge_requests := merge_requests s; faults := faults s;
     closed := closed s;
     logged := logged s |}.

Definition set_merge_requests (m : gmap (Z * Z) MergeRequestData) (s : Db) : Db :=
  {| handle := handle s; has_tables := has_tables s; col_squad := col_squad s;
     col_description := col_description s; projects := projects s;
     merge_requests := m; faults := faults s; closed := closed s;
     logged := logged s |}.

Definition set_faults (fs : list (option string)) (s : Db) : Db :=
  {| handle := handle s; has_tables := has_tables s; col_squad := col_squad s;
     col_description := col_description s; projects := projects s;
     merge_requests := merge_requests s; faults := fs; closed := closed s;
     logged := logged s |}.

Definition set_closed (b : bool) (s : Db) : Db :=
  {| handle := handle s; has_tables := has_tables s; col_squad := col_squad s;
     col_description := col_description s; projects := projects s;
     merge_requests := merge_requests s; faults := faults s; closed := b;
     logged := logged s |}.

Definition set_logged (lines : list string) (s : Db) : Db :=
  {| handle := handle s; has_tables := has_tables s; col_squad := col_squad s;
     col_description := col_description s; projects := projects s;
     merge_requests := merge_requests s; faults := faults s; closed := closed s;
     logged := lines |}.

(** The primary key of a row of [merge_requests]. *)
Definition row_key (mr : MergeRequestData) : Z * Z := (row_id mr, project_id mr).

(** ** The driver *)

(** A method call on [db]: a [TypeError] when the variable is not set. *)
Definition with_handle {A} (c : prog Db exn A) : prog Db exn A :=
  fun s =>
    if handle s then c s
    else Throw (TypeError "Cannot read properties of undefined") s.

(** The fate of the next statement: the driver fails it, or lets it run. *)
Definition next_fault : prog Db exn unit :=
  fun s =>
    match faults s with
    | [] => Ret tt s
    | None :: rest => Ret tt (set_faults rest s)
    | Some msg :: rest => Throw (SqliteError msg) (set_faults rest s)
    end.

(** The promise every method of [class Database] returns: the driver is
    called with a callback; an error rejects the promise, otherwise it
    resolves with [result].  A statement fails when the driver fails it,
    when the connection is closed, or when the schema lacks what it names
    ([ok]); otherwise the file is [after]. *)
Definition callback {A} (ok : Db -> bool) (msg : string) (result : Db -> A)
    (after : Db -> Db) : prog Db exn A :=
  next_fault ;;
  fun s =>
    if closed s then Throw (SqliteError "SQLITE_MISUSE: Database is closed") s
    else if ok s then Ret (result s) (after s) else Throw (SqliteError msg) s.

(** [Database.run]: a statement that changes the file. *)
Definition sql_run (ok : Db -> bool) (msg : string) (f : Db -> Db) : prog Db exn unit :=
  callback ok msg (fun _ => tt) f.

(** [Database.exec]: statements without parameters. *)
Definition sql_exec (ok : Db -> bool) (msg : string) (f : Db -> Db) : prog Db exn unit :=
  callback ok msg (fun _ => tt) f.

(** [Database.get]: the first row of a query. *)
Definition sql_query {A} (ok : Db -> bool) (msg : string) (f : Db -> A) : prog Db exn A :=
  callback ok msg f id.

(** [Database.all]: every row of a query. *)
Definition sql_all {A} (ok : Db -> bool) (msg : string) (f : Db -> A) : prog Db exn A :=
  callback ok msg f id.

(** [Database.close]: the connection is closed; closing it twice is an
    error as any other call on a closed connection. *)
Definition sql_close : prog Db exn unit :=
  callback (fun _ => true) "" (fun _ => tt) (set_closed true).

(** [new Database('./gitlab_data.sqlite')]: the module variable is set to a
    new connection; the driver opens the file lazily and creates it when it
    is missing. *)
Definition open_database : prog Db exn unit :=
  modify (fun s => set_closed false (set_handle true s)).

(** [CREATE TABLE IF NOT EXISTS projects ...; CREATE TABLE IF NOT EXISTS
    merge_requests ...]. *)
Definition create_tables : prog Db exn unit :=
  sql_exec (fun _ => true) "" (set_has_tables true).

(** [ALTER TABLE merge_requests ADD COLUMN squad VARCHAR(30) NULL]. *)
Definition add_column_squad : prog Db exn unit :=
  sql_exec (fun s => has_tables s && negb (col_squad s))
    "duplicate column name: squad" (set_col_squad true).

(** [ALTER TABLE merge_requests ADD COLUMN description TEXT NULL]. *)
Definition add_column_description : prog Db exn unit :=
  sql_exec (fun s => has_tables s && negb (col_description s))
    "duplicate column name: description" (set_col_description true).

(** [console.log(...)] in the module: the arguments are printed with a
    space between them. *)
Definition db_console_log (line : string) : prog Db exn unit :=
  modify (fun s => set_logged (logged s ++ [line]) s).

(** ** The exported functions *)

(** [initDatabase]. *)
Definition initDatabase : prog Db exn unit :=
  opened <- gets handle ;;
  if opened then ret tt
  else
    open_database ;;
    create_tables ;;
    try_catch
      (add_column_squad ;;
       db_console_log "Added squad column to merge_requests table")
      (fun err =>
         db_console_log ("Squad column might already exist: " +:+ message err)) ;;
    try_catch
      (add_column_description ;;
       db_console_log "Added description column to merge_requests table")
      (fun err =>
         db_console_log ("Description column might already exist: " +:+ message err)).

(** [saveProject]: [INSERT OR REPLACE INTO projects]. *)
Definition saveProject (project : Project) : prog Db exn unit :=
  with_handle
    (sql_run has_tables "no such table: projects"
       (fun s => set_projects (<[p_id project := project]> (projects s)) s)).

(** [saveMergeRequest]: [INSERT OR REPLACE INTO merge_requests], all
    thirteen columns named. *)
Definition saveMergeRequest (mr : MergeRequestData) : prog Db exn unit :=
  with_handle
    (sql_run (fun s => has_tables s && col_squad s && col_description s)
       "table merge_requests has no column named squad"
       (fun s => set_merge_requests (<[row_key mr := mr]> (merge_requests s)) s)).

(** [getMergeRequest]: the row of that key or [null]; an error is logged
    and read as [null]. *)
Definition getMergeRequest (projectId mrId : Z) : prog Db exn (option MergeRequestData) :=
  try_catch
    (with_handle
       (sql_query has_tables "no such table: merge_requests"
          (fun s => merge_requests s !! (mrId, projectId))))
    (fun err => db_console_log "Failed to check merge request:" ;; ret None).

(** ** Invariants *)

(** The schema the exported functions need, a driver that fails no
    statement, and a connection that is open. *)
Definition ready (s : Db) : Prop :=
  handle s = true /\ has_tables s = true /\ col_squad s = true /\
  col_description s = true /\ faults s = [] /\ closed s = false.

(** The file is a database the program could have produced: no column and
    no row without the tables, no value in a column that does not exist,
    and every row under its own primary key. *)
Record wf (s : Db) : Prop := {
  wf_cols : has_tables s = false -> col_squad s = false /\ col_description s = false;
  wf_empty : has_tables s = false -> projects s = ∅ /\ merge_requests s = ∅;
  wf_squad : col_squad s = false ->
    forall k row, merge_requests s !! k = Some row -> squad row = None;
  wf_description : col_description s = false ->
    forall k row, merge_requests s !! k = Some row -> description row = None;
  wf_keys : forall k row, merge_requests s !! k = Some row -> k = row_key row;
  wf_project_keys : forall k p, projects s !! k = Some p -> k = p_id p;
}.

#[export] Instance ready_dec s : Decision (ready s).
Proof. unfold ready. apply _. Defined.

(** The operations of the module, as one type, and the step they induce on
    the file. *)
Inductive db_op : Type :=
| OpInit
| OpSaveProject (project : Project)
| OpSaveMergeRequest (mr : MergeRequestData)
| OpGetMergeRequest (projectId mrId : Z).

Definition run_op (op : db_op) : prog Db exn unit :=
  match op with
  | OpInit => initDatabase
  | OpSaveProject p => saveProject p
  | OpSaveMergeRequest mr => saveMergeRequest mr
  | OpGetMergeRequest projectId mrId => _ <- getMergeRequest projectId mrId ;; ret tt
  end.

Inductive db_step : Db -> Db -> Prop :=
| db_step_op op s s' : final_state (run_op op s) = Some s' -> db_step s s'.

(** The file with the whole schema, in a process that has opened it. *)
Definition opened (s : Db) : Db :=
  {| handle := true; has_tables := true; col_squad := true; col_description := true;
     projects := projects s; merge_requests := merge_requests s; faults := faults s;
     closed := false; logged := logged s |}.

(** What [initDatabase] writes on a file the driver does not fail: for
    each of the two columns, that it was added or that it was there. *)
Definition init_lines (s : Db) : list string :=
  [ if col_squad s then "Squad column might already exist: duplicate column name: squad"
    else "Added squad column to merge_requests table";
    if col_description s
    then "Description column might already exist: duplicate column name: description"
    else "Added description column to merge_requests table" ].

(** The state [initDatabase] leaves on such a file when the handle was not
    set. *)
Definition initialised (s : Db) : Db :=
  set_logged (logged s ++ init_lines s) (opened s).

(** The state a failed read leaves: a line on the console. *)
Definition check_failed (s : Db) : Db :=
  set_logged (logged s ++ ["Failed to check merge request:"]) s.

(** A row and a file for the examples. *)
Definition sample_row : MergeRequestData :=
  {| row_id := 1001; project_id := 1; title := "change"; description := None;
     created_at := "2025-04-01T10:00:00.000Z";
     updated_at := "2025-04-02T10:00:00.000Z"; state := "opened";
     author_id := 7; author_username := "dev";
     first_comment_at := Some "2025-04-01T10:10:00.000Z"; approved_at := None;
     merged_at := None; squad := Some "WEB" |}.

(** A file written by an earlier version of the program, which knew the
    [squad] column but not the [description] column, before it is opened. *)
Definition old_file : Db :=
  {| handle := false; has_tables := true; col_squad := true;
     col_description := false; projects := ∅;
     merge_requests := {[ row_key sample_row := sample_row ]}; faults := [];
     closed := false; logged := [] |}.

(** A file on which the driver fails the first [ALTER TABLE] for a reason
    of its own. *)
Definition locked_file : Db :=
  set_faults [None; Some "database is locked"] fresh_db.

(** The file whose table holds the rows of a list, opened. *)
Definition table_db (l : list MergeRequestData) : Db :=
  set_merge_requests (list_to_map ((fun row => (row_key row, row)) <$> l))
    (opened fresh_db).

(** ** The driver, statement by statement *)

Lemma set_faults_same s : set_faults (faults s) s = s.
Proof. by destruct s. Qed.

(** A statement the driver does not fail depends on the schema alone. *)
Lemma callback_healthy {A} ok msg (result : Db -> A) after s :
  faults s = [] -> closed s = false ->
  callback ok msg result after s =
  if ok s then Ret (result s) (after s) else Throw (SqliteError msg) s.
Proof. intros Hf Hc. unfold callback, bind, next_fault. by rewrite Hf, Hc. Qed.

(** On a closed connection every statement fails. *)
Lemma callback_closed {A} ok msg (result : Db -> A) after s :
  closed s = true ->
  exists m s', callback ok msg result after s = Throw (SqliteError m) s' /\
               closed s' = true /\ merge_requests s' = merge_requests s /\
               projects s' = projects s.
Proof.
  intros Hc. unfold callback, bind, next_fault.
  destruct (faults s) as [|[m|] rest]; simpl; rewrite ?Hc; by eauto 10.
Qed.

(** A statement the driver fails changes nothing, whatever the schema. *)
Lemma callback_fault {A} ok msg (result : Db -> A) after s m rest :
  faults s = Some m :: rest ->
  callback ok msg result after s = Throw (SqliteError m) (set_faults rest s).
Proof. intros Hf. unfold callback, bind, next_fault. by rewrite Hf. Qed.

Lemma preserves_callback (P : Db -> Prop) {A} ok msg (result : Db -> A) after :
  (forall fs s, P s -> P (set_faults fs s)) ->
  (forall s, P s -> ok s = true -> P (after s)) ->
  preserves P (callback ok msg result after).
Proof.
  intros Hf Ha s s' HP. unfold callback, bind, next_fault.
  destruct (faults s) as [|[m|] rest]; simpl.
  - destruct (closed s), (ok s) eqn:Hok; intros [= <-]; auto.
  - intros [= <-]; auto.
  - destruct (closed s), (ok (set_faults rest s)) eqn:Hok; intros [= <-]; auto.
Qed.

Lemma preserves_with_handle (P : Db -> Prop) {A} (c : prog Db exn A) :
  preserves P c -> preserves P (with_handle c).
Proof.
  intros Hc s s' HP. unfold with_handle. destruct (handle s); [by apply Hc|].
  by intros [= <-].
Qed.

Lemma halts_callback {A} ok msg (result : Db -> A) after :
  halts (callback ok msg result after).
Proof.
  intros s. unfold callback, bind, next_fault.
  destruct (faults s) as [|[m|] rest]; simpl; [|done|]; by repeat destruct_match.
Qed.

Lemma halts_with_handle {A} (c : prog Db exn A) : halts c -> halts (with_handle c).
Proof. intros Hc s. unfold with_handle. destruct (handle s); [apply Hc|done]. Qed.

Lemma halts_db_console_log line : halts (db_console_log line).
Proof. done. Qed.

#[export] Hint Resolve halts_callback halts_with_handle halts_db_console_log : halts.

(** ** What each function computes *)

Lemma initDatabase_run s :
  faults s = [] ->
  initDatabase s = Ret tt (if handle s then s else initialised s).
Proof.
  intros Hf. unfold initDatabase, bind, gets.
  destruct s as [h t cs cd ps ms fs cl lg]; simpl in *; subst fs.
  destruct h; [done|].
  unfold try_catch, bind, open_database, db_console_log, modify, create_tables,
    add_column_squad, add_column_description, sql_exec, ret, initialised, init_lines; simpl.
  rewrite !callback_healthy by done; simpl.
  destruct cs; simpl; rewrite !callback_healthy by done; simpl;
    destruct cd; simpl; unfold set_logged; simpl; by rewrite <- app_assoc.
Qed.

Lemma saveMergeRequest_ready mr s :
  ready s ->
  saveMergeRequest mr s =
  Ret tt (set_merge_requests (<[row_key mr := mr]> (merge_requests s)) s).
Proof.
  intros (Hh & Ht & Hs & Hd & Hf & Hc). unfold saveMergeRequest, with_handle, sql_run.
  by rewrite Hh, callback_healthy, Ht, Hs, Hd.
Qed.

Lemma saveProject_ready p s :
  ready s ->
  saveProject p s = Ret tt (set_projects (<[p_id p := p]> (projects s)) s).
Proof.
  intros (Hh & Ht & _ & _ & Hf & Hc). unfold saveProject, with_handle, sql_run.
  by rewrite Hh, callback_healthy, Ht.
Qed.

Lemma getMergeRequest_run projectId mrId s :
  faults s = [] -> closed s = false ->
  getMergeRequest projectId mrId s =
  if handle s && has_tables s then Ret (merge_requests s !! (mrId, projectId)) s
  else Ret None (check_failed s).
Proof.
  intros Hf Hc. unfold getMergeRequest, try_catch, with_handle, sql_query.
  destruct (handle s); [|done]. rewrite callback_healthy by done.
  by destruct (has_tables s).
Qed.

Lemma getMergeRequest_ready projectId mrId s :
  ready s ->
  getMergeRequest projectId mrId s = Ret (merge_requests s !! (mrId, projectId)) s.
Proof. intros (Hh & Ht & _ & _ & Hf & Hc). by rewrite getMergeRequest_run, Hh, Ht. Qed.

(** Whatever the driver does, [getMergeRequest] returns. *)
Lemma getMergeRequest_returns projectId mrId s :
  exists found s', getMergeRequest projectId mrId s = Ret found s'.
Proof.
  unfold getMergeRequest, try_catch, with_handle, sql_query, callback, bind, next_fault.
  destruct (handle s); [|by eauto].
  destruct (faults s) as [|[m|] rest]; simpl; [|by eauto|];
    destruct (closed s), (has_tables s); by eauto.
Qed.

(** A statement the driver lets pass, on a file with the whole schema. *)
Lemma getMergeRequest_pass projectId mrId s rest :
  ready (set_faults [] s) -> faults s = None :: rest ->
  getMergeRequest projectId mrId s =
  Ret (merge_requests s !! (mrId, projectId)) (set_faults rest s).
Proof.
  intros (Hh & Ht & _ & _ & _ & Hc) Hf. simpl in *.
  unfold getMergeRequest, try_catch, with_handle, sql_query, callback, bind, next_fault.
  rewrite Hh, Hf. simpl. by rewrite Hc, Ht.
Qed.

(** A read the driver fails is answered [null]; a line of the console
    tells it. *)
Lemma getMergeRequest_fault projectId mrId s m rest :
  handle s = true -> faults s = Some m :: rest ->
  getMergeRequest projectId mrId s = Ret None (check_failed (set_faults rest s)).
Proof.
  intros Hh Hf. unfold getMergeRequest, try_catch, with_handle, sql_query.
  by rewrite Hh, (callback_fault _ _ _ _ _ _ _ Hf).
Qed.

(** A save the driver fails throws the driver's error and writes nothing. *)
Lemma saveMergeRequest_fault mr s m rest :
  handle s = true -> faults s = Some m :: rest ->
  saveMergeRequest mr s = Throw (SqliteError m) (set_faults rest s).
Proof.
  intros Hh Hf. unfold saveMergeRequest, with_handle, sql_run.
  by rewrite Hh, (callback_fault _ _ _ _ _ _ _ Hf).
Qed.

Lemma halts_initDatabase : halts initDatabase.
Proof.
  unfold initDatabase. apply halts_bind; [auto with halts|]. intros [|]; [auto with halts|].
  unfold open_database, create_tables, add_column_squad, add_column_description, sql_exec.
  auto 12 with halts.
Qed.

Lemma halts_saveProject p : halts (saveProject p).
Proof. unfold saveProject, sql_run. auto with halts. Qed.

Lemma halts_saveMergeRequest mr : halts (saveMergeRequest mr).
Proof. unfold saveMergeRequest, sql_run. auto with halts. Qed.

Lemma halts_getMergeRequest projectId mrId : halts (getMergeRequest projectId mrId).
Proof. unfold getMergeRequest, sql_query. auto with halts. Qed.

#[export] Hint Resolve halts_initDatabase halts_saveProject halts_saveMergeRequest
  halts_getMergeRequest : halts.

(** ** Preservation of the invariants *)

Lemma wf_fresh : wf fresh_db.
Proof. by split. Qed.

Lemma wf_opened s : wf s -> wf (opened s).
Proof. intros [? ? ? ? ? ?]. by split. Qed.

Lemma wf_set_faults fs s : wf s -> wf (set_faults fs s).
Proof. intros [? ? ? ? ? ?]. by split. Qed.

Lemma wf_set_merge_requests mr s :
  wf s -> has_tables s = true -> col_squad s = true -> col_description s = true ->
  wf (set_merge_requests (<[row_key mr := mr]> (merge_requests s)) s).
Proof.
  intros [? ? ? ? Hk ?] Ht Hs Hd. split; simpl; try congruence; try done.
  intros k row. destruct (decide (row_key mr = k)) as [<-|Hne].
  - rewrite lookup_insert_eq. by intros [= <-].
  - rewrite lookup_insert_ne by done. apply Hk.
Qed.

Lemma wf_set_projects p s :
  wf s -> has_tables s = true ->
  wf (set_projects (<[p_id p := p]> (projects s)) s).
Proof.
  intros [? ? ? ? ? Hk] Ht. split; simpl; try congruence; try done.
  intros k q. destruct (decide (p_id p = k)) as [<-|Hne].
  - rewrite lookup_insert_eq. by intros [= <-].
  - rewrite lookup_insert_ne by done. apply Hk.
Qed.

(** A column is added only to a table that exists. *)
Lemma wf_add_column_squad s :
  wf s -> has_tables s && negb (col_squad s) = true -> wf (set_col_squad true s).
Proof.
  intros [? ? Hsq ? ? ?] [Ht _]%andb_true_iff. split; simpl; try done.
  all: intros; try split; try congruence; naive_solver.
Qed.

Lemma wf_add_column_description s :
  wf s -> has_tables s && negb (col_description s) = true ->
  wf (set_col_description true s).
Proof.
  intros [? ? ? ? ? ?] [Ht _]%andb_true_iff. split; simpl; try done.
  all: intros; try split; try congruence; naive_solver.
Qed.

Lemma wf_create_tables s : wf s -> wf (set_has_tables true s).
Proof. intros [? ? ? ? ? ?]. by split. Qed.

Lemma wf_set_handle b s : wf s -> wf (set_handle b s).
Proof. intros [? ? ? ? ? ?]. by split. Qed.

Lemma wf_set_closed b s : wf s -> wf (set_closed b s).
Proof. intros [? ? ? ? ? ?]. by split. Qed.

Lemma wf_set_logged lines s : wf s -> wf (set_logged lines s).
Proof. intros [? ? ? ? ? ?]. by split. Qed.

#[export] Hint Resolve wf_set_faults wf_add_column_squad wf_add_column_description
  wf_create_tables wf_set_handle wf_set_closed wf_set_logged : preserves.

(** A line on the console changes nothing else. *)
Lemma preserves_db_console_log (P : Db -> Prop) line :
  (forall lines s, P s -> P (set_logged lines s)) -> preserves P (db_console_log line).
Proof. intros Hl. apply preserves_modify. auto. Qed.

(** [initDatabase] keeps the file well formed whichever of its statements
    the driver fails. *)
Lemma preserves_initDatabase (P : Db -> Prop) :
  (forall fs s, P s -> P (set_faults fs s)) ->
  (forall s, P s -> P (set_closed false (set_handle true s))) ->
  (forall s, P s -> P (set_has_tables true s)) ->
  (forall s, P s -> has_tables s && negb (col_squad s) = true -> P (set_col_squad true s)) ->
  (forall s, P s -> has_tables s && negb (col_description s) = true ->
             P (set_col_description true s)) ->
  (forall lines s, P s -> P (set_logged lines s)) ->
  preserves P initDatabase.
Proof.
  intros Hf Hh Ht Hs Hd Hl.
  unfold initDatabase, open_database, create_tables, add_column_squad,
    add_column_description, sql_exec.
  repeat first [apply preserves_callback | apply preserves_db_console_log
               | preserves_step]; auto.
Qed.

Lemma wf_initDatabase : preserves wf initDatabase.
Proof. apply preserves_initDatabase; auto with preserves. Qed.

Lemma wf_saveProject p : preserves wf (saveProject p).
Proof.
  apply preserves_with_handle, preserves_callback; [apply wf_set_faults|].
  intros s Hwf Ht. by apply wf_set_projects.
Qed.

Lemma wf_saveMergeRequest mr : preserves wf (saveMergeRequest mr).
Proof.
  apply preserves_with_handle, preserves_callback; [apply wf_set_faults|].
  intros s Hwf [[Ht Hs]%andb_true_iff Hd]%andb_true_iff. by apply wf_set_merge_requests.
Qed.

(** A read changes nothing of the file but the driver's future. *)
Lemma read_only (P : Db -> Prop) {A} ok msg (f : Db -> A) :
  (forall fs s, P s -> P (set_faults fs s)) ->
  preserves P (sql_query ok msg f).
Proof. intros Hf. by apply preserves_callback. Qed.

Lemma preserves_getMergeRequest (P : Db -> Prop) projectId mrId :
  (forall fs s, P s -> P (set_faults fs s)) ->
  (forall lines s, P s -> P (set_logged lines s)) ->
  preserves P (getMergeRequest projectId mrId).
Proof.
  intros Hf Hl. apply preserves_try_catch.
  - by apply preserves_with_handle, read_only.
  - intros e. apply preserves_bind; [by apply preserves_db_console_log|].
    auto with preserves.
Qed.

Lemma wf_run_op op : preserves wf (run_op op).
Proof.
  destruct op; simpl; auto using wf_initDatabase, wf_saveProject, wf_saveMergeRequest.
  apply preserves_bind; [|auto with preserves].
  apply preserves_getMergeRequest; auto with preserves.
Qed.

Lemma wf_step s s' : wf s -> db_step s s' -> wf s'.
Proof. intros Hwf Hstep. destruct Hstep as [op s s' Hrun]. exact (wf_run_op op s s' Hwf Hrun). Qed.

Lemma ready_run_op op : preserves ready (run_op op).
Proof.
  intros s s' Hr. pose proof Hr as (Hh & Ht & Hs & Hd & Hf & Hc). destruct op; simpl.
  - rewrite initDatabase_run, Hh by done. by intros [= <-].
  - rewrite saveProject_ready by done. by intros [= <-].
  - rewrite saveMergeRequest_ready by done. by intros [= <-].
  - unfold bind. rewrite getMergeRequest_ready by done. by intros [= <-].
Qed.

Lemma ready_step s s' : ready s -> db_step s s' -> ready s'.
Proof. intros Hr Hstep. destruct Hstep as [op s s' Hrun]. exact (ready_run_op op s s' Hr Hrun). Qed.

(** No exported function closes the connection. *)
Lemma open_run_op op : preserves (fun s => closed s = false) (run_op op).
Proof.
  destruct op; simpl.
  - by apply preserves_initDatabase.
  - by apply preserves_with_handle, preserves_callback.
  - by apply preserves_with_handle, preserves_callback.
  - apply preserves_bind; [|auto with preserves]. by apply preserves_getMergeRequest.
Qed.

Lemma open_rtc s s' : closed s = false -> rtc db_step s s' -> closed s' = false.
Proof.
  intros Hc Hsteps. induction Hsteps as [|s1 s2 s3 [op s s' Hrun] _ IH]; [done|].
  apply IH. by apply (open_run_op op s s').
Qed.

(** What [Database.close] does on an open connection. *)
Lemma sql_close_run s :
  faults s = [] -> closed s = false -> sql_close s = Ret tt (set_closed true s).
Proof. intros Hf Hc. unfold sql_close. by rewrite callback_healthy. Qed.

(** The keys of [merge_requests] only grow. *)
Lemma dom_run_op X op : preserves (fun s => X ⊆ dom (merge_requests s)) (run_op op).
Proof.
  destruct op; simpl.
  - by apply preserves_initDatabase.
  - by apply preserves_with_handle, preserves_callback.
  - apply preserves_with_handle, preserves_callback; [done|].
    intros s Hs _. simpl. rewrite dom_insert_L. set_solver.
  - apply preserves_bind; [|auto with preserves]. by apply preserves_getMergeRequest.
Qed.

Lemma dom_step s s' :
  db_step s s' -> dom (merge_requests s) ⊆ dom (merge_requests s').
Proof. intros [op s1 s2 Hrun]. by apply (dom_run_op _ op s1 s2). Qed.

Lemma wf_rtc s s' : wf s -> rtc db_step s s' -> wf s'.
Proof. intros Hwf Hrtc. induction Hrtc; eauto using wf_step. Qed.

Lemma ready_rtc s s' : ready s -> rtc db_step s s' -> ready s'.
Proof. intros Hr Hrtc. induction Hrtc; eauto using ready_step. Qed.

Lemma dom_rtc s s' :
  rtc db_step s s' -> dom (merge_requests s) ⊆ dom (merge_requests s').
Proof.
  intros Hrtc. induction Hrtc as [|s1 s2 s3 Hstep _ IH]; [done|].
  etrans; [by apply dom_step | done].
Qed.

Lemma wf_old_file : wf old_file.
Proof.
  split; simpl; try done.
  all: intros; match goal with
       | H : {[_ := _]} !! _ = Some _ |- _ => by apply lookup_singleton_Some in H as [<- <-]
       end.
Qed.

Lemma ready_table_db l : ready (table_db l).
Proof. by repeat split. Qed.

Lemma wf_table_db l : wf (table_db l).
Proof.
  split; simpl; try done.
  intros k row Hk%elem_of_list_to_map_2.
  by apply list_elem_of_fmap in Hk as (row0 & [= -> ->] & _).
Qed.

(** ** Theorems *)

(** C35: [initDatabase] establishes the schema and keeps the data.  Run in a
    process that has not opened the file yet, on any well-formed file (new,
    or already holding one or both of the added columns) whose driver
    fails no statement, it returns
    normally, leaves the handle set, both tables and both columns present,
    and every row as it was: an [ALTER TABLE] that fails because the column
    exists does not abort it.  It writes one line for each of the two
    columns, telling whether it was added or was there. *)
Theorem initDatabase_establishes_schema s :
  wf s -> handle s = false -> faults s = [] ->
  exists s', initDatabase s = Ret tt s' /\ ready s' /\ wf s' /\
             projects s' = projects s /\ merge_requests s' = merge_requests s /\
             logged s' = logged s ++ init_lines s.
Proof.
  intros Hwf Hh Hf. exists (initialised s). rewrite initDatabase_run, Hh by done.
  repeat split; try done. all: by apply wf_set_logged, wf_opened.
Qed.

Lemma initDatabase_establishes_schema_witness :
  exists s', initDatabase old_file = Ret tt s' /\ ready s' /\ wf s' /\
             projects s' = projects old_file /\
             merge_requests s' = merge_requests old_file /\
             logged s' = logged old_file ++ init_lines old_file.
Proof.
  apply initDatabase_establishes_schema; [apply wf_old_file | reflexivity | reflexivity].
Defined.

(** C13: insert/lookup round trip.  On a ready store, [saveMergeRequest]
    returns normally and [getMergeRequest] with the project id and the id of
    the saved record then returns that record, every field included. *)
Theorem save_get_roundtrip mr s :
  ready s ->
  exists s', saveMergeRequest mr s = Ret tt s' /\ ready s' /\
             getMergeRequest (project_id mr) (row_id mr) s' = Ret (Some mr) s'.
Proof.
  intros Hr. eexists. split; [by apply saveMergeRequest_ready|].
  split; [done|]. rewrite getMergeRequest_ready by done. simpl.
  by rewrite lookup_insert_eq.
Qed.

Lemma save_get_roundtrip_witness :
  exists s', saveMergeRequest sample_row (opened fresh_db) = Ret tt s' /\ ready s' /\
             getMergeRequest (project_id sample_row) (row_id sample_row) s'
             = Ret (Some sample_row) s'.
Proof. apply save_get_roundtrip. by repeat split. Defined.

(** Replace on conflict, by the composite key.  A save changes the row
    of key [(id, project_id)] and no other row; it adds a row only when that
    key was absent, so that saving a merge request again never duplicates it;
    and the table of projects is untouched. *)
Theorem saveMergeRequest_replaces mr s :
  ready s ->
  exists s', saveMergeRequest mr s = Ret tt s' /\
    (forall k, k <> row_key mr -> merge_requests s' !! k = merge_requests s !! k) /\
    size (merge_requests s') =
      (if decide (is_Some (merge_requests s !! row_key mr))
       then size (merge_requests s) else S (size (merge_requests s))) /\
    projects s' = projects s.
Proof.
  intros Hr. eexists. split; [by apply saveMergeRequest_ready|]. simpl.
  split; [intros k Hk; by rewrite lookup_insert_ne|]. split; [|done].
  rewrite map_size_insert. case_decide as Hs.
  - by destruct Hs as [x ->].
  - apply eq_None_not_Some in Hs. by rewrite Hs.
Qed.

Lemma saveMergeRequest_replaces_witness :
  exists s', saveMergeRequest sample_row (opened old_file) = Ret tt s' /\
    (forall k, k <> row_key sample_row ->
       merge_requests s' !! k = merge_requests (opened old_file) !! k) /\
    size (merge_requests s') =
      (if decide (is_Some (merge_requests (opened old_file) !! row_key sample_row))
       then size (merge_requests (opened old_file))
       else S (size (merge_requests (opened old_file)))) /\
    projects s' = projects (opened old_file).
Proof. apply saveMergeRequest_replaces. by repeat split. Defined.

(** The file stays well formed.  From a file that does not exist yet,
    any sequence of calls of the exported functions, failed calls included,
    leaves every row under its own primary key, and no value in a column that
    was never added. *)
Theorem store_wf_reachable s : rtc db_step fresh_db s -> wf s.
Proof.
  apply wf_rtc, wf_fresh.
Qed.

Lemma store_wf_reachable_witness :
  wf (set_merge_requests (<[row_key sample_row := sample_row]> ∅) (initialised fresh_db)).
Proof.
  apply store_wf_reachable.
  eapply rtc_l; [by apply (db_step_op OpInit)|].
  eapply rtc_l; [by apply (db_step_op (OpSaveMergeRequest sample_row))|].
  apply rtc_refl.
Defined.

(** Nothing is ever deleted.  Whatever the exported functions are
    called with, a row that is in the file stays in the file (possibly
    replaced by a row of the same key). *)
Theorem rows_never_deleted s s' k :
  rtc db_step s s' ->
  is_Some (merge_requests s !! k) -> is_Some (merge_requests s' !! k).
Proof.
  intros Hrtc. rewrite <- !elem_of_dom. by apply dom_rtc.
Qed.

Lemma rows_never_deleted_witness :
  is_Some (merge_requests
             (set_projects (<[ 1 := {| p_id := 1; p_name := "api";
                                       p_path_with_namespace := "murid/api";
                                       p_created_at := "2024-01-01T00:00:00.000Z" |} ]>
                              (projects (initialised old_file))) (initialised old_file))
           !! row_key sample_row).
Proof.
  apply (rows_never_deleted old_file).
  - eapply rtc_l; [by apply (db_step_op OpInit)|].
    eapply rtc_l; [|apply rtc_refl].
    by apply (db_step_op (OpSaveProject {| p_id := 1; p_name := "api";
                                           p_path_with_namespace := "murid/api";
                                           p_created_at := "2024-01-01T00:00:00.000Z" |})).
  - by eexists.
Defined.

(** A store that was not initialised.  Before [initDatabase] has run in
    the process, [saveMergeRequest] and [saveProject] throw a [TypeError] and
    write nothing, while [getMergeRequest] swallows the same error, writes
    a line to the console and answers [null], as if the merge request were
    new. *)
Theorem uninitialised_store mr p projectId mrId s :
  handle s = false ->
  (exists msg, saveMergeRequest mr s = Throw (TypeError msg) s) /\
  (exists msg, saveProject p s = Throw (TypeError msg) s) /\
  getMergeRequest projectId mrId s = Ret None (check_failed s).
Proof.
  intros Hh. unfold getMergeRequest, try_catch, saveMergeRequest, saveProject, with_handle.
  rewrite Hh. repeat split; by eexists.
Qed.

Lemma uninitialised_store_witness :
  (exists msg, saveMergeRequest sample_row old_file = Throw (TypeError msg) old_file) /\
  (exists msg, saveProject {| p_id := 1; p_name := "api";
                              p_path_with_namespace := "murid/api";
                              p_created_at := "2024-01-01T00:00:00.000Z" |} old_file
               = Throw (TypeError msg) old_file) /\
  getMergeRequest 1 1001 old_file = Ret None (check_failed old_file).
Proof. apply uninitialised_store. reflexivity. Defined.

(** C29: a migration that fails is hidden.  The [catch] around each
    [ALTER TABLE] swallows every error, not only the one of a column that
    exists.  When the driver fails the statement that adds [squad],
    [initDatabase] still returns normally, having written that the column
    might already exist; the column is missing; a second call does nothing,
    because the handle is set; and every [saveMergeRequest] then throws,
    with a driver that fails nothing any more. *)
Theorem initDatabase_hides_failed_migration s m :
  handle s = false -> col_squad s = false -> faults s = [None; Some m] ->
  exists s', initDatabase s = Ret tt s' /\
    handle s' = true /\ has_tables s' = true /\ col_squad s' = false /\ faults s' = [] /\
    (exists line,
       logged s' = logged s ++ ["Squad column might already exist: " +:+ m; line]) /\
    initDatabase s' = Ret tt s' /\
    forall mr, saveMergeRequest mr s' =
               Throw (SqliteError "table merge_requests has no column named squad") s'.
Proof.
  intros Hh Hc Hf. destruct s as [h t cs cd ps ms fs cl lg]; simpl in *; subst.
  destruct cd; eexists; (split; [reflexivity|]); repeat split; simpl;
    eexists; by rewrite <- app_assoc.
Qed.

Lemma initDatabase_hides_failed_migration_witness :
  exists s', initDatabase locked_file = Ret tt s' /\
    handle s' = true /\ has_tables s' = true /\ col_squad s' = false /\ faults s' = [] /\
    (exists line,
       logged s' = logged locked_file
                   ++ ["Squad column might already exist: " +:+ "database is locked"; line]) /\
    initDatabase s' = Ret tt s' /\
    forall mr, saveMergeRequest mr s' =
               Throw (SqliteError "table merge_requests has no column named squad") s'.
Proof.
  apply (initDatabase_hides_failed_migration locked_file "database is locked");
    reflexivity.
Defined.

(** A failed creation is not retried.  When the driver fails the
    [CREATE TABLE] statements, [initDatabase] throws the driver's error with
    the handle already set: a second call returns at once and creates
    nothing. *)
Theorem initDatabase_failure_is_final s m rest :
  handle s = false -> faults s = Some m :: rest ->
  exists s', initDatabase s = Throw (SqliteError m) s' /\
    has_tables s' = has_tables s /\ faults s' = rest /\
    initDatabase s' = Ret tt s'.
Proof.
  intros Hh Hf. destruct s as [h t cs cd ps ms fs cl lg]; simpl in *; subst.
  eexists. split; [reflexivity|]. by repeat split.
Qed.

Lemma initDatabase_failure_is_final_witness :
  exists s', initDatabase (set_faults [Some "disk I/O error"] fresh_db)
             = Throw (SqliteError "disk I/O error") s' /\
    has_tables s' = has_tables (set_faults [Some "disk I/O error"] fresh_db) /\
    faults s' = [] /\
    initDatabase s' = Ret tt s'.
Proof.
  apply (initDatabase_failure_is_final (set_faults [Some "disk I/O error"] fresh_db)
           "disk I/O error" []); reflexivity.
Defined.

(** The program never closes the connection, and could not go on if it
    did.  No sequence of calls of the exported functions, from a file that
    does not exist yet, closes the connection: [close] is a method of the
    wrapper that nothing calls.  Were it called on a ready store, it would
    return, and from then on [initDatabase] returns at once without opening
    a new connection, both saves throw the driver's misuse error, and
    [getMergeRequest] answers [null] for every merge request, with a line
    on the console. *)
Theorem close_is_final s :
  (rtc db_step fresh_db s -> closed s = false) /\
  (ready s ->
   let s' := set_closed true s in
   sql_close s = Ret tt s' /\ initDatabase s' = Ret tt s' /\
   (forall p, saveProject p s'
              = Throw (SqliteError "SQLITE_MISUSE: Database is closed") s') /\
   (forall mr, saveMergeRequest mr s'
               = Throw (SqliteError "SQLITE_MISUSE: Database is closed") s') /\
   (forall projectId mrId, getMergeRequest projectId mrId s' = Ret None (check_failed s'))).
Proof.
  split; [by apply open_rtc|]. intros (Hh & Ht & Hs & Hd & Hf & Hc). cbv zeta.
  split; [by apply sql_close_run|].
  unfold initDatabase, saveProject, saveMergeRequest, getMergeRequest, try_catch,
    with_handle, sql_run, sql_query, callback, bind, next_fault, gets. simpl.
  by rewrite Hh, Hf.
Qed.

Lemma close_is_final_witness :
  let s' := set_closed true (opened fresh_db) in
  sql_close (opened fresh_db) = Ret tt s' /\ initDatabase s' = Ret tt s' /\
  (forall p, saveProject p s'
             = Throw (SqliteError "SQLITE_MISUSE: Database is closed") s') /\
  (forall mr, saveMergeRequest mr s'
              = Throw (SqliteError "SQLITE_MISUSE: Database is closed") s') /\
  (forall projectId mrId, getMergeRequest projectId mrId s' = Ret None (check_failed s')).
Proof. apply (close_is_final (opened fresh_db)). by repeat split. Defined.
