(* ===== verification/World.v ===== *)
(** * World: the database and the network of one process

    The functions of the module [./database] act on the file ([Store]); the
    functions that talk to GitLab act on the log of requests and console
    lines ([Remote]).  The handler and [main] call both: their state is the
    pair of the two, the [World].

    [on_net] runs a walk in the world; [on_db] runs a function of the
    module [./database] and copies the lines it wrote to the log of the
    world, so that the log is the console of the program in the order of the
    writes.  [then_did l w] is the world [w] with the events [l] added.

    [steps_only c] says that the program [c] touches the file through the
    exported functions of the store only, so that every invariant of the
    store is one of [c] (hint database [steps]). *)

From S2P Require Import Prelude JsModel Remote Store.

#[local] Open Scope Z_scope.

(** ** The world *)

Record World : Type := {
  w_db : Db;
  w_net : Net;
}.

Definition set_db (d : Db) (w : World) : World := {| w_db := d; w_net := w_net w |}.

Definition set_net (n : Net) (w : World) : World := {| w_db := w_db w; w_net := n |}.

(** The lines the module [./database] wrote between two states of the
    file, as they appear on the console. *)
Definition said (d d' : Db) : Net := Logged <$> drop (length (logged d)) (logged d').

(** A function of the module, in the world: what it writes goes to the
    console of the program. *)
Definition on_db {A} (c : prog Db exn A) : prog World exn A :=
  fun w =>
    match c (w_db w) with
    | Ret a d => Ret a {| w_db := d; w_net := w_net w ++ said (w_db w) d |}
    | Throw e d => Throw e {| w_db := d; w_net := w_net w ++ said (w_db w) d |}
    | OutOfFuel => OutOfFuel
    end.

Definition on_net {A} (c : prog Net exn A) : prog World exn A := zoom w_net set_net c.

(** The world with the events [l] added to what it did. *)
Definition then_did (l : Net) (w : World) : World := set_net (w_net w ++ l) w.

(** ** The module in the world *)

Lemma said_quiet d d' : logged d' = logged d -> said d d' = [].
Proof. intros Hl. unfold said. by rewrite Hl, drop_all. Qed.

Lemma said_more d d' lines : logged d' = logged d ++ lines -> said d d' = Logged <$> lines.
Proof. intros Hl. unfold said. by rewrite Hl, drop_app_length. Qed.

(** A function of the module that writes nothing to the console. *)
Lemma on_db_quiet {A} (c : prog Db exn A) w a d :
  c (w_db w) = Ret a d -> logged d = logged (w_db w) -> on_db c w = Ret a (set_db d w).
Proof. intros Hc Hl. unfold on_db. by rewrite Hc, said_quiet, app_nil_r. Qed.

Lemma on_db_quiet_throw {A} (c : prog Db exn A) w e d :
  c (w_db w) = Throw e d -> logged d = logged (w_db w) -> on_db c w = Throw e (set_db d w).
Proof. intros Hc Hl. unfold on_db. by rewrite Hc, said_quiet, app_nil_r. Qed.

Lemma set_db_same w : set_db (w_db w) w = w.
Proof. by destruct w. Qed.

Lemma on_db_getMergeRequest_ready projectId mrId w :
  ready (w_db w) ->
  on_db (getMergeRequest projectId mrId) w = Ret (merge_requests (w_db w) !! (mrId, projectId)) w.
Proof.
  intros Hr.
  rewrite (on_db_quiet _ w (merge_requests (w_db w) !! (mrId, projectId)) (w_db w));
    [by rewrite set_db_same | by apply getMergeRequest_ready | done].
Qed.

Lemma on_db_saveMergeRequest_ready mr w :
  ready (w_db w) ->
  on_db (saveMergeRequest mr) w =
  Ret tt (set_db (set_merge_requests (<[row_key mr := mr]> (merge_requests (w_db w)))
                    (w_db w)) w).
Proof. intros Hr. by apply on_db_quiet; [apply saveMergeRequest_ready|]. Qed.

Lemma on_net_console_log line w :
  on_net (console_log line) w = Ret tt (then_did [Logged line] w).
Proof. done. Qed.

(** A walk in the world, from what it does on the empty log. *)
Lemma on_net_Ret {A} (c : prog Net exn A) w a l :
  oblivious c -> c [] = Ret a l -> on_net c w = Ret a (then_did l w).
Proof. intros Hc Hl. unfold on_net, zoom. by rewrite (Hc (w_net w)), Hl. Qed.

Lemma set_projects_insert_id d p :
  projects d !! p_id p = Some p -> set_projects (<[p_id p := p]> (projects d)) d = d.
Proof. intros Hp. unfold set_projects. rewrite insert_id by done. by destruct d. Qed.

Lemma on_db_saveProject_ready p w :
  ready (w_db w) ->
  on_db (saveProject p) w =
  Ret tt (set_db (set_projects (<[p_id p := p]> (projects (w_db w))) (w_db w)) w).
Proof. intros Hr. by apply on_db_quiet; [apply saveProject_ready|]. Qed.

Lemma then_did_nil w : then_did [] w = w.
Proof. unfold then_did, set_net. rewrite app_nil_r. by destruct w. Qed.

Lemma then_did_app l1 l2 w : then_did l2 (then_did l1 w) = then_did (l1 ++ l2) w.
Proof. unfold then_did, set_net. simpl. by rewrite app_assoc. Qed.

(** ** The file changes by store steps only *)

(** A program of the world that touches the file through the exported
    functions of the store only. *)
Definition steps_only {A} (c : prog World exn A) : Prop :=
  forall w w', final_state (c w) = Some w' -> rtc db_step (w_db w) (w_db w').

Lemma steps_only_ret {A} (a : A) : steps_only (ret a).
Proof. intros w w' [= <-]. done. Qed.

Lemma steps_only_bind {A B} (c : prog World exn A) (k : A -> prog World exn B) :
  steps_only c -> (forall a, steps_only (k a)) -> steps_only (bind c k).
Proof.
  intros Hc Hk w w' Hfin. unfold bind in Hfin.
  destruct (c w) as [a w1|e w1|] eqn:Hcw; [|by apply Hc; rewrite Hcw|done].
  etrans; [apply Hc; by rewrite Hcw | by eapply Hk].
Qed.

Lemma steps_only_on_net {A} (c : prog Net exn A) : steps_only (on_net c).
Proof.
  intros w w' Hfin. unfold on_net, zoom in Hfin.
  destruct (c (w_net w)); simplify_eq/=; done.
Qed.

Lemma steps_only_if {A} (b : bool) (c1 c2 : prog World exn A) :
  steps_only c1 -> steps_only c2 -> steps_only (if b then c1 else c2).
Proof. by destruct b. Qed.

Lemma steps_only_on_db {A} (c : prog Db exn A) op :
  (forall d, final_state (c d) = final_state (run_op op d)) ->
  steps_only (on_db c).
Proof.
  intros Hop w w' Hfin. unfold on_db in Hfin. apply rtc_once.
  apply (db_step_op op). rewrite <- Hop.
  destruct (c (w_db w)); simplify_eq/=; done.
Qed.

Lemma steps_only_getMergeRequest projectId mrId :
  steps_only (on_db (getMergeRequest projectId mrId)).
Proof.
  apply (steps_only_on_db _ (OpGetMergeRequest projectId mrId)). intros d. simpl.
  unfold bind. by destruct (getMergeRequest projectId mrId d).
Qed.

Lemma steps_only_saveMergeRequest mr : steps_only (on_db (saveMergeRequest mr)).
Proof. by apply (steps_only_on_db _ (OpSaveMergeRequest mr)). Qed.

Lemma steps_only_saveProject p : steps_only (on_db (saveProject p)).
Proof. by apply (steps_only_on_db _ (OpSaveProject p)). Qed.

Create HintDb steps discriminated.

#[export] Hint Resolve steps_only_ret steps_only_bind steps_only_on_net steps_only_if
  steps_only_getMergeRequest steps_only_saveMergeRequest steps_only_saveProject : steps.

(** ** Programs of the world that end *)

Lemma halts_on_db {A} (c : prog Db exn A) : halts c -> halts (on_db c).
Proof. intros Hc w. unfold on_db. specialize (Hc (w_db w)). by destruct (c (w_db w)). Qed.

Lemma halts_on_net {A} (c : prog Net exn A) : halts c -> halts (on_net c).
Proof. apply halts_zoom. Qed.

#[export] Hint Resolve halts_on_db halts_on_net : halts.
