(* ===== verification/Reconciler.v ===== *)
(** * Reconciler: skip, update or insert

    The decision that [processAndStoreMergeRequests] takes for one merge
    request of the remote, given the row [getMergeRequest] returned for it
    ([src/src/index.ts], lines 180-207).  The source takes it with two
    [if ... continue] and one [if ... else]; [reconcile] is that cascade as a
    function with a tagged result, the tests in the order of the source. *)

From S2P Require Import Prelude JsModel Remote Store.

(** ** The decision *)

Inductive Action : Type :=
| SkipTerminal
| SkipUnchanged
| Update
| Insert.

#[export] Instance Action_eq_dec : EqDecision Action.
Proof. solve_decision. Defined.

(** [existingMR.updated_at !== mr.updated_at || existingMR.state !== mr.state]. *)
Definition needsUpdate (mr : RemoteMR) (existingMR : MergeRequestData) : bool :=
  negb (bool_decide (updated_at existingMR = mr_updated_at mr))
  || negb (bool_decide (state existingMR = mr_state mr)).

Definition reconcile (mr : RemoteMR) (existingMR : option MergeRequestData) : Action :=
  match existingMR with
  | Some e =>
      if bool_decide (mr_state mr = "merged") && bool_decide (state e = "merged")
      then SkipTerminal
      else if negb (needsUpdate mr e) then SkipUnchanged
      else Update
  | None => Insert
  end.

(** Whether the decision leads to [fetchMergeRequestDetails]. *)
Definition fetches_details (a : Action) : bool :=
  match a with
  | SkipTerminal | SkipUnchanged => false
  | Update | Insert => true
  end.

(** Examples: a stored row and remote records that differ from it. *)
Definition stored_opened : MergeRequestData := sample_row.

Definition stored_merged : MergeRequestData :=
  {| row_id := 1001; project_id := 1; title := "change"; description := None;
     created_at := "2025-04-01T10:00:00.000Z";
     updated_at := "2025-04-03T10:00:00.000Z"; state := "merged";
     author_id := 7; author_username := "dev";
     first_comment_at := Some "2025-04-01T10:10:00.000Z";
     approved_at := Some "2025-04-02T08:00:00.000Z";
     merged_at := Some "2025-04-03T10:00:00.000Z"; squad := Some "WEB" |}.

Definition remote_of (e : MergeRequestData) (new_title new_updated_at : string) : RemoteMR :=
  {| mr_id := row_id e; mr_iid := 1; mr_title := new_title;
     mr_created_at := created_at e; mr_updated_at := new_updated_at;
     mr_state := state e;
     mr_author := {| user_id := author_id e; username := author_username e |};
     mr_merged_at := merged_at e |}.

(** ** Facts *)

Lemma needsUpdate_false mr e :
  needsUpdate mr e = false <->
  updated_at e = mr_updated_at mr /\ state e = mr_state mr.
Proof.
  unfold needsUpdate. rewrite orb_false_iff, !negb_false_iff, !bool_decide_eq_true. done.
Qed.

Lemma reconcile_Insert mr e : reconcile mr e = Insert <-> e = None.
Proof.
  destruct e as [e|]; simpl; [|done].
  split; [|done]. by repeat case_match.
Qed.

Lemma reconcile_SkipTerminal mr e :
  reconcile mr e = SkipTerminal <->
  exists x, e = Some x /\ mr_state mr = "merged" /\ state x = "merged".
Proof.
  destruct e as [e|]; simpl; [|split; [done | by intros (? & ? & _)]].
  destruct (bool_decide (mr_state mr = "merged") && bool_decide (state e = "merged"))
    eqn:Hm.
  - apply andb_true_iff in Hm as [?%bool_decide_eq_true ?%bool_decide_eq_true].
    split; [eauto | done].
  - split; [by case_match|]. intros (x & [= <-] & Hr & He).
    by rewrite !bool_decide_eq_true_2 in Hm.
Qed.

Lemma reconcile_SkipUnchanged mr e :
  reconcile mr e = SkipUnchanged <->
  exists x, e = Some x /\ updated_at x = mr_updated_at mr /\ state x = mr_state mr /\
            ~ (mr_state mr = "merged" /\ state x = "merged").
Proof.
  destruct e as [e|]; simpl; [|split; [done | by intros (? & ? & _)]].
  destruct (bool_decide (mr_state mr = "merged") && bool_decide (state e = "merged"))
    eqn:Hm.
  - apply andb_true_iff in Hm as [?%bool_decide_eq_true ?%bool_decide_eq_true].
    split; [done|]. by intros (x & [= <-] & _ & _ & []).
  - apply andb_false_iff in Hm. destruct (needsUpdate mr e) eqn:Hn; simpl.
    + split; [done|]. intros (x & [= <-] & Hu & Hs & _).
      assert (needsUpdate mr e = false) by (by apply needsUpdate_false). congruence.
    + apply needsUpdate_false in Hn as [? ?]. split; [|done]. intros _.
      exists e. repeat split; try done.
      rewrite !bool_decide_eq_false in Hm. tauto.
Qed.

Lemma reconcile_Update mr e :
  reconcile mr e = Update <->
  exists x, e = Some x /\
            (updated_at x <> mr_updated_at mr \/ state x <> mr_state mr) /\
            ~ (mr_state mr = "merged" /\ state x = "merged").
Proof.
  destruct (reconcile mr e) eqn:Hr.
  - apply reconcile_SkipTerminal in Hr as (x & -> & ? & ?).
    split; [done|]. by intros (? & [= <-] & _ & []).
  - apply reconcile_SkipUnchanged in Hr as (x & -> & ? & ? & ?).
    split; [done|]. intros (? & [= <-] & [|] & _); done.
  - split; [intros _|done]. destruct e as [e|]; [|done]. exists e. split; [done|].
    simpl in Hr. destruct (_ && _) eqn:Hm; [done|].
    destruct (needsUpdate mr e) eqn:Hn; [|done]. split.
    + destruct (decide (updated_at e = mr_updated_at mr)); [|by left].
      destruct (decide (state e = mr_state mr)); [|by right].
      assert (needsUpdate mr e = false) by (by apply needsUpdate_false). congruence.
    + apply andb_false_iff in Hm. rewrite !bool_decide_eq_false in Hm. tauto.
  - apply reconcile_Insert in Hr as ->. split; [done | by intros (? & ? & _)].
Qed.

(** ** Theorems *)

(** The decision uses [updated_at] and [state] alone.  Two remote
    records with the same [updated_at] and the same [state] get the same
    decision against any stored row, whatever else differs between them
    (title, author, merge time): such a change is never detected. *)
Theorem reconcile_two_fields mr1 mr2 e :
  mr_updated_at mr1 = mr_updated_at mr2 ->
  mr_state mr1 = mr_state mr2 ->
  reconcile mr1 e = reconcile mr2 e.
Proof.
  intros Hu Hs. destruct e as [e|]; [|done].
  unfold reconcile, needsUpdate. by rewrite Hu, Hs.
Qed.

Lemma reconcile_two_fields_witness :
  reconcile (remote_of stored_opened "change" "2025-04-02T10:00:00.000Z")
            (Some stored_opened)
  = reconcile (remote_of stored_opened "a new title" "2025-04-02T10:00:00.000Z")
              (Some stored_opened).
Proof. apply reconcile_two_fields; reflexivity. Defined.

(** Terminal rows are skipped.  When the stored row and the remote
    record both have state [merged], the decision is [SkipTerminal] whatever
    their [updated_at], and no detail is fetched. *)
Theorem reconcile_terminal mr e :
  state e = "merged" -> mr_state mr = "merged" ->
  reconcile mr (Some e) = SkipTerminal /\
  fetches_details (reconcile mr (Some e)) = false.
Proof.
  intros He Hr. assert (reconcile mr (Some e) = SkipTerminal) as ->; [|done].
  apply reconcile_SkipTerminal. by exists e.
Qed.

Lemma reconcile_terminal_witness :
  reconcile (remote_of stored_merged "change" "2025-05-09T00:00:00.000Z")
            (Some stored_merged) = SkipTerminal /\
  fetches_details
    (reconcile (remote_of stored_merged "change" "2025-05-09T00:00:00.000Z")
               (Some stored_merged)) = false.
Proof. apply reconcile_terminal; reflexivity. Defined.

(** C8: the four outcomes.  The decision is [Insert] exactly when no row is
    stored; otherwise [SkipTerminal] exactly when both states are [merged];
    otherwise [SkipUnchanged] exactly when [updated_at] and [state] both
    agree, and [Update] when one of them differs.  In particular a stored
    [merged] row whose remote state is no longer [merged] is updated, that
    is, fetched again. *)
Theorem reconcile_cases mr e :
  match reconcile mr e with
  | Insert => e = None
  | SkipTerminal =>
      exists x, e = Some x /\ mr_state mr = "merged" /\ state x = "merged"
  | SkipUnchanged =>
      exists x, e = Some x /\ updated_at x = mr_updated_at mr /\
                state x = mr_state mr /\
                ~ (mr_state mr = "merged" /\ state x = "merged")
  | Update =>
      exists x, e = Some x /\
                (updated_at x <> mr_updated_at mr \/ state x <> mr_state mr) /\
                ~ (mr_state mr = "merged" /\ state x = "merged")
  end.
Proof.
  destruct (reconcile mr e) eqn:Hr.
  - by apply reconcile_SkipTerminal in Hr.
  - by apply reconcile_SkipUnchanged in Hr.
  - by apply reconcile_Update in Hr.
  - by apply reconcile_Insert in Hr.
Qed.
