(* ===== verification/Enricher.v ===== *)
(** * Enricher: the derived timestamps

    The part of [processAndStoreMergeRequests] between the call of
    [fetchMergeRequestDetails] and the call of [saveMergeRequest]
    ([src/src/index.ts], lines 212-251): the first comment that is not a
    system note, the first approval event, and the record that is saved.
    Both derivations sort by [new Date(created_at).getTime()] and read the
    first element of the sorted array.

    The theorems that speak of "earliest" assume that the timestamps
    involved are dates ([getTime] is a number on them): with a [NaN] in the
    comparator the order [Array.prototype.sort] produces is left to the
    engine.  On dates it is not: every stable sort returns the array of
    [js_sort] ([sort_by_created_at_stable]). *)

From S2P Require Import Prelude JsModel TimeModel Remote Walker Store.

Section Enricher.
Context `{Clock}.

(** ** The derivations *)

(** [(a, b) => new Date(a.created_at).getTime() - new Date(b.created_at).getTime()]. *)
Definition by_created_at {A} (created : A -> string) (a b : A) : number :=
  number_sub (getTime (created a)) (getTime (created b)).

(** [js_sort] by [created_at], then [sorted[0].created_at]. *)
Definition first_created_at {A} (created : A -> string) (l : list A) : option string :=
  match js_sort (by_created_at created) l with
  | x :: _ => Some (created x)
  | [] => None
  end.

Definition user_notes (ns : list Note) : list Note :=
  List.filter (fun note => negb (note_system note)) ns.

(** Lines 213-223. *)
Definition firstComment (details : Details) : option string :=
  if bool_decide (0 < length (notes details))%nat then
    let userNotes := user_notes (notes details) in
    if bool_decide (0 < length userNotes)%nat
    then first_created_at note_created_at userNotes
    else None
  else None.

(** Lines 226-236. *)
Definition approvedAt (details : Details) : option string :=
  if bool_decide (0 < length (approvalEvents details))%nat
  then first_created_at event_created_at (approvalEvents details)
  else None.

(** Lines 239-251: the object literal [mrData].  It names eleven of the
    thirteen columns; [squad] and [description] are left [undefined]. *)
Definition mrData (projectId : Z) (mr : RemoteMR) (details : Details) : MergeRequestData :=
  {| row_id := mr_id mr;
     project_id := projectId;
     title := mr_title mr;
     description := None;
     created_at := mr_created_at mr;
     updated_at := mr_updated_at mr;
     state := mr_state mr;
     author_id := user_id (mr_author mr);
     author_username := username (mr_author mr);
     first_comment_at := firstComment details;
     approved_at := approvedAt details;
     merged_at := mr_merged_at mr;
     squad := None |}.

(** ** Reading timestamps that are dates *)

(** The instant of a timestamp, [0] for a text that is not a date. *)
Definition instant (s : string) : Z :=
  match getTime s with
  | Num z => z
  | NaN => 0
  end.

Definition is_date (s : string) : Prop := exists z, getTime s = Num z.

Lemma by_created_at_key {A} (created : A -> string) (l : list A) x y :
  Forall (fun a => is_date (created a)) l -> x ∈ l -> y ∈ l ->
  is_positive (by_created_at created x y)
  = is_positive (cmp_key (fun a => instant (created a)) x y).
Proof.
  intros Hl Hx Hy. rewrite Forall_forall in Hl.
  destruct (Hl _ Hx) as [zx Hzx], (Hl _ Hy) as [zy Hzy].
  unfold by_created_at, cmp_key, instant. by rewrite Hzx, Hzy.
Qed.

(** On dates the sorted array does not depend on the engine: whatever
    stable sort it runs, the array is the one of [js_sort]. *)
Theorem sort_by_created_at_stable {A} (created : A -> string) (l sorted : list A) :
  Forall (fun a => is_date (created a)) l ->
  stable_sorted (fun a => instant (created a)) l sorted ->
  sorted = js_sort (by_created_at created) l.
Proof.
  intros Hl Hs. rewrite (stable_sort_unique _ _ _ Hs). symmetry.
  apply js_sort_ext. intros x y Hx Hy. by eapply by_created_at_key.
Qed.

Lemma first_created_at_head {A} (created : A -> string) (l : list A) :
  first_created_at created l = created <$> first_min_by (by_created_at created) l.
Proof.
  unfold first_created_at. rewrite <- head_js_sort. by destruct (js_sort _ l).
Qed.

(** On dates, the sort-based derivation returns the timestamp of the first
    element of least instant. *)
Lemma first_created_at_min {A} (created : A -> string) (l : list A) t :
  Forall (fun a => is_date (created a)) l ->
  first_created_at created l = Some t ->
  exists l1 m l2, l = l1 ++ m :: l2 /\ created m = t /\
    Forall (fun a => instant t < instant (created a)) l1 /\
    Forall (fun a => instant t <= instant (created a)) l2.
Proof.
  intros Hl. rewrite first_created_at_head.
  rewrite (first_min_by_ext _ (cmp_key (fun a => instant (created a))))
    by (intros; by eapply by_created_at_key).
  destruct (first_min_by _ l) as [m|] eqn:Hm; [|done]. intros [= <-].
  destruct (first_min_by_first _ _ _ Hm) as (l1 & l2 & -> & Hl1).
  apply first_min_by_lower_bound in Hm.
  apply Forall_app in Hm as [_ Hm]. apply Forall_cons in Hm as [_ Hm].
  by exists l1, m, l2.
Qed.

Lemma first_created_at_least {A} (created : A -> string) (l : list A) t :
  Forall (fun a => is_date (created a)) l ->
  first_created_at created l = Some t ->
  exists m, m ∈ l /\ created m = t /\
    forall a, a ∈ l -> instant t <= instant (created a).
Proof.
  intros Hl Hf.
  destruct (first_created_at_min _ _ _ Hl Hf) as (l1 & m & l2 & -> & Ht & H1 & H2).
  exists m. split; [set_solver|]. split; [done|].
  rewrite Forall_forall in H1, H2. intros a Ha.
  apply elem_of_app in Ha as [Ha|Ha]; [apply H1 in Ha; lia|].
  apply elem_of_cons in Ha as [->|Ha]; [rewrite Ht; lia | by apply H2].
Qed.

Lemma first_created_at_None {A} (created : A -> string) (l : list A) :
  first_created_at created l = None <-> l = [].
Proof.
  rewrite first_created_at_head. destruct (first_min_by _ l) eqn:Hm.
  - split; [done|]. intros ->. done.
  - by apply first_min_by_None in Hm.
Qed.

Lemma user_notes_elem_of n ns :
  n ∈ user_notes ns <-> n ∈ ns /\ note_system n = false.
Proof. unfold user_notes. rewrite filter_bool_In, negb_true_iff. done. Qed.

Lemma firstComment_unfold details :
  firstComment details = first_created_at note_created_at (user_notes (notes details)).
Proof.
  unfold firstComment. destruct (notes details) as [|n ns] eqn:Hn; [done|].
  rewrite bool_decide_eq_true_2 by (simpl; lia).
  case_bool_decide as Hlen; [done|]. symmetry. apply first_created_at_None.
  apply length_zero_iff_nil. lia.
Qed.

Lemma approvedAt_unfold details :
  approvedAt details = first_created_at event_created_at (approvalEvents details).
Proof.
  unfold approvedAt. destruct (approvalEvents details); [done|].
  by rewrite bool_decide_eq_true_2 by (simpl; lia).
Qed.

End Enricher.

(** ** Examples *)

Definition note_at (t : string) (system : bool) : Note :=
  {| note_created_at := t; note_system := system |}.

(** A system note one minute after creation, then two comments, the later
    one listed first. *)
Definition sample_details : Details :=
  {| notes := [note_at "2025-04-01T10:01:00.000Z" true;
               note_at "2025-04-01T10:09:00.000Z" false;
               note_at "2025-04-01T10:05:00.000Z" false];
     approvalEvents := [ {| event_created_at := "2025-04-02T08:30:00.000Z" |};
                         {| event_created_at := "2025-04-02T08:00:00.000Z" |} ] |}.

Example firstComment_sample :
  firstComment sample_details = Some "2025-04-01T10:05:00.000Z".
Proof. vm_compute. reflexivity. Qed.

Example approvedAt_sample :
  approvedAt sample_details = Some "2025-04-02T08:00:00.000Z".
Proof. vm_compute. reflexivity. Qed.

Lemma sample_details_dates :
  Forall (fun n => is_date (note_created_at n)) (user_notes (notes sample_details)).
Proof. repeat constructor; by eexists. Qed.

Lemma sample_events_dates :
  Forall (fun e => is_date (event_created_at e)) (approvalEvents sample_details).
Proof. repeat constructor; by eexists. Qed.

(** ** Theorems *)

Section EnricherTheorems.
Context `{Clock}.

(** C9: the first comment is the earliest comment of a user.  When the
    comments that are not system notes carry dates, [first_comment_at] is the
    timestamp of a note of the details that is not a system note, and no
    other such note is earlier; system notes play no part, however early
    they are. *)
Theorem firstComment_earliest_user_note details t :
  Forall (fun n => is_date (note_created_at n)) (user_notes (notes details)) ->
  firstComment details = Some t ->
  exists n, n ∈ notes details /\ note_system n = false /\ note_created_at n = t /\
    forall n', n' ∈ notes details -> note_system n' = false ->
               instant t <= instant (note_created_at n').
Proof.
  intros Hd. rewrite firstComment_unfold. intros Hf.
  destruct (first_created_at_least _ _ _ Hd Hf) as (m & Hm & Ht & Hleast).
  apply user_notes_elem_of in Hm as [Hm Hs]. exists m. repeat split; try done.
  intros n' Hn' Hs'. apply Hleast. by apply user_notes_elem_of.
Qed.

(** No comment of a user, no first comment.  [first_comment_at] is
    [null] exactly when every note of the details is a system note (in
    particular when there is no note, or when reading the notes failed). *)
Theorem firstComment_None details :
  firstComment details = None <->
  forall n, n ∈ notes details -> note_system n = true.
Proof.
  rewrite firstComment_unfold, first_created_at_None. split.
  - intros Hnil n Hn. destruct (note_system n) eqn:Hs; [done|].
    assert (n ∈ user_notes (notes details)) as Hin by (by apply user_notes_elem_of).
    rewrite Hnil in Hin. by apply elem_of_nil in Hin.
  - intros Hall. destruct (user_notes (notes details)) as [|n ns] eqn:Hu; [done|].
    assert (n ∈ user_notes (notes details)) as [Hn Hs]%user_notes_elem_of
      by (rewrite Hu; left).
    rewrite (Hall n Hn) in Hs. done.
Qed.

(** The approval time is the earliest approval event.  When the
    approval events carry dates, [approved_at] is the timestamp of one of
    them and none is earlier; it is [null] when there is no event. *)
Theorem approvedAt_earliest details :
  Forall (fun e => is_date (event_created_at e)) (approvalEvents details) ->
  match approvedAt details with
  | Some t =>
      exists e, e ∈ approvalEvents details /\ event_created_at e = t /\
        forall e', e' ∈ approvalEvents details ->
                   instant t <= instant (event_created_at e')
  | None => approvalEvents details = []
  end.
Proof.
  intros Hd. rewrite approvedAt_unfold.
  destruct (first_created_at _ _) as [t|] eqn:Hf; [|by apply first_created_at_None in Hf].
  destruct (first_created_at_least _ _ _ Hd Hf) as (m & Hm & Ht & Hleast).
  by exists m.
Qed.

(** Sorting agrees with a scan.  On dates, what the code obtains by
    sorting the comments of users and reading the first element is what a
    single pass from the left obtains by keeping the earliest comment seen so
    far and replacing it only by a strictly earlier one. *)
Theorem firstComment_scan details :
  Forall (fun n => is_date (note_created_at n)) (user_notes (notes details)) ->
  firstComment details =
  note_created_at <$>
    first_min_scan (fun n => instant (note_created_at n)) (user_notes (notes details)).
Proof.
  intros Hd. rewrite firstComment_unfold, first_created_at_head.
  rewrite <- first_min_scan_correct. f_equal.
  apply first_min_by_ext. intros. by eapply by_created_at_key.
Qed.

End EnricherTheorems.

Lemma firstComment_earliest_user_note_witness :
  exists n, n ∈ notes sample_details /\ note_system n = false /\
    note_created_at n = "2025-04-01T10:05:00.000Z" /\
    forall n', n' ∈ notes sample_details -> note_system n' = false ->
               instant "2025-04-01T10:05:00.000Z" <= instant (note_created_at n').
Proof.
  apply (firstComment_earliest_user_note sample_details).
  - apply sample_details_dates.
  - vm_compute. reflexivity.
Defined.

Lemma approvedAt_earliest_witness :
  match approvedAt sample_details with
  | Some t =>
      exists e, e ∈ approvalEvents sample_details /\ event_created_at e = t /\
        forall e', e' ∈ approvalEvents sample_details ->
                   instant t <= instant (event_created_at e')
  | None => approvalEvents sample_details = []
  end.
Proof. apply (approvedAt_earliest sample_details). apply sample_events_dates. Defined.

Lemma firstComment_scan_witness :
  firstComment sample_details =
  note_created_at <$>
    first_min_scan (fun n => instant (note_created_at n))
      (user_notes (notes sample_details)).
Proof. apply (firstComment_scan sample_details). apply sample_details_dates. Defined.
