(* ===== verification/Sync.v ===== *)
(** * Sync: processAndStoreMergeRequests

    The handler of the "fetch" action ([src/src/index.ts], lines 159-258)
    over the world made of the database and the log of requests and console
    lines: it fetches the list, returns at once when the list is empty,
    saves the project, then for each merge request, in order, reads the
    stored row, decides ([Reconciler]), writes the decision, and for a new
    or changed merge request fetches the details ([Walker]), derives the
    record ([Enricher]) and saves it ([Store]).  No exception is caught
    here: a save that throws ends the run.

    The world and the two ways a program acts on it, [on_net] and
    [on_db], are in [World]; [then_did l w] is the world [w] with the
    events [l] added.

    The source returns nothing and writes the three counters in its last
    line; the model writes the line and returns the counters too ([None]
    for the early return), and [run_reports] says that the two agree.

    What a run leaves is stated against the file it found: [mirrored] is
    the row of a merge request after the run (the row it had when it is
    skipped, the record derived from the remote otherwise), [events_for]
    what the run asks and writes for it and [requests_for] the requests
    among these; all depend on the row under the key of the merge request
    only, which is why the list must not repeat an id.  [tally] gives the
    counters of the summary from the decisions at that file.
    [stopped_after k items] is the run stopped after [k] iterations of its
    loop, for the theorem on a run that is interrupted and started again. *)

From Stdlib Require Import Ascii.
From stdpp Require Import pretty.
From S2P Require Import Prelude JsModel TimeModel Remote Walker Store World Reconciler Enricher.

#[local] Open Scope Z_scope.

Record Summary : Type := {
  skippedCount : nat;
  updatedCount : nat;
  newCount : nat;
}.

#[export] Instance Summary_eq_dec : EqDecision Summary.
Proof. solve_decision. Defined.

Definition no_counts : Summary :=
  {| skippedCount := 0; updatedCount := 0; newCount := 0 |}.

(** [skippedCount++], [updatedCount++] or [newCount++]. *)
Definition count (a : Action) (c : Summary) : Summary :=
  match a with
  | SkipTerminal | SkipUnchanged =>
      {| skippedCount := S (skippedCount c); updatedCount := updatedCount c;
         newCount := newCount c |}
  | Update =>
      {| skippedCount := skippedCount c; updatedCount := S (updatedCount c);
         newCount := newCount c |}
  | Insert =>
      {| skippedCount := skippedCount c; updatedCount := updatedCount c;
         newCount := S (newCount c) |}
  end.

Definition total_count (c : Summary) : nat :=
  (skippedCount c + updatedCount c + newCount c)%nat.

(** The lines the handler writes. *)
Definition dquote : string := String "034"%char EmptyString.

Definition mr_label (mr : RemoteMR) : string :=
  "MR #" +:+ pretty (mr_iid mr) +:+ ": " +:+ dquote +:+ mr_title mr +:+ dquote.

Definition action_line (a : Action) (mr : RemoteMR) : string :=
  match a with
  | SkipTerminal => "Skipping " +:+ mr_label mr +:+ " - already processed and merged."
  | SkipUnchanged => "Skipping " +:+ mr_label mr +:+ " - no changes detected."
  | Update => "Updating " +:+ mr_label mr
  | Insert => "Processing new " +:+ mr_label mr
  end.

Definition found_line (n : nat) : string :=
  "Found " +:+ pretty n +:+ " merge requests. Processing...".

Definition summary_line (c : Summary) : string :=
  "Summary: " +:+ pretty (newCount c) +:+ " new, " +:+ pretty (updatedCount c)
  +:+ " updated, " +:+ pretty (skippedCount c) +:+ " skipped.".

(** ** The handler *)

Section Handler.
Context `{Clock}.
Variable r : Remote.
Variable fuel : nat.

(** The line on the approval of [mr], after its details were read. *)
Definition approval_line (mr : RemoteMR) (details : Details) : string :=
  match approvedAt details with
  | Some approvedAt =>
      "  Found approval timestamp: " +:+ approvedAt +:+ " for MR #" +:+ pretty (mr_iid mr)
  | None => "  No approval events found for MR #" +:+ pretty (mr_iid mr)
  end.

(** The body of the [for (const mr of mergeRequests)] loop. *)
Definition process_one (projectId : Z) (mr : RemoteMR) (c : Summary)
    : prog World exn Summary :=
  existingMR <- on_db (getMergeRequest projectId (mr_id mr)) ;;
  let action := reconcile mr existingMR in
  on_net (console_log (action_line action mr)) ;;
  let c := count action c in
  if fetches_details action then
    details <- on_net (fetchMergeRequestDetails r fuel projectId (mr_iid mr)) ;;
    on_net (console_log (approval_line mr details)) ;;
    on_db (saveMergeRequest (mrData projectId mr details)) ;;
    ret c
  else ret c.

Fixpoint process_all (projectId : Z) (mergeRequests : list RemoteMR) (c : Summary)
    : prog World exn Summary :=
  match mergeRequests with
  | [] => ret c
  | mr :: rest =>
      c <- process_one projectId mr c ;;
      process_all projectId rest c
  end.

Definition processAndStoreMergeRequests (projectId : Z) (project : Project)
    : prog World exn (option Summary) :=
  on_net (console_log "Fetching merge requests...") ;;
  mergeRequests <- on_net (fetchMergeRequests r fuel projectId) ;;
  if bool_decide (length mergeRequests = 0%nat)
  then on_net (console_log "No merge requests found.") ;; ret None
  else
    on_net (console_log (found_line (length mergeRequests))) ;;
    on_db (saveProject project) ;;
    c <- process_all projectId mergeRequests no_counts ;;
    on_net (console_log "All merge requests processed.") ;;
    on_net (console_log (summary_line c)) ;;
    ret (Some c).

(** The decision for [mr] against a database. *)
Definition decision (projectId : Z) (d : Db) (mr : RemoteMR) : Action :=
  reconcile mr (merge_requests d !! (mr_id mr, projectId)).

(** A merge request the next run will skip. *)
Definition settled (projectId : Z) (d : Db) (mr : RemoteMR) : Prop :=
  fetches_details (decision projectId d mr) = false.

#[export] Instance settled_dec projectId d mr : Decision (settled projectId d mr).
Proof. unfold settled. apply _. Defined.

(** What the remote holds of the details of [mr]: what
    [fetchMergeRequestDetails] returns, whatever was requested before. *)
Definition fetched (projectId : Z) (mr : RemoteMR) : option Details :=
  returned (fetchMergeRequestDetails r fuel projectId (mr_iid mr) []).

(** What fetching the details of [mr] asks and writes. *)
Definition requested (projectId : Z) (mr : RemoteMR) : Net :=
  default [] (final_state (fetchMergeRequestDetails r fuel projectId (mr_iid mr) [])).

(** What the iteration of a run that found the file [d] does for [mr]:
    the line that tells the decision, then, unless the merge request is
    skipped, the walk for its details and the line on its approval. *)
Definition events_for (projectId : Z) (d : Db) (mr : RemoteMR) : Net :=
  Logged (action_line (decision projectId d mr) mr) ::
  (if decide (settled projectId d mr) then []
   else requested projectId mr
        ++ from_option (fun details => [Logged (approval_line mr details)]) []
             (fetched projectId mr)).

(** The requests a run that found the file [d] issues for [mr]. *)
Definition requests_for (projectId : Z) (d : Db) (mr : RemoteMR) : list Request :=
  requests_of (events_for projectId d mr).

(** The row of [mr] after a run that found the file [d]: the row it had
    when the merge request is skipped, the record derived from the remote
    otherwise. *)
Definition mirrored (projectId : Z) (d : Db) (mr : RemoteMR) : option MergeRequestData :=
  if decide (settled projectId d mr) then merge_requests d !! (mr_id mr, projectId)
  else mrData projectId mr <$> fetched projectId mr.

(** The counters after the loop, from the decisions at the file the run
    found. *)
Definition tally (projectId : Z) (d : Db) (mrs : list RemoteMR) (c : Summary) : Summary :=
  foldl (fun c mr => count (decision projectId d mr) c) c mrs.

(** ** Running one iteration *)

Lemma process_one_skip projectId mr c w :
  ready (w_db w) -> settled projectId (w_db w) mr ->
  process_one projectId mr c w =
  Ret (count (decision projectId (w_db w) mr) c)
      (then_did [Logged (action_line (decision projectId (w_db w) mr) mr)] w).
Proof.
  intros Hr Hs. unfold process_one, bind.
  rewrite on_db_getMergeRequest_ready by done. fold (decision projectId (w_db w) mr).
  by rewrite Hs.
Qed.

(** The world after the iteration that fetched [details] for [mr], the
    walk having left the log [log']. *)
Definition enriched (projectId : Z) (mr : RemoteMR) (details : Details) (log' : Net)
    (w : World) : World :=
  {| w_db := set_merge_requests
               (<[(mr_id mr, projectId) := mrData projectId mr details]>
                  (merge_requests (w_db w))) (w_db w);
     w_net := log' ++ [Logged (approval_line mr details)] |}.

Lemma process_one_enrich projectId mr c w details log' :
  ready (w_db w) -> ~ settled projectId (w_db w) mr ->
  fetchMergeRequestDetails r fuel projectId (mr_iid mr)
    (w_net w ++ [Logged (action_line (decision projectId (w_db w) mr) mr)])
  = Ret details log' ->
  process_one projectId mr c w =
  Ret (count (decision projectId (w_db w) mr) c) (enriched projectId mr details log' w).
Proof.
  intros Hr Hs Hd. unfold process_one, bind.
  rewrite on_db_getMergeRequest_ready by done. fold (decision projectId (w_db w) mr).
  apply not_false_iff_true in Hs. rewrite Hs. unfold on_net, zoom, console_log. simpl.
  rewrite Hd. simpl. by rewrite on_db_saveMergeRequest_ready.
Qed.

(** The same, from what the walk does on the empty log. *)
Lemma process_one_fetches projectId mr c w details l :
  ready (w_db w) -> ~ settled projectId (w_db w) mr ->
  fetchMergeRequestDetails r fuel projectId (mr_iid mr) [] = Ret details l ->
  process_one projectId mr c w =
  Ret (count (decision projectId (w_db w) mr) c)
      (enriched projectId mr details
         (w_net w ++ Logged (action_line (decision projectId (w_db w) mr) mr) :: l) w).
Proof.
  intros Hr Hs Hd. apply process_one_enrich; [done..|].
  rewrite (oblivious_at _ _ details l) by auto with oblivious. by rewrite <- app_assoc.
Qed.

Lemma process_one_out_of_fuel projectId mr c w :
  ready (w_db w) -> ~ settled projectId (w_db w) mr ->
  fetchMergeRequestDetails r fuel projectId (mr_iid mr)
    (w_net w ++ [Logged (action_line (decision projectId (w_db w) mr) mr)])
  = OutOfFuel ->
  process_one projectId mr c w = OutOfFuel.
Proof.
  intros Hr Hs Hd. unfold process_one, bind.
  rewrite on_db_getMergeRequest_ready by done. fold (decision projectId (w_db w) mr).
  apply not_false_iff_true in Hs. rewrite Hs. unfold on_net, zoom, console_log. simpl.
  by rewrite Hd.
Qed.

(** On a ready store an iteration returns or runs out of fuel; when it
    returns, the store is the old one or the old one with one row saved. *)
Lemma process_one_ready projectId mr c w :
  ready (w_db w) ->
  process_one projectId mr c w = OutOfFuel \/
  exists w', process_one projectId mr c w = Ret (count (decision projectId (w_db w) mr) c) w' /\
    ((settled projectId (w_db w) mr /\ w_db w' = w_db w) \/
     (~ settled projectId (w_db w) mr /\ exists details,
        w_db w' = set_merge_requests
                    (<[(mr_id mr, projectId) := mrData projectId mr details]>
                       (merge_requests (w_db w))) (w_db w))).
Proof.
  intros Hr. destruct (decide (settled projectId (w_db w) mr)) as [Hs|Hs].
  { right. eexists. split; [by apply process_one_skip | by left]. }
  destruct (fetchMergeRequestDetails r fuel projectId (mr_iid mr)
              (w_net w ++ [Logged (action_line (decision projectId (w_db w) mr) mr)]))
    as [details log'|e log'|] eqn:Hd.
  - right. eexists. split; [by eapply process_one_enrich|]. right. split; [done|].
    by exists details.
  - by apply fetchMergeRequestDetails_never_throws in Hd.
  - left. by apply process_one_out_of_fuel.
Qed.

(** The row an iteration that returns leaves under the key of its merge
    request, what it asks and writes, and that it leaves the other rows
    alone. *)
Lemma process_one_row projectId mr c w c' w' :
  ready (w_db w) -> process_one projectId mr c w = Ret c' w' ->
  merge_requests (w_db w') !! (mr_id mr, projectId) = mirrored projectId (w_db w) mr /\
  w_net w' = w_net w ++ events_for projectId (w_db w) mr /\
  forall k, k <> (mr_id mr, projectId) ->
    merge_requests (w_db w') !! k = merge_requests (w_db w) !! k.
Proof.
  intros Hr Hrun. unfold mirrored, events_for.
  destruct (decide (settled projectId (w_db w) mr)) as [Hs|Hs].
  { rewrite process_one_skip in Hrun by done. by injection Hrun as _ <-. }
  destruct (fetchMergeRequestDetails r fuel projectId (mr_iid mr)
              (w_net w ++ [Logged (action_line (decision projectId (w_db w) mr) mr)]))
    as [details log'|e log'|] eqn:Hd.
  - rewrite (process_one_enrich _ _ _ _ details log') in Hrun by done.
    injection Hrun as _ <-. simpl. unfold fetched, requested.
    apply oblivious_Ret_inv in Hd as (l & -> & ->); [|auto with oblivious]. simpl.
    split; [apply lookup_insert_eq|]. split; [by rewrite <- !app_assoc|].
    intros k Hk. by apply lookup_insert_ne.
  - by apply fetchMergeRequestDetails_never_throws in Hd.
  - by rewrite process_one_out_of_fuel in Hrun.
Qed.

Lemma requests_for_settled projectId d mr :
  settled projectId d mr -> requests_for projectId d mr = [].
Proof. intros Hs. unfold requests_for, events_for. by rewrite decide_True. Qed.

(** The decision, the row and the requests for a merge request depend on
    the row under its key only. *)
Lemma settled_ext projectId d d' mr :
  merge_requests d' !! (mr_id mr, projectId) = merge_requests d !! (mr_id mr, projectId) ->
  settled projectId d' mr <-> settled projectId d mr.
Proof. intros Hm. unfold settled, decision. by rewrite Hm. Qed.

Lemma mirrored_ext projectId d d' mr :
  merge_requests d' !! (mr_id mr, projectId) = merge_requests d !! (mr_id mr, projectId) ->
  mirrored projectId d' mr = mirrored projectId d mr.
Proof. intros Hm. unfold mirrored. rewrite Hm. by apply decide_ext, settled_ext. Qed.

Lemma events_for_ext projectId d d' mr :
  merge_requests d' !! (mr_id mr, projectId) = merge_requests d !! (mr_id mr, projectId) ->
  events_for projectId d' mr = events_for projectId d mr.
Proof.
  intros Hm. unfold events_for, decision. rewrite Hm. f_equal.
  by apply decide_ext, settled_ext.
Qed.

Lemma requests_for_ext projectId d d' mr :
  merge_requests d' !! (mr_id mr, projectId) = merge_requests d !! (mr_id mr, projectId) ->
  requests_for projectId d' mr = requests_for projectId d mr.
Proof. intros Hm. unfold requests_for. by rewrite (events_for_ext _ d d'). Qed.

(** ** Iterations the driver disturbs *)

(** The driver fails the read: the merge request is taken for a new one,
    whatever the file holds. *)
Lemma process_one_read_fault projectId mr c w m rest :
  handle (w_db w) = true -> faults (w_db w) = Some m :: rest ->
  process_one projectId mr c w =
  (on_net (console_log (action_line Insert mr)) ;;
   details <- on_net (fetchMergeRequestDetails r fuel projectId (mr_iid mr)) ;;
   on_net (console_log (approval_line mr details)) ;;
   on_db (saveMergeRequest (mrData projectId mr details)) ;;
   ret (count Insert c))
    {| w_db := check_failed (set_faults rest (w_db w));
       w_net := w_net w ++ [Logged "Failed to check merge request:"] |}.
Proof.
  intros Hh Hf. unfold process_one, bind at 1, on_db at 1.
  rewrite (getMergeRequest_fault _ _ _ m rest) by done.
  by rewrite (said_more _ _ ["Failed to check merge request:"]).
Qed.

(** The driver lets the read pass and fails the save. *)
Lemma process_one_save_fault projectId mr c w m rest details log' :
  ready (set_faults [] (w_db w)) -> faults (w_db w) = None :: Some m :: rest ->
  ~ settled projectId (w_db w) mr ->
  fetchMergeRequestDetails r fuel projectId (mr_iid mr)
    (w_net w ++ [Logged (action_line (decision projectId (w_db w) mr) mr)])
  = Ret details log' ->
  process_one projectId mr c w =
  Throw (SqliteError m)
    {| w_db := set_faults rest (w_db w);
       w_net := log' ++ [Logged (approval_line mr details)] |}.
Proof.
  intros Hr Hf Hs Hd. unfold process_one, bind at 1.
  rewrite (on_db_quiet _ w (merge_requests (w_db w) !! (mr_id mr, projectId))
             (set_faults (Some m :: rest) (w_db w)));
    [|by apply getMergeRequest_pass|done].
  fold (decision projectId (w_db w) mr).
  apply not_false_iff_true in Hs. rewrite Hs. unfold bind, on_net, zoom, console_log. simpl.
  rewrite Hd. simpl. destruct Hr as (Hh & _). unfold on_db. simpl.
  rewrite (saveMergeRequest_fault _ _ m rest) by done.
  by rewrite said_quiet, app_nil_r.
Qed.

(** ** Settled merge requests *)

Lemma reconcile_mrData projectId mr details :
  fetches_details (reconcile mr (Some (mrData projectId mr details))) = false.
Proof.
  unfold reconcile, needsUpdate. simpl. destruct (_ && _); [done|].
  by rewrite !bool_decide_eq_true_2.
Qed.

Lemma settled_after_save projectId d mr details :
  settled projectId
    (set_merge_requests
       (<[(mr_id mr, projectId) := mrData projectId mr details]> (merge_requests d)) d)
    mr.
Proof.
  unfold settled, decision. simpl. rewrite lookup_insert_eq. apply reconcile_mrData.
Qed.

Lemma decision_frame projectId d mr mr' row :
  mr_id mr' <> mr_id mr ->
  decision projectId
    (set_merge_requests (<[(mr_id mr, projectId) := row]> (merge_requests d)) d) mr'
  = decision projectId d mr'.
Proof.
  intros Hne. unfold decision. simpl. rewrite lookup_insert_ne; [done|]. congruence.
Qed.

Lemma count_total a c : total_count (count a c) = S (total_count c).
Proof. unfold total_count. destruct a; simpl; lia. Qed.

Lemma count_skip a c :
  fetches_details a = false ->
  count a c = {| skippedCount := S (skippedCount c); updatedCount := updatedCount c;
                 newCount := newCount c |}.
Proof. by destruct a. Qed.

(** What an iteration that returns leaves behind. *)
Lemma process_one_settles projectId mr c w c' w' :
  ready (w_db w) ->
  process_one projectId mr c w = Ret c' w' ->
  ready (w_db w') /\ settled projectId (w_db w') mr /\
  (forall mr', mr_id mr' <> mr_id mr ->
     decision projectId (w_db w') mr' = decision projectId (w_db w) mr') /\
  total_count c' = S (total_count c) /\
  projects (w_db w') = projects (w_db w).
Proof.
  intros Hr Hrun.
  destruct (process_one_ready projectId mr c w Hr) as [Hf|(w1 & Hrun1 & Hcase)];
    [congruence|].
  rewrite Hrun in Hrun1. injection Hrun1 as -> <-.
  rewrite count_total. destruct Hcase as [[Hs ->]|(Hs & details & Hdb)]; [done|].
  rewrite Hdb. repeat split; try apply Hr.
  - apply settled_after_save.
  - intros mr' Hne. by apply decision_frame.
Qed.

(** What the loop leaves behind when it returns. *)
Lemma process_all_frame projectId mrs : forall c w c' w',
  ready (w_db w) ->
  process_all projectId mrs c w = Ret c' w' ->
  ready (w_db w') /\
  (forall mr', mr_id mr' ∉ mr_id <$> mrs ->
     decision projectId (w_db w') mr' = decision projectId (w_db w) mr') /\
  total_count c' = (total_count c + length mrs)%nat /\
  projects (w_db w') = projects (w_db w).
Proof.
  induction mrs as [|mr mrs IH]; intros c w c' w' Hr Hrun; simpl in Hrun.
  { injection Hrun as <- <-. repeat split; try apply Hr. simpl; lia. }
  apply bind_Ret_inv in Hrun as (c1 & w1 & Hone & Hrest).
  destruct (process_one_settles _ _ _ _ _ _ Hr Hone) as (Hr1 & _ & Hf1 & Hc1 & Hp1).
  destruct (IH c1 w1 c' w' Hr1 Hrest) as (Hr' & Hf' & Hc' & Hp').
  split; [done|]. split; [|split; [simpl; lia | congruence]].
  intros mr' Hnotin. rewrite fmap_cons, not_elem_of_cons in Hnotin.
  destruct Hnotin as [Hne Hnotin]. by rewrite Hf', Hf1.
Qed.

(** The loop over a list without repeated ids settles every element. *)
Lemma process_all_settles projectId mrs : forall c w c' w',
  ready (w_db w) -> NoDup (mr_id <$> mrs) ->
  process_all projectId mrs c w = Ret c' w' ->
  Forall (settled projectId (w_db w')) mrs.
Proof.
  induction mrs as [|mr mrs IH]; intros c w c' w' Hr Hnd Hrun; [constructor|].
  simpl in Hrun. apply bind_Ret_inv in Hrun as (c1 & w1 & Hone & Hrest).
  rewrite fmap_cons in Hnd. apply NoDup_cons in Hnd as [Hnotin Hnd].
  destruct (process_one_settles _ _ _ _ _ _ Hr Hone) as (Hr1 & Hs1 & _).
  constructor; [|by eapply IH].
  destruct (process_all_frame _ _ _ _ _ _ Hr1 Hrest) as (_ & Hframe & _).
  unfold settled. by rewrite Hframe.
Qed.

(** The loop over a list without repeated ids leaves, for each element,
    the row its own iteration leaves, and no other row changes. *)
Lemma process_all_mirror projectId mrs : forall c w c' w',
  ready (w_db w) -> NoDup (mr_id <$> mrs) ->
  process_all projectId mrs c w = Ret c' w' ->
  (forall mr, mr ∈ mrs ->
     merge_requests (w_db w') !! (mr_id mr, projectId) = mirrored projectId (w_db w) mr) /\
  w_net w' = w_net w ++ mjoin (events_for projectId (w_db w) <$> mrs) /\
  (forall k, k ∉ (fun mr => (mr_id mr, projectId)) <$> mrs ->
     merge_requests (w_db w') !! k = merge_requests (w_db w) !! k).
Proof.
  induction mrs as [|mr mrs IH]; intros c w c' w' Hr Hnd Hrun; simpl in Hrun.
  { injection Hrun as _ <-. simpl. rewrite app_nil_r.
    split; [by intros mr ?%elem_of_nil | done]. }
  apply bind_Ret_inv in Hrun as (c1 & w1 & Hone & Hrest).
  rewrite fmap_cons in Hnd. apply NoDup_cons in Hnd as [Hnotin Hnd].
  destruct (process_one_settles _ _ _ _ _ _ Hr Hone) as (Hr1 & _).
  destruct (process_one_row _ _ _ _ _ _ Hr Hone) as (Hrow & Hnet & Hframe).
  destruct (IH c1 w1 c' w' Hr1 Hnd Hrest) as (Hin & Hnet' & Hout).
  assert (forall mr', mr' ∈ mrs -> (mr_id mr', projectId) <> (mr_id mr, projectId)) as Hne.
  { intros mr' Hmr' [= Hid]. apply Hnotin. rewrite <- Hid. by apply list_elem_of_fmap_2. }
  split; [|split].
  - intros mr' [->|Hmr']%elem_of_cons.
    + rewrite Hout; [done|]. intros (mr' & Hid & Hmr')%list_elem_of_fmap.
      by apply (Hne mr').
    + rewrite Hin by done. apply mirrored_ext, Hframe. by apply Hne.
  - rewrite Hnet', Hnet, <- app_assoc, fmap_cons. cbn [mjoin list_join]. do 3 f_equal.
    apply list_fmap_ext. intros i mr' Hmr'%list_elem_of_lookup_2.
    apply events_for_ext, Hframe. by apply Hne.
  - intros k [Hk Hrest']%not_elem_of_cons. rewrite Hout by done. by apply Hframe.
Qed.

(** A merge request that is settled keeps its row in a later run. *)
Lemma mirrored_settled projectId d mr :
  settled projectId d mr ->
  mirrored projectId d mr = merge_requests d !! (mr_id mr, projectId).
Proof. intros Hs. unfold mirrored. by rewrite decide_True. Qed.

(** The loop over the first [k] elements of a list without repeated ids
    leaves a file from which a run over the whole list writes the rows it
    would have written from the file the loop found. *)
Lemma process_all_prefix projectId items k c w c' wk :
  ready (w_db w) -> NoDup (mr_id <$> items) ->
  process_all projectId (take k items) c w = Ret c' wk ->
  ready (w_db wk) /\ projects (w_db wk) = projects (w_db w) /\
  (forall mr, mr ∈ items ->
     mirrored projectId (w_db wk) mr = mirrored projectId (w_db w) mr /\
     (settled projectId (w_db w) mr -> settled projectId (w_db wk) mr)) /\
  (forall key, key ∉ (fun mr => (mr_id mr, projectId)) <$> items ->
     merge_requests (w_db wk) !! key = merge_requests (w_db w) !! key).
Proof.
  intros Hr Hnd Hrun.
  assert (NoDup (mr_id <$> take k items)) as Hnd'.
  { rewrite <- (take_drop k items), fmap_app in Hnd. by apply NoDup_app in Hnd as [? _]. }
  destruct (process_all_frame _ _ _ _ _ _ Hr Hrun) as (Hrk & _ & _ & Hp).
  destruct (process_all_mirror _ _ _ _ _ _ Hr Hnd' Hrun) as (Hin & _ & Hout).
  pose proof (process_all_settles _ _ _ _ _ _ Hr Hnd' Hrun) as Hset.
  rewrite Forall_forall in Hset.
  assert (forall key, key ∉ (fun mr => (mr_id mr, projectId)) <$> items ->
            key ∉ (fun mr => (mr_id mr, projectId)) <$> take k items) as Hsub.
  { intros key Hkey (mr & -> & Hmr)%list_elem_of_fmap. apply Hkey.
    apply (list_elem_of_fmap_2 (fun mr => (mr_id mr, projectId))).
    rewrite <- (take_drop k items), elem_of_app. by left. }
  split; [done|]. split; [done|]. split; [|by intros key ?%Hsub%Hout].
  intros mr Hmr. destruct (decide (mr ∈ take k items)) as [Hk|Hk].
  { rewrite mirrored_settled, Hin by auto. auto. }
  enough (merge_requests (w_db wk) !! (mr_id mr, projectId)
          = merge_requests (w_db w) !! (mr_id mr, projectId)) as Hrow.
  { split; [by apply mirrored_ext | by apply settled_ext]. }
  apply Hout. intros (mr' & [= Hid] & Hmr')%list_elem_of_fmap.
  rewrite <- (take_drop k items) in Hnd, Hmr. apply elem_of_app in Hmr as [?|Hmr]; [done|].
  rewrite fmap_app in Hnd. apply NoDup_app in Hnd as (_ & Hdis & _).
  apply (Hdis (mr_id mr')); [|rewrite <- Hid]; by apply list_elem_of_fmap_2.
Qed.

(** A settled merge request has a row. *)
Lemma settled_stored projectId d mr :
  settled projectId d mr -> is_Some (merge_requests d !! (mr_id mr, projectId)).
Proof. unfold settled, decision. by destruct (merge_requests d !! _). Qed.

(** An iteration returns when the walk for the details does, or when
    there is nothing to fetch. *)
Lemma process_one_returns projectId mr c w :
  ready (w_db w) ->
  (~ settled projectId (w_db w) mr -> is_Some (fetched projectId mr)) ->
  exists c' w', process_one projectId mr c w = Ret c' w'.
Proof.
  intros Hr Hf. destruct (decide (settled projectId (w_db w) mr)) as [Hs|Hs].
  { eexists _, _. by apply process_one_skip. }
  destruct (Hf Hs) as [details Hd]. unfold fetched in Hd.
  destruct (fetchMergeRequestDetails r fuel projectId (mr_iid mr) [])
    as [details' l| |] eqn:Hwalk; try done.
  eexists _, _. by eapply process_one_fetches.
Qed.

(** The loop returns when the walk for the details of each merge request
    it has to fetch does. *)
Lemma process_all_returns projectId mrs : forall c w,
  ready (w_db w) -> NoDup (mr_id <$> mrs) ->
  (forall mr, mr ∈ mrs -> ~ settled projectId (w_db w) mr -> is_Some (fetched projectId mr)) ->
  exists c' w', process_all projectId mrs c w = Ret c' w'.
Proof.
  induction mrs as [|mr mrs IH]; intros c w Hr Hnd Hf; simpl; [by eexists _, _|].
  rewrite fmap_cons in Hnd. apply NoDup_cons in Hnd as [Hnotin Hnd].
  destruct (process_one_returns projectId mr c w Hr) as (c1 & w1 & Hone);
    [apply Hf; by left|].
  destruct (process_one_settles _ _ _ _ _ _ Hr Hone) as (Hr1 & _ & Hf1 & _).
  unfold bind. rewrite Hone. apply IH; [done..|].
  intros mr' Hmr' Hs. apply Hf; [by right|]. unfold settled in *.
  rewrite <- Hf1; [done|]. intros Hid. apply Hnotin. rewrite <- Hid.
  by apply list_elem_of_fmap_2.
Qed.

(** When the loop returned, the walk for the details of each merge
    request it had to fetch did. *)
Lemma process_all_fetched projectId mrs c w c' w' :
  ready (w_db w) -> NoDup (mr_id <$> mrs) ->
  process_all projectId mrs c w = Ret c' w' ->
  forall mr, mr ∈ mrs -> ~ settled projectId (w_db w) mr -> is_Some (fetched projectId mr).
Proof.
  intros Hr Hnd Hrun mr Hmr Hs.
  destruct (process_all_mirror _ _ _ _ _ _ Hr Hnd Hrun) as (Hin & _).
  pose proof (process_all_settles _ _ _ _ _ _ Hr Hnd Hrun) as Hset.
  rewrite Forall_forall in Hset. pose proof (settled_stored _ _ _ (Hset mr Hmr)) as Hrow.
  rewrite Hin in Hrow by done. unfold mirrored in Hrow.
  rewrite decide_False in Hrow by done. by apply fmap_is_Some in Hrow.
Qed.

(** The counters an iteration that returns hands on. *)
Lemma process_one_counts projectId mr c w c' w' :
  ready (w_db w) -> process_one projectId mr c w = Ret c' w' ->
  c' = count (decision projectId (w_db w) mr) c.
Proof.
  intros Hr Hrun. destruct (process_one_ready projectId mr c w Hr) as [Hf|(w1 & Hrun1 & _)];
    congruence.
Qed.

Lemma tally_ext projectId d d' mrs : forall c,
  (forall mr, mr ∈ mrs -> decision projectId d' mr = decision projectId d mr) ->
  tally projectId d' mrs c = tally projectId d mrs c.
Proof.
  induction mrs as [|mr mrs IH]; intros c Hd; [done|]. unfold tally in *. simpl.
  rewrite Hd by left. apply IH. intros mr' Hmr'. apply Hd. by right.
Qed.

(** The counters of the loop over a list without repeated ids are those
    of the decisions at the file it found. *)
Lemma process_all_tally projectId mrs : forall c w c' w',
  ready (w_db w) -> NoDup (mr_id <$> mrs) ->
  process_all projectId mrs c w = Ret c' w' -> c' = tally projectId (w_db w) mrs c.
Proof.
  induction mrs as [|mr mrs IH]; intros c w c' w' Hr Hnd Hrun; simpl in Hrun.
  { by injection Hrun as <- _. }
  apply bind_Ret_inv in Hrun as (c1 & w1 & Hone & Hrest).
  rewrite fmap_cons in Hnd. apply NoDup_cons in Hnd as [Hnotin Hnd].
  destruct (process_one_settles _ _ _ _ _ _ Hr Hone) as (Hr1 & _ & Hf1 & _).
  rewrite (IH c1 w1 c' w' Hr1 Hnd Hrest), (process_one_counts _ _ _ _ _ _ Hr Hone).
  apply (tally_ext _ _ _ mrs). intros mr' Hmr'. apply Hf1. intros Hid.
  apply Hnotin. rewrite <- Hid. by apply list_elem_of_fmap_2.
Qed.

(** Each counter is the number of merge requests with its decision. *)
Lemma tally_counts projectId d mrs : forall c,
  skippedCount (tally projectId d mrs c)
  = (skippedCount c + length (filter (settled projectId d) mrs))%nat /\
  updatedCount (tally projectId d mrs c)
  = (updatedCount c + length (filter (fun mr => decision projectId d mr = Update) mrs))%nat /\
  newCount (tally projectId d mrs c)
  = (newCount c + length (filter (fun mr => decision projectId d mr = Insert) mrs))%nat.
Proof.
  induction mrs as [|mr mrs IH]; intros c; [simpl; lia|].
  change (tally projectId d (mr :: mrs) c)
    with (tally projectId d mrs (count (decision projectId d mr) c)).
  destruct (IH (count (decision projectId d mr) c)) as (-> & -> & ->).
  rewrite !filter_cons. unfold settled. repeat case_decide.
  all: destruct (decision projectId d mr) eqn:Ha; rewrite ?Ha in *; simpl in *; try done; lia.
Qed.

Lemma tally_total projectId d mrs : forall c,
  total_count (tally projectId d mrs c) = (total_count c + length mrs)%nat.
Proof.
  induction mrs as [|mr mrs IH]; intros c; [simpl; lia|].
  change (tally projectId d (mr :: mrs) c)
    with (tally projectId d mrs (count (decision projectId d mr) c)).
  rewrite IH, count_total. simpl. lia.
Qed.

(** The loop over settled merge requests skips them all: it writes one
    line for each and touches nothing else. *)
Lemma process_all_settled projectId mrs : forall c w,
  ready (w_db w) -> Forall (settled projectId (w_db w)) mrs ->
  process_all projectId mrs c w =
  Ret {| skippedCount := (skippedCount c + length mrs)%nat;
         updatedCount := updatedCount c; newCount := newCount c |}
      (then_did ((fun mr => Logged (action_line (decision projectId (w_db w) mr) mr)) <$> mrs)
         w).
Proof.
  induction mrs as [|mr mrs IH]; intros c w Hr Hall; simpl.
  { destruct c. unfold ret. rewrite then_did_nil. simpl. do 2 f_equal. lia. }
  apply Forall_cons in Hall as [Hs Hall]. unfold bind.
  rewrite process_one_skip, count_skip by done. rewrite IH by done. simpl.
  rewrite then_did_app. do 2 f_equal. lia.
Qed.

End Handler.

(** ** The effect of a run on the file is a sequence of store steps *)

Section HandlerSteps.
Context `{Clock}.
Variable r : Remote.
Variable fuel : nat.

Lemma steps_only_process_one projectId mr c : steps_only (process_one r fuel projectId mr c).
Proof. unfold process_one. cbv zeta. auto 12 with steps. Qed.

Lemma steps_only_process_all projectId mrs : forall c,
  steps_only (process_all r fuel projectId mrs c).
Proof.
  induction mrs as [|mr mrs IH]; intros c; [apply steps_only_ret|].
  apply steps_only_bind; [apply steps_only_process_one | done].
Qed.

Lemma steps_only_processAndStore projectId project :
  steps_only (processAndStoreMergeRequests r fuel projectId project).
Proof.
  unfold processAndStoreMergeRequests. auto 12 using steps_only_process_all with steps.
Qed.

End HandlerSteps.

(** ** The run ends *)

Section HandlerEnds.
Context `{Clock}.
Variable r : Remote.
Variable fuel : nat.
Hypothesis Hanswers : answers_within r fuel.

Lemma halts_process_one projectId mr c : halts (process_one r fuel projectId mr c).
Proof.
  destruct Hanswers as [_ Hdetails]. unfold process_one. cbv zeta. auto 15 with halts.
Qed.

Lemma halts_process_all projectId mrs : forall c, halts (process_all r fuel projectId mrs c).
Proof.
  induction mrs as [|mr mrs IH]; intros c; simpl; [auto with halts|].
  apply halts_bind; [apply halts_process_one | done].
Qed.

Lemma halts_processAndStore projectId project :
  halts (processAndStoreMergeRequests r fuel projectId project).
Proof.
  destruct Hanswers as [Hlist _]. unfold processAndStoreMergeRequests.
  auto 15 using halts_process_all with halts.
Qed.

End HandlerEnds.

(** ** The handler sees a remote through its answers only *)

Section HandlerProper.
Context `{Clock}.

#[export] Instance process_one_proper :
  Proper ((≡) ==> (=) ==> (=) ==> (=) ==> (=) ==> (≡)) process_one.
Proof.
  intros r1 r2 Hr fuel _ <- projectId _ <- mr _ <- c _ <-. unfold process_one.
  cbv zeta. solve_prog_proper.
Qed.

Lemma process_one_equiv r1 r2 fuel projectId mr c :
  r1 ≡ r2 -> process_one r1 fuel projectId mr c ≡ process_one r2 fuel projectId mr c.
Proof. intros Hr. by apply process_one_proper. Qed.

#[local] Hint Resolve process_one_equiv : prog_proper.

Lemma process_all_equiv r1 r2 fuel projectId mrs : forall c,
  r1 ≡ r2 -> process_all r1 fuel projectId mrs c ≡ process_all r2 fuel projectId mrs c.
Proof. induction mrs as [|mr mrs IH]; intros c Hr; simpl; solve_prog_proper. Qed.

#[local] Hint Resolve process_all_equiv : prog_proper.

#[export] Instance processAndStoreMergeRequests_proper :
  Proper ((≡) ==> (=) ==> (=) ==> (=) ==> (≡)) processAndStoreMergeRequests.
Proof.
  intros r1 r2 Hr fuel _ <- projectId _ <- project _ <-.
  unfold processAndStoreMergeRequests. solve_prog_proper.
Qed.

Lemma processAndStoreMergeRequests_equiv r1 r2 fuel projectId project :
  r1 ≡ r2 ->
  processAndStoreMergeRequests r1 fuel projectId project
  ≡ processAndStoreMergeRequests r2 fuel projectId project.
Proof. intros Hr. by apply processAndStoreMergeRequests_proper. Qed.

End HandlerProper.

#[export] Hint Resolve processAndStoreMergeRequests_equiv : prog_proper.

(** ** The whole run *)

Lemma requests_of_events_for `{Clock} r fuel projectId d mrs :
  requests_of (mjoin (events_for r fuel projectId d <$> mrs))
  = mjoin (requests_for r fuel projectId d <$> mrs).
Proof.
  induction mrs as [|mr mrs IH]; [done|].
  rewrite !fmap_cons. cbn [mjoin list_join]. rewrite requests_of_app. f_equal. apply IH.
Qed.

Section Run.
Context `{Clock}.
Variable r : Remote.
Variable fuel : nat.
Variable projectId : Z.
Variable project : Project.

(** What the run does with a list that is not empty. *)
Definition store_list (items : list RemoteMR) : prog World exn (option Summary) :=
  on_net (console_log (found_line (length items))) ;;
  on_db (saveProject project) ;;
  c <- process_all r fuel projectId items no_counts ;;
  on_net (console_log "All merge requests processed.") ;;
  on_net (console_log (summary_line c)) ;;
  ret (Some c).

(** A run that is stopped after [k] iterations of its loop: the project
    is saved, the first [k] merge requests of the list are processed, and
    nothing after them is.  An iteration writes to the file once, as its
    last step, so the files an interrupted run can leave are those at the
    end of this program for some [k]. *)
Definition stopped_after (k : nat) (items : list RemoteMR) : prog World exn Summary :=
  on_net (console_log (found_line (length items))) ;;
  on_db (saveProject project) ;;
  process_all r fuel projectId (take k items) no_counts.

(** The last lines of a run that stored a list. *)
Definition closing (c : Summary) : Net :=
  [Logged "All merge requests processed."; Logged (summary_line c)].

(** The run after its first call. *)
Lemma processAndStore_fetched w mrs log' :
  fetchMergeRequests r fuel projectId (w_net w ++ [Logged "Fetching merge requests..."])
  = Ret mrs log' ->
  processAndStoreMergeRequests r fuel projectId project w =
  (if bool_decide (length mrs = 0%nat)
   then on_net (console_log "No merge requests found.") ;; ret None
   else store_list mrs) (set_net log' w).
Proof.
  intros Hf. unfold processAndStoreMergeRequests, bind at 1. unfold bind at 1.
  unfold on_net at 1 2, zoom, console_log. simpl. by rewrite Hf.
Qed.

(** The run after its first call, when the list arrives whole. *)
Lemma processAndStore_run items w :
  serves r projectId items -> (length items / per_page + 2 <= fuel)%nat ->
  exists j l, (length items / per_page + 1 <= j <= length items / per_page + 2)%nat /\
    requests_of l = page_requests (GetMergeRequests projectId) 0 j /\
    processAndStoreMergeRequests r fuel projectId project w =
    (if bool_decide (length items = 0%nat)
     then on_net (console_log "No merge requests found.") ;; ret None
     else store_list items) (then_did l w).
Proof.
  intros Hs Hfuel.
  destruct (fetchMergeRequests_serves r projectId items fuel
              (w_net w ++ [Logged "Fetching merge requests..."]) Hs Hfuel)
    as (j & l & Hj & Hfetch & Hl & _).
  exists j, (Logged "Fetching merge requests..." :: l). split; [done|]. split; [done|].
  rewrite (processAndStore_fetched w items _ Hfetch). unfold then_did.
  by rewrite <- app_assoc.
Qed.

(** The run waits as long as its first call does. *)
Lemma processAndStore_stalls w :
  fetchMergeRequests r fuel projectId (w_net w ++ [Logged "Fetching merge requests..."])
  = OutOfFuel ->
  processAndStoreMergeRequests r fuel projectId project w = OutOfFuel.
Proof.
  intros Hf. unfold processAndStoreMergeRequests, bind, on_net, zoom, console_log. simpl.
  by rewrite Hf.
Qed.

(** The rest of a run that returned, on a ready store. *)
Lemma run_rest_inv items c1 w w1 :
  ready (w_db w) ->
  store_list items w = Ret c1 w1 ->
  exists c wA wB, c1 = Some c /\ ready (w_db wA) /\
    projects (w_db wA) !! p_id project = Some project /\
    merge_requests (w_db wA) = merge_requests (w_db w) /\
    projects (w_db wA) = <[p_id project := project]> (projects (w_db w)) /\
    w_net wA = w_net w ++ [Logged (found_line (length items))] /\
    process_all r fuel projectId items no_counts wA = Ret c wB /\
    w1 = then_did (closing c) wB.
Proof.
  intros Hr Hrun. unfold store_list, bind at 1, on_net at 1, zoom, console_log in Hrun.
  simpl in Hrun. unfold bind at 1 in Hrun.
  rewrite on_db_saveProject_ready in Hrun by done.
  apply bind_Ret_inv in Hrun as (c & wB & Hall & Hend).
  unfold bind, on_net, zoom, console_log, ret in Hend. simpl in Hend.
  injection Hend as <- <-.
  match type of Hall with process_all _ _ _ _ _ ?wA = _ => exists c, wA, wB end.
  split; [done|]. split; [apply Hr|]. split; [apply lookup_insert_eq|].
  split; [done|]. split; [done|]. split; [done|]. split; [exact Hall|].
  unfold then_did, closing, set_net. simpl. by rewrite <- app_assoc.
Qed.

(** The rest of a run on a store where the project is saved and every
    merge request of the list is settled: one line for each, and the
    summary. *)
Lemma run_rest_settled items w :
  ready (w_db w) -> projects (w_db w) !! p_id project = Some project ->
  Forall (settled projectId (w_db w)) items ->
  exists l, requests_of l = [] /\
    store_list items w
    = Ret (Some {| skippedCount := length items; updatedCount := 0; newCount := 0 |})
        (then_did l w).
Proof.
  intros Hr Hp Hall.
  exists (Logged (found_line (length items))
          :: ((fun mr => Logged (action_line (decision projectId (w_db w) mr) mr)) <$> items)
          ++ closing {| skippedCount := length items; updatedCount := 0; newCount := 0 |}).
  split.
  { simpl. rewrite requests_of_app. simpl. rewrite app_nil_r.
    clear. induction items as [|mr mrs IH]; [done|]. by rewrite fmap_cons. }
  unfold store_list, bind at 1, on_net at 1, zoom, console_log. simpl. unfold bind at 1.
  rewrite on_db_saveProject_ready, set_projects_insert_id by done.
  rewrite set_db_same. unfold bind at 1. rewrite process_all_settled by done. simpl.
  unfold bind, on_net, zoom, console_log, ret, then_did, closing, set_net. simpl.
  by rewrite <- !app_assoc.
Qed.

(** What a run that returns leaves in the file, when the list arrives
    whole and without repeated ids. *)
Lemma run_mirror items oc w w' :
  ready (w_db w) -> serves r projectId items -> NoDup (mr_id <$> items) ->
  (length items / per_page + 2 <= fuel)%nat -> items <> [] ->
  processAndStoreMergeRequests r fuel projectId project w = Ret oc w' ->
  is_Some oc /\ ready (w_db w') /\
  projects (w_db w') = <[p_id project := project]> (projects (w_db w)) /\
  (forall mr, mr ∈ items ->
     merge_requests (w_db w') !! (mr_id mr, projectId)
     = mirrored r fuel projectId (w_db w) mr) /\
  (forall k, k ∉ (fun mr => (mr_id mr, projectId)) <$> items ->
     merge_requests (w_db w') !! k = merge_requests (w_db w) !! k).
Proof.
  intros Hr Hs Hnd Hfuel Hne Hrun.
  destruct (processAndStore_run items w Hs Hfuel) as (j & l & _ & _ & Hj).
  rewrite Hj, bool_decide_eq_false_2 in Hrun by (by destruct items).
  apply run_rest_inv in Hrun as (c & wA & wB & -> & HrA & _ & Hm & HpA & _ & Hall & ->);
    [|done].
  simpl in Hm, HpA.
  destruct (process_all_frame _ _ _ _ _ _ _ _ HrA Hall) as (Hr' & _ & _ & Hp).
  destruct (process_all_mirror _ _ _ _ _ _ _ _ HrA Hnd Hall) as (Hin & _ & Hout).
  split; [done|]. split; [exact Hr'|]. split; [simpl; congruence|]. split.
  - intros mr Hmr. simpl. rewrite Hin by done. apply mirrored_ext. by rewrite Hm.
  - intros k Hk. simpl. rewrite Hout by done. by rewrite Hm.
Qed.

(** The file a stopped run leaves, against the file it found. *)
Lemma stopped_after_inv k items c w wk :
  ready (w_db w) -> NoDup (mr_id <$> items) ->
  stopped_after k items w = Ret c wk ->
  ready (w_db wk) /\
  projects (w_db wk) = <[p_id project := project]> (projects (w_db w)) /\
  (forall mr, mr ∈ items ->
     mirrored r fuel projectId (w_db wk) mr = mirrored r fuel projectId (w_db w) mr /\
     (settled projectId (w_db w) mr -> settled projectId (w_db wk) mr)) /\
  (forall key, key ∉ (fun mr => (mr_id mr, projectId)) <$> items ->
     merge_requests (w_db wk) !! key = merge_requests (w_db w) !! key).
Proof.
  intros Hr Hnd Hrun. unfold stopped_after, bind at 1, on_net at 1, zoom, console_log in Hrun.
  simpl in Hrun. unfold bind at 1 in Hrun.
  rewrite on_db_saveProject_ready in Hrun by done.
  apply process_all_prefix in Hrun as (Hrk & Hp & Hin & Hout); [|apply Hr|done].
  split; [done|]. split; [by rewrite Hp|]. split; [|by intros key ?%Hout].
  intros mr Hmr. by destruct (Hin mr Hmr).
Qed.

(** The rest of a run returns when the walk for the details of each merge
    request it has to fetch does. *)
Lemma store_list_returns items w :
  ready (w_db w) -> NoDup (mr_id <$> items) ->
  (forall mr, mr ∈ items -> ~ settled projectId (w_db w) mr ->
     is_Some (fetched r fuel projectId mr)) ->
  exists oc w', store_list items w = Ret oc w'.
Proof.
  intros Hr Hnd Hf. unfold store_list, bind at 1, on_net at 1, zoom, console_log. simpl.
  unfold bind at 1. rewrite on_db_saveProject_ready by done.
  match goal with |- context [bind _ _ ?wA] =>
    destruct (process_all_returns r fuel projectId items no_counts wA) as (c & wB & Hall)
  end; [apply Hr | done | exact Hf |].
  unfold bind at 1. rewrite Hall. by eexists _, _.
Qed.

(** What the walks of a run that returned have answered. *)
Lemma run_fetched items oc w w' :
  ready (w_db w) -> serves r projectId items -> NoDup (mr_id <$> items) ->
  (length items / per_page + 2 <= fuel)%nat -> items <> [] ->
  processAndStoreMergeRequests r fuel projectId project w = Ret oc w' ->
  forall mr, mr ∈ items -> ~ settled projectId (w_db w) mr ->
    is_Some (fetched r fuel projectId mr).
Proof.
  intros Hr Hs Hnd Hfuel Hne Hrun mr Hmr Hns.
  destruct (processAndStore_run items w Hs Hfuel) as (j & l & _ & _ & Hj).
  rewrite Hj, bool_decide_eq_false_2 in Hrun by (by destruct items).
  apply run_rest_inv in Hrun as (c & wA & wB & -> & HrA & _ & Hm & _ & _ & Hall & _);
    [|done].
  apply (process_all_fetched _ _ _ _ _ _ _ _ HrA Hnd Hall mr Hmr).
  unfold settled, decision in *. by rewrite Hm.
Qed.

(** A run from the file a stopped run left returns when the run from the
    file the stopped run found does. *)
Lemma resumed_run_returns items k c w wk oc1 w1 :
  ready (w_db w) -> serves r projectId items -> NoDup (mr_id <$> items) ->
  (length items / per_page + 2 <= fuel)%nat -> items <> [] ->
  stopped_after k items w = Ret c wk ->
  processAndStoreMergeRequests r fuel projectId project w = Ret oc1 w1 ->
  exists oc w', processAndStoreMergeRequests r fuel projectId project wk = Ret oc w'.
Proof.
  intros Hr Hs Hnd Hfuel Hne Hstop Hrun1.
  destruct (stopped_after_inv _ _ _ _ _ Hr Hnd Hstop) as (Hrk & _ & Hin & _).
  destruct (processAndStore_run items wk Hs Hfuel) as (j & l & _ & _ & ->).
  rewrite bool_decide_eq_false_2 by (by destruct items).
  apply store_list_returns; [exact Hrk | done |]. intros mr Hmr Hns.
  apply (run_fetched items oc1 w w1); try done.
  intros Hsw. by apply Hns, (Hin mr Hmr).
Qed.

(** The counters a run that returns reports, when the list arrives whole
    and without repeated ids. *)
Lemma run_tally items oc w w' :
  ready (w_db w) -> serves r projectId items -> NoDup (mr_id <$> items) ->
  (length items / per_page + 2 <= fuel)%nat -> items <> [] ->
  processAndStoreMergeRequests r fuel projectId project w = Ret oc w' ->
  oc = Some (tally projectId (w_db w) items no_counts).
Proof.
  intros Hr Hs Hnd Hfuel Hne Hrun.
  destruct (processAndStore_run items w Hs Hfuel) as (j & l & _ & _ & Hj).
  rewrite Hj, bool_decide_eq_false_2 in Hrun by (by destruct items).
  apply run_rest_inv in Hrun as (c & wA & wB & -> & HrA & _ & Hm & _ & _ & Hall & _);
    [|done].
  simpl in Hm.
  rewrite (process_all_tally _ _ _ _ _ _ _ _ HrA Hnd Hall). f_equal.
  apply tally_ext. intros mr _. unfold decision. by rewrite Hm.
Qed.

(** What a run that returns asked and wrote, when the list arrives whole
    and without repeated ids: the walk of the list, then the events of each
    merge request in the order of the list, then the summary. *)
Lemma run_events items c w w' :
  ready (w_db w) -> serves r projectId items -> NoDup (mr_id <$> items) ->
  (length items / per_page + 2 <= fuel)%nat ->
  processAndStoreMergeRequests r fuel projectId project w = Ret (Some c) w' ->
  exists j l, (length items / per_page + 1 <= j <= length items / per_page + 2)%nat /\
    requests_of l = page_requests (GetMergeRequests projectId) 0 j /\
    w_net w' = w_net w ++ l ++ Logged (found_line (length items))
                 :: mjoin (events_for r fuel projectId (w_db w) <$> items) ++ closing c.
Proof.
  intros Hr Hs Hnd Hfuel Hrun.
  destruct (processAndStore_run items w Hs Hfuel) as (j & l & Hj & Hl & Hrun').
  exists j, l. split; [done|]. split; [done|]. rewrite Hrun' in Hrun.
  case_bool_decide; [done|].
  apply run_rest_inv in Hrun as (c0 & wA & wB & [= <-] & HrA & _ & Hm & _ & HnA & Hall & ->);
    [|done].
  simpl in Hm, HnA.
  destruct (process_all_mirror _ _ _ _ _ _ _ _ HrA Hnd Hall) as (_ & HnB & _).
  simpl. rewrite HnB, HnA. simpl. rewrite <- !app_assoc. simpl. do 5 f_equal.
  apply list_fmap_ext. intros i mr _. apply events_for_ext. by rewrite Hm.
Qed.

Lemma last_closing l c : last (console_of (l ++ closing c)) = Some (summary_line c).
Proof.
  unfold closing. change [Logged ?a; Logged ?b]%list with ([Logged a] ++ [Logged b]).
  rewrite app_assoc. apply last_console_snoc.
Qed.

(** The last lines of a run that returns. *)
Lemma run_last_lines w oc w' :
  processAndStoreMergeRequests r fuel projectId project w = Ret oc w' ->
  exists l, w_net w' = l ++ match oc with
                            | Some c => closing c
                            | None => [Logged "No merge requests found."]
                            end.
Proof.
  intros Hrun. unfold processAndStoreMergeRequests in Hrun.
  apply bind_Ret_inv in Hrun as (_ & w0 & _ & Hrun).
  apply bind_Ret_inv in Hrun as (mrs & w1 & _ & Hrun). case_bool_decide.
  - apply bind_Ret_inv in Hrun as (u & w2 & Hlog & Hret).
    rewrite on_net_console_log in Hlog. unfold ret in Hret. simplify_eq/=. by eexists.
  - apply bind_Ret_inv in Hrun as (_ & w2 & _ & Hrun).
    apply bind_Ret_inv in Hrun as (_ & w3 & _ & Hrun).
    apply bind_Ret_inv in Hrun as (c & w4 & _ & Hrun).
    apply bind_Ret_inv in Hrun as (u5 & w5 & Hlog5 & Hrun).
    apply bind_Ret_inv in Hrun as (u6 & w6 & Hlog6 & Hret).
    rewrite on_net_console_log in Hlog5, Hlog6. unfold ret in Hret. simplify_eq/=.
    exists (w_net w4). by rewrite <- app_assoc.
Qed.

End Run.

(** ** Examples *)

Definition sample_project : Project :=
  {| p_id := 1; p_name := "api"; p_path_with_namespace := "murid/api";
     p_created_at := "2024-01-01T00:00:00.000Z" |}.

(** Three merge requests, each with the notes and the approval events of
    [sample_details]. *)
Definition sync_remote : Remote :=
  static_remote (sample_mrs 3) (Some (Num 1))
    (fun _ => notes sample_details) (fun _ => Some (Num 1))
    (fun _ => Some (approvalEvents sample_details)).

Definition start_world : World := {| w_db := opened fresh_db; w_net := [] |}.

(** The world after a first run against [sync_remote]. *)
Definition world_after (o : outcome World exn (option Summary)) : World :=
  default start_world (final_state o).

Definition first_run : outcome World exn (option Summary) :=
  processAndStoreMergeRequests sync_remote 3 1 sample_project start_world.

(** The world a first run leaves when it is stopped after two of its
    three merge requests. *)
Definition stopped_world : World :=
  default start_world
    (final_state (stopped_after sync_remote 3 1 sample_project 2 (sample_mrs 3) start_world)).

(** A world in which merge request 1001 is stored as [opened] with squad
    ["WEB"], and a remote record of it with a later [updated_at]. *)
Definition squad_world : World :=
  {| w_db := set_merge_requests {[ row_key sample_row := sample_row ]} (opened fresh_db);
     w_net := [] |}.

Definition changed_mr : RemoteMR :=
  remote_of sample_row "change" "2025-04-05T10:00:00.000Z".

(** A world in which merge request 1001 is stored as [merged]. *)
Definition merged_world : World :=
  {| w_db := set_merge_requests {[ row_key stored_merged := stored_merged ]}
               (opened fresh_db);
     w_net := [] |}.

(** A world in which merge request 1001 is stored as the remote shows it
    and merge request 1002 as it was before its last change. *)
Definition stale_row : MergeRequestData :=
  mrData 1
    {| mr_id := 1002; mr_iid := 2; mr_title := "change";
       mr_created_at := "2025-04-01T10:00:00.000Z";
       mr_updated_at := "2025-04-01T12:00:00.000Z"; mr_state := "opened";
       mr_author := {| user_id := 7; username := "dev" |}; mr_merged_at := None |}
    sample_details.

Definition mixed_world : World :=
  {| w_db := set_merge_requests
               {[ row_key sample_row := sample_row; row_key stale_row := stale_row ]}
               (opened fresh_db);
     w_net := [] |}.

Example first_run_summary :
  returned first_run = Some (Some {| skippedCount := 0; updatedCount := 0; newCount := 3 |}).
Proof. vm_compute. reflexivity. Qed.

Example first_run_requests :
  requests_of (w_net (world_after first_run)) =
  [GetMergeRequests 1 1;
   GetNotes 1 1 1; GetApprovalEvents 1 1;
   GetNotes 1 2 1; GetApprovalEvents 1 2;
   GetNotes 1 3 1; GetApprovalEvents 1 3].
Proof. vm_compute. reflexivity. Qed.

Example first_run_console :
  console_of (w_net (world_after first_run)) =
  [ "Fetching merge requests..."; "Fetching merge requests (paginated)...";
    "Fetching page 1..."; "Retrieved 3 MRs from page 1";
    "Page info: 1 of 1 (Total items: 3)"; "Total MRs fetched: 3";
    "Found 3 merge requests. Processing...";
    "Processing new MR #1: " +:+ dquote +:+ "change" +:+ dquote;
    "  Fetching notes page 1 for MR #1..."; "  Retrieved 3 notes from page 1";
    "  Found approval timestamp: 2025-04-02T08:00:00.000Z for MR #1";
    "Processing new MR #2: " +:+ dquote +:+ "change" +:+ dquote;
    "  Fetching notes page 1 for MR #2..."; "  Retrieved 3 notes from page 1";
    "  Found approval timestamp: 2025-04-02T08:00:00.000Z for MR #2";
    "Processing new MR #3: " +:+ dquote +:+ "change" +:+ dquote;
    "  Fetching notes page 1 for MR #3..."; "  Retrieved 3 notes from page 1";
    "  Found approval timestamp: 2025-04-02T08:00:00.000Z for MR #3";
    "All merge requests processed."; "Summary: 3 new, 0 updated, 0 skipped." ].
Proof. vm_compute. reflexivity. Qed.

Example first_run_row :
  merge_requests (w_db (world_after first_run)) !! (1002, 1) =
  Some {| row_id := 1002; project_id := 1; title := "change"; description := None;
          created_at := "2025-04-01T10:00:00.000Z";
          updated_at := "2025-04-02T10:00:00.000Z"; state := "opened";
          author_id := 7; author_username := "dev";
          first_comment_at := Some "2025-04-01T10:05:00.000Z";
          approved_at := Some "2025-04-02T08:00:00.000Z";
          merged_at := None; squad := None |}.
Proof. vm_compute. reflexivity. Qed.

(** ** Theorems *)

Section SyncTheorems.
Context `{Clock}.
Variable r : Remote.
Variable fuel : nat.

(** C1: idempotent convergence.  After a run that returned, against a
    remote that serves a list without repeated ids, a second run against the
    same remote leaves the database exactly as the first run left it, counts
    every merge request as skipped, and issues no request beyond those for
    the pages of the list: no note and no approval event is fetched again.
    All it adds is lines on the console. *)
Theorem second_run_changes_nothing projectId project items w0 c1 w1 :
  ready (w_db w0) -> serves r projectId items -> NoDup (mr_id <$> items) ->
  (length items / per_page + 2 <= fuel)%nat ->
  processAndStoreMergeRequests r fuel projectId project w0 = Ret c1 w1 ->
  exists j l, processAndStoreMergeRequests r fuel projectId project w1 =
    Ret (if bool_decide (length items = 0%nat) then None
         else Some {| skippedCount := length items; updatedCount := 0; newCount := 0 |})
        (then_did l w1) /\
    requests_of l = page_requests (GetMergeRequests projectId) 0 j.
Proof.
  intros Hr Hs Hnd Hfuel Hrun1.
  destruct (processAndStore_run r fuel projectId project items w0 Hs Hfuel)
    as (j0 & l0 & _ & _ & H0).
  destruct (processAndStore_run r fuel projectId project items w1 Hs Hfuel)
    as (j & l & _ & Hl & H1).
  exists j. rewrite H1. rewrite H0 in Hrun1. case_bool_decide.
  { exists (l ++ [Logged "No merge requests found."]).
    split; [by rewrite <- then_did_app | by rewrite requests_of_app, Hl, app_nil_r]. }
  apply run_rest_inv in Hrun1 as (c & wA & wB & -> & HrA & HpA & _ & _ & _ & Hall & ->);
    [|done].
  destruct (process_all_frame _ _ _ _ _ _ _ _ HrA Hall) as (Hr1 & _ & _ & Hp).
  pose proof (process_all_settles _ _ _ _ _ _ _ _ HrA Hnd Hall) as Hset.
  destruct (run_rest_settled r fuel projectId project items
              (then_did l (then_did (closing c) wB))) as (l2 & Hl2 & ->);
    [exact Hr1 | simpl; by rewrite Hp | exact Hset |].
  exists (l ++ l2). by rewrite then_did_app, requests_of_app, Hl, Hl2, app_nil_r.
Qed.

(** C5: an interrupted run converges.  A run that is stopped inside its
    loop, after any number of iterations, leaves a file from which a run
    from scratch against the same remote returns whenever a run that is
    not interrupted does, and ends with the tables that run leaves: the
    same projects and the same row under every key. *)
Theorem interrupted_run_converges projectId project items k w c wk oc1 w1 :
  ready (w_db w) -> serves r projectId items -> NoDup (mr_id <$> items) ->
  (length items / per_page + 2 <= fuel)%nat -> items <> [] ->
  stopped_after r fuel projectId project k items w = Ret c wk ->
  processAndStoreMergeRequests r fuel projectId project w = Ret oc1 w1 ->
  exists oc w', processAndStoreMergeRequests r fuel projectId project wk = Ret oc w' /\
    projects (w_db w') = projects (w_db w1) /\
    merge_requests (w_db w') = merge_requests (w_db w1).
Proof.
  intros Hr Hs Hnd Hfuel Hne Hstop Hrun1.
  destruct (resumed_run_returns _ _ _ _ _ _ _ _ _ _ _ Hr Hs Hnd Hfuel Hne Hstop Hrun1)
    as (oc & w' & Hrun).
  exists oc, w'. split; [done|].
  destruct (stopped_after_inv _ _ _ _ _ _ _ _ _ Hr Hnd Hstop) as (Hrk & Hpk & Hink & Houtk).
  destruct (run_mirror _ _ _ _ _ _ _ _ Hrk Hs Hnd Hfuel Hne Hrun)
    as (_ & _ & Hp & Hin & Hout).
  destruct (run_mirror _ _ _ _ _ _ _ _ Hr Hs Hnd Hfuel Hne Hrun1)
    as (_ & _ & Hp1 & Hin1 & Hout1).
  split; [by rewrite Hp, Hp1, Hpk, insert_insert_eq|].
  apply map_eq. intros key.
  destruct (decide (key ∈ (fun mr => (mr_id mr, projectId)) <$> items)) as [Hkey|Hkey].
  - apply list_elem_of_fmap in Hkey as (mr & -> & Hmr).
    rewrite Hin, Hin1 by done. by apply Hink.
  - by rewrite Hout, Hout1, Houtk.
Qed.

(** C10: terminal immutability.  A merge request stored as [merged] and
    still [merged] on the remote is counted as skipped and nothing else
    happens but a line on the console: the database is untouched and no
    request is issued, whatever the remote's [updated_at]. *)
Theorem merged_row_is_not_refetched projectId mr c w e :
  ready (w_db w) ->
  merge_requests (w_db w) !! (mr_id mr, projectId) = Some e ->
  state e = "merged" -> mr_state mr = "merged" ->
  process_one r fuel projectId mr c w =
  Ret {| skippedCount := S (skippedCount c); updatedCount := updatedCount c;
         newCount := newCount c |}
      (then_did [Logged (action_line SkipTerminal mr)] w).
Proof.
  intros Hr He Hse Hsm.
  assert (decision projectId (w_db w) mr = SkipTerminal) as Hd.
  { unfold decision. rewrite He. apply reconcile_SkipTerminal. by exists e. }
  rewrite process_one_skip, Hd; [done..|]. unfold settled. by rewrite Hd.
Qed.

(** A new or changed merge request is fetched, derived and saved.
    When the decision is to insert or update and the details arrive, the
    iteration saves exactly the record [mrData] under the key
    [(mr.id, projectId)], leaves every other row alone, and what it asks and
    writes is the line of the decision, the walk of
    [fetchMergeRequestDetails] and the line on the approval. *)
Theorem changed_row_is_saved projectId mr c w details l :
  ready (w_db w) -> ~ settled projectId (w_db w) mr ->
  fetchMergeRequestDetails r fuel projectId (mr_iid mr) [] = Ret details l ->
  exists w', process_one r fuel projectId mr c w
             = Ret (count (decision projectId (w_db w) mr) c) w' /\
    merge_requests (w_db w') !! (mr_id mr, projectId)
      = Some (mrData projectId mr details) /\
    (forall k, k <> (mr_id mr, projectId) ->
       merge_requests (w_db w') !! k = merge_requests (w_db w) !! k) /\
    w_net w' = w_net w ++ Logged (action_line (decision projectId (w_db w) mr) mr) :: l
                 ++ [Logged (approval_line mr details)].
Proof.
  intros Hr Hs Hd. eexists. split; [by eapply process_one_fetches|]. simpl.
  split; [apply lookup_insert_eq|]. split; [|by rewrite <- app_assoc].
  intros k Hk. by apply lookup_insert_ne.
Qed.

(** C7: an update erases the classification.  When a stored merge request
    is updated, the row that replaces it has [squad] and [description] null,
    whatever they were before: the record saved names neither column, and
    the save replaces the whole row. *)
Theorem update_erases_squad projectId mr c w e details l :
  ready (w_db w) ->
  merge_requests (w_db w) !! (mr_id mr, projectId) = Some e ->
  reconcile mr (Some e) = Update ->
  fetchMergeRequestDetails r fuel projectId (mr_iid mr) [] = Ret details l ->
  exists c' w' row, process_one r fuel projectId mr c w = Ret c' w' /\
    merge_requests (w_db w') !! (mr_id mr, projectId) = Some row /\
    squad row = None /\ description row = None /\
    updatedCount c' = S (updatedCount c).
Proof.
  intros Hr He Hu Hd.
  assert (decision projectId (w_db w) mr = Update) as Hdec
    by (unfold decision; by rewrite He).
  assert (~ settled projectId (w_db w) mr) as Hs by (unfold settled; by rewrite Hdec).
  eexists _, _, _. split; [by eapply process_one_fetches|]. simpl.
  split; [apply lookup_insert_eq|]. by rewrite Hdec.
Qed.

(** An empty list ends the run.  When [fetchMergeRequests] returns the
    empty array, because the project has no merge request or because a
    request failed, the run returns without saving the project and without
    touching any row; its last line says that no merge request was found. *)
Theorem empty_fetch_writes_nothing projectId project w l :
  fetchMergeRequests r fuel projectId [] = Ret [] l ->
  processAndStoreMergeRequests r fuel projectId project w =
  Ret None (then_did (Logged "Fetching merge requests..." :: l
                      ++ [Logged "No merge requests found."]) w).
Proof.
  intros Hf.
  rewrite (processAndStore_fetched r fuel projectId project w []
             ((w_net w ++ [Logged "Fetching merge requests..."]) ++ l))
    by (by apply oblivious_at; auto with oblivious).
  unfold bind, on_net, zoom, console_log, ret, then_did, set_net. simpl.
  by rewrite <- !app_assoc.
Qed.

(** A failed save ends the run.  On a store that was not initialised
    the first write, the one of the project, throws; the exception is not
    caught, so the run ends there with no merge request processed and
    nothing written. *)
Theorem failed_save_ends_run projectId project w mrs l :
  handle (w_db w) = false ->
  fetchMergeRequests r fuel projectId [] = Ret mrs l -> mrs <> [] ->
  exists msg, processAndStoreMergeRequests r fuel projectId project w
              = Throw (TypeError msg)
                  (then_did (Logged "Fetching merge requests..." :: l
                             ++ [Logged (found_line (length mrs))]) w).
Proof.
  intros Hh Hf Hne.
  rewrite (processAndStore_fetched r fuel projectId project w mrs
             ((w_net w ++ [Logged "Fetching merge requests..."]) ++ l))
    by (by apply oblivious_at; auto with oblivious).
  rewrite bool_decide_eq_false_2 by (by destruct mrs).
  unfold store_list, bind, on_net, on_db, zoom, console_log. simpl.
  unfold saveProject, with_handle. rewrite Hh. eexists.
  rewrite said_quiet by done. unfold then_did, set_net. simpl.
  by rewrite app_nil_r, <- !app_assoc.
Qed.

(** C2: the mirror after a run.  When the list arrives whole and without
    repeated ids and the run returns, the file holds the project, and for
    each merge request of the list the row it had when the decision was to
    skip it, and otherwise the record derived from the merge request and
    from the notes and approval events the remote holds; every row outside
    the list is as it was. *)
Theorem run_mirrors_remote projectId project items w c w' :
  ready (w_db w) -> serves r projectId items -> NoDup (mr_id <$> items) ->
  (length items / per_page + 2 <= fuel)%nat ->
  processAndStoreMergeRequests r fuel projectId project w = Ret (Some c) w' ->
  projects (w_db w') = <[p_id project := project]> (projects (w_db w)) /\
  (forall mr, mr ∈ items ->
     merge_requests (w_db w') !! (mr_id mr, projectId)
     = mirrored r fuel projectId (w_db w) mr) /\
  (forall k, k ∉ (fun mr => (mr_id mr, projectId)) <$> items ->
     merge_requests (w_db w') !! k = merge_requests (w_db w) !! k).
Proof.
  intros Hr Hs Hnd Hfuel Hrun.
  destruct (processAndStore_run r fuel projectId project items w Hs Hfuel)
    as (j & l & _ & _ & Hj).
  assert (items <> []) as Hne.
  { intros ->. rewrite Hj in Hrun. by rewrite bool_decide_eq_true_2 in Hrun. }
  by destruct (run_mirror r fuel projectId project items _ w w' Hr Hs Hnd Hfuel Hne Hrun)
    as (_ & _ & Hrest).
Qed.

(** C3: the requests of a run.  When the list arrives whole and without
    repeated ids and the run returns, the requests it issued are those for
    the pages of the list and then, for each merge request of the list that
    is not skipped, in the order of the list, those for its notes and its
    approval events; a skipped merge request costs no request. *)
Theorem run_requests projectId project items w c w' :
  ready (w_db w) -> serves r projectId items -> NoDup (mr_id <$> items) ->
  (length items / per_page + 2 <= fuel)%nat ->
  processAndStoreMergeRequests r fuel projectId project w = Ret (Some c) w' ->
  exists j, (length items / per_page + 1 <= j <= length items / per_page + 2)%nat /\
    requests_of (w_net w')
    = requests_of (w_net w) ++ page_requests (GetMergeRequests projectId) 0 j
        ++ mjoin (requests_for r fuel projectId (w_db w) <$> items) /\
    Forall (fun mr => settled projectId (w_db w) mr ->
                      requests_for r fuel projectId (w_db w) mr = []) items.
Proof.
  intros Hr Hs Hnd Hfuel Hrun.
  destruct (run_events r fuel projectId project items c w w' Hr Hs Hnd Hfuel Hrun)
    as (j & l & Hj & Hl & ->).
  exists j. split; [done|]. split.
  - rewrite !requests_of_app, Hl. simpl.
    by rewrite requests_of_app, requests_of_events_for, app_nil_r.
  - apply Forall_forall. intros mr _. apply requests_for_settled.
Qed.

(** C28: a read that fails overwrites the row.  [getMergeRequest] answers
    [null] when the driver fails its query, so the merge request is taken
    for a new one: its details are fetched and the row is saved again, with
    [squad] and [description] null, whatever the file held, a merged and
    classified row included; the merge request is counted as new.  The
    console shows the failed check, and then the merge request as a new
    one. *)
Theorem failed_read_overwrites projectId mr c w m e details l :
  ready (set_faults [] (w_db w)) -> faults (w_db w) = [Some m] ->
  merge_requests (w_db w) !! (mr_id mr, projectId) = Some e ->
  fetchMergeRequestDetails r fuel projectId (mr_iid mr) [] = Ret details l ->
  exists c' w' row, process_one r fuel projectId mr c w = Ret c' w' /\
    merge_requests (w_db w') !! (mr_id mr, projectId) = Some row /\
    squad row = None /\ description row = None /\
    newCount c' = S (newCount c) /\
    w_net w' = w_net w ++ Logged "Failed to check merge request:"
                 :: Logged (action_line Insert mr) :: l
                 ++ [Logged (approval_line mr details)].
Proof.
  intros Hr Hf He Hd. pose proof Hr as (Hh & _).
  rewrite (process_one_read_fault r fuel projectId mr c w m []) by done.
  unfold bind at 1. rewrite on_net_console_log. unfold bind at 1.
  rewrite (on_net_Ret _ _ details l) by auto with oblivious.
  unfold bind at 1. rewrite on_net_console_log. unfold bind.
  rewrite on_db_saveMergeRequest_ready by done. eexists _, _, _. split; [done|]. simpl.
  rewrite lookup_insert_eq. repeat split. by rewrite <- !app_assoc.
Qed.

(** C37: a save the driver fails ends the run.  The exception is not caught:
    the details were fetched, nothing is written, and the merge requests
    after this one are not processed. *)
Theorem failed_save_ends_loop projectId mr mrs c w m rest details l :
  ready (set_faults [] (w_db w)) -> faults (w_db w) = None :: Some m :: rest ->
  ~ settled projectId (w_db w) mr ->
  fetchMergeRequestDetails r fuel projectId (mr_iid mr) [] = Ret details l ->
  process_all r fuel projectId (mr :: mrs) c w =
  Throw (SqliteError m)
    {| w_db := set_faults rest (w_db w);
       w_net := w_net w ++ Logged (action_line (decision projectId (w_db w) mr) mr) :: l
                  ++ [Logged (approval_line mr details)] |}.
Proof.
  intros Hr Hf Hs Hd. simpl. unfold bind.
  rewrite (process_one_save_fault r fuel projectId mr c w m rest details
             ((w_net w ++ [Logged (action_line (decision projectId (w_db w) mr) mr)]) ++ l));
    [by rewrite <- !app_assoc | done..|].
  by apply oblivious_at; auto with oblivious.
Qed.

(** C36: a run is a sequence of store operations.  Whatever the remote
    answers and however the run ends (it returns or it throws), the database
    it leaves is reached from the one it found by calls of the exported
    functions of the store; hence it is well formed if it was, ready if it
    was, and holds every key it held. *)
Theorem run_is_store_steps projectId project w w' :
  final_state (processAndStoreMergeRequests r fuel projectId project w) = Some w' ->
  rtc db_step (w_db w) (w_db w') /\
  (wf (w_db w) -> wf (w_db w')) /\
  (ready (w_db w) -> ready (w_db w')) /\
  dom (merge_requests (w_db w)) ⊆ dom (merge_requests (w_db w')).
Proof.
  intros Hfin. apply steps_only_processAndStore in Hfin.
  split; [done|]. split; [intros; by eapply wf_rtc|].
  split; [intros; by eapply ready_rtc | by apply dom_rtc].
Qed.

(** The counters add up.  When the list arrives whole and the run
    returns, the three counters it reports sum to the number of merge
    requests of the list. *)
Theorem counts_add_up projectId project items w c w' :
  ready (w_db w) -> serves r projectId items ->
  (length items / per_page + 2 <= fuel)%nat ->
  processAndStoreMergeRequests r fuel projectId project w = Ret (Some c) w' ->
  total_count c = length items.
Proof.
  intros Hr Hs Hfuel Hrun.
  destruct (processAndStore_run r fuel projectId project items w Hs Hfuel)
    as (j & l & _ & _ & Hj).
  rewrite Hj in Hrun. case_bool_decide; [done|].
  apply run_rest_inv in Hrun as (c0 & wA & wB & [= <-] & HrA & _ & _ & _ & _ & Hall & _);
    [|done].
  by destruct (process_all_frame _ _ _ _ _ _ _ _ HrA Hall) as (_ & _ & -> & _).
Qed.

(** C16: the summary of a run.  When the list arrives whole and without
    repeated ids and the run returns, the counters it reports are: skipped,
    the merge requests of the list whose row in the file the run found was
    merged like the remote or had the same updated_at and state; new, those
    with no row in that file; updated, the others. *)
Theorem run_summary projectId project items w oc w' :
  ready (w_db w) -> serves r projectId items -> NoDup (mr_id <$> items) ->
  (length items / per_page + 2 <= fuel)%nat -> items <> [] ->
  processAndStoreMergeRequests r fuel projectId project w = Ret oc w' ->
  exists c, oc = Some c /\
    skippedCount c = length (filter (settled projectId (w_db w)) items) /\
    newCount c
    = length (filter (fun mr => merge_requests (w_db w) !! (mr_id mr, projectId) = None)
                items) /\
    (skippedCount c + updatedCount c + newCount c = length items)%nat.
Proof.
  intros Hr Hs Hnd Hfuel Hne Hrun.
  rewrite (run_tally r fuel projectId project items oc w w') by done.
  eexists; split; [done|].
  destruct (tally_counts projectId (w_db w) items no_counts) as (Hsk & Hup & Hnew).
  split; [exact Hsk|]. split.
  - rewrite Hnew. simpl. f_equal. apply list_filter_iff. intros mr. apply reconcile_Insert.
  - pose proof (tally_total projectId (w_db w) items no_counts) as Ht.
    unfold total_count in Ht. simpl in Ht. lia.
Qed.

(** C12: details that failed to arrive are not asked for again.  When the
    first page of notes of a new or changed merge request fails (a refusal,
    a time-out, a network that stays down), the iteration saves the merge
    request without first comment and without approval, and asks nothing
    else; the row it leaves is up to date for every later run, against any
    remote that shows the same [updated_at] and [state]: the merge request
    is skipped and its comments are never read, until it changes.  One line
    of the console of the first run is all that tells of the failure. *)
Theorem failed_details_are_kept projectId mr c w r' fuel' c' :
  ready (w_db w) -> ~ settled projectId (w_db w) mr ->
  listNotes r projectId (mr_iid mr) 1 = None ->
  exists w' row line,
    process_one r (S fuel) projectId mr c w
    = Ret (count (decision projectId (w_db w) mr) c) w' /\
    requests_of (w_net w') = requests_of (w_net w) ++ [GetNotes projectId (mr_iid mr) 1] /\
    failed_details (mr_iid mr) ∈ console_of (w_net w') /\
    merge_requests (w_db w') !! (mr_id mr, projectId) = Some row /\
    first_comment_at row = None /\ approved_at row = None /\
    process_one r' fuel' projectId mr c' w'
    = Ret {| skippedCount := S (skippedCount c'); updatedCount := updatedCount c';
             newCount := newCount c' |} (then_did [Logged line] w').
Proof.
  intros Hr Hs Hfail.
  pose proof (fetchMergeRequestDetails_notes_failure r projectId (mr_iid mr) fuel []
                Hfail) as Hd.
  eexists _, _, _. split; [by apply (process_one_fetches r (S fuel) _ _ _ _ _ _ Hr Hs Hd)|].
  simpl. split; [by rewrite !requests_of_app; simpl; rewrite app_nil_r|].
  split; [rewrite !console_of_app; simpl; set_solver|].
  split; [apply lookup_insert_eq|]. split; [done|]. split; [done|].
  rewrite process_one_skip; [|apply Hr|apply settled_after_save].
  by rewrite count_skip by apply settled_after_save.
Qed.

(** C17: the console tells what the run returns.  A run that processed a list
    ends its output with the line of the summary, which carries the three
    counters; a run that found nothing ends it with the line that says so.
    The counters are the value of the model: the source returns nothing and
    writes them. *)
Theorem run_reports projectId project w oc w' :
  processAndStoreMergeRequests r fuel projectId project w = Ret oc w' ->
  exists l, w_net w' = l ++ match oc with
                            | Some c => closing c
                            | None => [Logged "No merge requests found."]
                            end.
Proof. apply run_last_lines. Qed.

(** A walk that fails is a project without merge requests.  When a page of
    the list fails after [k] full pages, the run returns nothing, saves
    nothing, and its last two lines are the failure and that no merge
    request was found: the console is the one place where a failed walk and
    an empty project differ. *)
Theorem failed_walk_reads_as_empty projectId project k w :
  (forall q, (0 < q <= k)%nat -> full_page r projectId q) ->
  failing_page r projectId (S k) ->
  (k < fuel)%nat ->
  exists l lines,
    processAndStoreMergeRequests r fuel projectId project w = Ret None (then_did l w) /\
    requests_of l = page_requests (GetMergeRequests projectId) 0 (S k) /\
    console_of l = lines ++ ["Failed to fetch merge requests:"; "No merge requests found."].
Proof.
  intros Hfull Hfail Hfuel.
  destruct (fetchMergeRequests_fails r projectId k fuel
              (w_net w ++ [Logged "Fetching merge requests..."]) Hfull Hfail Hfuel)
    as (l & Hrun & Hl & Hlast).
  rewrite (processAndStore_fetched r fuel projectId project w [] _ Hrun). simpl.
  apply last_Some in Hlast as [lines Hlines].
  exists (Logged "Fetching merge requests..." :: l ++ [Logged "No merge requests found."]),
    ("Fetching merge requests..." :: lines).
  split; [|split].
  - unfold bind, on_net, zoom, console_log, ret, then_did, set_net. simpl.
    by rewrite <- !app_assoc.
  - simpl. by rewrite requests_of_app, Hl, app_nil_r.
  - simpl. by rewrite console_of_app, Hlines, <- app_assoc.
Qed.

End SyncTheorems.

(** ** The theorems at the examples *)

Lemma start_world_ready : ready (w_db start_world).
Proof. by repeat split. Qed.

Lemma second_run_changes_nothing_witness :
  exists j l,
    processAndStoreMergeRequests sync_remote 3 1 sample_project (world_after first_run) =
    Ret (if bool_decide (length (sample_mrs 3) = 0%nat) then None
         else Some {| skippedCount := length (sample_mrs 3); updatedCount := 0;
                      newCount := 0 |})
        (then_did l (world_after first_run)) /\
    requests_of l = page_requests (GetMergeRequests 1) 0 j.
Proof.
  apply (second_run_changes_nothing sync_remote 3 1 sample_project (sample_mrs 3)
           start_world
           (Some {| skippedCount := 0; updatedCount := 0; newCount := 3 |})
           (world_after first_run)).
  - apply start_world_ready.
  - apply static_remote_serves.
  - apply (bool_decide_unpack _). vm_compute. exact I.
  - vm_compute. lia.
  - vm_compute. reflexivity.
Defined.

Lemma interrupted_run_converges_witness :
  exists oc w',
    processAndStoreMergeRequests sync_remote 3 1 sample_project stopped_world = Ret oc w' /\
    projects (w_db w') = projects (w_db (world_after first_run)) /\
    merge_requests (w_db w') = merge_requests (w_db (world_after first_run)).
Proof.
  apply (interrupted_run_converges sync_remote 3 1 sample_project (sample_mrs 3) 2%nat
           start_world {| skippedCount := 0; updatedCount := 0; newCount := 2 |}
           stopped_world
           (Some {| skippedCount := 0; updatedCount := 0; newCount := 3 |})
           (world_after first_run)).
  - apply start_world_ready.
  - apply static_remote_serves.
  - apply (bool_decide_unpack _). vm_compute. exact I.
  - vm_compute. lia.
  - discriminate.
  - vm_compute. reflexivity.
  - vm_compute. reflexivity.
Defined.

Lemma run_mirrors_remote_witness :
  projects (w_db (world_after first_run))
    = <[p_id sample_project := sample_project]> (projects (w_db start_world)) /\
  (forall mr, mr ∈ sample_mrs 3 ->
     merge_requests (w_db (world_after first_run)) !! (mr_id mr, 1)
     = mirrored sync_remote 3 1 (w_db start_world) mr) /\
  (forall k, k ∉ (fun mr => (mr_id mr, 1)) <$> sample_mrs 3 ->
     merge_requests (w_db (world_after first_run)) !! k
     = merge_requests (w_db start_world) !! k).
Proof.
  apply (run_mirrors_remote sync_remote 3 1 sample_project (sample_mrs 3) start_world
           {| skippedCount := 0; updatedCount := 0; newCount := 3 |}
           (world_after first_run)).
  - apply start_world_ready.
  - apply static_remote_serves.
  - apply (bool_decide_unpack _). vm_compute. exact I.
  - vm_compute. lia.
  - vm_compute. reflexivity.
Defined.

Lemma run_requests_witness :
  exists j, (length (sample_mrs 3) / per_page + 1 <= j
             <= length (sample_mrs 3) / per_page + 2)%nat /\
    requests_of (w_net (world_after first_run))
    = requests_of (w_net start_world) ++ page_requests (GetMergeRequests 1) 0 j
        ++ mjoin (requests_for sync_remote 3 1 (w_db start_world) <$> sample_mrs 3) /\
    Forall (fun mr => settled 1 (w_db start_world) mr ->
                      requests_for sync_remote 3 1 (w_db start_world) mr = [])
      (sample_mrs 3).
Proof.
  apply (run_requests sync_remote 3 1 sample_project (sample_mrs 3) start_world
           {| skippedCount := 0; updatedCount := 0; newCount := 3 |}
           (world_after first_run)).
  - apply start_world_ready.
  - apply static_remote_serves.
  - apply (bool_decide_unpack _). vm_compute. exact I.
  - vm_compute. lia.
  - vm_compute. reflexivity.
Defined.

Lemma merged_row_is_not_refetched_witness :
  process_one sync_remote 3 1
    (remote_of stored_merged "change" "2025-05-09T00:00:00.000Z") no_counts merged_world =
  Ret {| skippedCount := S (skippedCount no_counts);
         updatedCount := updatedCount no_counts; newCount := newCount no_counts |}
      (then_did
         [Logged (action_line SkipTerminal
                    (remote_of stored_merged "change" "2025-05-09T00:00:00.000Z"))]
         merged_world).
Proof.
  apply (merged_row_is_not_refetched sync_remote 3 1
           (remote_of stored_merged "change" "2025-05-09T00:00:00.000Z")
           no_counts merged_world stored_merged).
  - by repeat split.
  - vm_compute. reflexivity.
  - reflexivity.
  - reflexivity.
Defined.

Lemma changed_mr_not_settled : ~ settled 1 (w_db squad_world) changed_mr.
Proof. intros Hs. vm_compute in Hs. discriminate. Qed.

(** What the walk for the details of merge request 1 of [sync_remote]
    asks and writes. *)
Definition sample_walk : Net :=
  [Logged (fetching_notes 1 1); Requested (GetNotes 1 1 1);
   Logged (retrieved_notes 3 1); Requested (GetApprovalEvents 1 1)].

Lemma sample_walk_run :
  fetchMergeRequestDetails sync_remote 3 1 1 [] = Ret sample_details sample_walk.
Proof. vm_compute. reflexivity. Qed.

Lemma changed_row_is_saved_witness :
  exists w', process_one sync_remote 3 1 changed_mr no_counts squad_world
             = Ret (count (decision 1 (w_db squad_world) changed_mr) no_counts) w' /\
    merge_requests (w_db w') !! (mr_id changed_mr, 1)
      = Some (mrData 1 changed_mr sample_details) /\
    (forall k, k <> (mr_id changed_mr, 1) ->
       merge_requests (w_db w') !! k = merge_requests (w_db squad_world) !! k) /\
    w_net w' = w_net squad_world
                 ++ Logged (action_line (decision 1 (w_db squad_world) changed_mr) changed_mr)
                 :: sample_walk ++ [Logged (approval_line changed_mr sample_details)].
Proof.
  apply (changed_row_is_saved sync_remote 3 1 changed_mr no_counts squad_world
           sample_details sample_walk).
  - by repeat split.
  - apply changed_mr_not_settled.
  - apply sample_walk_run.
Defined.

Lemma update_erases_squad_witness :
  squad sample_row = Some "WEB" /\
  exists c' w' row, process_one sync_remote 3 1 changed_mr no_counts squad_world = Ret c' w' /\
    merge_requests (w_db w') !! (mr_id changed_mr, 1) = Some row /\
    squad row = None /\ description row = None /\
    updatedCount c' = S (updatedCount no_counts).
Proof.
  split; [reflexivity|].
  apply (update_erases_squad sync_remote 3 1 changed_mr no_counts squad_world sample_row
           sample_details sample_walk).
  - by repeat split.
  - vm_compute. reflexivity.
  - vm_compute. reflexivity.
  - apply sample_walk_run.
Defined.

(** What the walk of the list does when its first page fails. *)
Definition failed_walk : Net :=
  [Logged "Fetching merge requests (paginated)..."; Logged (fetching_page 1);
   Requested (GetMergeRequests 1 1); Logged "Failed to fetch merge requests:"].

Lemma empty_fetch_writes_nothing_witness :
  processAndStoreMergeRequests (cut_after 0 sync_remote) 3 1 sample_project start_world =
  Ret None (then_did (Logged "Fetching merge requests..." :: failed_walk
                      ++ [Logged "No merge requests found."]) start_world).
Proof.
  apply (empty_fetch_writes_nothing (cut_after 0 sync_remote) 3 1 sample_project
           start_world failed_walk).
  vm_compute. reflexivity.
Defined.

(** What the walk of the list of [sync_remote] asks and writes. *)
Definition list_walk : Net :=
  [Logged "Fetching merge requests (paginated)..."; Logged (fetching_page 1);
   Requested (GetMergeRequests 1 1); Logged (retrieved_mrs 3 1);
   Logged (page_info (Num 1) (Num 1) (Num 3)); Logged (total_fetched 3)].

Lemma failed_save_ends_run_witness :
  exists msg,
    processAndStoreMergeRequests sync_remote 3 1 sample_project
      {| w_db := fresh_db; w_net := [] |}
    = Throw (TypeError msg)
        (then_did (Logged "Fetching merge requests..." :: list_walk
                   ++ [Logged (found_line (length (sample_mrs 3)))])
           {| w_db := fresh_db; w_net := [] |}).
Proof.
  apply (failed_save_ends_run sync_remote 3 1 sample_project
           {| w_db := fresh_db; w_net := [] |} (sample_mrs 3) list_walk).
  - reflexivity.
  - vm_compute. reflexivity.
  - discriminate.
Defined.

Lemma run_is_store_steps_witness :
  rtc db_step (w_db start_world) (w_db (world_after first_run)) /\
  (wf (w_db start_world) -> wf (w_db (world_after first_run))) /\
  (ready (w_db start_world) -> ready (w_db (world_after first_run))) /\
  dom (merge_requests (w_db start_world))
    ⊆ dom (merge_requests (w_db (world_after first_run))).
Proof.
  apply (run_is_store_steps sync_remote 3 1 sample_project start_world
           (world_after first_run)).
  vm_compute. reflexivity.
Defined.

Lemma counts_add_up_witness :
  total_count {| skippedCount := 0; updatedCount := 0; newCount := 3 |}
  = length (sample_mrs 3).
Proof.
  apply (counts_add_up sync_remote 3 1 sample_project (sample_mrs 3) start_world
           {| skippedCount := 0; updatedCount := 0; newCount := 3 |}
           (world_after first_run)).
  - apply start_world_ready.
  - apply static_remote_serves.
  - vm_compute. lia.
  - vm_compute. reflexivity.
Defined.

(** The world of [merged_world] with a driver that fails the next
    statement. *)
Definition disturbed_world (fs : list (option string)) (w : World) : World :=
  set_db (set_faults fs (w_db w)) w.

Lemma failed_read_overwrites_witness :
  squad stored_merged = Some "WEB" /\
  exists c' w' row,
    process_one sync_remote 3 1
      (remote_of stored_merged "change" "2025-05-09T00:00:00.000Z") no_counts
      (disturbed_world [Some "database is locked"] merged_world) = Ret c' w' /\
    merge_requests (w_db w') !! (1001, 1) = Some row /\
    squad row = None /\ description row = None /\
    newCount c' = S (newCount no_counts) /\
    w_net w' = w_net (disturbed_world [Some "database is locked"] merged_world)
                 ++ Logged "Failed to check merge request:"
                 :: Logged (action_line Insert
                              (remote_of stored_merged "change" "2025-05-09T00:00:00.000Z"))
                 :: sample_walk
                 ++ [Logged (approval_line
                               (remote_of stored_merged "change" "2025-05-09T00:00:00.000Z")
                               sample_details)].
Proof.
  split; [reflexivity|].
  apply (failed_read_overwrites sync_remote 3 1
           (remote_of stored_merged "change" "2025-05-09T00:00:00.000Z") no_counts
           (disturbed_world [Some "database is locked"] merged_world)
           "database is locked" stored_merged sample_details sample_walk).
  - by repeat split.
  - reflexivity.
  - vm_compute. reflexivity.
  - apply sample_walk_run.
Defined.

Lemma failed_save_ends_loop_witness :
  process_all sync_remote 3 1 (sample_mrs 3) no_counts
    (disturbed_world [None; Some "disk I/O error"] start_world) =
  Throw (SqliteError "disk I/O error")
    {| w_db := set_faults [] (w_db (disturbed_world [None; Some "disk I/O error"]
                                      start_world));
       w_net := w_net (disturbed_world [None; Some "disk I/O error"] start_world)
                  ++ Logged (action_line
                               (decision 1 (w_db (disturbed_world
                                                    [None; Some "disk I/O error"]
                                                    start_world)) (sample_mr 1))
                               (sample_mr 1))
                  :: sample_walk ++ [Logged (approval_line (sample_mr 1) sample_details)] |}.
Proof.
  apply (failed_save_ends_loop sync_remote 3 1 (sample_mr 1) [sample_mr 2; sample_mr 3]
           no_counts (disturbed_world [None; Some "disk I/O error"] start_world)
           "disk I/O error" [] sample_details sample_walk).
  - by repeat split.
  - reflexivity.
  - intros Hs. vm_compute in Hs. discriminate.
  - apply sample_walk_run.
Defined.

Lemma run_summary_witness :
  exists c, Some {| skippedCount := 1; updatedCount := 1; newCount := 1 |} = Some c /\
    skippedCount c = length (filter (settled 1 (w_db mixed_world)) (sample_mrs 3)) /\
    newCount c
    = length (filter (fun mr => merge_requests (w_db mixed_world) !! (mr_id mr, 1) = None)
                (sample_mrs 3)) /\
    (skippedCount c + updatedCount c + newCount c = length (sample_mrs 3))%nat.
Proof.
  apply (run_summary sync_remote 3 1 sample_project (sample_mrs 3) mixed_world
           (Some {| skippedCount := 1; updatedCount := 1; newCount := 1 |})
           (world_after (processAndStoreMergeRequests sync_remote 3 1 sample_project
                           mixed_world))).
  - by repeat split.
  - apply static_remote_serves.
  - apply (bool_decide_unpack _). vm_compute. exact I.
  - vm_compute. lia.
  - discriminate.
  - vm_compute. reflexivity.
Defined.

Lemma failed_details_are_kept_witness :
  exists w' row line,
    process_one endless_remote 1 1 changed_mr no_counts squad_world
    = Ret (count (decision 1 (w_db squad_world) changed_mr) no_counts) w' /\
    requests_of (w_net w')
    = requests_of (w_net squad_world) ++ [GetNotes 1 (mr_iid changed_mr) 1] /\
    failed_details (mr_iid changed_mr) ∈ console_of (w_net w') /\
    merge_requests (w_db w') !! (mr_id changed_mr, 1) = Some row /\
    first_comment_at row = None /\ approved_at row = None /\
    process_one sync_remote 3 1 changed_mr no_counts w'
    = Ret {| skippedCount := S (skippedCount no_counts);
             updatedCount := updatedCount no_counts; newCount := newCount no_counts |}
        (then_did [Logged line] w').
Proof.
  apply (failed_details_are_kept endless_remote 0 1 changed_mr no_counts squad_world
           sync_remote 3 no_counts).
  - by repeat split.
  - apply changed_mr_not_settled.
  - reflexivity.
Defined.

Lemma run_reports_witness :
  exists l, w_net (world_after first_run)
            = l ++ closing {| skippedCount := 0; updatedCount := 0; newCount := 3 |}.
Proof.
  apply (run_reports sync_remote 3 1 sample_project start_world
           (Some {| skippedCount := 0; updatedCount := 0; newCount := 3 |})).
  vm_compute. reflexivity.
Defined.

Lemma failed_walk_reads_as_empty_witness :
  exists l lines,
    processAndStoreMergeRequests (cut_after 0 sync_remote) 3 1 sample_project start_world
    = Ret None (then_did l start_world) /\
    requests_of l = page_requests (GetMergeRequests 1) 0 1 /\
    console_of l = lines ++ ["Failed to fetch merge requests:"; "No merge requests found."].
Proof.
  apply (failed_walk_reads_as_empty (cut_after 0 sync_remote) 3 1 sample_project 0
           start_world).
  - intros q Hq. lia.
  - left. reflexivity.
  - lia.
Defined.
