(* ===== verification/Analytics.v ===== *)
(** * Analytics: the two aggregate queries of the module [./database]

    [getMergeRequestStats] and [countMrsWithLateFirstComment]
    ([src/src/index.ts], lines 610-700).  Each is one SELECT over
    [merge_requests]: a WHERE clause built from the arguments, GROUP BY
    [squad], and aggregates per group.  The model follows the statement: the
    rows of the table that satisfy the WHERE clause ([where_stats],
    [where_late]), grouped by one pass over them ([group_by_squad]), each
    group aggregated ([aggregate], [length]).  The result is a finite map
    from the squad to its row of the result: the statement has no ORDER BY,
    so the order of the result rows is not part of what it promises.

    A time in minutes is an exact rational ([Qc]): SQLite computes
    [(strftime('%s', b) - strftime('%s', a)) / 60.0] and the averages in
    double precision, the model without rounding.  [strftime] answers NULL on
    a text that is not a date; arithmetic on NULL is NULL, AVG ignores it and
    a comparison with it is not true.  The threshold is a JavaScript number
    ([real]): one that is [NaN] reaches the statement as NULL. *)

From S2P Require Import Prelude JsModel TimeModel TimeOrder Remote Store.
From Stdlib Require Import QArith Qcanon.

#[local] Close Scope Qc_scope.
#[local] Close Scope Q_scope.
#[local] Open Scope Z_scope.

(** ** Rows of the result *)

(** A row of the result of [getMergeRequestStats]; the squad is the key
    under which the row is returned. *)
Record SquadStats : Type := {
  total_mrs : nat;
  merged_mrs : nat;
  avg_time_to_first_comment : option Qc;
  avg_time_to_approval : option Qc;
  avg_time_to_merge : option Qc;
}.

#[export] Instance SquadStats_eq_dec : EqDecision SquadStats.
Proof. solve_decision. Defined.

(** A JavaScript number that may have a fraction: the threshold passed to
    [countMrsWithLateFirstComment], the figures of the report. *)
Inductive real : Type :=
| RNaN
| Real (q : Qc).

#[export] Instance real_eq_dec : EqDecision real.
Proof. solve_decision. Defined.

(** ** SQL aggregates *)

(** [SUM] over exact rationals. *)
Definition sum_Qc (l : list Qc) : Qc := foldr Qcplus (Q2Qc 0) l.

(** The mean of a list of values, none for the empty list. *)
Definition mean (xs : list Qc) : option Qc :=
  match xs with
  | [] => None
  | _ => Some (sum_Qc xs / Q2Qc (inject_Z (Z.of_nat (length xs))))%Qc
  end.

(** [AVG(e)]: the mean of the values of [e] that are not NULL, NULL when
    there is none. *)
Definition avg (l : list (option Qc)) : option Qc := mean (omap id l).

(** [GROUP BY squad], one pass over the rows: a row joins the group of its
    squad; a row whose squad is NULL would form the group of NULL, which both
    WHERE clauses exclude. *)
Definition add_to_group (row : MergeRequestData)
    (m : gmap string (list MergeRequestData)) : gmap string (list MergeRequestData) :=
  match squad row with
  | Some s => <[s := row :: default [] (m !! s)]> m
  | None => m
  end.

Definition group_by_squad (l : list MergeRequestData)
    : gmap string (list MergeRequestData) :=
  foldr add_to_group ∅ l.

(** [FROM merge_requests]: the rows of the table. *)
Definition rows (d : Db) : list MergeRequestData := (map_to_list (merge_requests d)).*2.

(** [if (startDate)]: an argument left out, or the empty text, adds no
    condition. *)
Definition given (bound : option string) : option string :=
  match bound with
  | Some "" => None
  | _ => bound
  end.

Section Queries.
Context `{Clock}.

(** [(strftime('%s', t1) - strftime('%s', t0)) / 60.0]. *)
Definition minutes_between (t0 t1 : string) : option Qc :=
  b ← strftime_s t1; a ← strftime_s t0; Some (Q2Qc ((b - a) # 60)).

(** [CASE WHEN t IS NOT NULL THEN (strftime('%s', t) - strftime('%s',
    created_at)) / 60.0 ELSE NULL END]. *)
Definition delta (t : MergeRequestData -> option string) (row : MergeRequestData)
    : option Qc :=
  t1 ← t row; minutes_between (created_at row) t1.

(** [AND created_at >= ?] and [AND created_at <= ?], each when given. *)
Definition where_dates (startDate endDate : option string) (row : MergeRequestData)
    : bool :=
  match given startDate with
  | Some s => text_ge (created_at row) s
  | None => true
  end
  && match given endDate with
     | Some e => text_le (created_at row) e
     | None => true
     end.

(** The WHERE clause of [getMergeRequestStats]. *)
Definition where_stats (projectId : Z) (startDate endDate : option string)
    (row : MergeRequestData) : bool :=
  bool_decide (project_id row = projectId)
  && negb (bool_decide (state row = "closed"))
  && bool_decide (is_Some (squad row))
  && where_dates startDate endDate row.

(** [... / 60.0 > ?] with the threshold.  The driver binds a [NaN] as NULL,
    and a comparison with NULL is not true. *)
Definition exceeds (thresholdMinutes : real) (row : MergeRequestData) : bool :=
  match thresholdMinutes, delta first_comment_at row with
  | Real t, Some m => bool_decide (t < m)%Qc
  | _, _ => false
  end.

(** The WHERE clause of [countMrsWithLateFirstComment]. *)
Definition where_late (projectId : Z) (thresholdMinutes : real)
    (startDate endDate : option string) (row : MergeRequestData) : bool :=
  bool_decide (project_id row = projectId)
  && negb (bool_decide (state row = "closed"))
  && bool_decide (is_Some (first_comment_at row))
  && bool_decide (is_Some (squad row))
  && where_dates startDate endDate row
  && exceeds thresholdMinutes row.

(** The SELECT list of [getMergeRequestStats] on one group. *)
Definition aggregate (g : list MergeRequestData) : SquadStats :=
  {| total_mrs := length g;
     merged_mrs := length (filter (fun row => state row = "merged") g);
     avg_time_to_first_comment := avg (delta first_comment_at <$> g);
     avg_time_to_approval := avg (delta approved_at <$> g);
     avg_time_to_merge := avg (delta merged_at <$> g) |}.

Definition select_stats (projectId : Z) (startDate endDate : option string)
    (l : list MergeRequestData) : gmap string SquadStats :=
  aggregate <$> group_by_squad (filter (where_stats projectId startDate endDate) l).

Definition select_late (projectId : Z) (thresholdMinutes : real)
    (startDate endDate : option string) (l : list MergeRequestData) : gmap string nat :=
  length <$> group_by_squad
               (filter (where_late projectId thresholdMinutes startDate endDate) l).

(** Both statements name the column [squad]. *)
Definition has_squad_column (s : Db) : bool := has_tables s && col_squad s.

(** [getMergeRequestStats]: [db.all] of the statement; no error is caught. *)
Definition getMergeRequestStats (projectId : Z) (startDate endDate : option string)
    : prog Db exn (gmap string SquadStats) :=
  with_handle
    (sql_all has_squad_column "no such column: squad"
       (fun s => select_stats projectId startDate endDate (rows s))).

(** [countMrsWithLateFirstComment]. *)
Definition countMrsWithLateFirstComment (projectId : Z) (thresholdMinutes : real)
    (startDate endDate : option string) : prog Db exn (gmap string nat) :=
  with_handle
    (sql_all has_squad_column "no such column: squad"
       (fun s => select_late projectId thresholdMinutes startDate endDate (rows s))).

End Queries.

(** ** Grouping *)

(** The group of [s]: the rows with that squad, in the order of the table. *)
Definition group_of (s : string) (l : list MergeRequestData) : list MergeRequestData :=
  filter (fun row => squad row = Some s) l.

(** A group of the result exists when it has a row. *)
Definition nonempty {A} (g : list A) : option (list A) :=
  match g with
  | [] => None
  | _ => Some g
  end.

Lemma nonempty_default {A} (g : list A) : default [] (nonempty g) = g.
Proof. by destruct g. Qed.

Lemma nonempty_cons {A} (x : A) g : nonempty (x :: g) = Some (x :: g).
Proof. done. Qed.

Lemma nonempty_perm {A B} (f : list A -> B) (g g' : list A) :
  Proper ((≡ₚ) ==> (=)) f -> g ≡ₚ g' -> f <$> nonempty g = f <$> nonempty g'.
Proof.
  intros Hf Hg. destruct g as [|x g].
  - by apply Permutation_nil_l in Hg as ->.
  - destruct g' as [|x' g']; [by apply Permutation_nil_r in Hg|].
    simpl. f_equal. by apply Hf.
Qed.

(** The pass over the rows builds, for each squad, the group a filter would
    select. *)
Lemma group_by_squad_lookup l s : group_by_squad l !! s = nonempty (group_of s l).
Proof.
  unfold group_of. induction l as [|row l IH]; simpl; [done|].
  unfold add_to_group. destruct (squad row) as [s'|] eqn:Hs.
  - destruct (decide (s' = s)) as [->|Hne].
    + rewrite lookup_insert_eq, filter_cons_True by done.
      by rewrite IH, nonempty_default.
    + rewrite lookup_insert_ne by done.
      by rewrite (filter_cons_False _ row) by congruence.
  - by rewrite (filter_cons_False _ row) by congruence.
Qed.

Lemma group_of_filter (P : MergeRequestData -> Prop) `{!forall x, Decision (P x)} s l :
  group_of s (filter P l) = filter (fun row => squad row = Some s /\ P row) l.
Proof. apply list_filter_filter. Qed.

Lemma group_of_elem_of s l row : row ∈ group_of s l <-> squad row = Some s /\ row ∈ l.
Proof. unfold group_of. by rewrite list_elem_of_filter. Qed.

#[export] Instance group_of_perm s : Proper ((≡ₚ) ==> (≡ₚ)) (group_of s).
Proof. apply filter_Permutation. Qed.

(** ** The aggregates do not depend on the order of the rows *)

#[export] Instance sum_Qc_perm : Proper ((≡ₚ) ==> (=)) sum_Qc.
Proof.
  apply (foldr_permutation_proper (=)); [solve_proper|].
  intros a b c. ring.
Qed.

#[export] Instance avg_perm : Proper ((≡ₚ) ==> (=)) avg.
Proof.
  intros l l' Hl. unfold avg, mean.
  assert (omap id l ≡ₚ omap id l') as Hx by (by rewrite Hl).
  destruct (omap id l) as [|x xs], (omap id l') as [|x' xs']; try done.
  - by apply Permutation_length in Hx.
  - by apply Permutation_length in Hx.
  - by rewrite Hx.
Qed.

Lemma avg_cons_None l : avg (None :: l) = avg l.
Proof. done. Qed.

Lemma avg_None l : avg l = None <-> Forall (fun x => x = None) l.
Proof.
  unfold avg, mean. induction l as [|[x|] l IH]; simpl.
  - split; [constructor | done].
  - split; [done | by inversion 1].
  - rewrite IH. split; [by constructor | by inversion 1].
Qed.

Lemma Q2Qc_of_nat_nonzero (n : nat) :
  n <> 0%nat -> Q2Qc (inject_Z (Z.of_nat n)) <> Q2Qc 0.
Proof.
  intros Hn Heq%Q2Qc_eq_iff. unfold Qeq, inject_Z in Heq. simpl in Heq. lia.
Qed.

(** The mean, stated without a division: the result times the number of
    values that are not NULL is their sum. *)
Lemma avg_Some l m :
  avg l = Some m ->
  omap id l <> [] /\
  (m * Q2Qc (inject_Z (Z.of_nat (length (omap id l)))) = sum_Qc (omap id l))%Qc.
Proof.
  unfold avg, mean. destruct (omap id l) as [|x xs] eqn:E; [done|].
  intros [= <-]. split; [done|].
  rewrite Qcmult_comm. by apply Qcmult_div_r, Q2Qc_of_nat_nonzero.
Qed.

(** ** The table as a list of rows *)

(** The table without the row of key [k]. *)
Definition without (k : Z * Z) (d : Db) : Db :=
  set_merge_requests (delete k (merge_requests d)) d.

Lemma rows_without d k row :
  merge_requests d !! k = Some row -> rows d ≡ₚ row :: rows (without k d).
Proof.
  intros Hk. unfold rows, without; simpl.
  by rewrite <- (map_to_list_delete _ _ _ Hk).
Qed.

Lemma rows_insert_fresh d k row :
  merge_requests d !! k = None ->
  rows (set_merge_requests (<[k := row]> (merge_requests d)) d) ≡ₚ row :: rows d.
Proof. intros Hk. unfold rows; simpl. by rewrite map_to_list_insert. Qed.

Lemma rows_insert d k row :
  rows (set_merge_requests (<[k := row]> (merge_requests d)) d)
  ≡ₚ row :: rows (without k d).
Proof.
  unfold rows, without; simpl.
  by rewrite <- insert_delete_eq, map_to_list_insert by apply lookup_delete_eq.
Qed.

Lemma elem_of_rows d row : row ∈ rows d <-> exists k, merge_requests d !! k = Some row.
Proof.
  unfold rows. rewrite list_elem_of_fmap. split.
  - intros ([k r] & -> & Hin). exists k. by apply elem_of_map_to_list.
  - intros (k & Hk). exists (k, row). split; [done | by apply elem_of_map_to_list].
Qed.

(** ** The queries, group by group *)

Section QueryFacts.
Context `{Clock}.

#[export] Instance aggregate_perm : Proper ((≡ₚ) ==> (=)) aggregate.
Proof. intros g g' Hg. unfold aggregate. by rewrite Hg. Qed.

Lemma where_stats_true projectId startDate endDate row :
  where_stats projectId startDate endDate row = true <->
  project_id row = projectId /\ state row <> "closed" /\ is_Some (squad row) /\
  where_dates startDate endDate row = true.
Proof.
  unfold where_stats.
  rewrite !andb_true_iff, negb_true_iff, bool_decide_eq_false, !bool_decide_eq_true.
  tauto.
Qed.

(** The second WHERE clause is the first one with two more conditions, of
    which the comparison already says that [first_comment_at] is not NULL. *)
Lemma where_late_true projectId thresholdMinutes startDate endDate row :
  where_late projectId thresholdMinutes startDate endDate row = true <->
  where_stats projectId startDate endDate row = true /\
  exists t m, thresholdMinutes = Real t /\ delta first_comment_at row = Some m /\ (t < m)%Qc.
Proof.
  unfold where_late, where_stats, exceeds.
  rewrite !andb_true_iff, !bool_decide_eq_true. split.
  - intros (((((? & ?) & ?) & ?) & ?) & Hex).
    destruct thresholdMinutes as [|t]; [done|].
    destruct (delta first_comment_at row) as [m|]; [|done].
    apply bool_decide_eq_true in Hex. eauto 10.
  - intros ((((? & ?) & ?) & ?) & t & m & -> & Hm & Hlt). rewrite Hm.
    repeat split; try done; [|by apply bool_decide_eq_true].
    unfold delta in Hm. by destruct (first_comment_at row).
Qed.

Lemma select_stats_lookup projectId startDate endDate l s :
  select_stats projectId startDate endDate l !! s =
  aggregate <$> nonempty (group_of s (filter (where_stats projectId startDate endDate) l)).
Proof. unfold select_stats. by rewrite lookup_fmap, group_by_squad_lookup. Qed.

Lemma select_late_lookup projectId thresholdMinutes startDate endDate l s :
  select_late projectId thresholdMinutes startDate endDate l !! s =
  length <$> nonempty
    (group_of s (filter (where_late projectId thresholdMinutes startDate endDate) l)).
Proof. unfold select_late. by rewrite lookup_fmap, group_by_squad_lookup. Qed.

#[export] Instance select_stats_perm projectId startDate endDate :
  Proper ((≡ₚ) ==> (=)) (select_stats projectId startDate endDate).
Proof.
  intros l l' Hl. apply map_eq. intros s. rewrite !select_stats_lookup.
  apply nonempty_perm; [apply _ | by rewrite Hl].
Qed.

#[export] Instance select_late_perm projectId thresholdMinutes startDate endDate :
  Proper ((≡ₚ) ==> (=)) (select_late projectId thresholdMinutes startDate endDate).
Proof.
  intros l l' Hl. apply map_eq. intros s. rewrite !select_late_lookup.
  apply nonempty_perm; [|by rewrite Hl]. intros g g' Hg. by rewrite Hg.
Qed.

(** A row the WHERE clause rejects can be left out of the table. *)
Lemma select_stats_rejected projectId startDate endDate row l :
  where_stats projectId startDate endDate row = false ->
  select_stats projectId startDate endDate (row :: l)
  = select_stats projectId startDate endDate l.
Proof.
  intros Hw. unfold select_stats. rewrite filter_cons_False; [done|].
  intros Ht%Is_true_true. congruence.
Qed.

Lemma select_late_rejected projectId thresholdMinutes startDate endDate row l :
  where_late projectId thresholdMinutes startDate endDate row = false ->
  select_late projectId thresholdMinutes startDate endDate (row :: l)
  = select_late projectId thresholdMinutes startDate endDate l.
Proof.
  intros Hw. unfold select_late. rewrite filter_cons_False; [done|].
  intros Ht%Is_true_true. congruence.
Qed.

Lemma where_late_stats projectId thresholdMinutes startDate endDate row :
  where_stats projectId startDate endDate row = false ->
  where_late projectId thresholdMinutes startDate endDate row = false.
Proof.
  intros Hw. apply not_true_iff_false. intros [Hs _]%where_late_true. congruence.
Qed.

Lemma where_stats_closed projectId startDate endDate row :
  state row = "closed" -> where_stats projectId startDate endDate row = false.
Proof.
  intros Hc. apply not_true_iff_false. intros (_ & Hs & _)%where_stats_true. done.
Qed.

Lemma where_stats_no_squad projectId startDate endDate row :
  squad row = None -> where_stats projectId startDate endDate row = false.
Proof.
  intros Hc. apply not_true_iff_false. intros (_ & _ & Hs & _)%where_stats_true.
  rewrite Hc in Hs. by destruct Hs.
Qed.

(** What the two functions return. *)
Lemma getMergeRequestStats_run projectId startDate endDate s :
  handle s = true -> has_squad_column s = true -> faults s = [] -> closed s = false ->
  getMergeRequestStats projectId startDate endDate s
  = Ret (select_stats projectId startDate endDate (rows s)) s.
Proof.
  intros Hh Hc Hf Hop. unfold getMergeRequestStats, with_handle, sql_all.
  by rewrite Hh, callback_healthy, Hc.
Qed.

Lemma countMrsWithLateFirstComment_run projectId thresholdMinutes startDate endDate s :
  handle s = true -> has_squad_column s = true -> faults s = [] -> closed s = false ->
  countMrsWithLateFirstComment projectId thresholdMinutes startDate endDate s
  = Ret (select_late projectId thresholdMinutes startDate endDate (rows s)) s.
Proof.
  intros Hh Hc Hf Hop. unfold countMrsWithLateFirstComment, with_handle, sql_all.
  by rewrite Hh, callback_healthy, Hc.
Qed.

Lemma halts_getMergeRequestStats projectId startDate endDate :
  halts (getMergeRequestStats projectId startDate endDate).
Proof. unfold getMergeRequestStats, sql_all. auto with halts. Qed.

Lemma halts_countMrsWithLateFirstComment projectId thresholdMinutes startDate endDate :
  halts (countMrsWithLateFirstComment projectId thresholdMinutes startDate endDate).
Proof. unfold countMrsWithLateFirstComment, sql_all. auto with halts. Qed.

Lemma ready_has_squad_column s :
  ready s ->
  handle s = true /\ has_squad_column s = true /\ faults s = [] /\ closed s = false.
Proof.
  intros (Hh & Ht & Hs & _ & Hf & Hop). unfold has_squad_column. by rewrite Hh, Ht, Hs.
Qed.

End QueryFacts.

#[export] Hint Resolve halts_getMergeRequestStats halts_countMrsWithLateFirstComment : halts.

(** ** The contract of the aggregator

    What the two functions promise, stated on the table without reference to
    the way the statement is evaluated: which rows count for a squad, and
    what is reported of them. *)

Section Contract.
Context `{Clock}.

(** The rows that count for squad [sq]. *)
Definition in_group (projectId : Z) (startDate endDate : option string) (sq : string)
    (row : MergeRequestData) : Prop :=
  project_id row = projectId /\ state row <> "closed" /\ squad row = Some sq /\
  where_dates startDate endDate row = true.

(** The first comment of [row] came more than [thresholdMinutes] after its
    creation; no merge request is late for a threshold that is no number. *)
Definition late (thresholdMinutes : real) (row : MergeRequestData) : Prop :=
  match thresholdMinutes, delta first_comment_at row with
  | Real t, Some m => (t < m)%Qc
  | _, _ => False
  end.

#[export] Instance in_group_dec projectId startDate endDate sq row :
  Decision (in_group projectId startDate endDate sq row).
Proof. unfold in_group. apply _. Defined.

#[export] Instance late_dec thresholdMinutes row : Decision (late thresholdMinutes row).
Proof.
  unfold late. destruct thresholdMinutes, (delta first_comment_at row); apply _.
Defined.

(** What is reported of a group: the counts, and for each derived timestamp
    the mean of the delays of the rows that have it. *)
Definition report (g : list MergeRequestData) : SquadStats :=
  {| total_mrs := length g;
     merged_mrs := length (filter (fun row => state row = "merged") g);
     avg_time_to_first_comment := mean (omap (delta first_comment_at) g);
     avg_time_to_approval := mean (omap (delta approved_at) g);
     avg_time_to_merge := mean (omap (delta merged_at) g) |}.

Lemma avg_fmap {A} (f : A -> option Qc) l : avg (f <$> l) = mean (omap f l).
Proof. unfold avg. by rewrite omap_id_fmap. Qed.

Lemma aggregate_report g : aggregate g = report g.
Proof. unfold aggregate, report. by rewrite !avg_fmap. Qed.

Lemma group_of_where_stats projectId startDate endDate sq l :
  group_of sq (filter (where_stats projectId startDate endDate) l)
  = filter (in_group projectId startDate endDate sq) l.
Proof.
  rewrite group_of_filter. apply list_filter_iff. intros row.
  unfold in_group. rewrite Is_true_true, where_stats_true. split.
  - intros (Hs & ? & ? & _ & ?). done.
  - intros (? & ? & Hs & ?). rewrite Hs. eauto.
Qed.

Lemma group_of_where_late projectId thresholdMinutes startDate endDate sq l :
  group_of sq (filter (where_late projectId thresholdMinutes startDate endDate) l)
  = filter (fun row => in_group projectId startDate endDate sq row /\
                       late thresholdMinutes row) l.
Proof.
  rewrite group_of_filter. apply list_filter_iff. intros row.
  unfold in_group, late. rewrite Is_true_true, where_late_true, where_stats_true. split.
  - intros (Hs & (? & ? & _ & ?) & t & m & -> & -> & ?). done.
  - intros ((? & ? & Hs & ?) & Hl). rewrite Hs.
    destruct thresholdMinutes as [|t]; [done|].
    destruct (delta first_comment_at row) as [m|]; [|done]. eauto 10.
Qed.

Lemma select_stats_report projectId startDate endDate l sq :
  select_stats projectId startDate endDate l !! sq =
  report <$> nonempty (filter (in_group projectId startDate endDate sq) l).
Proof.
  rewrite select_stats_lookup, group_of_where_stats.
  destruct (filter _ _); simpl; [done|]. by rewrite aggregate_report.
Qed.

Lemma select_late_count projectId thresholdMinutes startDate endDate l sq :
  select_late projectId thresholdMinutes startDate endDate l !! sq =
  length <$> nonempty
    (filter (fun row => in_group projectId startDate endDate sq row /\
                        late thresholdMinutes row) l).
Proof. by rewrite select_late_lookup, group_of_where_late. Qed.

Lemma nonempty_Some {A} (g g' : list A) : nonempty g = Some g' -> g' = g /\ g <> [].
Proof. destruct g; [done|]. by intros [= <-]. Qed.

Lemma nonempty_length {A} (g : list A) : (0 < length g)%nat -> nonempty g = Some g.
Proof. destruct g; simpl; [lia | done]. Qed.

Lemma given_nonempty (s : string) : s <> "" -> given (Some s) = Some s.
Proof. by destruct s. Qed.

End Contract.

(** ** A table for the examples

    Six merge requests of project 1, all created at 10:00:00: three of squad
    WEB with a first comment after 10 minutes, none, and after 30 minutes;
    one closed; one without squad; one of squad CMS with a first comment
    after 10 minutes and 30 seconds. *)

Definition row_at (id : Z) (st : string) (first_comment : option string)
    (sq : option string) : MergeRequestData :=
  {| row_id := id; project_id := 1; title := "change"; description := None;
     created_at := "2025-04-01T10:00:00.000Z";
     updated_at := "2025-04-02T10:00:00.000Z"; state := st;
     author_id := 7; author_username := "dev";
     first_comment_at := first_comment; approved_at := None;
     merged_at := if bool_decide (st = "merged") then Some "2025-04-01T12:00:00.000Z"
                  else None;
     squad := sq |}.

Definition sample_table : list MergeRequestData :=
  [row_at 1 "opened" (Some "2025-04-01T10:10:00.000Z") (Some "WEB");
   row_at 2 "merged" None (Some "WEB");
   row_at 3 "opened" (Some "2025-04-01T10:30:00.000Z") (Some "WEB");
   row_at 4 "closed" (Some "2025-04-01T10:01:00.000Z") (Some "WEB");
   row_at 5 "opened" (Some "2025-04-01T10:01:00.000Z") None;
   row_at 6 "opened" (Some "2025-04-01T10:10:30.000Z") (Some "CMS")].

Definition stats_db : Db := table_db sample_table.

(** A whole number of minutes, and a number of hundredths of a minute. *)
Definition minutes (n : Z) : Qc := Q2Qc (inject_Z n).

Definition hundredths (n : Z) : Qc := Q2Qc (n # 100).

Lemma stats_db_ready : ready stats_db.
Proof. apply ready_table_db. Qed.

Example stats_sample :
  returned (getMergeRequestStats 1 None None stats_db) =
  Some {[ "WEB" := {| total_mrs := 3; merged_mrs := 1;
                      avg_time_to_first_comment := Some (minutes 20);
                      avg_time_to_approval := None;
                      avg_time_to_merge := Some (minutes 120) |};
          "CMS" := {| total_mrs := 1; merged_mrs := 0;
                      avg_time_to_first_comment := Some (hundredths 1050);
                      avg_time_to_approval := None;
                      avg_time_to_merge := None |} ]}.
Proof. apply (bool_decide_unpack _). vm_compute. exact I. Qed.

Example late_sample_10 :
  returned (countMrsWithLateFirstComment 1 (Real (minutes 10)) None None stats_db) =
  Some {[ "WEB" := 1%nat; "CMS" := 1%nat ]}.
Proof. vm_compute. reflexivity. Qed.

Example late_sample_10_49 :
  returned (countMrsWithLateFirstComment 1 (Real (hundredths 1049)) None None stats_db) =
  Some {[ "WEB" := 1%nat; "CMS" := 1%nat ]}.
Proof. vm_compute. reflexivity. Qed.

Example late_sample_10_50 :
  returned (countMrsWithLateFirstComment 1 (Real (hundredths 1050)) None None stats_db) =
  Some {[ "WEB" := 1%nat ]}.
Proof. vm_compute. reflexivity. Qed.

(** ** Rows that do not count *)

Section Without.
Context `{Clock}.

(** A row the WHERE clause rejects can be taken out of the table. *)
Lemma stats_without projectId startDate endDate s k row :
  merge_requests s !! k = Some row ->
  where_stats projectId startDate endDate row = false ->
  select_stats projectId startDate endDate (rows s)
  = select_stats projectId startDate endDate (rows (without k s)).
Proof.
  intros Hk Hw. rewrite (rows_without s k row Hk). by apply select_stats_rejected.
Qed.

Lemma late_without projectId thresholdMinutes startDate endDate s k row :
  merge_requests s !! k = Some row ->
  where_late projectId thresholdMinutes startDate endDate row = false ->
  select_late projectId thresholdMinutes startDate endDate (rows s)
  = select_late projectId thresholdMinutes startDate endDate (rows (without k s)).
Proof.
  intros Hk Hw. rewrite (rows_without s k row Hk). by apply select_late_rejected.
Qed.

Lemma ready_without k s : ready s -> ready (without k s).
Proof. done. Qed.

Lemma where_late_not_late projectId thresholdMinutes startDate endDate row :
  ~ late thresholdMinutes row ->
  where_late projectId thresholdMinutes startDate endDate row = false.
Proof.
  intros Hl. apply not_true_iff_false.
  intros (_ & t & m & -> & Hm & Hlt)%where_late_true.
  apply Hl. unfold late. by rewrite Hm.
Qed.

End Without.

(** ** Theorems *)

Section AnalyticsTheorems.
Context `{Clock}.

(** C14: [getMergeRequestStats] implements its contract.  On a ready store
    it returns, without changing the store, one row per squad that has a
    merge request of the project that is not closed and lies within the date
    bounds; the row reports the number of those merge requests, the number
    of them that are merged, and for each derived timestamp the mean delay
    of those that have it. *)
Theorem getMergeRequestStats_contract projectId startDate endDate s :
  ready s ->
  exists m, getMergeRequestStats projectId startDate endDate s = Ret m s /\
    forall sq, m !! sq =
      report <$> nonempty (filter (in_group projectId startDate endDate sq) (rows s)).
Proof.
  intros (Hh & Hc & Hf & Hop)%ready_has_squad_column. eexists. split.
  - by apply getMergeRequestStats_run.
  - intros sq. apply select_stats_report.
Qed.

(** C15: [countMrsWithLateFirstComment] implements its contract.  On a ready
    store it returns, without changing the store, for each squad the number
    of merge requests that count for the squad and whose first comment came
    strictly more than the threshold after their creation; a squad with no
    such merge request has no row. *)
Theorem countMrsWithLateFirstComment_contract projectId thresholdMinutes
    startDate endDate s :
  ready s ->
  exists m,
    countMrsWithLateFirstComment projectId thresholdMinutes startDate endDate s
    = Ret m s /\
    forall sq, m !! sq =
      length <$> nonempty
        (filter (fun row => in_group projectId startDate endDate sq row /\
                            late thresholdMinutes row) (rows s)).
Proof.
  intros (Hh & Hc & Hf & Hop)%ready_has_squad_column. eexists. split.
  - by apply countMrsWithLateFirstComment_run.
  - intros sq. apply select_late_count.
Qed.

(** A threshold that is no number counts nothing.  The driver binds a
    [NaN] as NULL and no delay exceeds NULL: the result has no row, whatever
    the table holds. *)
Theorem nan_threshold_counts_nothing projectId startDate endDate s :
  ready s ->
  countMrsWithLateFirstComment projectId RNaN startDate endDate s = Ret ∅ s.
Proof.
  intros (Hh & Hc & Hf & Hop)%ready_has_squad_column.
  rewrite countMrsWithLateFirstComment_run by done. f_equal.
  apply map_eq. intros sq. rewrite select_late_count, lookup_empty.
  rewrite filter_none; [done|]. intros row _ [_ []].
Qed.

(** The threshold is strict.  A merge request whose first comment came
    exactly [thresholdMinutes] after its creation is not counted as late:
    the result is the one on the table without it. *)
Theorem threshold_is_strict projectId thresholdMinutes startDate endDate s k row :
  ready s -> merge_requests s !! k = Some row ->
  delta first_comment_at row = Some thresholdMinutes ->
  exists m,
    countMrsWithLateFirstComment projectId (Real thresholdMinutes) startDate endDate s
    = Ret m s /\
    countMrsWithLateFirstComment projectId (Real thresholdMinutes) startDate endDate
      (without k s) = Ret m (without k s).
Proof.
  intros Hr Hk Hd. destruct (ready_has_squad_column s Hr) as (Hh & Hc & Hf & Hop).
  eexists. split; [by apply countMrsWithLateFirstComment_run|].
  rewrite countMrsWithLateFirstComment_run by done. f_equal. symmetry.
  eapply late_without; [done|]. apply where_late_not_late.
  unfold late. rewrite Hd. apply Qcle_not_lt, Qcle_refl.
Qed.

(** Closed merge requests are excluded.  A closed merge request,
    whatever its squad, counts in neither aggregation: both results are those
    on the table without it. *)
Theorem closed_rows_are_excluded projectId thresholdMinutes startDate endDate s k row :
  ready s -> merge_requests s !! k = Some row -> state row = "closed" ->
  returned (getMergeRequestStats projectId startDate endDate s)
  = returned (getMergeRequestStats projectId startDate endDate (without k s)) /\
  returned (countMrsWithLateFirstComment projectId thresholdMinutes startDate endDate s)
  = returned (countMrsWithLateFirstComment projectId thresholdMinutes startDate endDate
                (without k s)).
Proof.
  intros Hr Hk Hc. destruct (ready_has_squad_column s Hr) as (Hh & Hs & Hf & Hop).
  pose proof (where_stats_closed projectId startDate endDate row Hc) as Hw.
  rewrite !getMergeRequestStats_run, !countMrsWithLateFirstComment_run by done.
  simpl. split; f_equal.
  - by eapply stats_without.
  - eapply late_without; [done|]. by apply where_late_stats.
Qed.

(** Merge requests without a squad are excluded.  A merge request whose
    squad is NULL counts in neither aggregation. *)
Theorem unclassified_rows_are_excluded projectId thresholdMinutes startDate endDate
    s k row :
  ready s -> merge_requests s !! k = Some row -> squad row = None ->
  returned (getMergeRequestStats projectId startDate endDate s)
  = returned (getMergeRequestStats projectId startDate endDate (without k s)) /\
  returned (countMrsWithLateFirstComment projectId thresholdMinutes startDate endDate s)
  = returned (countMrsWithLateFirstComment projectId thresholdMinutes startDate endDate
                (without k s)).
Proof.
  intros Hr Hk Hc. destruct (ready_has_squad_column s Hr) as (Hh & Hs & Hf & Hop).
  pose proof (where_stats_no_squad projectId startDate endDate row Hc) as Hw.
  rewrite !getMergeRequestStats_run, !countMrsWithLateFirstComment_run by done.
  simpl. split; f_equal.
  - by eapply stats_without.
  - eapply late_without; [done|]. by apply where_late_stats.
Qed.

(** A missing timestamp is left out of the average.  When the average
    time to first comment of a group is reported, it is the sum of the delays
    of the merge requests that have a first comment divided by their number:
    a merge request without first comment counts neither as zero nor in the
    denominator. *)
Theorem average_excludes_missing g m :
  avg_time_to_first_comment (aggregate g) = Some m ->
  let present := omap (delta first_comment_at) g in
  present <> [] /\
  (m * Q2Qc (inject_Z (Z.of_nat (length present))) = sum_Qc present)%Qc.
Proof.
  simpl. intros Hm%avg_Some. by rewrite omap_id_fmap in Hm.
Qed.

(** The late merge requests are among the counted ones.  A squad that
    has a row in the result of [countMrsWithLateFirstComment] has a row in
    the result of [getMergeRequestStats] for the same arguments, and its
    count of late merge requests is positive and at most [total_mrs]. *)
Theorem late_count_le_total projectId thresholdMinutes startDate endDate s m n sq c :
  ready s ->
  getMergeRequestStats projectId startDate endDate s = Ret m s ->
  countMrsWithLateFirstComment projectId thresholdMinutes startDate endDate s
  = Ret n s ->
  n !! sq = Some c ->
  exists st, m !! sq = Some st /\ (0 < c <= total_mrs st)%nat.
Proof.
  intros (Hh & Hc & Hf & Hop)%ready_has_squad_column Hm Hn Hsq.
  rewrite getMergeRequestStats_run in Hm by done.
  rewrite countMrsWithLateFirstComment_run in Hn by done.
  injection Hm as <-. injection Hn as <-.
  rewrite select_late_count in Hsq. rewrite select_stats_report.
  destruct (nonempty _) as [gl|] eqn:Hgl in Hsq; [|done].
  injection Hsq as <-. apply nonempty_Some in Hgl as [-> Hne].
  set (gl := filter _ _) in *. set (g := filter _ _).
  assert (0 < length gl)%nat by (destruct gl; simpl; [done | lia]).
  assert (length gl <= length g)%nat by (apply length_filter_impl; tauto).
  rewrite nonempty_length by lia. simpl. eexists. split; [done|]. simpl. lia.
Qed.

(** The date bounds are compared as texts.  With a day [YYYY-MM-DD] as
    bound and a merge request created on that day (its [created_at] is the
    day followed by a time), the start bound accepts the merge request and
    the end bound rejects it: an end date excludes the merge requests
    created on that date. *)
Theorem end_date_excludes_its_day projectId thresholdMinutes startDate day time row :
  day <> "" -> time <> "" -> created_at row = day +:+ time ->
  where_dates (Some day) None row = true /\
  where_stats projectId startDate (Some day) row = false /\
  where_late projectId thresholdMinutes startDate (Some day) row = false.
Proof.
  intros Hd Ht Hc.
  assert (where_dates startDate (Some day) row = false) as Hw.
  { unfold where_dates. rewrite (given_nonempty day Hd), Hc, text_le_extension by done.
    apply andb_false_r. }
  assert (where_stats projectId startDate (Some day) row = false) as Hs.
  { unfold where_stats. rewrite Hw. apply andb_false_r. }
  split; [|split; [done | by apply where_late_stats]].
  unfold where_dates. rewrite (given_nonempty day Hd), Hc. simpl.
  unfold text_ge. by rewrite text_le_prefix.
Qed.

(** The queries need an initialised store.  Before [initDatabase] has
    run, both functions throw a [TypeError]; neither catches it. *)
Theorem analytics_uninitialised projectId thresholdMinutes startDate endDate s :
  handle s = false ->
  exists msg,
    getMergeRequestStats projectId startDate endDate s = Throw (TypeError msg) s /\
    countMrsWithLateFirstComment projectId thresholdMinutes startDate endDate s
    = Throw (TypeError msg) s.
Proof.
  intros Hh. unfold getMergeRequestStats, countMrsWithLateFirstComment, with_handle.
  rewrite Hh. by eexists.
Qed.

(** The queries write nothing.  However they end, and whatever the driver
    does, the tables and the schema are the ones they found. *)
Theorem analytics_reads_only projectId thresholdMinutes startDate endDate s :
  (exists fs, final_state (getMergeRequestStats projectId startDate endDate s)
              = Some (set_faults fs s)) /\
  (exists fs, final_state (countMrsWithLateFirstComment projectId thresholdMinutes
                             startDate endDate s) = Some (set_faults fs s)).
Proof.
  unfold getMergeRequestStats, countMrsWithLateFirstComment, with_handle, sql_all,
    callback, bind, next_fault.
  destruct (handle s); [|split; exists (faults s); by rewrite set_faults_same].
  destruct (faults s) as [|[m|] rest] eqn:Hf; simpl.
  - split; exists (faults s); rewrite set_faults_same; by repeat destruct_match.
  - split; by exists rest.
  - split; exists rest; by repeat destruct_match.
Qed.

End AnalyticsTheorems.

Lemma iso_seconds_Some s z :
  iso_seconds s = Some z -> exists c, parse_iso s = Some c /\ z = civil_seconds c.
Proof.
  unfold iso_seconds. destruct (parse_iso s) as [c|]; [|done]. intros [= <-]. by exists c.
Qed.

Lemma given_date s : String.length s = 10%nat -> given (Some s) = Some s.
Proof. by destruct s. Qed.

(** The date range is half open.  For a merge request whose
    [created_at] is a timestamp as GitLab sends it, and two bounds that are
    dates as the prompt accepts them, the row passes the bounds exactly when
    it was created at or after the midnight (UTC) that starts the start
    date and before the midnight that starts the end date: the text
    comparison of the query reads the start date inclusively and the end
    date exclusively. *)
Theorem date_range_is_half_open startDate endDate row zs ze zr :
  iso_seconds startDate = Some zs -> String.length startDate = 10%nat ->
  iso_seconds endDate = Some ze -> String.length endDate = 10%nat ->
  iso_seconds (created_at row) = Some zr -> String.length (created_at row) <> 10%nat ->
  where_dates (Some startDate) (Some endDate) row = bool_decide (zs <= zr < ze).
Proof.
  intros (cs & Hs & ->)%iso_seconds_Some Hls (ce & He & ->)%iso_seconds_Some Hle
    (cr & Hr & ->)%iso_seconds_Some Hlr.
  destruct (date_bound_is_midnight startDate (created_at row) cs cr) as [H1 _]; [done..|].
  destruct (date_bound_is_midnight endDate (created_at row) ce cr) as [_ H2]; [done..|].
  unfold where_dates, text_ge, text_le in *. rewrite !given_date, H1, H2 by done.
  repeat case_bool_decide; simpl; try done; lia.
Qed.

(** ** The theorems at the example table *)

Lemma delta_sample_1 :
  delta first_comment_at (row_at 1 "opened" (Some "2025-04-01T10:10:00.000Z") (Some "WEB"))
  = Some (minutes 10).
Proof. apply (bool_decide_unpack _). vm_compute. exact I. Qed.

Lemma getMergeRequestStats_contract_witness :
  exists m, getMergeRequestStats 1 None None stats_db = Ret m stats_db /\
    forall sq, m !! sq =
      report <$> nonempty (filter (in_group 1 None None sq) (rows stats_db)).
Proof. apply (getMergeRequestStats_contract 1 None None stats_db), stats_db_ready. Defined.

Lemma countMrsWithLateFirstComment_contract_witness :
  exists m, countMrsWithLateFirstComment 1 (Real (minutes 10)) None None stats_db
            = Ret m stats_db /\
    forall sq, m !! sq =
      length <$> nonempty
        (filter (fun row => in_group 1 None None sq row /\ late (Real (minutes 10)) row)
           (rows stats_db)).
Proof.
  apply (countMrsWithLateFirstComment_contract 1 (Real (minutes 10)) None None stats_db),
    stats_db_ready.
Defined.

Lemma threshold_is_strict_witness :
  exists m,
    countMrsWithLateFirstComment 1 (Real (minutes 10)) None None stats_db = Ret m stats_db /\
    countMrsWithLateFirstComment 1 (Real (minutes 10)) None None (without (1, 1) stats_db)
    = Ret m (without (1, 1) stats_db).
Proof.
  apply (threshold_is_strict 1 (minutes 10) None None stats_db (1, 1)
           (row_at 1 "opened" (Some "2025-04-01T10:10:00.000Z") (Some "WEB"))).
  - apply stats_db_ready.
  - vm_compute. reflexivity.
  - apply delta_sample_1.
Defined.

Lemma closed_rows_are_excluded_witness :
  returned (getMergeRequestStats 1 None None stats_db)
  = returned (getMergeRequestStats 1 None None (without (4, 1) stats_db)) /\
  returned (countMrsWithLateFirstComment 1 (Real (minutes 0)) None None stats_db)
  = returned (countMrsWithLateFirstComment 1 (Real (minutes 0)) None None
                (without (4, 1) stats_db)).
Proof.
  apply (closed_rows_are_excluded 1 (Real (minutes 0)) None None stats_db (4, 1)
           (row_at 4 "closed" (Some "2025-04-01T10:01:00.000Z") (Some "WEB"))).
  - apply stats_db_ready.
  - vm_compute. reflexivity.
  - reflexivity.
Defined.

Lemma unclassified_rows_are_excluded_witness :
  returned (getMergeRequestStats 1 None None stats_db)
  = returned (getMergeRequestStats 1 None None (without (5, 1) stats_db)) /\
  returned (countMrsWithLateFirstComment 1 (Real (minutes 0)) None None stats_db)
  = returned (countMrsWithLateFirstComment 1 (Real (minutes 0)) None None
                (without (5, 1) stats_db)).
Proof.
  apply (unclassified_rows_are_excluded 1 (Real (minutes 0)) None None stats_db (5, 1)
           (row_at 5 "opened" (Some "2025-04-01T10:01:00.000Z") None)).
  - apply stats_db_ready.
  - vm_compute. reflexivity.
  - reflexivity.
Defined.

Lemma average_excludes_missing_witness :
  let present := omap (delta first_comment_at) (group_of "WEB" (take 3 sample_table)) in
  present <> [] /\
  (minutes 20 * Q2Qc (inject_Z (Z.of_nat (length present))) = sum_Qc present)%Qc.
Proof.
  apply (average_excludes_missing (group_of "WEB" (take 3 sample_table)) (minutes 20)).
  apply (bool_decide_unpack _). vm_compute. exact I.
Defined.

Lemma late_count_le_total_witness :
  exists st, select_stats 1 None None (rows stats_db) !! "WEB" = Some st /\
             (0 < 1 <= total_mrs st)%nat.
Proof.
  apply (late_count_le_total 1 (Real (minutes 10)) None None stats_db
           (select_stats 1 None None (rows stats_db))
           (select_late 1 (Real (minutes 10)) None None (rows stats_db)) "WEB" 1%nat).
  - apply stats_db_ready.
  - by apply getMergeRequestStats_run.
  - by apply countMrsWithLateFirstComment_run.
  - vm_compute. reflexivity.
Defined.

Lemma end_date_excludes_its_day_witness :
  let row := row_at 1 "opened" None (Some "WEB") in
  where_dates (Some "2025-04-01") None row = true /\
  where_stats 1 None (Some "2025-04-01") row = false /\
  where_late 1 (Real (minutes 0)) None (Some "2025-04-01") row = false.
Proof.
  apply (end_date_excludes_its_day 1 (Real (minutes 0)) None "2025-04-01" "T10:00:00.000Z"
           (row_at 1 "opened" None (Some "WEB"))); done.
Defined.

Lemma analytics_uninitialised_witness :
  exists msg,
    getMergeRequestStats 1 None None fresh_db = Throw (TypeError msg) fresh_db /\
    countMrsWithLateFirstComment 1 (Real (minutes 10)) None None fresh_db
    = Throw (TypeError msg) fresh_db.
Proof. apply (analytics_uninitialised 1 (Real (minutes 10)) None None fresh_db). reflexivity. Defined.

Lemma date_range_is_half_open_witness :
  where_dates (Some "2025-04-01") (Some "2025-04-01") (row_at 1 "opened" None (Some "WEB"))
  = bool_decide (1743465600 <= 1743501600 < 1743465600).
Proof.
  apply (date_range_is_half_open "2025-04-01" "2025-04-01"
           (row_at 1 "opened" None (Some "WEB")));
    (reflexivity || discriminate).
Defined.
