(* ===== verification/Squads.v ===== *)
(** * Squads: the script [update_squads.sql]

    The batch that assigns the classification ([src/update_squads.sql]): two
    UPDATE statements over [merge_requests], run on the file with the SQLite
    command line, outside the program.  The first sets [squad] to ['CMS'] for
    five authors, whatever the squad was; the second sets it to ['WEB'] for
    every author outside a list of six, where it is still NULL.  The SELECT
    that ends the script only displays the outcome; it is [verify_squads]
    of [Queries].

    The squad the script gives a row is a function of its [author_username]
    and of its squad before ([squad_after]); the theorems say what that
    function is, that running the script twice is running it once, and that
    the script only changes the column [squad]. *)

From S2P Require Import Prelude JsModel Remote Store.

(** ** The statements *)

(** The list of the first statement. *)
Definition cms_authors : list string :=
  ["miduddin.wartek"; "alvin.yaputra"; "qoyyim"; "sangbas-wartek"; "burhan-wartek"].

(** The list of the second statement. *)
Definition not_web_authors : list string :=
  ["miduddin.wartek"; "alvin.yaputra"; "qoyyim"; "sangbas-wartek"; "burhan-wartek";
   "ikhsan.hari"].

(** [SET squad = v] on one row. *)
Definition set_squad (v : option string) (row : MergeRequestData) : MergeRequestData :=
  {| row_id := row_id row; project_id := project_id row; title := title row;
     description := description row; created_at := created_at row;
     updated_at := updated_at row; state := state row; author_id := author_id row;
     author_username := author_username row;
     first_comment_at := first_comment_at row; approved_at := approved_at row;
     merged_at := merged_at row; squad := v |}.

(** [UPDATE merge_requests SET squad = 'CMS' WHERE author_username IN (...)],
    on one row. *)
Definition assign_cms (row : MergeRequestData) : MergeRequestData :=
  if bool_decide (author_username row ∈ cms_authors) then set_squad (Some "CMS") row
  else row.

(** [UPDATE merge_requests SET squad = 'WEB' WHERE author_username NOT IN
    (...) AND squad IS NULL], on one row. *)
Definition assign_web (row : MergeRequestData) : MergeRequestData :=
  if bool_decide (author_username row ∉ not_web_authors) && bool_decide (squad row = None)
  then set_squad (Some "WEB") row
  else row.

(** An UPDATE run by the command line of SQLite, not through the driver of
    the program: it fails when the table or the column is missing, and
    otherwise rewrites every row of the table. *)
Definition sql_update (f : MergeRequestData -> MergeRequestData) : prog Db exn unit :=
  fun s =>
    if has_tables s && col_squad s
    then Ret tt (set_merge_requests (f <$> merge_requests s) s)
    else Throw (SqliteError "no such column: squad") s.

(** The script: the two statements in order. *)
Definition update_squads : prog Db exn unit :=
  sql_update assign_cms ;;
  sql_update assign_web.

(** ** The squad a row ends with *)

Definition squad_after (username : string) (before : option string) : option string :=
  if bool_decide (username ∈ cms_authors) then Some "CMS"
  else if bool_decide (username = "ikhsan.hari") then before
  else match before with
       | None => Some "WEB"
       | Some _ => before
       end.

Definition classify (row : MergeRequestData) : MergeRequestData :=
  set_squad (squad_after (author_username row) (squad row)) row.

(** The rows agree on every column but [squad]. *)
Definition same_but_squad (a b : MergeRequestData) : Prop :=
  set_squad None a = set_squad None b.

Lemma set_squad_id row : set_squad (squad row) row = row.
Proof. by destruct row. Qed.

Lemma cms_not_web username : username ∈ cms_authors -> username ∈ not_web_authors.
Proof. unfold cms_authors, not_web_authors. rewrite !elem_of_cons. tauto. Qed.

Lemma not_web_authors_inv username :
  username ∈ not_web_authors <-> username ∈ cms_authors \/ username = "ikhsan.hari".
Proof.
  unfold cms_authors, not_web_authors. rewrite !elem_of_cons, !elem_of_nil. tauto.
Qed.

(** The two statements in sequence, on one row. *)
Lemma assign_web_cms row : assign_web (assign_cms row) = classify row.
Proof.
  unfold assign_web, assign_cms, classify, squad_after.
  destruct (bool_decide (author_username row ∈ cms_authors)) eqn:Hc.
  - apply bool_decide_eq_true in Hc. simpl.
    rewrite (bool_decide_eq_false_2 (_ ∉ _)); [done|].
    intros Hn. by apply Hn, cms_not_web.
  - apply bool_decide_eq_false in Hc.
    destruct (bool_decide (author_username row = "ikhsan.hari")) eqn:Hi.
    + apply bool_decide_eq_true in Hi.
      rewrite (bool_decide_eq_false_2 (_ ∉ _)); [by rewrite set_squad_id|].
      intros Hn. apply Hn, not_web_authors_inv. by right.
    + apply bool_decide_eq_false in Hi.
      rewrite (bool_decide_eq_true_2 (_ ∉ _)) by (rewrite not_web_authors_inv; tauto).
      destruct (squad row) eqn:Hs; simpl; [|done].
      by rewrite <- Hs, set_squad_id.
Qed.

Lemma squad_after_idem username before :
  squad_after username (squad_after username before) = squad_after username before.
Proof. unfold squad_after. repeat case_bool_decide; by destruct before. Qed.

Lemma classify_idem row : classify (classify row) = classify row.
Proof. unfold classify. simpl. by rewrite squad_after_idem. Qed.

Lemma classify_same_but_squad row : same_but_squad (classify row) row.
Proof. done. Qed.

Lemma classify_row_key row : row_key (classify row) = row_key row.
Proof. done. Qed.

Lemma sql_update_run f s :
  has_tables s = true -> col_squad s = true ->
  sql_update f s = Ret tt (set_merge_requests (f <$> merge_requests s) s).
Proof. intros Ht Hc. unfold sql_update. by rewrite Ht, Hc. Qed.

(** What the script computes. *)
Lemma update_squads_run s :
  has_tables s = true -> col_squad s = true ->
  update_squads s = Ret tt (set_merge_requests (classify <$> merge_requests s) s).
Proof.
  intros Ht Hc. unfold update_squads, bind.
  rewrite sql_update_run, sql_update_run by done.
  f_equal. unfold set_merge_requests; simpl. f_equal.
  rewrite <- map_fmap_compose. apply map_fmap_ext. intros k row _. apply assign_web_cms.
Qed.

Lemma update_squads_failure s :
  has_tables s && col_squad s = false ->
  update_squads s = Throw (SqliteError "no such column: squad") s.
Proof. intros Hc. unfold update_squads, sql_update, bind. by rewrite Hc. Qed.

Lemma wf_classified s :
  col_squad s = true -> wf s -> wf (set_merge_requests (classify <$> merge_requests s) s).
Proof.
  intros Hc [Hcols Hempty Hsq Hdesc Hkeys Hpk].
  split; simpl; try done.
  - intros Ht. destruct (Hempty Ht) as [-> ->]. by rewrite fmap_empty.
  - congruence.
  - intros Hd k row (row0 & <- & Hk)%lookup_fmap_Some. simpl. by eapply Hdesc.
  - intros k row (row0 & <- & Hk)%lookup_fmap_Some. rewrite classify_row_key. by eapply Hkeys.
Qed.

(** ** Examples *)

Definition row_by (id : Z) (username : string) (sq : option string) : MergeRequestData :=
  {| row_id := id; project_id := 1; title := "change"; description := None;
     created_at := "2025-04-01T10:00:00.000Z";
     updated_at := "2025-04-02T10:00:00.000Z"; state := "opened";
     author_id := id; author_username := username;
     first_comment_at := None; approved_at := None; merged_at := None; squad := sq |}.

Definition authors_db : Db :=
  table_db [row_by 1 "qoyyim" None; row_by 2 "qoyyim" (Some "WEB");
            row_by 3 "dev" None; row_by 4 "dev" (Some "OPS");
            row_by 5 "ikhsan.hari" None; row_by 6 "ikhsan.hari" (Some "WEB")].

Example update_squads_sample :
  (fun s => (fun row => squad row) <$> merge_requests s) <$>
    final_state (update_squads authors_db) =
  Some (list_to_map [((1, 1), Some "CMS"); ((2, 1), Some "CMS");
                     ((3, 1), Some "WEB"); ((4, 1), Some "OPS");
                     ((5, 1), None); ((6, 1), Some "WEB")]).
Proof. vm_compute. reflexivity. Qed.

(** ** Theorems *)

(** C40: what the script assigns.  On a file that has the column, the script
    returns and changes nothing but the squads: a row of one of the five
    CMS authors ends with squad CMS whatever it had; a row of [ikhsan.hari]
    keeps what it had; any other row keeps its squad when it has one and
    gets WEB when it has none. *)
Theorem update_squads_classifies s :
  has_tables s = true -> col_squad s = true ->
  exists s', update_squads s = Ret tt s' /\
    projects s' = projects s /\
    dom (merge_requests s') = dom (merge_requests s) /\
    forall k row, merge_requests s !! k = Some row ->
      exists row', merge_requests s' !! k = Some row' /\
        same_but_squad row' row /\
        squad row' = squad_after (author_username row) (squad row).
Proof.
  intros Ht Hc. eexists. split; [by apply update_squads_run|]. simpl.
  split; [done|]. split; [apply dom_fmap_L|].
  intros k row Hk. exists (classify row). by rewrite lookup_fmap, Hk.
Qed.

Lemma authors_db_columns : has_tables authors_db = true /\ col_squad authors_db = true.
Proof. done. Qed.

Lemma update_squads_classifies_witness :
  exists s', update_squads authors_db = Ret tt s' /\
    projects s' = projects authors_db /\
    dom (merge_requests s') = dom (merge_requests authors_db) /\
    forall k row, merge_requests authors_db !! k = Some row ->
      exists row', merge_requests s' !! k = Some row' /\
        same_but_squad row' row /\
        squad row' = squad_after (author_username row) (squad row).
Proof. apply (update_squads_classifies authors_db); reflexivity. Defined.

(** The script is idempotent.  Running it a second time changes
    nothing. *)
Theorem update_squads_idempotent s s' :
  update_squads s = Ret tt s' -> update_squads s' = Ret tt s'.
Proof.
  intros Hrun. destruct (has_tables s && col_squad s) eqn:Hc.
  - apply andb_true_iff in Hc as [Ht Hc]. rewrite update_squads_run in Hrun by done.
    injection Hrun as <-. rewrite update_squads_run by done. simpl.
    f_equal. unfold set_merge_requests; simpl. f_equal.
    rewrite <- map_fmap_compose. apply map_fmap_ext. intros k row _. apply classify_idem.
  - by rewrite update_squads_failure in Hrun.
Qed.

Lemma update_squads_idempotent_witness :
  update_squads (default authors_db (final_state (update_squads authors_db)))
  = Ret tt (default authors_db (final_state (update_squads authors_db))).
Proof.
  apply (update_squads_idempotent authors_db). vm_compute. reflexivity.
Defined.

(** The script keeps the file well formed. *)
Theorem update_squads_wf s s' :
  wf s -> final_state (update_squads s) = Some s' -> wf s'.
Proof.
  intros Hwf Hrun. destruct (has_tables s && col_squad s) eqn:Hc.
  - apply andb_true_iff in Hc as [Ht Hc]. rewrite update_squads_run in Hrun by done.
    injection Hrun as <-. by apply wf_classified.
  - rewrite update_squads_failure in Hrun by done. by injection Hrun as <-.
Qed.

Lemma update_squads_wf_witness :
  wf (default authors_db (final_state (update_squads authors_db))).
Proof.
  apply (update_squads_wf authors_db); [apply wf_table_db | vm_compute; reflexivity].
Defined.
