(* ===== verification/Pipeline.v ===== *)
(** * Pipeline: synchronisation, classification, statistics

    The three ways the file is used, one after the other: a run of
    [processAndStoreMergeRequests] ([Sync]) writes rows, the script
    [update_squads.sql] ([Squads]) classifies them, and the two queries
    ([Analytics]) report on the classified rows.  The theorems here are about
    their interplay: what the statistics see after a run, and what a later
    run does to a classification. *)

From S2P Require Import Prelude JsModel TimeModel Remote Walker Store World Reconciler.
From S2P Require Import Enricher Sync Analytics Squads.

(** No row of the table is classified. *)
Definition unclassified (d : Db) : Prop :=
  forall k row, merge_requests d !! k = Some row -> squad row = None.

(** What the report is computed from: the result of the first query on a
    file, when the query returns. *)
Definition statistics `{Clock} (projectId : Z) (startDate endDate : option string) (d : Db)
    : option (gmap string SquadStats) :=
  returned (getMergeRequestStats projectId startDate endDate d).

Lemma unclassified_insert d k row :
  unclassified d -> squad row = None ->
  unclassified (set_merge_requests (<[k := row]> (merge_requests d)) d).
Proof.
  intros Hd Hrow k' row'. simpl. destruct (decide (k = k')) as [<-|Hne].
  - rewrite lookup_insert_eq. by intros [= <-].
  - rewrite lookup_insert_ne by done. apply Hd.
Qed.

Lemma unclassified_ext d d' :
  merge_requests d' = merge_requests d -> unclassified d -> unclassified d'.
Proof. unfold unclassified. by intros ->. Qed.

Lemma unclassified_fresh : unclassified (opened fresh_db).
Proof. intros k row Hk. simpl in Hk. by rewrite lookup_empty in Hk. Qed.

Lemma on_net_db {A} (c : prog Net exn A) w a w' :
  on_net c w = Ret a w' -> w_db w' = w_db w.
Proof. unfold on_net, zoom. destruct (c (w_net w)); by intros [= _ <-]. Qed.

Section Pipeline.
Context `{Clock}.
Variable r : Remote.
Variable fuel : nat.

(** The queries on a table without classified row select nothing. *)
Lemma unclassified_select_stats d projectId startDate endDate :
  unclassified d -> select_stats projectId startDate endDate (rows d) = ∅.
Proof.
  intros Hd. unfold select_stats. rewrite filter_none; [done|].
  intros row (k & Hk)%elem_of_rows Hw%Is_true_true.
  by rewrite where_stats_no_squad in Hw by (by eapply Hd).
Qed.

Lemma unclassified_select_late d projectId thresholdMinutes startDate endDate :
  unclassified d ->
  select_late projectId thresholdMinutes startDate endDate (rows d) = ∅.
Proof.
  intros Hd. unfold select_late. rewrite filter_none; [done|].
  intros row (k & Hk)%elem_of_rows Hw%Is_true_true.
  rewrite where_late_stats in Hw; [done|]. apply where_stats_no_squad. by eapply Hd.
Qed.

(** The handler classifies nothing. *)
Lemma process_one_unclassified projectId mr c w c' w' :
  ready (w_db w) -> unclassified (w_db w) ->
  process_one r fuel projectId mr c w = Ret c' w' ->
  ready (w_db w') /\ unclassified (w_db w').
Proof.
  intros Hr Hu Hrun.
  destruct (process_one_settles r fuel _ _ _ _ _ _ Hr Hrun) as (Hr' & _).
  split; [done|].
  destruct (process_one_ready r fuel projectId mr c w Hr) as [Hf|(w1 & Hrun1 & Hcase)];
    [congruence|].
  rewrite Hrun in Hrun1. injection Hrun1 as _ <-.
  destruct Hcase as [[_ ->]|(_ & details & ->)]; [done|].
  by apply unclassified_insert.
Qed.

Lemma process_all_unclassified projectId mrs : forall c w c' w',
  ready (w_db w) -> unclassified (w_db w) ->
  process_all r fuel projectId mrs c w = Ret c' w' ->
  ready (w_db w') /\ unclassified (w_db w').
Proof.
  induction mrs as [|mr mrs IH]; intros c w c' w' Hr Hu Hrun; simpl in Hrun.
  { by injection Hrun as _ <-. }
  apply bind_Ret_inv in Hrun as (c1 & w1 & Hone & Hrest).
  destruct (process_one_unclassified _ _ _ _ _ _ Hr Hu Hone) as [Hr1 Hu1].
  by eapply IH.
Qed.

Lemma run_unclassified projectId project w c w' :
  ready (w_db w) -> unclassified (w_db w) ->
  processAndStoreMergeRequests r fuel projectId project w = Ret c w' ->
  ready (w_db w') /\ unclassified (w_db w').
Proof.
  intros Hr Hu Hrun. unfold processAndStoreMergeRequests in Hrun.
  apply bind_Ret_inv in Hrun as (u & w0 & Hdb0%on_net_db & Hrun).
  apply bind_Ret_inv in Hrun as (mrs & w1 & Hdb%on_net_db & Hrest).
  rewrite <- Hdb0, <- Hdb in Hr, Hu. case_bool_decide.
  { apply bind_Ret_inv in Hrest as (u' & w2 & Hdb2%on_net_db & [= _ <-]).
    by rewrite Hdb2. }
  apply run_rest_inv in Hrest as (c0 & wA & wB & _ & HrA & _ & Hmr & _ & _ & Hall & ->);
    [|done].
  change (ready (w_db wB) /\ unclassified (w_db wB)).
  eapply process_all_unclassified; [done | by eapply unclassified_ext | exact Hall].
Qed.

(** What an update leaves in the table. *)
Lemma process_one_update projectId mr c w e details l :
  ready (w_db w) ->
  merge_requests (w_db w) !! (mr_id mr, projectId) = Some e ->
  reconcile mr (Some e) = Update ->
  fetchMergeRequestDetails r fuel projectId (mr_iid mr) [] = Ret details l ->
  process_one r fuel projectId mr c w =
  Ret (count Update c)
      (enriched projectId mr details (w_net w ++ Logged (action_line Update mr) :: l) w).
Proof.
  intros Hr He Hu Hd.
  assert (decision projectId (w_db w) mr = Update) as Hdec
    by (unfold decision; by rewrite He).
  rewrite <- Hdec. eapply process_one_fetches; [done | | done].
  unfold settled. by rewrite Hdec.
Qed.

End Pipeline.

(** ** Theorems *)

Section PipelineTheorems.
Context `{Clock}.
Variable r : Remote.
Variable fuel : nat.

(** C32: a run classifies nothing.  On a store where no merge request is
    classified (a new file, for one), a run that returns leaves none
    classified, and both queries then report nothing for the project: the
    statistics are empty until the script [update_squads.sql] has run. *)
Theorem sync_alone_reports_nothing projectId project w c w' startDate endDate
    thresholdMinutes :
  ready (w_db w) -> unclassified (w_db w) ->
  processAndStoreMergeRequests r fuel projectId project w = Ret c w' ->
  unclassified (w_db w') /\
  getMergeRequestStats projectId startDate endDate (w_db w') = Ret ∅ (w_db w') /\
  countMrsWithLateFirstComment projectId thresholdMinutes startDate endDate (w_db w')
  = Ret ∅ (w_db w').
Proof.
  intros Hr Hu Hrun.
  destruct (run_unclassified r fuel _ _ _ _ _ Hr Hu Hrun) as [Hr' Hu'].
  destruct (ready_has_squad_column _ Hr') as (Hh & Hc & Hf & Hop).
  rewrite getMergeRequestStats_run, countMrsWithLateFirstComment_run by done.
  by rewrite unclassified_select_stats, unclassified_select_late.
Qed.

(** C33: an updated merge request leaves the statistics.  After the update
    of a stored merge request, whatever its squad was, the statistics are
    those of the table without it: the row saved has no squad, and the
    queries count classified rows only. *)
Theorem updated_row_leaves_statistics projectId mr c w e details log' startDate endDate :
  ready (w_db w) ->
  merge_requests (w_db w) !! (mr_id mr, projectId) = Some e ->
  reconcile mr (Some e) = Update ->
  fetchMergeRequestDetails r fuel projectId (mr_iid mr) [] = Ret details log' ->
  exists c' w', process_one r fuel projectId mr c w = Ret c' w' /\
    statistics projectId startDate endDate (w_db w')
    = statistics projectId startDate endDate (without (mr_id mr, projectId) (w_db w)).
Proof.
  intros Hr He Hu Hd. destruct (ready_has_squad_column _ Hr) as (Hh & Hc & Hf & Hop).
  eexists _, _. split; [by eapply process_one_update|]. unfold statistics. simpl.
  rewrite !getMergeRequestStats_run by done. simpl. f_equal.
  rewrite rows_insert. by apply select_stats_rejected, where_stats_no_squad.
Qed.

(** The classification after a re-run of the script.  When a stored
    merge request is updated and the script is run again, the merge request
    ends with the squad the script gives its author from nothing: CMS for the
    five CMS authors, none for [ikhsan.hari], WEB for anyone else.  A squad
    that had been assigned in another way is not restored. *)
Theorem reclassification_after_update projectId mr c w e details log' :
  ready (w_db w) ->
  merge_requests (w_db w) !! (mr_id mr, projectId) = Some e ->
  reconcile mr (Some e) = Update ->
  fetchMergeRequestDetails r fuel projectId (mr_iid mr) [] = Ret details log' ->
  exists c' w' d row, process_one r fuel projectId mr c w = Ret c' w' /\
    update_squads (w_db w') = Ret tt d /\
    merge_requests d !! (mr_id mr, projectId) = Some row /\
    squad row = squad_after (username (mr_author mr)) None.
Proof.
  intros Hr He Hu Hd. pose proof Hr as (_ & Ht & Hc & _).
  eexists _, _, _, _. split; [by eapply process_one_update|].
  split; [by apply update_squads_run|]. simpl.
  by rewrite lookup_fmap, lookup_insert_eq.
Qed.

End PipelineTheorems.

(** ** The theorems at the examples *)

Lemma sync_alone_reports_nothing_witness :
  unclassified (w_db (world_after first_run)) /\
  getMergeRequestStats 1 None None (w_db (world_after first_run))
  = Ret ∅ (w_db (world_after first_run)) /\
  countMrsWithLateFirstComment 1 (Real (minutes 0)) None None (w_db (world_after first_run))
  = Ret ∅ (w_db (world_after first_run)).
Proof.
  apply (sync_alone_reports_nothing sync_remote 3 1 sample_project start_world
           (Some {| skippedCount := 0; updatedCount := 0; newCount := 3 |})
           (world_after first_run) None None (Real (minutes 0))).
  - apply start_world_ready.
  - apply unclassified_fresh.
  - vm_compute. reflexivity.
Defined.

Lemma updated_row_leaves_statistics_witness :
  squad sample_row = Some "WEB" /\
  exists c' w', process_one sync_remote 3 1 changed_mr no_counts squad_world = Ret c' w' /\
    statistics 1 None None (w_db w')
    = statistics 1 None None (without (mr_id changed_mr, 1) (w_db squad_world)).
Proof.
  split; [reflexivity|].
  apply (updated_row_leaves_statistics sync_remote 3 1 changed_mr no_counts squad_world
           sample_row sample_details sample_walk None None).
  - by repeat split.
  - vm_compute. reflexivity.
  - vm_compute. reflexivity.
  - vm_compute. reflexivity.
Defined.

(** A merge request of author [dev] that had been given the squad OPS by
    hand. *)
Definition ops_row : MergeRequestData := set_squad (Some "OPS") sample_row.

Definition ops_world : World :=
  {| w_db := table_db [ops_row]; w_net := [] |}.

Lemma reclassification_after_update_witness :
  squad ops_row = Some "OPS" /\
  exists c' w' d row, process_one sync_remote 3 1 changed_mr no_counts ops_world = Ret c' w' /\
    update_squads (w_db w') = Ret tt d /\
    merge_requests d !! (mr_id changed_mr, 1) = Some row /\
    squad row = Some "WEB".
Proof.
  split; [reflexivity|].
  apply (reclassification_after_update sync_remote 3 1 changed_mr no_counts ops_world
           ops_row sample_details sample_walk).
  - apply ready_table_db.
  - vm_compute. reflexivity.
  - vm_compute. reflexivity.
  - vm_compute. reflexivity.
Defined.
