(* ===== verification/Queries.v ===== *)
(** * Queries: the statements run by hand

    The read-only statements kept beside the program and run on the file
    with the command line of SQLite: [src/unnamed/part_001] (the WEB merge
    requests since a date), [src/unnamed/part_002] (the merge requests
    created late in the day of GMT+7, twice, and their distribution by
    hour), and the SELECT that ends [src/update_squads.sql].

    A statement is read as SQLite parses it: the WHERE clause is a filter
    of the rows, the result columns are computed row by row, GROUP BY is a
    finite map from the key to its rows, and ORDER BY is a sort of the
    result ([order_by]); among rows with equal keys SQLite promises no
    order, and the theorems promise none.  The arithmetic of the result
    columns is on SQL values ([sql_value]: NULL, an integer or a text), with
    SQLite's conversions: an integer in a concatenation is its decimal text,
    and a text in a division is the integer it starts with.  That matters
    for the column [duration_until_first_comment], where [||] binds tighter
    than [/].

    [datetime(created_at, '+7 hours')] is the instant of [created_at] plus
    seven hours written by [datetime_text]; [strftime('%H', ...)] of it is
    its hour in two digits, and [CAST(... AS INTEGER)] reads those digits
    back. *)

From S2P Require Import Prelude JsModel TimeModel TimeOrder Remote Store Analytics.
From S2P Require Import Squads.
From stdpp Require Import sorting pretty.
From Stdlib Require Import Ascii QArith Qcanon Qround.

#[local] Close Scope Qc_scope.
#[local] Close Scope Q_scope.
#[local] Open Scope Z_scope.

(** ** SQL values and their conversions *)

Inductive sql_value : Type :=
| SqlNull
| SqlInteger (z : Z)
| SqlText (s : string).

#[export] Instance sql_value_eq_dec : EqDecision sql_value.
Proof. solve_decision. Defined.

(** The integer a text starts with: its leading digits, [acc] when there
    is none. *)
Fixpoint digits_prefix (acc : Z) (s : string) : Z :=
  match s with
  | String a s' =>
      match digit_of a with
      | Some d => digits_prefix (10 * acc + d) s'
      | None => acc
      end
  | EmptyString => acc
  end.

(** A value used as an integer: a text counts for the integer it starts
    with, after an optional sign. *)
Definition to_integer (v : sql_value) : option Z :=
  match v with
  | SqlNull => None
  | SqlInteger z => Some z
  | SqlText (String "-" s) => Some (- digits_prefix 0 s)
  | SqlText s => Some (digits_prefix 0 s)
  end.

(** A value used as a text. *)
Definition to_text (v : sql_value) : option string :=
  match v with
  | SqlNull => None
  | SqlInteger z => Some (pretty z)
  | SqlText s => Some s
  end.

(** [a || b]. *)
Definition sql_concat (a b : sql_value) : sql_value :=
  match to_text a, to_text b with
  | Some x, Some y => SqlText (x +:+ y)
  | _, _ => SqlNull
  end.

(** [a - b] on integers. *)
Definition sql_sub (a b : sql_value) : sql_value :=
  match to_integer a, to_integer b with
  | Some x, Some y => SqlInteger (x - y)
  | _, _ => SqlNull
  end.

(** [a / b] on integers: the quotient towards zero, NULL for a division by
    zero. *)
Definition sql_div (a b : sql_value) : sql_value :=
  match to_integer a, to_integer b with
  | Some x, Some y => if bool_decide (y = 0) then SqlNull else SqlInteger (Z.quot x y)
  | _, _ => SqlNull
  end.

(** [a % b] on integers: the remainder has the sign of [a]. *)
Definition sql_rem (a b : sql_value) : sql_value :=
  match to_integer a, to_integer b with
  | Some x, Some y => if bool_decide (y = 0) then SqlNull else SqlInteger (Z.rem x y)
  | _, _ => SqlNull
  end.

(** [round(x, 2)]: the nearest hundredth, a half going away from zero. *)
Definition round2 (q : Qc) : Qc :=
  let n := (this q * 100)%Q in
  Q2Qc (inject_Z (if Qle_bool 0 n then Qfloor (n + (1 # 2)) else Qceiling (n - (1 # 2)))
        / 100)%Q.

(** ** Running a statement *)

(** A SELECT over [merge_requests] run by the command line: it fails when
    the schema lacks what it names, and changes nothing. *)
Definition cli_select {A} (ok : Db -> bool) (msg : string)
    (f : list MergeRequestData -> A) : prog Db exn A :=
  fun s => if ok s then Ret (f (rows s)) s else Throw (SqliteError msg) s.

(** ** GROUP BY and ORDER BY *)

(** [GROUP BY key], one pass over the rows: a row joins the group of its
    key. *)
Definition group_by {A K} `{Countable K} (key : A -> K) (l : list A) : gmap K (list A) :=
  foldr (fun row m => <[key row := row :: default [] (m !! key row)]> m) ∅ l.

(** The order of two TEXT values. *)
Definition text_before (a b : string) : Prop := text_le a b = true.

#[export] Instance text_before_dec : RelDecision text_before.
Proof. intros a b. unfold text_before. apply _. Defined.

(** NULL sorts before every value. *)
Definition null_first {K} (le : relation K) : relation (option K) :=
  fun a b =>
    match a, b with
    | None, _ => True
    | Some _, None => False
    | Some x, Some y => le x y
    end.

#[export] Instance null_first_dec {K} (le : relation K) `{!RelDecision le} :
  RelDecision (null_first le).
Proof. intros [x|] [y|]; simpl; apply _. Defined.

(** [ORDER BY k1, k2]: by the first key, and by the second among equal
    first keys. *)
Definition by_two {K1 K2} (le1 : relation K1) (le2 : relation K2) : relation (K1 * K2) :=
  fun a b => le1 a.1 b.1 /\ (le1 b.1 a.1 -> le2 a.2 b.2).

#[export] Instance by_two_dec {K1 K2} (le1 : relation K1) (le2 : relation K2)
  `{!RelDecision le1, !RelDecision le2} : RelDecision (by_two le1 le2).
Proof. intros a b. unfold by_two. apply _. Defined.

(** [ORDER BY key]: the rows sorted by [le] on their keys; [flip le] for
    DESC. *)
Definition order_by {A K} (le : relation K) `{!RelDecision le} (key : A -> K)
    (l : list A) : list A :=
  @merge_sort A (fun a b => le (key a) (key b))
    (fun a b => decide_rel le (key a) (key b)) l.

(** ** part_001: the WEB merge requests since a date *)

(** The literal of the WHERE clause. *)
Definition since : string := "2025-04-01 00:00:00".

(** [WHERE created_at >= '2025-04-01 00:00:00' and squad = 'WEB']. *)
Definition where_web_since (row : MergeRequestData) : bool :=
  text_ge (created_at row) since && bool_decide (squad row = Some "WEB").

(** [SELECT id, description ... ORDER BY created_at ASC]. *)
Definition web_since (l : list MergeRequestData) : list (Z * option string) :=
  (fun row => (row_id row, description row))
    <$> order_by text_before created_at (filter (fun row => where_web_since row = true) l).

Definition part_001 : prog Db exn (list (Z * option string)) :=
  cli_select (fun s => has_tables s && col_squad s && col_description s)
    "no such column: squad" web_since.

(** ** part_002: the merge requests created late in the day *)

(** A row of the first two statements; [gmt7_part] is the column
    [hour_gmt7] of the first and [time_gmt7] of the second. *)
Record LateRow : Type := {
  l_id : Z;
  l_project_id : Z;
  l_title : string;
  created_at_utc : string;
  created_at_gmt7 : option string;
  gmt7_part : option string;
  l_author_username : string;
  l_squad : option string;
  l_first_comment_at : option string;
  minutes_until_first_comment : option Qc;
  duration_until_first_comment : sql_value;
}.

(** A row of the third statement. *)
Record HourStats : Type := {
  hour_gmt7 : option string;
  mr_count : nat;
  hs_squad : option string;
  avg_minutes_until_comment : option Qc;
}.

(** [strftime('%H', t)] and [strftime('%H:%M:%S', t)] of the text [datetime]
    returns for an instant. *)
Definition hour_text (z : Z) : string := show_digits 2 (hour (civil_of_seconds z)) "".

Definition clock_text (z : Z) : string :=
  let c := civil_of_seconds z in show_clock (hour c) (minute c) (second c) "".

Section Late.
Context `{Clock}.

(** The instant of [datetime(t, '+7 hours')], NULL when [t] is no date. *)
Definition plus_7_hours (t : string) : option Z :=
  (fun z => z + 7 * 3600) <$> strftime_s t.

(** [CAST(strftime('%H', datetime(created_at, '+7 hours')) AS INTEGER) >= 16]. *)
Definition where_late_hour (row : MergeRequestData) : bool :=
  match hour_text <$> plus_7_hours (created_at row) with
  | Some h => bool_decide (16 <= digits_prefix 0 h)
  | None => false
  end.

(** [strftime('%s', t)] as a value. *)
Definition seconds_value (t : string) : sql_value :=
  match strftime_s t with
  | Some z => SqlInteger z
  | None => SqlNull
  end.

(** The second CASE of the SELECT list, as SQLite parses it: [||] binds
    tighter than [/], so the expression is [d / (3600 || 'h ' || (d % 3600))
    / (60 || 'm ' || (d % 60) || 's')]. *)
Definition duration_of (row : MergeRequestData) : sql_value :=
  match first_comment_at row with
  | Some first_comment =>
      let d := sql_sub (seconds_value first_comment) (seconds_value (created_at row)) in
      sql_div
        (sql_div d (sql_concat (sql_concat (SqlInteger 3600) (SqlText "h "))
                      (sql_rem d (SqlInteger 3600))))
        (sql_concat
           (sql_concat (sql_concat (SqlInteger 60) (SqlText "m "))
              (sql_rem d (SqlInteger 60)))
           (SqlText "s"))
  | None => SqlText "No comment yet"
  end.

(** The SELECT list of the first two statements on one row. *)
Definition late_row (part : Z -> string) (row : MergeRequestData) : LateRow :=
  {| l_id := row_id row; l_project_id := project_id row; l_title := title row;
     created_at_utc := created_at row;
     created_at_gmt7 := datetime_text <$> plus_7_hours (created_at row);
     gmt7_part := part <$> plus_7_hours (created_at row);
     l_author_username := author_username row; l_squad := squad row;
     l_first_comment_at := first_comment_at row;
     minutes_until_first_comment := round2 <$> delta first_comment_at row;
     duration_until_first_comment := duration_of row |}.

(** [SELECT ... WHERE ... >= 16 ORDER BY created_at_gmt7 DESC]. *)
Definition late_hours (part : Z -> string) (l : list MergeRequestData) : list LateRow :=
  order_by (flip (null_first text_before)) created_at_gmt7
    (late_row part <$> filter (fun row => where_late_hour row = true) l).

(** The key of the third statement: [GROUP BY hour_gmt7, squad]. *)
Definition hour_key (row : MergeRequestData) : option string * option string :=
  (hour_text <$> plus_7_hours (created_at row), squad row).

(** The SELECT list of the third statement on one group. *)
Definition hour_stats (k : option string * option string) (g : list MergeRequestData)
    : HourStats :=
  {| hour_gmt7 := k.1; mr_count := length g; hs_squad := k.2;
     avg_minutes_until_comment := avg (delta first_comment_at <$> g) |}.

(** [SELECT ... WHERE squad IS NOT NULL GROUP BY hour_gmt7, squad ORDER BY
    squad, hour_gmt7]. *)
Definition distribution (l : list MergeRequestData) : list HourStats :=
  order_by (by_two (null_first text_before) (null_first text_before))
    (fun r => (hs_squad r, hour_gmt7 r))
    (uncurry hour_stats
       <$> map_to_list (group_by hour_key (filter (fun row => is_Some (squad row)) l))).

Definition part_002 : prog Db exn (list LateRow * list LateRow * list HourStats) :=
  cli_select (fun s => has_tables s && col_squad s) "no such column: squad"
    (fun l => (late_hours hour_text l, late_hours clock_text l, distribution l)).

End Late.

(** ** The SELECT that ends update_squads.sql *)

(** [SELECT author_username, squad, COUNT( * ) ... GROUP BY author_username,
    squad ORDER BY squad, author_username]. *)
Definition verify_squads (l : list MergeRequestData)
    : list (string * option string * nat) :=
  order_by (by_two (null_first text_before) text_before) (fun r => (r.1.2, r.1.1))
    ((fun kg => (kg.1, length kg.2))
       <$> map_to_list (group_by (fun row => (author_username row, squad row)) l)).

Definition verify : prog Db exn (list (string * option string * nat)) :=
  cli_select (fun s => has_tables s && col_squad s) "no such column: squad" verify_squads.

(** ** A table for the examples *)

Definition row_on (id : Z) (created : string) (first_comment : option string)
    (sq : option string) : MergeRequestData :=
  {| row_id := id; project_id := 1; title := "change"; description := Some "text";
     created_at := created; updated_at := "2025-04-05T10:00:00.000Z";
     state := "opened"; author_id := 7; author_username := "dev";
     first_comment_at := first_comment; approved_at := None; merged_at := None;
     squad := sq |}.

(** Five merge requests created, in GMT+7, at 06:59 of the first of April,
    at 15:59 and 16:00 of that day, at 23:59 of the second and at midnight
    of the third. *)
Definition day_table : list MergeRequestData :=
  [ row_on 1 "2025-03-31T23:59:59.000Z" None (Some "WEB");
    row_on 2 "2025-04-01T08:59:59.000Z" (Some "2025-04-01T09:30:00.000Z") (Some "WEB");
    row_on 3 "2025-04-01T09:00:00.000Z" (Some "2025-04-04T09:02:03.000Z") (Some "WEB");
    row_on 4 "2025-04-02T16:59:59.000Z" (Some "2025-04-02T17:40:10.000Z") (Some "CMS");
    row_on 5 "2025-04-02T17:00:00.000Z" None None ].

(** ** Facts on the conversions *)

Lemma digits_prefix_show_digits n : forall acc w,
  0 <= w < 10 ^ Z.of_nat n ->
  digits_prefix acc (show_digits n w "") = acc * 10 ^ Z.of_nat n + w.
Proof.
  induction n as [|n IH]; intros acc w Hw; simpl.
  { simpl in Hw. lia. }
  pose proof (pow10_pos n) as Hp. rewrite pow10_S in *.
  pose proof (Z.div_mod w (10 ^ Z.of_nat n) ltac:(lia)).
  pose proof (Z.mod_pos_bound w (10 ^ Z.of_nat n) Hp).
  assert (0 <= w / 10 ^ Z.of_nat n <= 9) as Hq.
  { split; [apply Z.div_pos; lia|]. apply Z.lt_succ_r, Z.div_lt_upper_bound; lia. }
  rewrite digit_of_digit_char, IH by done. nia.
Qed.

(** The hour of an instant, and the cast of its two digits. *)
Lemma hour_of_seconds z : hour (civil_of_seconds z) = z mod 86400 / 3600.
Proof. unfold civil_of_seconds. by destruct (civil_from_days _) as [[y m] d]. Qed.

Lemma cast_hour_text z : digits_prefix 0 (hour_text z) = z mod 86400 / 3600.
Proof.
  unfold hour_text. rewrite hour_of_seconds, digits_prefix_show_digits; [lia|].
  change (10 ^ Z.of_nat 2) with 100. Z.div_mod_to_equations; lia.
Qed.

Lemma sql_rem_integers x y :
  y <> 0 -> sql_rem (SqlInteger x) (SqlInteger y) = SqlInteger (Z.rem x y).
Proof. intros Hy. unfold sql_rem. simpl. by rewrite bool_decide_eq_false_2. Qed.

Lemma sql_div_integer x v y :
  to_integer v = Some y -> y <> 0 -> sql_div (SqlInteger x) v = SqlInteger (Z.quot x y).
Proof. intros Hv Hy. unfold sql_div. simpl. by rewrite Hv, bool_decide_eq_false_2. Qed.

(** ** Facts on GROUP BY and ORDER BY *)

Lemma text_le_total a b : text_le a b = true \/ text_le b a = true.
Proof.
  unfold text_le, String.leb. rewrite (String.compare_antisym b a).
  destruct (String.compare a b); simpl; auto.
Qed.

#[export] Instance text_before_total : Total text_before.
Proof. intros a b. apply text_le_total. Qed.

#[export] Instance null_first_total {K} (le : relation K) `{!Total le} :
  Total (null_first le).
Proof. intros [x|] [y|]; simpl; auto. Qed.

(** Not an instance: [flip le] unifies with every relation. *)
Lemma flip_total {K} (le : relation K) `{!Total le} : Total (flip le).
Proof. intros a b. unfold flip. destruct (total le a b); auto. Qed.

#[export] Instance by_two_total {K1 K2} (le1 : relation K1) (le2 : relation K2)
  `{!RelDecision le1, !Total le1, !Total le2} : Total (by_two le1 le2).
Proof.
  intros [a1 a2] [b1 b2]. unfold by_two. simpl.
  destruct (decide (le1 a1 b1)), (decide (le1 b1 a1)), (total le1 a1 b1),
    (total le2 a2 b2); tauto.
Qed.

Section OrderBy.
Context {A K : Type} (le : relation K) `{!RelDecision le} (key : A -> K).

(** The result of [ORDER BY] holds the rows it was given... *)
Lemma order_by_perm l : order_by le key l ≡ₚ l.
Proof. apply merge_sort_Permutation. Qed.

(** ... with their keys in order. *)
Lemma order_by_sorted `{!Total le} l :
  Sorted (fun a b => le (key a) (key b)) (order_by le key l).
Proof. apply Sorted_merge_sort. intros a b. apply (total le). Qed.

End OrderBy.

Section GroupBy.
Context {A K : Type} `{Countable K} (key : A -> K).

(** The group of a key holds the rows with that key, in the order of the
    table; a key without a row has no group. *)
Lemma group_by_lookup l k :
  group_by key l !! k = nonempty (filter (fun row => key row = k) l).
Proof.
  induction l as [|row l IH]; simpl; [done|].
  destruct (decide (key row = k)) as [<-|Hne].
  - rewrite lookup_insert_eq, filter_cons_True by done.
    by rewrite IH, nonempty_default.
  - rewrite lookup_insert_ne, filter_cons_False by done. apply IH.
Qed.

(** The groups partition the rows. *)
Lemma group_by_sizes l :
  sum_list (length <$> (map_to_list (group_by key l)).*2) = length l.
Proof.
  induction l as [|row l IH]; simpl; [by rewrite map_to_list_empty|].
  set (m := group_by key l) in *. rewrite <- IH.
  destruct (m !! key row) as [g|] eqn:Hg; simpl.
  - assert (m = <[key row := g]> (delete (key row) m)) as Em
      by (by rewrite insert_delete_eq, insert_id).
    rewrite <- (insert_delete_eq m). remember (delete (key row) m) as d eqn:Ed.
    assert (d !! key row = None) as Hd by (subst d; apply lookup_delete_eq).
    rewrite Em, !map_to_list_insert by done. simpl. lia.
  - by rewrite map_to_list_insert.
Qed.

(** The groups of the result: one for each key that has a row, holding the
    rows with that key. *)
Lemma group_by_elem l k g :
  (k, g) ∈ map_to_list (group_by key l) <->
  g = filter (fun row => key row = k) l /\ g <> [].
Proof.
  rewrite elem_of_map_to_list, group_by_lookup. split.
  - by intros [-> ?]%nonempty_Some.
  - intros [-> Hne]. by destruct (filter _ l).
Qed.

(** No key has two groups. *)
Lemma group_by_keys l : NoDup (map_to_list (group_by key l)).*1.
Proof. apply NoDup_fst_map_to_list. Qed.

End GroupBy.

(** A sorted list is sorted for every relation that holds of its elements
    where the first does. *)
Lemma Sorted_weaken {A} (R R' : relation A) (P : A -> Prop) l :
  Forall P l -> (forall x y, P x -> P y -> R x y -> R' x y) ->
  Sorted R l -> Sorted R' l.
Proof.
  intros HP Himpl Hs. induction Hs as [|x l Hs IH Hhd]; [constructor|].
  apply Forall_cons in HP as [Hx Hl]. constructor; [by apply IH|].
  destruct Hhd as [|y l' Hxy]; constructor.
  apply Forall_cons in Hl as [Hy _]. by apply Himpl.
Qed.

(** The rows of the verification of the script: one for each pair of an
    author and a squad that has a merge request, with their number. *)
Lemma verify_squads_elem l author sq n :
  (author, sq, n) ∈ verify_squads l <->
  n = length (filter (fun row => (author_username row, squad row) = (author, sq)) l) /\
  n <> 0%nat.
Proof.
  unfold verify_squads. rewrite order_by_perm, list_elem_of_fmap. split.
  - intros ([k g] & [= -> ->] & [-> Hne]%group_by_elem). simpl.
    by rewrite length_zero_iff_nil.
  - intros [-> Hne]. eexists (_, _). split; [done|]. apply group_by_elem.
    split; [done|]. by rewrite <- length_zero_iff_nil.
Qed.

(** What the script leaves in the column, by author. *)
Lemma squad_after_cms username before :
  username ∈ cms_authors -> squad_after username before = Some "CMS".
Proof. intros Hc. unfold squad_after. by rewrite bool_decide_eq_true_2. Qed.

Lemma squad_after_None username before :
  squad_after username before = None -> username = "ikhsan.hari" /\ before = None.
Proof.
  unfold squad_after. repeat case_bool_decide; try done. by destruct before.
Qed.

(** ** Examples *)

Example late_hours_sample :
  (fun r => (l_id r, created_at_gmt7 r, gmt7_part r, duration_until_first_comment r))
    <$> late_hours hour_text day_table
  = [ (4, Some "2025-04-02 23:59:59", Some "23", SqlInteger 0);
      (3, Some "2025-04-01 16:00:00", Some "16", SqlInteger 1) ].
Proof. vm_compute. reflexivity. Qed.

Example late_hours_detailed_sample :
  gmt7_part <$> late_hours clock_text day_table = [Some "23:59:59"; Some "16:00:00"].
Proof. vm_compute. reflexivity. Qed.

Example distribution_sample :
  (fun r => (hs_squad r, hour_gmt7 r, mr_count r)) <$> distribution day_table
  = [ (Some "CMS", Some "23", 1%nat); (Some "WEB", Some "06", 1%nat);
      (Some "WEB", Some "15", 1%nat); (Some "WEB", Some "16", 1%nat) ].
Proof. vm_compute. reflexivity. Qed.

Example web_since_sample : web_since day_table = [(2, Some "text"); (3, Some "text")].
Proof. vm_compute. reflexivity. Qed.

Example verify_squads_sample :
  verify_squads day_table = [("dev", None, 1%nat); ("dev", Some "CMS", 1%nat);
                             ("dev", Some "WEB", 3%nat)].
Proof. vm_compute. reflexivity. Qed.

(** ** Theorems *)

Section QueriesTheorems.
Context `{Clock}.

(** C31: the duration column is a number.  In [x / 3600 || 'h ' || ...]
    the concatenations are evaluated before the divisions, so the column
    [duration_until_first_comment] of a merge request with a first comment
    is not the text of hours, minutes and seconds the comment of the
    statement announces: it is the number of seconds divided by 3600 and
    then by 60, towards zero. *)
Theorem duration_is_a_number row first_comment a b :
  first_comment_at row = Some first_comment ->
  strftime_s (created_at row) = Some a -> strftime_s first_comment = Some b ->
  duration_of row = SqlInteger (Z.quot (Z.quot (b - a) 3600) 60).
Proof.
  intros Hfc Ha Hb. unfold duration_of, seconds_value. rewrite Hfc, Ha, Hb.
  cbv zeta. change (sql_sub (SqlInteger b) (SqlInteger a)) with (SqlInteger (b - a)).
  rewrite !sql_rem_integers by done.
  by rewrite (sql_div_integer (b - a) _ 3600), (sql_div_integer _ _ 60).
Qed.

(** Late in the day of GMT+7 is an afternoon of UTC.  The WHERE clause
    of the first two statements keeps the merge requests whose time of day
    in UTC is between 09:00:00 and 16:59:59, whatever the date; a
    [created_at] that is no date is left out. *)
Theorem late_hour_is_utc_window row :
  where_late_hour row =
  match strftime_s (created_at row) with
  | Some z => bool_decide (9 * 3600 <= z mod 86400 < 17 * 3600)
  | None => false
  end.
Proof.
  unfold where_late_hour, plus_7_hours.
  destruct (strftime_s (created_at row)) as [z|]; [|done].
  change (bool_decide (16 <= digits_prefix 0 (hour_text (z + 7 * 3600)))
          = bool_decide (9 * 3600 <= z mod 86400 < 17 * 3600)).
  rewrite cast_hour_text. apply bool_decide_ext. Z.div_mod_to_equations; lia.
Qed.

(** What the first two statements hold of a row they return. *)
Lemma late_row_instant part row :
  where_late_hour row = true ->
  exists z, strftime_s (created_at_utc (late_row part row)) = Some z /\
            created_at_gmt7 (late_row part row) = Some (datetime_text (z + 7 * 3600)).
Proof.
  unfold where_late_hour, late_row, plus_7_hours. simpl.
  destruct (strftime_s (created_at row)) as [z|]; [|done]. intros _. by exists z.
Qed.

(** The late merge requests, the latest first.  The first two
    statements return the rows the WHERE clause keeps, each once, and in
    the order of their instants, the latest first, as long as the instants
    are of the years 0000 to 9999. *)
Theorem late_hours_in_order part l :
  (forall row z, row ∈ l -> strftime_s (created_at row) = Some z ->
                 sql_range (z + 7 * 3600)) ->
  late_hours part l ≡ₚ late_row part <$> filter (fun row => where_late_hour row = true) l /\
  Sorted (fun r1 r2 => exists z1 z2, strftime_s (created_at_utc r1) = Some z1 /\
                         strftime_s (created_at_utc r2) = Some z2 /\ z2 <= z1)
    (late_hours part l).
Proof.
  intros Hrange. split; [apply order_by_perm|].
  apply (Sorted_weaken
           (fun a b => flip (null_first text_before) (created_at_gmt7 a) (created_at_gmt7 b))
           _ (fun r => exists z, strftime_s (created_at_utc r) = Some z /\
                        sql_range (z + 7 * 3600) /\
                        created_at_gmt7 r = Some (datetime_text (z + 7 * 3600)))).
  - unfold late_hours. rewrite order_by_perm. apply Forall_fmap, Forall_forall.
    intros row [Hw Hin]%list_elem_of_filter.
    destruct (late_row_instant part row Hw) as (z & Hz & Hg). exists z.
    split; [done|]. split; [|done]. by apply (Hrange row).
  - intros r1 r2 (z1 & Hz1 & Hr1 & Hg1) (z2 & Hz2 & Hr2 & Hg2) Hrel.
    unfold flip in Hrel. rewrite Hg1, Hg2 in Hrel.
    change (text_le (datetime_text (z2 + 7 * 3600)) (datetime_text (z1 + 7 * 3600)) = true)
      in Hrel.
    rewrite datetime_order in Hrel by done. apply bool_decide_eq_true in Hrel.
    exists z1, z2. repeat split; try done. lia.
  - apply (@order_by_sorted _ _ (flip (null_first text_before)) _ created_at_gmt7
             (flip_total _)).
Qed.

(** The distribution counts every classified merge request once.  The
    counts of the third statement add up to the number of merge requests
    that have a squad. *)
Theorem distribution_counts l :
  sum_list (mr_count <$> distribution l)
  = length (filter (fun row => is_Some (squad row)) l).
Proof.
  unfold distribution. rewrite order_by_perm, <- list_fmap_compose.
  rewrite <- (group_by_sizes hour_key). unfold fmap at 2. rewrite <- list_fmap_compose.
  f_equal. apply list_fmap_ext. by intros _ [k g] _.
Qed.

(** The rows of the distribution.  The third statement returns one row
    for each pair of an hour of GMT+7 and a squad under which a classified
    merge request falls, and no other; the row counts the merge requests of
    the pair; no pair has two rows; and the rows come by squad, and by hour
    within a squad. *)
Theorem distribution_rows l :
  (forall r, r ∈ distribution l <->
     exists k, let g := filter (fun row => hour_key row = k)
                          (filter (fun row => is_Some (squad row)) l) in
               g <> [] /\ r = hour_stats k g) /\
  NoDup ((fun r => (hour_gmt7 r, hs_squad r)) <$> distribution l) /\
  Sorted (fun a b => by_two (null_first text_before) (null_first text_before)
                       (hs_squad a, hour_gmt7 a) (hs_squad b, hour_gmt7 b))
    (distribution l).
Proof.
  unfold distribution. split; [|split].
  - intros r. rewrite order_by_perm, list_elem_of_fmap. split.
    + intros ([k g] & -> & [-> Hne]%group_by_elem). by exists k.
    + intros (k & Hne & ->). eexists (k, _). split; [done|]. by apply group_by_elem.
  - rewrite order_by_perm, <- list_fmap_compose.
    rewrite (list_fmap_ext _ fst) by (by intros _ [[] ?] _). apply group_by_keys.
  - apply (order_by_sorted _ (fun r => (hs_squad r, hour_gmt7 r))).
Qed.

End QueriesTheorems.

(** What the script shows of its outcome.  When the script has run, its
    last statement returns, changes nothing, and lists each pair of an
    author and a squad that has a merge request, with the number of its
    merge requests; an author of the CMS list is shown with CMS only, and
    the only author that can be shown without a squad is [ikhsan.hari]. *)
Theorem verify_after_update s s' :
  update_squads s = Ret tt s' ->
  exists v, verify s' = Ret v s' /\
    forall author sq n, (author, sq, n) ∈ v ->
      n = length (filter (fun row => (author_username row, squad row) = (author, sq))
                    (rows s')) /\
      (author ∈ cms_authors -> sq = Some "CMS") /\
      (sq = None -> author = "ikhsan.hari").
Proof.
  intros Hrun. destruct (has_tables s && col_squad s) eqn:Hok;
    [|by rewrite update_squads_failure in Hrun].
  apply andb_prop in Hok as [Ht Hc]. rewrite update_squads_run in Hrun by done.
  injection Hrun as <-. eexists. split; [unfold verify, cli_select; simpl; by rewrite Ht, Hc|].
  intros author sq n [-> Hne]%verify_squads_elem. split; [done|].
  destruct (filter _ _) as [|row g] eqn:Hg; [done|].
  assert (row ∈ row :: g) as Hin by left. rewrite <- Hg in Hin.
  apply list_elem_of_filter in Hin as [[= <- <-] (k & Hk)%elem_of_rows].
  simpl in Hk. apply lookup_fmap_Some in Hk as (row0 & <- & _). simpl.
  split; [apply squad_after_cms | by intros []%squad_after_None].
Qed.

(** The literal of [part_001] against a timestamp: the blank is below the
    [T], so the comparison is by the date. *)
Lemma since_le_timestamp f c :
  civil_wf f c -> f <> DateOnly ->
  text_le since (show_civil f c) = bool_decide (1743465600 <= civil_seconds c).
Proof.
  intros [Hy Hd Hh Hmi Hs _ _] Hf.
  change since with (show_date 2025 4 1 " 00:00:00"). unfold show_civil.
  rewrite text_le_compare, compare_show_date by (done || by repeat split).
  assert (String.compare " 00:00:00" (show_time f c) = Lt) as -> by (by destruct f).
  change (days_from_civil 2025 4 1) with 20179. unfold civil_seconds.
  destruct (Z.compare_spec 20179 (days_from_civil (year c) (month c) (day c))); simpl;
    [rewrite bool_decide_eq_true_2 | rewrite bool_decide_eq_true_2
    | rewrite bool_decide_eq_false_2]; lia.
Qed.

(** The merge requests since the first of April.  For a merge request
    whose [created_at] is a timestamp as GitLab sends it, the WHERE clause
    of [part_001] holds exactly when the squad is WEB and the merge request
    was created at or after 2025-04-01T00:00:00Z: the literal is written
    with a blank where the column has a [T], and the comparison of the
    texts still reads it as that midnight. *)
Theorem web_since_is_since_midnight row z :
  iso_seconds (created_at row) = Some z -> String.length (created_at row) <> 10%nat ->
  where_web_since row
  = bool_decide (1743465600 <= z) && bool_decide (squad row = Some "WEB").
Proof.
  intros (c & (f & Hwf & Hs)%parse_iso_show & ->)%iso_seconds_Some Hlen.
  unfold where_web_since, text_ge. rewrite Hs in *. rewrite length_show_civil in Hlen.
  fold (text_le since (show_civil f c)). rewrite since_le_timestamp; [done..|].
  by destruct f.
Qed.

(** The WEB merge requests of [part_001], the oldest first.  When the
    timestamps of the table are texts of one length that read as dates
    (GitLab sends them all with milliseconds), the statement returns the
    [id] and the [description] of the rows its WHERE clause keeps, each
    once, in the order of their instants: ORDER BY compares the texts. *)
Theorem web_since_in_order n l :
  (forall row, row ∈ l -> is_Some (parse_iso (created_at row)) /\
                          String.length (created_at row) = n) ->
  exists rows,
    web_since l = (fun row => (row_id row, description row)) <$> rows /\
    rows ≡ₚ filter (fun row => where_web_since row = true) l /\
    Sorted (fun r1 r2 => exists c1 c2, parse_iso (created_at r1) = Some c1 /\
                           parse_iso (created_at r2) = Some c2 /\
                           civil_millis c1 <= civil_millis c2) rows.
Proof.
  intros Hl. eexists. split; [done|]. split; [apply order_by_perm|].
  apply (Sorted_weaken (fun a b => text_before (created_at a) (created_at b)) _
           (fun row => is_Some (parse_iso (created_at row)) /\
                       String.length (created_at row) = n)).
  - rewrite order_by_perm. apply Forall_forall.
    intros row [_ Hin]%list_elem_of_filter. by apply Hl.
  - intros r1 r2 [[c1 H1] Hn1] [[c2 H2] Hn2] Hle. exists c1, c2.
    split; [done|]. split; [done|]. unfold text_before in Hle.
    rewrite (text_order_is_time_order _ _ c1 c2) in Hle by congruence.
    by apply bool_decide_eq_true in Hle.
  - apply order_by_sorted, _.
Qed.

(** ** The theorems at the examples *)

Lemma web_since_in_order_witness :
  exists rows,
    web_since day_table = (fun row => (row_id row, description row)) <$> rows /\
    rows ≡ₚ filter (fun row => where_web_since row = true) day_table /\
    Sorted (fun r1 r2 => exists c1 c2, parse_iso (created_at r1) = Some c1 /\
                           parse_iso (created_at r2) = Some c2 /\
                           civil_millis c1 <= civil_millis c2) rows.
Proof.
  apply (web_since_in_order 24 day_table). intros row Hrow.
  repeat (apply elem_of_cons in Hrow as [->|Hrow]); [by split; [eexists|]..|].
  by apply elem_of_nil in Hrow.
Defined.

Lemma duration_is_a_number_witness :
  duration_of (row_on 3 "2025-04-01T09:00:00.000Z" (Some "2025-04-04T09:02:03.000Z")
                 (Some "WEB"))
  = SqlInteger (Z.quot (Z.quot (1743757323 - 1743498000) 3600) 60).
Proof.
  apply (duration_is_a_number
           (row_on 3 "2025-04-01T09:00:00.000Z" (Some "2025-04-04T09:02:03.000Z")
              (Some "WEB")) "2025-04-04T09:02:03.000Z"); reflexivity.
Defined.

Lemma late_hours_in_order_witness :
  late_hours hour_text day_table
    ≡ₚ late_row hour_text <$> filter (fun row => where_late_hour row = true) day_table /\
  Sorted (fun r1 r2 => exists z1 z2, strftime_s (created_at_utc r1) = Some z1 /\
                         strftime_s (created_at_utc r2) = Some z2 /\ z2 <= z1)
    (late_hours hour_text day_table).
Proof.
  apply late_hours_in_order. intros row z Hin Hz. unfold day_table in Hin.
  rewrite !elem_of_cons, elem_of_nil in Hin.
  destruct Hin as [->|[->|[->|[->|[->|[]]]]]]; vm_compute in Hz; injection Hz as <-;
    unfold sql_range; lia.
Defined.

Lemma verify_after_update_witness :
  exists v, verify (set_merge_requests (classify <$> merge_requests authors_db) authors_db)
            = Ret v (set_merge_requests (classify <$> merge_requests authors_db) authors_db) /\
    forall author sq n, (author, sq, n) ∈ v ->
      n = length (filter (fun row => (author_username row, squad row) = (author, sq))
                    (rows (set_merge_requests (classify <$> merge_requests authors_db)
                             authors_db))) /\
      (author ∈ cms_authors -> sq = Some "CMS") /\
      (sq = None -> author = "ikhsan.hari").
Proof. apply (verify_after_update authors_db). by apply update_squads_run. Defined.

Lemma web_since_is_since_midnight_witness :
  where_web_since (row_on 1 "2025-03-31T23:59:59.000Z" None (Some "WEB"))
  = bool_decide (1743465600 <= 1743465599) && bool_decide (Some "WEB" = Some "WEB").
Proof.
  apply (web_since_is_since_midnight
           (row_on 1 "2025-03-31T23:59:59.000Z" None (Some "WEB")));
    (reflexivity || discriminate).
Defined.
