(* ===== verification/Display.v ===== *)
(** * Display: the report of the statistics

    [formatTime], [displayMergeRequestStats] and [isValidDate]
    ([src/src/index.ts], lines 261-324).  [console.log] is modelled by the
    list of the texts logged, in order, which is what
    [displayMergeRequestStats] returns here.

    [displayMergeRequestStats] treats the two results of the store as one
    object with fields [totalMRs], [mergedMRs], [avgTimeTo...] and as a
    number; both are arrays of rows.  Reading a property an array does not
    have gives [undefined]; [undefined > 0] is false; [isNaN(undefined)] is
    true; an array in a template is its elements joined by commas, and a row
    object there is ["[object Object]"].  The model computes with exactly
    these rules ([array_prop], [to_real], [gt_zero], [isNaN], [value_text]).

    Infinities are not modelled: the one division of the report is guarded
    by [total > 0]. *)

From S2P Require Import Prelude JsModel TimeModel Remote Store Analytics.
From stdpp Require Import pretty.
From Stdlib Require Import Ascii QArith Qcanon Qround.

#[local] Close Scope Qc_scope.
#[local] Close Scope Q_scope.
#[local] Open Scope Z_scope.

(** ** Values *)

(** The values the report handles: the result of reading a property, a
    number, and an array of [n] row objects as the store returns it. *)
Inductive value : Type :=
| VUndefined
| VNull
| VNumber (x : real)
| VRows (n : nat).

#[export] Instance value_eq_dec : EqDecision value.
Proof. solve_decision. Defined.

(** [a.name] for an array [a] and a name that is neither an index nor
    [length]: the property does not exist. *)
Definition array_prop {A} (a : list A) (name : string) : value := VUndefined.

(** [Number(v)]: [undefined] is [NaN], [null] is [0], the empty array is
    [0], an array of row objects is [NaN]. *)
Definition to_real (v : value) : real :=
  match v with
  | VUndefined => RNaN
  | VNull => Real (Q2Qc 0)
  | VNumber x => x
  | VRows O => Real (Q2Qc 0)
  | VRows (S _) => RNaN
  end.

(** [v > 0]: [NaN] compares false with everything. *)
Definition gt_zero (v : value) : bool :=
  match to_real v with
  | Real q => bool_decide (Q2Qc 0 < q)%Qc
  | RNaN => false
  end.

(** [isNaN(v)]. *)
Definition isNaN (v : value) : bool := bool_decide (to_real v = RNaN).

(** [a / b * 100] where [b] is not zero. *)
Definition ratio100 (a b : real) : real :=
  match a, b with
  | Real x, Real y =>
      if bool_decide (y = Q2Qc 0) then RNaN else Real (x / y * Q2Qc (inject_Z 100))%Qc
  | _, _ => RNaN
  end.

(** [Math.round]: the nearest integer, a half going up. *)
Definition math_round (x : real) : real :=
  match x with
  | Real q => Real (Q2Qc (inject_Z (Qfloor (this q + (1 # 2)))))
  | RNaN => RNaN
  end.

(** A number in a template literal.  Every number the report prints is
    whole (a result of [Math.floor] or [Math.round], or the literal [0]), and
    is printed as its decimal digits. *)
Definition real_text (x : real) : string :=
  match x with
  | RNaN => "NaN"
  | Real q => pretty (Qfloor (this q))
  end.

(** An array of [n] row objects in a template literal: the elements joined
    by commas, each one ["[object Object]"]. *)
Definition array_text (n : nat) : string :=
  String.concat "," (replicate n "[object Object]").

(** A value in a template literal. *)
Definition value_text (v : value) : string :=
  match v with
  | VUndefined => "undefined"
  | VNull => "null"
  | VNumber x => real_text x
  | VRows n => array_text n
  end.

(** ** formatTime *)

(** The integer part, towards zero. *)
Definition trunc (x : Q) : Z := if Qle_bool 0 x then Qfloor x else Qceiling x.

(** [a % b] on numbers: the remainder has the sign of [a]. *)
Definition js_rem (a b : Q) : Q := (a - b * inject_Z (trunc (a / b)))%Q.

(** The three templates of [formatTime]. *)
Definition render (days hours mins : Z) : string :=
  if bool_decide (0 < days) then
    pretty days +:+ "d " +:+ pretty hours +:+ "h " +:+ pretty mins +:+ "m"
  else if bool_decide (0 < hours) then
    pretty hours +:+ "h " +:+ pretty mins +:+ "m"
  else pretty mins +:+ "m".

Definition formatTime (minutes : value) : string :=
  if bool_decide (minutes = VNull) || isNaN minutes then "N/A"
  else match to_real minutes with
       | Real q =>
           let m := this q in
           let days := Qfloor (m / inject_Z (60 * 24)) in
           let hours := Qfloor (js_rem m (inject_Z (60 * 24)) / inject_Z 60) in
           let mins := Qfloor (js_rem m (inject_Z 60)) in
           render days hours mins
       | RNaN => "N/A"
       end.

(** ** isValidDate *)

Definition is_digit (a : ascii) : bool :=
  let n := N_of_ascii a in bool_decide (48 <= n <= 57)%N.

(** [/^\d{4}-\d{2}-\d{2}$/.test(s)]. *)
Definition date_shape (s : string) : bool :=
  match String.list_ascii_of_string s with
  | [y1; y2; y3; y4; d1; m1; m2; d2; a1; a2] =>
      is_digit y1 && is_digit y2 && is_digit y3 && is_digit y4
      && bool_decide (d1 = "-"%char) && is_digit m1 && is_digit m2
      && bool_decide (d2 = "-"%char) && is_digit a1 && is_digit a2
  | _ => false
  end.

Section Dates.
Context `{Clock}.

Definition isValidDate (dateStr : string) : bool :=
  if bool_decide (dateStr = "") then true
  else if negb (date_shape dateStr) then false
  else negb (bool_decide (getTime dateStr = NaN)).

End Dates.

(** ** displayMergeRequestStats *)

(** The text between the parentheses of the title. *)
Definition dateRangeText (startDate endDate : option string) : string :=
  match given startDate, given endDate with
  | Some s, Some e => "from " +:+ s +:+ " to " +:+ e
  | Some s, None => "after " +:+ s
  | None, Some e => "before " +:+ e
  | None, None => "all time"
  end.

(** [total > 0 ? Math.round(part / total * 100) : 0], in a template. *)
Definition percent_text (part total : value) : string :=
  if gt_zero total then real_text (math_round (ratio100 (to_real part) (to_real total)))
  else "0".

Definition newline : string := String (ascii_of_nat 10) "".

Section Report.
Context `{Clock}.

Definition displayMergeRequestStats (projectId : Z) (startDate endDate : option string)
    (commentThreshold : option real) : prog Db exn (list string) :=
  stats <- getMergeRequestStats projectId startDate endDate ;;
  lateCommentCount <-
    match commentThreshold with
    | Some t =>
        late <- countMrsWithLateFirstComment projectId t startDate endDate ;;
        ret (VRows (size late))
    | None => ret (VNumber (Real (Q2Qc 0)))
    end ;;
  let stats := map_to_list stats in
  let totalMRs := array_prop stats "totalMRs" in
  let mergedMRs := array_prop stats "mergedMRs" in
  ret ([ newline +:+ "----- Merge Request Statistics ("
           +:+ dateRangeText startDate endDate +:+ ") -----";
         "Total MRs: " +:+ value_text totalMRs;
         "Merged MRs: " +:+ value_text mergedMRs +:+ " ("
           +:+ percent_text mergedMRs totalMRs +:+ "%)";
         "Average time to first comment: "
           +:+ formatTime (array_prop stats "avgTimeToFirstComment");
         "Average time to approval: "
           +:+ formatTime (array_prop stats "avgTimeToApproval");
         "Average time to merge: " +:+ formatTime (array_prop stats "avgTimeToMerge") ]
       ++ match commentThreshold with
          | Some t =>
              [ newline +:+ "MRs with first comment after "
                  +:+ formatTime (VNumber t) +:+ ": "
                  +:+ value_text lateCommentCount
                  +:+ " (" +:+ percent_text lateCommentCount totalMRs +:+ "%)" ]
          | None => []
          end
       ++ [ "------------------------------------" ]).

End Report.

Lemma halts_displayMergeRequestStats `{Clock} projectId startDate endDate commentThreshold :
  halts (displayMergeRequestStats projectId startDate endDate commentThreshold).
Proof.
  unfold displayMergeRequestStats. apply halts_bind; [auto with halts|]. intros stats.
  apply halts_bind; [destruct commentThreshold; auto with halts|]. intros late.
  cbv zeta. auto with halts.
Qed.

#[export] Hint Resolve halts_displayMergeRequestStats : halts.

(** ** Examples *)

Example formatTime_samples :
  formatTime (VNumber (Real (minutes 1505))) = "1d 1h 5m" /\
  formatTime (VNumber (Real (minutes 125))) = "2h 5m" /\
  formatTime (VNumber (Real (minutes 20))) = "20m" /\
  formatTime (VNumber (Real (hundredths 1050))) = "10m" /\
  formatTime (VNumber (Real (minutes 0))) = "0m" /\
  formatTime (VNumber (Real (minutes (-30)))) = "-30m" /\
  formatTime VNull = "N/A" /\ formatTime VUndefined = "N/A".
Proof. vm_compute. repeat split. Qed.

Example percent_text_samples :
  percent_text (VNumber (Real (minutes 1))) (VNumber (Real (minutes 3))) = "33" /\
  percent_text (VNumber (Real (minutes 1))) (VNumber (Real (minutes 8))) = "13" /\
  percent_text (VRows 2) (VNumber (Real (minutes 8))) = "NaN" /\
  percent_text (VRows 0) (VNumber (Real (minutes 8))) = "0" /\
  percent_text VUndefined VUndefined = "0".
Proof. vm_compute. repeat split. Qed.

Example isValidDate_samples :
  isValidDate "" = true /\ isValidDate "2025-04-01" = true /\
  isValidDate "2025-4-1" = false /\ isValidDate "2025-13-01" = false /\
  isValidDate "2025-04-01T10:00:00Z" = false /\ isValidDate "yesterday" = false.
Proof. vm_compute. repeat split. Qed.

Example display_sample :
  returned (displayMergeRequestStats 1 (Some "2025-04-01") None (Some (Real (minutes 10)))
              stats_db) =
  Some [ newline +:+ "----- Merge Request Statistics (after 2025-04-01) -----";
         "Total MRs: undefined";
         "Merged MRs: undefined (0%)";
         "Average time to first comment: N/A";
         "Average time to approval: N/A";
         "Average time to merge: N/A";
         newline +:+ "MRs with first comment after 10m: [object Object],[object Object] (0%)";
         "------------------------------------" ].
Proof. vm_compute. reflexivity. Qed.

(** ** Dates the prompt accepts *)

Lemma length_list_ascii_of_string s :
  length (String.list_ascii_of_string s) = String.length s.
Proof. induction s as [|a s IH]; simpl; by rewrite ?IH. Qed.

Lemma date_shape_length s : date_shape s = true -> String.length s = 10%nat.
Proof.
  rewrite <- length_list_ascii_of_string. unfold date_shape.
  destruct (String.list_ascii_of_string s) as [|? l]; [done|].
  do 10 (destruct l as [|? l]; try done).
Qed.

(** A text the date prompt accepts, other than the empty one, is a day:
    ten characters that the clock of the ISO format reads. *)
Lemma isValidDate_day s :
  s <> "" -> @isValidDate iso_clock s = true ->
  String.length s = 10%nat /\ is_Some (parse_iso s).
Proof.
  intros Hne. unfold isValidDate. rewrite bool_decide_eq_false_2 by done.
  destruct (date_shape s) eqn:Hs; [|done]. simpl.
  intros Hn%negb_true_iff%bool_decide_eq_false. split; [by apply date_shape_length|].
  unfold iso_millis in Hn. by destruct (parse_iso s).
Qed.

(** ** Every number of minutes *)

(** [Math.floor] and a division by a whole number. *)
Lemma Qfloor_div_Z x d : 0 < d -> Qfloor (x / inject_Z d) = Qfloor x / d.
Proof.
  intros Hd. destruct x as [a b], d as [|p|p]; try lia.
  unfold Qdiv, Qmult, Qinv, inject_Z. simpl.
  by rewrite Z.mul_1_r, Pos2Z.inj_mul, Z.div_div by lia.
Qed.

Lemma Qfloor_sub_Z x m : Qfloor (x - inject_Z m) = Qfloor x - m.
Proof.
  destruct x as [a b]. unfold Qminus, Qplus, Qopp, inject_Z. simpl.
  rewrite Pos.mul_1_r, Z.mul_1_r.
  replace (a + - m * Z.pos b) with (a + (- m) * Z.pos b) by lia.
  rewrite Z.div_add by lia. lia.
Qed.

Lemma trunc_nonneg x : (0 <= x)%Q -> trunc x = Qfloor x.
Proof. intros Hx. unfold trunc. by rewrite (proj2 (Qle_bool_iff 0 x) Hx). Qed.

(** The whole part of a remainder is the remainder of the whole part. *)
Lemma js_rem_floor x d :
  (0 <= x)%Q -> 0 < d -> Qfloor (js_rem x (inject_Z d)) = Qfloor x mod d.
Proof.
  intros Hx Hd. unfold js_rem. rewrite trunc_nonneg, Qfloor_div_Z by
    (done || (apply Qle_shift_div_l; [by rewrite <- (Zlt_Qlt 0)|by rewrite Qmult_0_l])).
  rewrite <- inject_Z_mult, Qfloor_sub_Z, Z.mod_eq by lia. done.
Qed.

Lemma formatTime_number q :
  formatTime (VNumber (Real q)) =
  render (Qfloor (this q / inject_Z (60 * 24)))
         (Qfloor (js_rem (this q) (inject_Z (60 * 24)) / inject_Z 60))
         (Qfloor (js_rem (this q) (inject_Z 60))).
Proof. done. Qed.

(** ** Theorems *)

(** [formatTime] on every number of minutes.  A number [q >= 0] of
    minutes, whole or not, is shown as the days, hours and minutes of its
    whole part: [hours < 24], [mins < 60], and the three add up to the whole
    part of [q]; the fraction of a minute is dropped, never rounded up; the
    days are left out when there is none, and the hours too when there is
    neither. *)
Theorem formatTime_floor q :
  (0 <= this q)%Q ->
  let n := Qfloor (this q) in
  let days := n / 1440 in
  let hours := n mod 1440 / 60 in
  let mins := n mod 60 in
  formatTime (VNumber (Real q)) = render days hours mins /\
  0 <= hours < 24 /\ 0 <= mins < 60 /\ days * 1440 + hours * 60 + mins = n.
Proof.
  intros Hq. cbv zeta. split; [|Z.div_mod_to_equations; lia].
  rewrite formatTime_number. f_equal.
  - by rewrite Qfloor_div_Z.
  - by rewrite Qfloor_div_Z, js_rem_floor.
  - by rewrite js_rem_floor.
Qed.

Lemma formatTime_floor_witness :
  let n := Qfloor (this (hundredths 150599)) in
  let days := n / 1440 in
  let hours := n mod 1440 / 60 in
  let mins := n mod 60 in
  formatTime (VNumber (Real (hundredths 150599))) = render days hours mins /\
  0 <= hours < 24 /\ 0 <= mins < 60 /\ days * 1440 + hours * 60 + mins = n.
Proof. apply (formatTime_floor (hundredths 150599)). unfold Qle. simpl. lia. Defined.

(** The report on a ready store, for the components that print it. *)
Lemma displayMergeRequestStats_run `{Clock} projectId startDate endDate commentThreshold s :
  ready s ->
  exists title rest,
    displayMergeRequestStats projectId startDate endDate commentThreshold s
    = Ret (title :: [ "Total MRs: undefined";
                      "Merged MRs: undefined (0%)";
                      "Average time to first comment: N/A";
                      "Average time to approval: N/A";
                      "Average time to merge: N/A" ] ++ rest) s.
Proof.
  intros (Hh & Hc & Hf & Hop)%ready_has_squad_column.
  unfold displayMergeRequestStats, bind. rewrite getMergeRequestStats_run by done.
  destruct commentThreshold as [t|].
  - unfold bind. rewrite countMrsWithLateFirstComment_run by done. by eexists _, _.
  - by eexists _, _.
Qed.

Section DisplayTheorems.
Context `{Clock}.

(** C34: the report shows no statistic.  On a ready store, whatever the
    table holds and whatever the arguments, [displayMergeRequestStats]
    returns without changing the store and logs [undefined] for both totals,
    0% for the share of merged merge requests and N/A for the three
    averages: it reads fields that the rows returned by the store do not
    have. *)
Theorem display_shows_no_statistic projectId startDate endDate commentThreshold s :
  ready s ->
  exists title rest,
    displayMergeRequestStats projectId startDate endDate commentThreshold s
    = Ret (title :: [ "Total MRs: undefined";
                      "Merged MRs: undefined (0%)";
                      "Average time to first comment: N/A";
                      "Average time to approval: N/A";
                      "Average time to merge: N/A" ] ++ rest) s.
Proof. apply displayMergeRequestStats_run. Qed.

End DisplayTheorems.

Lemma display_shows_no_statistic_witness :
  exists title rest,
    displayMergeRequestStats 1 None None (Some (Real (minutes 10))) stats_db
    = Ret (title :: [ "Total MRs: undefined";
                      "Merged MRs: undefined (0%)";
                      "Average time to first comment: N/A";
                      "Average time to approval: N/A";
                      "Average time to merge: N/A" ] ++ rest) stats_db.
Proof.
  apply (display_shows_no_statistic 1 None None (Some (Real (minutes 10))) stats_db),
    stats_db_ready.
Defined.
