(* ===== verification/Main.v ===== *)
(** * Main: the command-line tool

    The top level of [src/src/index.ts]: the check of the token (lines
    14-23) and [main] (lines 326-426), which opens the database, looks the
    group up, lists its repositories, asks what to do and for which
    repository, and then either runs [processAndStoreMergeRequests] or asks
    for the filters and runs [displayMergeRequestStats].

    The state is the world of [Sync]: the database and the log of the
    requests issued and of the lines written to the console, those of
    [main] and of the token check among those of the functions they call;
    [s_console] is what a terminal shows of it.  [process.exit(1)] ends
    the program with the value [Exited 1]; an exception that reaches the
    top is a [Throw].

    The person at the keyboard is a record [User]: the entry chosen in each
    list, the answer to the confirmation, and, for each text prompt, what
    is typed at each attempt.  [inquirer] asks a text prompt again until its
    [validate] accepts the input; a prompt that never gets an acceptable
    answer never resolves, which is [OutOfFuel] here, like a loop that never
    ends.  [Number(input)] is behind the interface [Numbers], with an
    instance for plain decimal numerals.

    The environment is the list of the variables of the process and the
    list of those of [.env]; [dotenv_config] merges them as [dotenv] does and
    [read_env] is what the program reads of the result.  [program] runs
    against a remote; [tool] runs against a server of [Transport], through
    the [api] instance that carries the token of the environment. *)

From S2P Require Import Prelude JsModel TimeModel TimeOrder Remote Transport Walker Store World.
From S2P Require Import Reconciler Enricher Sync Analytics Display.
From Stdlib Require Import Ascii QArith Qcanon.

#[local] Close Scope Qc_scope.
#[local] Close Scope Q_scope.
#[local] Open Scope Z_scope.

(** ** Configuration *)

(** [process.env] after [dotenv.config()], as far as the program reads it. *)
Record Env : Type := {
  env_GITLAB_TOKEN : option string;
}.

(** Variables and their values: those of the process, or the lines
    [NAME=value] of a [.env] file. *)
#[local] Abbreviation Vars := (list (string * string)).

(** [dotenv.config()]: the variables of [.env], when the file exists, are
    added to those of the process; a variable the process already has
    keeps its value. *)
Definition dotenv_config (dotenv : option Vars) (process_env : Vars) : Vars :=
  process_env ++ filter (fun kv => param kv.1 process_env = None) (default [] dotenv).

(** [process.env.GITLAB_TOKEN]. *)
Definition read_env (process_env : Vars) : Env :=
  {| env_GITLAB_TOKEN := param "GITLAB_TOKEN" process_env |}.

(** The [.env] file as the README writes it. *)
Definition readme_dotenv : Vars := [("GITLAB_TOKEN", "your_gitlab_token_here")].

Definition GROUP_NAME : string := "murid".

(** [`Group '${GROUP_NAME}' not found.`] *)
Definition group_not_found : string := "Group '" +:+ GROUP_NAME +:+ "' not found.".

(** [!GITLAB_TOKEN]: the variable is not set, or is the empty text. *)
Definition token_missing (e : Env) : bool :=
  match env_GITLAB_TOKEN e with
  | None | Some "" => true
  | Some _ => false
  end.

(** ** The console *)

(** [console.log] and [console.error] in [main]. *)
Definition log (line : string) : prog World exn unit := on_net (console_log line).

(** What a terminal shows of a world. *)
Definition s_console (w : World) : list string := console_of (w_net w).

(** How the program ends when nothing is thrown. *)
Inductive ending : Type :=
| Exited (code : Z)
| Returned.

#[export] Instance ending_eq_dec : EqDecision ending.
Proof. solve_decision. Defined.

(** ** Numbers typed at a prompt *)

Class Numbers : Type := {
  (** [Number(s)] for a text [s]. *)
  string_to_number : string -> real;
}.

(** The value of a run of digits after [acc], and how many there are. *)
Fixpoint decimal_run (acc : Z) (n : nat) (l : list ascii) : option (Z * nat) :=
  match l with
  | [] => Some (acc, n)
  | a :: l' =>
      match digit_of a with
      | Some d => decimal_run (10 * acc + d) (S n) l'
      | None => None
      end
  end.

(** The characters before the first point. *)
Fixpoint before_point (l : list ascii) : list ascii :=
  match l with
  | [] => []
  | a :: l' => if bool_decide (a = "."%char) then [] else a :: before_point l'
  end.

(** Digits, optionally a point and digits; at least one digit. *)
Definition decimal_value (l : list ascii) : option Qc :=
  let whole := before_point l in
  let rest := drop (length whole) l in
  '(w, nw) ← decimal_run 0 0 whole;
  '(f, nf) ← decimal_run 0 0 (drop 1 rest);
  if bool_decide (nw + nf = 0)%nat then None
  else Some (Q2Qc (inject_Z w + (f # Pos.of_nat (10 ^ nf)))%Q).

(** [Number(s)] on plain decimal numerals, with an optional sign; the empty
    text is [0]; every other text is [NaN] here (exponents, hexadecimal
    numerals, surrounding blanks and [Infinity] are outside this
    instance). *)
Definition decimal_number (s : string) : real :=
  match String.list_ascii_of_string s with
  | [] => Real (Q2Qc 0)
  | a :: l =>
      if bool_decide (a = "-"%char) then
        match decimal_value l with
        | Some q => Real (- q)%Qc
        | None => RNaN
        end
      else
        match decimal_value (if bool_decide (a = "+"%char) then l else a :: l) with
        | Some q => Real q
        | None => RNaN
        end
  end.

#[export] Instance decimal_numbers : Numbers := {| string_to_number := decimal_number |}.

(** ** The prompts *)

Inductive ActionType : Type :=
| Fetch
| Stats.

(** An entry of the list of repositories: [{ name, value: repo.id, repo }];
    the name is what the list shows. *)
Record Choice : Type := {
  value : Z;
  repo : Project;
}.

Record User : Type := {
  picks_action : ActionType;
  (** the position, from 0, of the repository picked in the list *)
  picks_repo : nat;
  confirms_dates : bool;
  (** what is typed at the successive attempts of each text prompt *)
  types_startDate : list string;
  types_endDate : list string;
  types_commentThreshold : list string;
}.

(** [repos.map(repo => ({ name, value: repo.id, repo }))], one entry. *)
Definition choice_of (p : Project) : Choice := {| value := p_id p; repo := p |}.

(** A prompt of type [list]: the entry at the position picked. *)
Definition prompt_list {S A} (choices : list A) (picked : nat) : prog S exn A :=
  match choices !! picked with
  | Some a => ret a
  | None => diverge
  end.

(** A prompt of type [input] with a [validate]: the first attempt that is
    accepted. *)
Definition prompt_input {S} (validate : string -> bool) (typed : list string)
    : prog S exn string :=
  match List.find validate typed with
  | Some s => ret s
  | None => diverge
  end.

Section Validation.
Context `{Numbers}.

(** The [validate] of the threshold prompt. *)
Definition validThreshold (input : string) : bool :=
  if bool_decide (input = "") then true
  else match string_to_number input with
       | Real num => bool_decide (Q2Qc 0 <= num)%Qc
       | RNaN => false
       end.

(** [commentThreshold !== '' ? Number(commentThreshold) : undefined]. *)
Definition threshold_of (commentThreshold : string) : option real :=
  if bool_decide (commentThreshold = "") then None
  else Some (string_to_number commentThreshold).

End Validation.

(** [dateResponses.startDate || undefined]. *)
Definition date_of (response : string) : option string :=
  if bool_decide (response = "") then None else Some response.

(** The answers of the "stats" branch, as they are passed on. *)
Record Filters : Type := {
  f_startDate : option string;
  f_endDate : option string;
  f_commentThreshold : option real;
}.

(** ** main *)

Section Program.
Context `{Clock} `{Numbers}.
Variable r : Remote.
Variable fuel : nat.
Variable u : User.

(** The confirmation and the two date prompts. *)
Definition ask_dates : prog World exn (option string * option string) :=
  if confirms_dates u then
    startDate <- prompt_input isValidDate (types_startDate u) ;;
    endDate <- prompt_input isValidDate (types_endDate u) ;;
    ret (date_of startDate, date_of endDate)
  else ret (None, None).

(** The prompts of the branch [actionType === 'stats']. *)
Definition ask_filters : prog World exn Filters :=
  dates <- ask_dates ;;
  commentThreshold <- prompt_input validThreshold (types_commentThreshold u) ;;
  ret {| f_startDate := dates.1; f_endDate := dates.2;
         f_commentThreshold := threshold_of commentThreshold |}.

(** The branch [actionType === 'stats']: the prompts, then the report on
    the console. *)
Definition stats_action (selectedRepo : Z) : prog World exn unit :=
  f <- ask_filters ;;
  lines <- on_db (displayMergeRequestStats selectedRepo (f_startDate f)
                    (f_endDate f) (f_commentThreshold f)) ;;
  modify (then_did (Logged <$> lines)).

(** [main] from the two list prompts on. *)
Definition act (repos : list Project) : prog World exn ending :=
  let choices := choice_of <$> repos in
  let actionType := picks_action u in
  selected <- prompt_list choices (picks_repo u) ;;
  let selectedRepo := value selected in
  match List.find (fun c => bool_decide (value c = selectedRepo)) choices with
  | None => log "Selected repository not found in choices." ;; ret (Exited 1)
  | Some selectedChoice =>
      let selectedProject := repo selectedChoice in
      match actionType with
      | Fetch =>
          processAndStoreMergeRequests r fuel selectedRepo selectedProject ;;
          ret Returned
      | Stats => stats_action selectedRepo ;; ret Returned
      end
  end.

Definition main : prog World exn ending :=
  on_db initDatabase ;;
  groupId <- on_net (getGroupId r GROUP_NAME) ;;
  match groupId with
  | Some groupId =>
      if bool_decide (groupId = 0) then
        log group_not_found ;; ret (Exited 1)
      else
        repos <- on_net (listRepositories r groupId) ;;
        if bool_decide (length repos = 0%nat) then
          log "No repositories found in this group." ;; ret Returned
        else act repos
  | None => log group_not_found ;; ret (Exited 1)
  end.

(** The module from its first statement: the check of the token, then
    [main()]. *)
Definition program (e : Env) : prog World exn ending :=
  if token_missing e then
    log "GITLAB_TOKEN is not set in .env" ;; ret (Exited 1)
  else main.

End Program.

(** The token as [api] sends it: [process.env.GITLAB_TOKEN]. *)
Definition token_of (e : Env) : string := default "" (env_GITLAB_TOKEN e).

(** The module with [api] built from the token of the environment, against
    the server [srv]. *)
Definition tool `{Clock} `{Numbers} (srv : Server) (fuel : nat) (u : User) (e : Env)
    : prog World exn ending :=
  program (served (token_of e) srv) fuel u e.

(** ** What is passed to the report *)

Section Valid.
Context `{Clock}.

(** A date filter: absent, or a text the date prompt accepts. *)
Definition valid_date (d : option string) : Prop :=
  match d with
  | None => True
  | Some s => s <> "" /\ isValidDate s = true
  end.

(** A threshold: absent, or a number that is not negative. *)
Definition valid_threshold (t : option real) : Prop :=
  match t with
  | None => True
  | Some (Real q) => (Q2Qc 0 <= q)%Qc
  | Some RNaN => False
  end.

Definition valid_filters (f : Filters) : Prop :=
  valid_date (f_startDate f) /\ valid_date (f_endDate f) /\
  valid_threshold (f_commentThreshold f).

End Valid.

(** ** The person and the remote that let the program end *)

Section Responsive.
Context `{Clock} `{Numbers}.

(** The person picks an entry that is in the list of repositories, and
    types an acceptable text at some attempt of each prompt that is asked. *)
Definition responsive (r : Remote) (u : User) : Prop :=
  (forall groupId repos, listProjects r groupId = Some repos ->
     (picks_repo u < length repos)%nat) /\
  (picks_action u = Stats ->
     (confirms_dates u = true ->
        Exists (fun s => isValidDate s = true) (types_startDate u) /\
        Exists (fun s => isValidDate s = true) (types_endDate u)) /\
     Exists (fun s => validThreshold s = true) (types_commentThreshold u)).

End Responsive.

(** ** Fixtures *)

Definition other_project : Project :=
  {| p_id := 2; p_name := "web"; p_path_with_namespace := "murid/web";
     p_created_at := "2024-02-01T00:00:00.000Z" |}.

(** The remote of [Sync] with the groups of [Remote] and two projects. *)
Definition tool_remote : Remote :=
  {| listGroups := fun _ => Some sample_groups;
     listProjects := fun _ => Some [sample_project; other_project];
     listMergeRequests := listMergeRequests sync_remote;
     listNotes := listNotes sync_remote;
     listApprovalEvents := listApprovalEvents sync_remote |}.

Definition fetch_user : User :=
  {| picks_action := Fetch; picks_repo := 0; confirms_dates := false;
     types_startDate := []; types_endDate := []; types_commentThreshold := [] |}.

(** A person who asks for the statistics and mistypes twice. *)
Definition stats_user : User :=
  {| picks_action := Stats; picks_repo := 0; confirms_dates := true;
     types_startDate := ["1 April"; "2025-04-01"]; types_endDate := [""];
     types_commentThreshold := ["-5"; "ten"; "10"] |}.

Definition start_session : World := {| w_db := fresh_db; w_net := [] |}.

Definition with_token : Env := {| env_GITLAB_TOKEN := Some "glpat-example" |}.

Definition session_after (o : outcome World exn ending) : World :=
  default start_session (final_state o).

(** ** The environment *)

Lemma param_app name (l1 l2 : list (string * string)) :
  param name (l1 ++ l2) = match param name l1 with
                          | Some v => Some v
                          | None => param name l2
                          end.
Proof.
  unfold param. induction l1 as [|[n v] l1 IH]; simpl; [done|]. by case_bool_decide.
Qed.

Lemma param_filter_other name (keep : string * string -> Prop)
    `{!forall kv, Decision (keep kv)} (l : list (string * string)) :
  (forall v, keep (name, v)) -> param name (filter keep l) = param name l.
Proof.
  intros Hk. unfold param. induction l as [|[n v] l IH]; [done|].
  rewrite filter_cons. simpl. case_bool_decide as Hn; simpl in *.
  - subst n. rewrite decide_True by done. simpl. by rewrite bool_decide_eq_true_2.
  - case_decide; [simpl; by rewrite bool_decide_eq_false_2 | done].
Qed.

(** The token the program reads: the one of the process when the process
    has the variable, whatever its value, and otherwise the first one of
    [.env]. *)
Lemma read_env_dotenv_config dotenv process_env :
  env_GITLAB_TOKEN (read_env (dotenv_config dotenv process_env))
  = match param "GITLAB_TOKEN" process_env with
    | Some v => Some v
    | None => param "GITLAB_TOKEN" (default [] dotenv)
    end.
Proof.
  unfold read_env, dotenv_config. simpl. rewrite param_app.
  destruct (param "GITLAB_TOKEN" process_env) eqn:Hp; [done|].
  by apply param_filter_other.
Qed.

(** ** The prompts *)

Lemma prompt_input_Ret {S} validate typed (s : S) a s' :
  prompt_input validate typed s = Ret a s' ->
  s' = s /\ validate a = true /\ a ∈ typed.
Proof.
  unfold prompt_input. destruct (List.find validate typed) as [b|] eqn:Hfind; [|done].
  intros [= <- <-]. apply find_some in Hfind as [Hin Hv].
  by rewrite <- list_elem_of_In in Hin.
Qed.

Lemma halts_prompt_input {S} validate typed :
  Exists (fun s => validate s = true) typed ->
  halts (prompt_input validate typed : prog S exn string).
Proof.
  intros (a & Hin & Hv)%Exists_exists. unfold prompt_input.
  destruct (List.find validate typed) as [b|] eqn:Hfind; [auto with halts|].
  apply list_elem_of_In in Hin. by rewrite (find_none _ _ Hfind a Hin) in Hv.
Qed.

Lemma halts_prompt_list {S A} (choices : list A) picked :
  (picked < length choices)%nat -> halts (prompt_list choices picked : prog S exn A).
Proof.
  intros Hlt. unfold prompt_list.
  destruct (lookup_lt_is_Some_2 choices picked Hlt) as [a ->]. auto with halts.
Qed.

Lemma halts_log line : halts (log line).
Proof. unfold log. auto with halts. Qed.

#[export] Hint Resolve halts_log : halts.

(** The entry picked is found again among the choices: the first entry
    with its value. *)
Lemma find_choice repos picked c :
  (choice_of <$> repos) !! picked = Some c ->
  exists p, List.find (fun c' => bool_decide (value c' = value c)) (choice_of <$> repos)
            = Some (choice_of p) /\ p ∈ repos /\ p_id p = value c.
Proof.
  intros Hc. apply list_elem_of_lookup_2, list_elem_of_In in Hc.
  destruct (List.find _ _) as [c'|] eqn:Hfind.
  - apply find_some in Hfind as [Hin Hv]. apply list_elem_of_In in Hin.
    apply list_elem_of_fmap in Hin as (p & -> & Hp). exists p.
    by apply bool_decide_eq_true in Hv.
  - apply (find_none _ _ Hfind) in Hc. by apply bool_decide_eq_false in Hc.
Qed.

Section Validated.
Context `{Clock} `{Numbers}.

Lemma valid_date_of s : isValidDate s = true -> valid_date (date_of s).
Proof. intros Hv. unfold date_of. by case_bool_decide. Qed.

Lemma valid_threshold_of s : validThreshold s = true -> valid_threshold (threshold_of s).
Proof.
  unfold validThreshold, threshold_of. case_bool_decide; [done|].
  destruct (string_to_number s); [done|]. by intros ?%bool_decide_eq_true.
Qed.

End Validated.

(** ** main, step by step *)

Section MainFacts.
Context `{Clock} `{Numbers}.
Variable r : Remote.
Variable fuel : nat.
Variable u : User.

(** The world after [initDatabase] on a driver that fails nothing: in a
    process that had not opened the file, the schema is there and the
    console shows the two lines on the columns. *)
Definition booted (w : World) : World :=
  if handle (w_db w) then w
  else {| w_db := initialised (w_db w);
          w_net := w_net w ++ (Logged <$> init_lines (w_db w)) |}.

Lemma on_db_initDatabase w :
  faults (w_db w) = [] -> on_db initDatabase w = Ret tt (booted w).
Proof.
  intros Hf. unfold on_db, booted. rewrite initDatabase_run by done.
  destruct (handle (w_db w)).
  - rewrite said_quiet, app_nil_r by done. by destruct w.
  - by rewrite (said_more _ _ (init_lines (w_db w))).
Qed.

Lemma booted_ready w :
  handle (w_db w) = false -> faults (w_db w) = [] -> ready (w_db (booted w)).
Proof. intros Hh Hf. unfold booted. rewrite Hh. by repeat split. Qed.

Lemma booted_rows w :
  merge_requests (w_db (booted w)) = merge_requests (w_db w) /\
  projects (w_db (booted w)) = projects (w_db w).
Proof. unfold booted. by destruct (handle (w_db w)). Qed.

Lemma ask_dates_Ret s d s' :
  ask_dates u s = Ret d s' -> s' = s /\ valid_date d.1 /\ valid_date d.2.
Proof.
  unfold ask_dates. destruct (confirms_dates u); [|by intros [= <- <-]; repeat split].
  intros (a & s1 & (-> & Ha & _)%prompt_input_Ret & Hrest)%bind_Ret_inv.
  apply bind_Ret_inv in Hrest as (b & s2 & (-> & Hb & _)%prompt_input_Ret & [= <- <-]).
  repeat split; simpl; by apply valid_date_of.
Qed.

Lemma halts_ask_filters :
  (confirms_dates u = true ->
     Exists (fun s => isValidDate s = true) (types_startDate u) /\
     Exists (fun s => isValidDate s = true) (types_endDate u)) ->
  Exists (fun s => validThreshold s = true) (types_commentThreshold u) ->
  halts (ask_filters u).
Proof.
  intros Hdates Ht. unfold ask_filters, ask_dates.
  apply halts_bind; [|auto using halts_prompt_input with halts].
  destruct (confirms_dates u); [|auto with halts].
  destruct Hdates as [Hs He]; auto 10 using halts_prompt_input with halts.
Qed.

Lemma ask_filters_Ret s f s' :
  ask_filters u s = Ret f s' -> s' = s /\ valid_filters f.
Proof.
  unfold ask_filters.
  intros (d & s1 & (-> & Hd1 & Hd2)%ask_dates_Ret & Hrest)%bind_Ret_inv.
  apply bind_Ret_inv in Hrest as (t & s2 & (-> & Ht & _)%prompt_input_Ret & [= <- <-]).
  split; [done|]. repeat split; simpl; try done. by apply valid_threshold_of.
Qed.

(** The prompts return when an acceptable text is typed at each. *)
Lemma ask_filters_returns s :
  (confirms_dates u = true ->
     Exists (fun s => isValidDate s = true) (types_startDate u) /\
     Exists (fun s => isValidDate s = true) (types_endDate u)) ->
  Exists (fun s => validThreshold s = true) (types_commentThreshold u) ->
  exists f, ask_filters u s = Ret f s /\ valid_filters f.
Proof.
  intros Hd Ht. pose proof (halts_ask_filters Hd Ht s) as Hh.
  destruct (ask_filters u s) as [f s'|e s'|] eqn:Hrun; [|exfalso|done].
  - destruct (ask_filters_Ret _ _ _ Hrun) as [-> Hv]. by exists f.
  - revert Hrun. unfold ask_filters, ask_dates, prompt_input, bind, ret, diverge.
    by repeat case_match.
Qed.

(** [main] up to the menu, when the group and its repositories arrive. *)
Lemma main_run s g l1 repos l2 :
  faults (w_db s) = [] ->
  getGroupId r GROUP_NAME [] = Ret (Some g) l1 -> g <> 0 ->
  listRepositories r g [] = Ret repos l2 -> repos <> [] ->
  main r fuel u s = act r fuel u repos (then_did (l1 ++ l2) (booted s)).
Proof.
  intros Hf Hg Hg0 Hrepos Hne. unfold main, bind.
  rewrite on_db_initDatabase by done.
  rewrite (on_net_Ret _ _ (Some g) l1) by auto with oblivious.
  rewrite bool_decide_eq_false_2 by done.
  rewrite (on_net_Ret _ _ repos l2) by auto with oblivious.
  rewrite bool_decide_eq_false_2 by (by destruct repos). by rewrite then_did_app.
Qed.

(** [main] when the group does not arrive. *)
Lemma main_no_group s g l1 :
  faults (w_db s) = [] ->
  getGroupId r GROUP_NAME [] = Ret g l1 -> g = None \/ g = Some 0 ->
  main r fuel u s =
  Ret (Exited 1) (then_did (l1 ++ [Logged "Group 'murid' not found."]) (booted s)).
Proof.
  intros Hf Hg Hcase. unfold main, bind.
  rewrite on_db_initDatabase by done.
  rewrite (on_net_Ret _ _ g l1) by auto with oblivious.
  destruct Hcase as [-> | ->]; simpl; unfold ret, then_did, set_net; simpl;
    by rewrite app_assoc.
Qed.

(** [act] after the two list prompts. *)
Lemma act_run repos p s :
  repos !! picks_repo u = Some p ->
  exists p', p' ∈ repos /\ p_id p' = p_id p /\
    act r fuel u repos s =
    match picks_action u with
    | Fetch => (processAndStoreMergeRequests r fuel (p_id p) p' ;;
                ret Returned) s
    | Stats => (stats_action u (p_id p) ;; ret Returned) s
    end.
Proof.
  intros Hp. assert ((choice_of <$> repos) !! picks_repo u = Some (choice_of p)) as Hc
    by (by rewrite list_lookup_fmap, Hp).
  destruct (find_choice _ _ _ Hc) as (p' & Hfind & Hin & Hid). exists p'.
  split; [done|]. split; [done|]. unfold act, bind at 1, prompt_list. rewrite Hc.
  simpl in *. rewrite Hfind. by destruct (picks_action u).
Qed.


(** [main] against a remote every request to which fails. *)
Lemma main_unreachable s :
  r ≡ unreachable -> faults (w_db s) = [] ->
  main r fuel u s =
  Ret (Exited 1)
    (then_did [Requested (GetGroups GROUP_NAME); Logged "Failed to fetch group:";
               Logged "Group 'murid' not found."] (booted s)).
Proof.
  intros Hr Hf.
  rewrite (main_no_group s None
             [Requested (GetGroups GROUP_NAME); Logged "Failed to fetch group:"]);
    [done..| |by left].
  rewrite (getGroupId_proper _ _ Hr _ _ eq_refl). by apply getGroupId_failure.
Qed.



End MainFacts.

(** ** The program sees a remote through its answers only *)

Section ProgramProper.
Context `{Clock} `{Numbers}.

#[export] Instance act_proper : Proper ((≡) ==> (=) ==> (=) ==> (=) ==> (≡)) act.
Proof.
  intros r1 r2 Hr fuel _ <- u _ <- repos _ <-. unfold act. cbv zeta. solve_prog_proper.
Qed.

Lemma act_equiv r1 r2 fuel u repos : r1 ≡ r2 -> act r1 fuel u repos ≡ act r2 fuel u repos.
Proof. intros Hr. by apply act_proper. Qed.

#[local] Hint Resolve act_equiv : prog_proper.

#[export] Instance main_proper : Proper ((≡) ==> (=) ==> (=) ==> (≡)) main.
Proof. intros r1 r2 Hr fuel _ <- u _ <-. unfold main. solve_prog_proper. Qed.

#[export] Instance program_proper :
  Proper ((≡) ==> (=) ==> (=) ==> (=) ==> (≡)) program.
Proof.
  intros r1 r2 Hr fuel _ <- u _ <- e _ <-. unfold program.
  destruct (token_missing e); [done|]. by apply main_proper.
Qed.

End ProgramProper.

(** ** Examples *)

Example fetch_session :
  returned (program tool_remote 3 fetch_user with_token start_session) = Some Returned /\
  requests_of
    (w_net (session_after (program tool_remote 3 fetch_user with_token start_session)))
  = [GetGroups "murid"; GetGroupProjects 9; GetMergeRequests 1 1;
     GetNotes 1 1 1; GetApprovalEvents 1 1; GetNotes 1 2 1; GetApprovalEvents 1 2;
     GetNotes 1 3 1; GetApprovalEvents 1 3] /\
  dom (merge_requests
         (w_db (session_after
                  (program tool_remote 3 fetch_user with_token start_session))))
  = {[ (1001, 1); (1002, 1); (1003, 1) ]}.
Proof. split; [|split]; vm_compute; reflexivity. Qed.

(** The console of that session: the two lines of [initDatabase] on a new
    file, then those of the run. *)
Example fetch_session_console :
  s_console (session_after (program tool_remote 3 fetch_user with_token start_session))
  = [ "Added squad column to merge_requests table";
      "Added description column to merge_requests table" ]
    ++ console_of (w_net (world_after first_run)).
Proof. vm_compute. reflexivity. Qed.

Example stats_session :
  s_console (session_after (program tool_remote 3 stats_user with_token start_session))
  = [ "Added squad column to merge_requests table";
      "Added description column to merge_requests table";
      newline +:+ "----- Merge Request Statistics (after 2025-04-01) -----";
      "Total MRs: undefined";
      "Merged MRs: undefined (0%)";
      "Average time to first comment: N/A";
      "Average time to approval: N/A";
      "Average time to merge: N/A";
      newline +:+ "MRs with first comment after 10m:  (0%)";
      "------------------------------------" ].
Proof. vm_compute. reflexivity. Qed.

Example no_token_session :
  program tool_remote 3 fetch_user {| env_GITLAB_TOKEN := Some "" |} start_session
  = Ret (Exited 1) (then_did [Logged "GITLAB_TOKEN is not set in .env"] start_session).
Proof. reflexivity. Qed.

Example decimal_number_samples :
  decimal_number "10" = Real (Q2Qc 10) /\ decimal_number "-5" = Real (Q2Qc (-5)) /\
  decimal_number "1.5" = Real (Q2Qc (3 # 2)) /\ decimal_number "" = Real (Q2Qc 0) /\
  decimal_number "ten" = RNaN /\ decimal_number "." = RNaN.
Proof. repeat split; apply (bool_decide_unpack _); vm_compute; exact I. Qed.

(** ** Theorems *)

Section MainTheorems.
Context `{Clock} `{Numbers}.
Variable r : Remote.
Variable fuel : nat.
Variable u : User.

(** C18: what [main] runs.  When the driver fails no statement, the group
    arrives with an id other than 0 and the list of repositories is not
    empty, [main] is [initDatabase], the two requests, and then the action
    picked on the repository picked: the whole run of
    [processAndStoreMergeRequests], or the prompts and the report, on the id
    of the entry picked and the first project of the list with that id. *)
Theorem main_runs_the_action s g l1 repos l2 p :
  faults (w_db s) = [] ->
  getGroupId r GROUP_NAME [] = Ret (Some g) l1 -> g <> 0 ->
  listRepositories r g [] = Ret repos l2 ->
  repos !! picks_repo u = Some p ->
  exists p', p' ∈ repos /\ p_id p' = p_id p /\
    main r fuel u s =
    match picks_action u with
    | Fetch => (processAndStoreMergeRequests r fuel (p_id p) p' ;; ret Returned)
                 (then_did (l1 ++ l2) (booted s))
    | Stats => (stats_action u (p_id p) ;; ret Returned)
                 (then_did (l1 ++ l2) (booted s))
    end.
Proof.
  intros Hf Hg Hg0 Hrepos Hp.
  rewrite (main_run r fuel u s g l1 repos l2) by (done || by destruct repos).
  apply act_run, Hp.
Qed.

(** C27: what reaches the report is validated.  When the prompts of the
    statistics return, nothing has changed, each date is absent or a text
    that is not empty and that [isValidDate] accepts, and the threshold is
    absent or a number that is not negative: [NaN], a negative number and a
    malformed date never reach [displayMergeRequestStats]. *)
Theorem ask_filters_valid s f s' :
  ask_filters u s = Ret f s' -> s' = s /\ valid_filters f.
Proof. apply ask_filters_Ret. Qed.


(** A database that cannot be created ends the program.  When the
    driver fails the [CREATE TABLE] statements, [main] throws the driver's
    error: no request is made, nothing is logged, and the handle is left
    set on a file without tables. *)
Theorem main_stops_on_database_failure s m rest :
  handle (w_db s) = false -> faults (w_db s) = Some m :: rest ->
  main r fuel u s =
  Throw (SqliteError m)
    (set_db (set_faults rest (set_closed false (set_handle true (w_db s)))) s).
Proof.
  intros Hh Hf. unfold main, bind at 1, on_db.
  destruct s as [[h t cs cd ps ms fs cl lg] n]; simpl in *; subst. simpl.
  by rewrite said_quiet, app_nil_r.
Qed.

(** The entry picked is always found.  After the two list prompts
    the program never exits with code 1: the search of the picked value
    among the choices cannot fail, so the branch that reports a repository
    that is not among the choices is never taken. *)
Theorem choice_is_always_found repos s e s' :
  act r fuel u repos s = Ret e s' -> e = Returned.
Proof.
  intros Hrun. destruct (repos !! picks_repo u) as [p|] eqn:Hp.
  - destruct (act_run r fuel u repos p s Hp) as (p' & _ & _ & Hact).
    rewrite Hact in Hrun.
    destruct (picks_action u);
      by apply bind_Ret_inv in Hrun as (x & s1 & _ & [= <- _]).
  - unfold act, bind at 1, prompt_list in Hrun.
    by rewrite list_lookup_fmap, Hp in Hrun.
Qed.

(** A group that is not found.  When the search fails, finds no group
    of that name or path, or finds one whose id is 0, [main] logs that the
    group was not found and exits with code 1, after [initDatabase] and one
    request. *)
Theorem main_group_not_found s g l1 :
  faults (w_db s) = [] ->
  getGroupId r GROUP_NAME [] = Ret g l1 -> g = None \/ g = Some 0 ->
  main r fuel u s =
  Ret (Exited 1) (then_did (l1 ++ [Logged "Group 'murid' not found."]) (booted s)).
Proof. apply main_no_group. Qed.

(** C4: a session that fetches leaves the mirror of the project.  The
    tool, started in a process that has not opened the file, on a driver
    that fails nothing, with a person who picks "fetch" and a repository
    whose merge requests arrive whole and without repeated ids: when [main]
    returns, the last line of the console is the summary, with the counters
    of the decisions at the file the tool found; the file has its whole
    schema, holds the project picked, and holds for each merge request of
    the list the row it had before when the decision was to skip it, and
    otherwise the record derived from what the remote holds; the rows
    outside the list are as they were. *)
Theorem fetch_session_mirrors s g l1 repos l2 p items o s' :
  picks_action u = Fetch ->
  handle (w_db s) = false -> faults (w_db s) = [] ->
  getGroupId r GROUP_NAME [] = Ret (Some g) l1 -> g <> 0 ->
  listRepositories r g [] = Ret repos l2 -> repos !! picks_repo u = Some p ->
  serves r (p_id p) items -> NoDup (mr_id <$> items) -> items <> [] ->
  (length items / per_page + 2 <= fuel)%nat ->
  main r fuel u s = Ret o s' ->
  o = Returned /\
  last (s_console s') = Some (summary_line (tally (p_id p) (w_db s) items no_counts)) /\
  ready (w_db s') /\
  is_Some (projects (w_db s') !! p_id p) /\
  (forall mr, mr ∈ items ->
     merge_requests (w_db s') !! (mr_id mr, p_id p)
     = mirrored r fuel (p_id p) (w_db s) mr) /\
  (forall k, k ∉ (fun mr => (mr_id mr, p_id p)) <$> items ->
     merge_requests (w_db s') !! k = merge_requests (w_db s) !! k).
Proof.
  intros Hfetch Hh Hf Hg Hg0 Hrepos Hp Hs Hnd Hne Hfuel Hrun.
  rewrite (main_run r fuel u s g l1 repos l2) in Hrun by (done || by destruct repos).
  set (s0 := then_did (l1 ++ l2) (booted s)) in Hrun.
  destruct (act_run r fuel u repos p s0 Hp) as (p' & _ & Hid & Hact).
  rewrite Hact, Hfetch in Hrun. clear Hact.
  apply bind_Ret_inv in Hrun as (oc & s1 & Hsync & [= <- <-]).
  pose proof (booted_ready s Hh Hf : ready (w_db s0)) as Hr.
  destruct (booted_rows s) as [Hm _].
  destruct (run_mirror r fuel (p_id p) p' items oc s0 s1 Hr Hs Hnd Hfuel Hne Hsync)
    as (_ & Hr' & Hproj & Hin & Hout).
  pose proof (run_tally r fuel (p_id p) p' items oc s0 s1 Hr Hs Hnd Hfuel Hne Hsync) as ->.
  destruct (run_last_lines r fuel (p_id p) p' _ _ s1 Hsync) as [l Hl].
  simpl in Hin, Hout, Hproj, Hl.
  split; [done|]. split; [|split; [done|]; split; [|split]].
  - unfold s_console. rewrite Hl, last_closing. do 2 f_equal.
    apply tally_ext. intros mr _. unfold decision. by rewrite Hm.
  - rewrite Hproj, <- Hid. by rewrite lookup_insert_eq.
  - intros mr Hmr. rewrite Hin by done. apply mirrored_ext. by rewrite Hm.
  - intros k Hk. by rewrite Hout, Hm.
Qed.

(** C19: a session that asks for the statistics.  The tool, started in a
    process that has not opened the file, on a driver that fails nothing,
    with a person who picks "stats" and types an acceptable text at some
    attempt of each prompt: [main] returns after the two requests, leaves
    the file with its schema and the rows it had, and ends the console with
    the report, whose lines show [undefined] for both totals and N/A for
    the three averages whatever the file holds; the filters that reached
    the report are validated. *)
Theorem stats_session_reports s g l1 repos l2 p :
  picks_action u = Stats ->
  handle (w_db s) = false -> faults (w_db s) = [] ->
  getGroupId r GROUP_NAME [] = Ret (Some g) l1 -> g <> 0 ->
  listRepositories r g [] = Ret repos l2 -> repos !! picks_repo u = Some p ->
  (confirms_dates u = true ->
     Exists (fun s => isValidDate s = true) (types_startDate u) /\
     Exists (fun s => isValidDate s = true) (types_endDate u)) ->
  Exists (fun s => validThreshold s = true) (types_commentThreshold u) ->
  exists title rest,
    main r fuel u s =
    Ret Returned
      (then_did (Logged <$> title :: [ "Total MRs: undefined";
                                       "Merged MRs: undefined (0%)";
                                       "Average time to first comment: N/A";
                                       "Average time to approval: N/A";
                                       "Average time to merge: N/A" ] ++ rest)
         (then_did (l1 ++ l2) (booted s))).
Proof.
  intros Hstats Hh Hf Hg Hg0 Hrepos Hp Hd Ht.
  rewrite (main_run r fuel u s g l1 repos l2) by (done || by destruct repos).
  set (s0 := then_did (l1 ++ l2) (booted s)).
  destruct (act_run r fuel u repos p s0 Hp) as (p' & _ & _ & ->). rewrite Hstats.
  destruct (ask_filters_returns u s0 Hd Ht) as (f & Hask & _).
  pose proof (booted_ready s Hh Hf : ready (w_db s0)) as Hr.
  destruct (displayMergeRequestStats_run (p_id p) (f_startDate f) (f_endDate f)
              (f_commentThreshold f) _ Hr) as (title & rest & Hrun).
  exists title, rest. unfold stats_action, bind. rewrite Hask.
  rewrite (on_db_quiet _ _ _ _ Hrun) by done. by rewrite set_db_same.
Qed.

End MainTheorems.

(** C30: the dates typed at the prompt are read as days.  Two dates the
    prompts accept are days [YYYY-MM-DD]; for a merge request whose
    [created_at] is a timestamp as GitLab sends it, the date filter of both
    queries then holds exactly when the merge request was created at or
    after the midnight (UTC) that begins the start day and before the
    midnight that begins the end day: the prompt says "YYYY-MM-DD" for
    both, and the end day itself is left out. *)
Theorem validated_range_is_half_open startDate endDate row zr :
  @valid_date iso_clock (Some startDate) -> @valid_date iso_clock (Some endDate) ->
  iso_seconds (created_at row) = Some zr -> String.length (created_at row) <> 10%nat ->
  exists ds de,
    iso_seconds startDate = Some (ds * 86400) /\ iso_seconds endDate = Some (de * 86400) /\
    where_dates (Some startDate) (Some endDate) row
    = bool_decide (ds * 86400 <= zr < de * 86400).
Proof.
  intros [Hs1 Hv1] [Hs2 Hv2] Hr Hlen.
  destruct (isValidDate_day _ Hs1 Hv1) as [Hl1 [c1 Hc1]].
  destruct (isValidDate_day _ Hs2 Hv2) as [Hl2 [c2 Hc2]].
  exists (civil_days c1), (civil_days c2).
  assert (forall s c, parse_iso s = Some c -> String.length s = 10%nat ->
            iso_seconds s = Some (civil_days c * 86400)) as Hday.
  { intros s c Hc Hl. unfold iso_seconds. rewrite Hc. simpl. f_equal.
    by apply (day_seconds s). }
  rewrite (Hday _ _ Hc1 Hl1), (Hday _ _ Hc2 Hl2). split; [done|]. split; [done|].
  by apply date_range_is_half_open; auto.
Qed.

Section ToolTheorems.
Context `{Clock} `{Numbers}.
Variable fuel : nat.
Variable u : User.

(** What the console shows when the search for the group fails. *)
Definition search_failed : Net :=
  [Requested (GetGroups GROUP_NAME); Logged "Failed to fetch group:";
   Logged "Group 'murid' not found."].

(** C26: a token the server refuses reads as a group that is not found.
    When the environment holds a token and the server answers 401 to it,
    the tool opens the database, sends the search for the group once (a 401
    is not tried again), writes that the search failed and then that the
    group was not found, and exits with code 1.  The two lines are those of
    any failed search: what tells a refused token from a network that is
    down is the error printed after the first line, which is left out
    here. *)
Theorem refused_token_reads_as_group_not_found valid r e s :
  token_missing e = false -> valid (token_of e) = false ->
  faults (w_db s) = [] ->
  tool (hosted valid r) fuel u e s = Ret (Exited 1) (then_did search_failed (booted s)) /\
  traffic (token_of e) (hosted valid r) [GetGroups GROUP_NAME]
  = [get_groups (token_of e) GROUP_NAME].
Proof.
  intros He Hv Hf. split.
  - unfold tool, program. rewrite He. apply main_unreachable; [|done].
    rewrite served_hosted_cases. by rewrite Hv.
  - rewrite traffic_one. unfold attempts_of, attempts.
    by rewrite (ky_get_decisive (sv_groups (hosted valid r))) by apply answer_decisive.
Qed.

(** C24: failures of the network within the retries do not show.  With a
    token the server accepts, behind a network that fails the first [k]
    attempts of every request, [k] at most 2, the tool does what the
    program does against the remote the server holds: same console, same
    file, same log, same ending, in every session. *)
Theorem outage_within_retries_is_invisible valid r k e :
  valid (token_of e) = true -> (k <= 2)%nat ->
  tool (outage k (hosted valid r)) fuel u e ≡ program r fuel u e.
Proof.
  intros Hv Hk. unfold tool. apply program_proper; try done.
  rewrite served_outage_within by (done || apply hosted_steady).
  rewrite served_hosted_cases. by rewrite Hv.
Qed.

(** An outage beyond the retries reads as a group that is not found
    too, after three attempts. *)
Theorem outage_reads_as_group_not_found srv k e s :
  token_missing e = false -> (2 < k)%nat -> steady srv ->
  faults (w_db s) = [] ->
  tool (outage k srv) fuel u e s = Ret (Exited 1) (then_did search_failed (booted s)) /\
  length (traffic (token_of e) (outage k srv) [GetGroups GROUP_NAME]) = 3%nat.
Proof.
  intros He Hk Hs Hf. split.
  - unfold tool, program. rewrite He. apply main_unreachable; [|done].
    by apply served_outage_beyond.
  - rewrite traffic_one, length_replicate, attempts_of_outage by done. lia.
Qed.

(** C21: a page that gets no reply blocks the tool.  The request for a
    page of merge requests is sent with [timeout: false]: when the group
    and its repositories arrive, the person picks "fetch", and the first
    page of the merge requests of the repository picked gets no reply, the
    tool never ends, whatever the fuel. *)
Theorem unanswered_page_blocks_the_tool srv e s g l1 repos l2 p :
  token_missing e = false -> picks_action u = Fetch ->
  faults (w_db s) = [] ->
  getGroupId (served (token_of e) srv) GROUP_NAME [] = Ret (Some g) l1 ->
  g <> 0 ->
  listRepositories (served (token_of e) srv) g [] = Ret repos l2 ->
  repos !! picks_repo u = Some p ->
  sv_merge_requests srv (get_merge_requests (token_of e) (p_id p) 1) 0%nat = Unanswered ->
  tool srv fuel u e s = OutOfFuel.
Proof.
  intros He Hfetch Hf Hg Hg0 Hrepos Hp Hu. unfold tool, program. rewrite He.
  rewrite (main_run _ fuel u s g l1 repos l2) by (done || by destruct repos).
  destruct (act_run (served (token_of e) srv) fuel u repos p
              (then_did (l1 ++ l2) (booted s)) Hp)
    as (p' & _ & _ & ->).
  rewrite Hfetch. unfold bind. rewrite processAndStore_stalls; [done|].
  apply (fetchMergeRequests_stalls _ _ 0); [intros q Hq; lia|].
  by apply served_unanswered_page.
Qed.

(** A variable exported empty hides the token of [.env].  [dotenv]
    keeps a variable the process already has: when [GITLAB_TOKEN] is
    exported with an empty value, the program reports that the token is not
    set in [.env] and exits with code 1 before it opens the database or
    sends a request, whatever [.env] holds. *)
Theorem empty_exported_token_hides_dotenv r dotenv process_env s :
  param "GITLAB_TOKEN" process_env = Some "" ->
  program r fuel u (read_env (dotenv_config dotenv process_env)) s =
  Ret (Exited 1) (then_did [Logged "GITLAB_TOKEN is not set in .env"] s).
Proof.
  intros Hp. unfold program, token_missing.
  by rewrite read_env_dotenv_config, Hp.
Qed.

End ToolTheorems.

(** ** The theorems at the examples *)


Lemma stats_user_responsive : responsive tool_remote stats_user.
Proof.
  split; [intros g repos [= <-]; simpl; lia|]. intros _. split; [intros _; split|].
  - apply Exists_cons_tl, Exists_cons_hd. vm_compute. reflexivity.
  - apply Exists_cons_hd. reflexivity.
  - do 2 apply Exists_cons_tl. apply Exists_cons_hd. vm_compute. reflexivity.
Qed.

(** The two requests of [main] against [tool_remote]. *)
Definition asked_group : Net := [Requested (GetGroups "murid")].
Definition asked_projects : Net := [Requested (GetGroupProjects 9)].

Lemma main_runs_the_action_witness :
  exists p', p' ∈ [sample_project; other_project] /\ p_id p' = p_id sample_project /\
    main tool_remote 3 fetch_user start_session =
    match picks_action fetch_user with
    | Fetch => (processAndStoreMergeRequests tool_remote 3
                            (p_id sample_project) p' ;; ret Returned)
                 (then_did (asked_group ++ asked_projects) (booted start_session))
    | Stats => (stats_action fetch_user (p_id sample_project) ;; ret Returned)
                 (then_did (asked_group ++ asked_projects) (booted start_session))
    end.
Proof.
  apply (main_runs_the_action tool_remote 3 fetch_user start_session 9
           asked_group [sample_project; other_project] asked_projects sample_project);
    (reflexivity || discriminate).
Defined.

Lemma fetch_session_mirrors_witness :
  let s' := session_after (main tool_remote 3 fetch_user start_session) in
  Returned = Returned /\
  last (s_console s')
  = Some (summary_line (tally (p_id sample_project) (w_db start_session)
                          (sample_mrs 3) no_counts)) /\
  ready (w_db s') /\
  is_Some (projects (w_db s') !! p_id sample_project) /\
  (forall mr, mr ∈ sample_mrs 3 ->
     merge_requests (w_db s') !! (mr_id mr, p_id sample_project)
     = mirrored tool_remote 3 (p_id sample_project) (w_db start_session) mr) /\
  (forall k, k ∉ (fun mr => (mr_id mr, p_id sample_project)) <$> sample_mrs 3 ->
     merge_requests (w_db s') !! k
     = merge_requests (w_db start_session) !! k).
Proof.
  apply (fetch_session_mirrors tool_remote 3 fetch_user start_session 9
           asked_group [sample_project; other_project] asked_projects sample_project
           (sample_mrs 3) Returned
           (session_after (main tool_remote 3 fetch_user start_session)));
    try (reflexivity || discriminate).
  - apply (static_remote_serves (sample_mrs 3)).
  - apply (bool_decide_unpack _). vm_compute. exact I.
  - vm_compute. lia.
Defined.

Lemma validated_range_is_half_open_witness :
  exists ds de,
    iso_seconds "2025-04-01" = Some (ds * 86400) /\
    iso_seconds "2025-04-03" = Some (de * 86400) /\
    where_dates (Some "2025-04-01") (Some "2025-04-03")
      (row_at 1 "opened" None (Some "WEB"))
    = bool_decide (ds * 86400 <= 1743501600 < de * 86400).
Proof.
  apply (validated_range_is_half_open "2025-04-01" "2025-04-03"
           (row_at 1 "opened" None (Some "WEB")) 1743501600);
    try (split; [discriminate | reflexivity]); (reflexivity || discriminate).
Defined.

Lemma ask_filters_valid_witness :
  start_session = start_session /\
  valid_filters {| f_startDate := Some "2025-04-01"; f_endDate := None;
                   f_commentThreshold := Some (Real (Q2Qc 10)) |}.
Proof.
  apply (ask_filters_valid stats_user start_session
           {| f_startDate := Some "2025-04-01"; f_endDate := None;
              f_commentThreshold := Some (Real (Q2Qc 10)) |} start_session).
  vm_compute. reflexivity.
Defined.


Lemma main_stops_on_database_failure_witness :
  main tool_remote 3 fetch_user
    {| w_db := set_faults [Some "disk I/O error"] fresh_db; w_net := [] |} =
  Throw (SqliteError "disk I/O error")
    {| w_db := set_handle true fresh_db; w_net := [] |}.
Proof.
  apply (main_stops_on_database_failure tool_remote 3 fetch_user
           {| w_db := set_faults [Some "disk I/O error"] fresh_db; w_net := [] |}
           "disk I/O error" []); reflexivity.
Defined.

Lemma choice_is_always_found_witness : Returned = Returned.
Proof.
  apply (choice_is_always_found tool_remote 3 fetch_user [sample_project; other_project]
           start_world Returned
           (session_after (act tool_remote 3 fetch_user [sample_project; other_project]
                             start_world))).
  vm_compute. reflexivity.
Defined.

Lemma main_group_not_found_witness :
  main endless_remote 3 fetch_user start_session =
  Ret (Exited 1)
    (then_did (asked_group ++ [Logged "Group 'murid' not found."])
       (booted start_session)).
Proof.
  apply (main_group_not_found endless_remote 3 fetch_user start_session None
           asked_group); [reflexivity | reflexivity | by left].
Defined.

(** The environment of a person who copied the [.env] of the README
    without putting a token of their own in it. *)
Definition readme_env : Env := read_env (dotenv_config (Some readme_dotenv) []).

Lemma refused_token_reads_as_group_not_found_witness :
  tool (hosted (accepts "glpat-example") tool_remote) 3 fetch_user readme_env start_session =
  Ret (Exited 1) (then_did search_failed (booted start_session)) /\
  traffic (token_of readme_env) (hosted (accepts "glpat-example") tool_remote)
    [GetGroups GROUP_NAME]
  = [get_groups (token_of readme_env) GROUP_NAME].
Proof.
  apply (refused_token_reads_as_group_not_found 3 fetch_user (accepts "glpat-example")
           tool_remote readme_env start_session); reflexivity.
Defined.

Lemma empty_exported_token_hides_dotenv_witness :
  program tool_remote 3 fetch_user
    (read_env (dotenv_config (Some [("GITLAB_TOKEN", "glpat-example")])
                 [("HOME", "/home/dev"); ("GITLAB_TOKEN", "")])) start_session =
  Ret (Exited 1) (then_did [Logged "GITLAB_TOKEN is not set in .env"] start_session).
Proof.
  apply (empty_exported_token_hides_dotenv 3 fetch_user tool_remote
           (Some [("GITLAB_TOKEN", "glpat-example")])
           [("HOME", "/home/dev"); ("GITLAB_TOKEN", "")] start_session).
  reflexivity.
Defined.

Lemma outage_within_retries_is_invisible_witness :
  tool (outage 2 (hosted (accepts "glpat-example") tool_remote)) 3 fetch_user with_token
  ≡ program tool_remote 3 fetch_user with_token.
Proof.
  apply (outage_within_retries_is_invisible 3 fetch_user (accepts "glpat-example")
           tool_remote 2 with_token); [reflexivity | lia].
Defined.

Lemma outage_reads_as_group_not_found_witness :
  tool (outage 3 (hosted (accepts "glpat-example") tool_remote)) 3 fetch_user with_token
    start_session =
  Ret (Exited 1) (then_did search_failed (booted start_session)) /\
  length (traffic (token_of with_token)
            (outage 3 (hosted (accepts "glpat-example") tool_remote))
            [GetGroups GROUP_NAME]) = 3%nat.
Proof.
  apply (outage_reads_as_group_not_found 3 fetch_user
           (hosted (accepts "glpat-example") tool_remote) 3 with_token start_session);
    [reflexivity | lia | apply hosted_steady | reflexivity].
Defined.

(** The session of the examples over the wire: the same requests, each
    after two failures of the network. *)
Example fetch_session_over_the_wire :
  let srv := outage 2 (hosted (accepts "glpat-example") tool_remote) in
  let s' := session_after (tool srv 3 fetch_user with_token start_session) in
  returned (tool srv 3 fetch_user with_token start_session) = Some Returned /\
  length (requests_of (w_net s')) = 9%nat /\
  length (traffic (token_of with_token) srv (requests_of (w_net s'))) = 27%nat.
Proof. vm_compute. done. Qed.

Lemma unanswered_page_blocks_the_tool_witness :
  tool (hosted (accepts "glpat-example") (stalled_after 0 tool_remote)) 1000 fetch_user
    with_token start_session = OutOfFuel.
Proof.
  apply (unanswered_page_blocks_the_tool 1000 fetch_user
           (hosted (accepts "glpat-example") (stalled_after 0 tool_remote)) with_token
           start_session 9 asked_group [sample_project; other_project]
           asked_projects sample_project);
    (reflexivity || discriminate).
Defined.

Lemma stats_session_reports_witness :
  exists title rest,
    main tool_remote 3 stats_user start_session =
    Ret Returned
      (then_did (Logged <$> title :: [ "Total MRs: undefined";
                                       "Merged MRs: undefined (0%)";
                                       "Average time to first comment: N/A";
                                       "Average time to approval: N/A";
                                       "Average time to merge: N/A" ] ++ rest)
         (then_did (asked_group ++ asked_projects) (booted start_session))).
Proof.
  destruct stats_user_responsive as [_ Hs]. destruct (Hs eq_refl) as [Hd Ht].
  apply (stats_session_reports tool_remote 3 stats_user start_session 9
           asked_group [sample_project; other_project] asked_projects sample_project);
    try (reflexivity || discriminate); assumption.
Defined.
